(** * Prison management backend: lifecycle, capacity, sentence adjustment,
      payment and visit scheduling services

    A shallow embedding of the Sequelize service layer
    (prisonerService, prisonService, behaviourService, workRecordService,
    visitService) as state-passing functions over a relational store, and
    the properties of the lifecycle and workflow engine proved on it.

    The embedding is of the code of the services.  What the layers beneath
    them refuse on their own account -- the attribute validators of the
    models (the pattern of a NIC, the values of an ENUM) and the unique
    indexes and foreign keys of the database -- is not part of it: where a
    service hands a value on unchecked the embedding writes it, and the
    running system may still refuse the write there.  Every refusal of the
    embedding is a refusal of the services' own code. *)

From Stdlib Require Import ZArith List Bool Lia String Ascii DecimalString.
Import ListNotations.
Local Open Scope string_scope.
Local Open Scope Z_scope.

Set Implicit Arguments.

(* ================================================================== *)
(** ** config/constants.js *)
(* ================================================================== *)

Inductive PrisonerStatus := Active | Released | Transferred | Deceased.
Inductive BehaviourType := Positive | Negative.
Inductive SeverityLevel := Minor | Moderate | Severe.
Inductive PaymentStatus := PaymentPending | Paid.
Inductive VisitStatus := Scheduled | Completed | Cancelled.
Inductive UserRole :=
  SuperAdmin | PrisonAdmin | Officer | RecordsKeeper | VisitorManager.
(** The behaviour service writes the literals 'N/A', 'Pending', 'Approved'
    and 'Rejected' into [adjustment_status].  The model declares the column
    as ENUM('Pending', 'Approved', 'Rejected'); the store is taken to keep
    whatever the service writes. *)
Inductive AdjustmentStatus := NotApplicable | Pending | Approved | Rejected.

Definition PrisonerStatus_eqb (a b : PrisonerStatus) : bool :=
  match a, b with
  | Active, Active | Released, Released
  | Transferred, Transferred | Deceased, Deceased => true
  | _, _ => false
  end.

Definition PaymentStatus_eqb (a b : PaymentStatus) : bool :=
  match a, b with
  | PaymentPending, PaymentPending | Paid, Paid => true
  | _, _ => false
  end.

Definition VisitStatus_eqb (a b : VisitStatus) : bool :=
  match a, b with
  | Scheduled, Scheduled | Completed, Completed | Cancelled, Cancelled => true
  | _, _ => false
  end.

Definition UserRole_eqb (a b : UserRole) : bool :=
  match a, b with
  | SuperAdmin, SuperAdmin | PrisonAdmin, PrisonAdmin | Officer, Officer
  | RecordsKeeper, RecordsKeeper | VisitorManager, VisitorManager => true
  | _, _ => false
  end.

Definition AdjustmentStatus_eqb (a b : AdjustmentStatus) : bool :=
  match a, b with
  | NotApplicable, NotApplicable | Pending, Pending
  | Approved, Approved | Rejected, Rejected => true
  | _, _ => false
  end.

Lemma PrisonerStatus_eqb_eq a b : PrisonerStatus_eqb a b = true <-> a = b.
Proof. destruct a, b; simpl; split; congruence. Qed.

Lemma PaymentStatus_eqb_eq a b : PaymentStatus_eqb a b = true <-> a = b.
Proof. destruct a, b; simpl; split; congruence. Qed.

Lemma VisitStatus_eqb_eq a b : VisitStatus_eqb a b = true <-> a = b.
Proof. destruct a, b; simpl; split; congruence. Qed.

Lemma AdjustmentStatus_eqb_eq a b : AdjustmentStatus_eqb a b = true <-> a = b.
Proof. destruct a, b; simpl; split; congruence. Qed.

(** [VISIT_STATUS] values as they arrive in a request body. *)
Definition VisitStatus_name (s : VisitStatus) : string :=
  match s with
  | Scheduled => "Scheduled"
  | Completed => "Completed"
  | Cancelled => "Cancelled"
  end.

(** [Object.values(VISIT_STATUS).includes(status)], with the value found. *)
Definition VisitStatus_of_string (s : string) : option VisitStatus :=
  if String.eqb s "Scheduled" then Some Scheduled
  else if String.eqb s "Completed" then Some Completed
  else if String.eqb s "Cancelled" then Some Cancelled
  else None.

(* ================================================================== *)
(** ** Calendar dates

    DATEONLY columns hold a civil date, read as the string 'YYYY-MM-DD';
    the services turn it into a JS [Date], move it with
    [setDate(getDate() + n)] and write it back.  A [Date] is a number of
    milliseconds since the epoch.  [new Date('YYYY-MM-DD')] is midnight
    UTC of that day, [getDate] and [setDate] work on the server's local
    calendar, and a [Date] written into a DATEONLY column is formatted on
    the local calendar too.  The server's time zone is a fixed offset, in
    minutes east of UTC.  The conversions between day numbers (days since
    1970-01-01) and civil dates are the usual proleptic Gregorian ones. *)
(* ================================================================== *)

Record CivilDate := mkDate { year : Z; month : Z; day : Z }.

Definition CivilDate_eqb (a b : CivilDate) : bool :=
  (year a =? year b) && (month a =? month b) && (day a =? day b).

Lemma CivilDate_eqb_eq a b : CivilDate_eqb a b = true <-> a = b.
Proof.
  destruct a as [y1 m1 d1], b as [y2 m2 d2]; unfold CivilDate_eqb; simpl.
  rewrite !andb_true_iff, !Z.eqb_eq. split.
  - intros [[-> ->] ->]; reflexivity.
  - intros H; inversion H; auto.
Qed.

Lemma CivilDate_eqb_refl a : CivilDate_eqb a a = true.
Proof. apply CivilDate_eqb_eq; reflexivity. Qed.

(** Day number of a civil date. *)
Definition days_from_civil (c : CivilDate) : Z :=
  let y := if month c <=? 2 then year c - 1 else year c in
  let era := y / 400 in
  let yoe := y mod 400 in
  let mp := if 2 <? month c then month c - 3 else month c + 9 in
  let doy := (153 * mp + 2) / 5 + day c - 1 in
  let doe := yoe * 365 + yoe / 4 - yoe / 100 + doy in
  era * 146097 + doe - 719468.

(** Year-of-era, month and day of a day-of-era in [0, 146097). *)
Definition civil_of_doe (doe : Z) : Z * Z * Z :=
  let yoe := (doe - doe / 1460 + doe / 36524 - doe / 146096) / 365 in
  let doy := doe - (365 * yoe + yoe / 4 - yoe / 100) in
  let mp := (5 * doy + 2) / 153 in
  let d := doy - (153 * mp + 2) / 5 + 1 in
  let m := if mp <? 10 then mp + 3 else mp - 9 in
  (yoe, m, d).

(** Civil date of a day number. *)
Definition civil_from_days (z : Z) : CivilDate :=
  let z0 := z + 719468 in
  let era := z0 / 146097 in
  let doe := z0 mod 146097 in
  let '(yoe, m, d) := civil_of_doe doe in
  mkDate (yoe + era * 400 + (if m <=? 2 then 1 else 0)) m d.

Definition msPerDay : Z := 86400000.
Definition msPerMinute : Z := 60000.

(** Local time value of a [Date], and the local day it falls on. *)
Definition localTime (zone : Z) (t : Z) : Z := t + zone * msPerMinute.

Definition localDay (zone : Z) (t : Z) : Z := localTime zone t / msPerDay.

(** [new Date(dateOnly)] *)
Definition Date_of (c : CivilDate) : Z := days_from_civil c * msPerDay.

(** [date.getDate()] *)
Definition getDate (zone : Z) (t : Z) : Z :=
  day (civil_from_days (localDay zone t)).

(** [date.setDate(v)]: day [v] of the local month of [t] at the local time
    of day of [t], out-of-range values rolling over into the neighbouring
    months. *)
Definition setDate (zone : Z) (t : Z) (v : Z) : Z :=
  let c := civil_from_days (localDay zone t) in
  (days_from_civil (mkDate (year c) (month c) 1) + (v - 1)) * msPerDay
  + localTime zone t mod msPerDay
  - zone * msPerMinute.

(** Writing a [Date] into a DATEONLY column. *)
Definition toDateOnly (zone : Z) (t : Z) : CivilDate :=
  civil_from_days (localDay zone t).

(** The server's clock: the instant [new Date()] reads, in milliseconds
    since the epoch, and the offset of the server's time zone. *)
Record Clock := mkClock { millis : Z; zone : Z }.

(** [new Date()] written into a DATEONLY column. *)
Definition today (now : Clock) : CivilDate :=
  toDateOnly (zone now) (millis now).

(** *** Round trip of the calendar conversions *)

(** The day-of-era rebuilt from the year-of-era, month and day. *)
Definition doe_of_civil (yoe m d : Z) : Z :=
  let mp := if 2 <? m then m - 3 else m + 9 in
  yoe * 365 + yoe / 4 - yoe / 100 + ((153 * mp + 2) / 5 + d - 1).

(** The year-of-era lies in the era, and the day of the year in the year. *)
Lemma yoe_bounds doe :
  0 <= doe < 146097 ->
  let yoe := (doe - doe / 1460 + doe / 36524 - doe / 146096) / 365 in
  0 <= yoe < 400 /\ 0 <= doe - (365 * yoe + yoe / 4 - yoe / 100) < 366.
Proof.
  intros H. cbv zeta. split; Z.to_euclidean_division_equations; lia.
Qed.

(** The month index, counted from March, of a day of the year. *)
Lemma mp_bounds doy : 0 <= doy < 366 -> 0 <= (5 * doy + 2) / 153 < 12.
Proof. intros H. Z.to_euclidean_division_equations; lia. Qed.

Lemma doe_roundtrip doe :
  0 <= doe < 146097 ->
  let '(yoe, m, d) := civil_of_doe doe in
  0 <= yoe < 400 /\ doe_of_civil yoe m d = doe.
Proof.
  intros H. unfold civil_of_doe. cbv zeta.
  pose proof (yoe_bounds H) as [Hyoe Hdoy]. cbv zeta in Hyoe, Hdoy.
  set (yoe := (doe - doe / 1460 + doe / 36524 - doe / 146096) / 365) in *.
  set (doy := doe - (365 * yoe + yoe / 4 - yoe / 100)) in *.
  pose proof (mp_bounds Hdoy) as Hmp.
  set (mp := (5 * doy + 2) / 153) in *.
  split; [exact Hyoe|].
  unfold doe_of_civil.
  assert (Hback : (if 2 <? (if mp <? 10 then mp + 3 else mp - 9)
                   then (if mp <? 10 then mp + 3 else mp - 9) - 3
                   else (if mp <? 10 then mp + 3 else mp - 9) + 9) = mp).
  { destruct (mp <? 10) eqn:E.
    - apply Z.ltb_lt in E.
      assert (E2 : (2 <? mp + 3) = true) by (apply Z.ltb_lt; lia).
      rewrite E2. lia.
    - apply Z.ltb_ge in E.
      assert (E2 : (2 <? mp - 9) = false) by (apply Z.ltb_ge; lia).
      rewrite E2. lia. }
  rewrite Hback. unfold doy. lia.
Qed.

Lemma days_from_civil_from_days z : days_from_civil (civil_from_days z) = z.
Proof.
  unfold civil_from_days.
  pose proof (Z.mod_pos_bound (z + 719468) 146097 ltac:(lia)) as Hdoe.
  pose proof (doe_roundtrip Hdoe) as Hrt.
  destruct (civil_of_doe ((z + 719468) mod 146097)) as [[yoe m] d].
  destruct Hrt as [Hyoe Hback].
  unfold days_from_civil; cbn [year month day].
  set (era := (z + 719468) / 146097) in *.
  assert (Hy : (if m <=? 2
                then yoe + era * 400 + (if m <=? 2 then 1 else 0) - 1
                else yoe + era * 400 + (if m <=? 2 then 1 else 0))
               = yoe + era * 400).
  { destruct (m <=? 2); lia. }
  rewrite Hy.
  rewrite Z.div_add by lia. rewrite Z.mod_add by lia.
  rewrite (Z.div_small yoe 400) by lia.
  rewrite (Z.mod_small yoe 400) by lia.
  unfold doe_of_civil in Hback.
  pose proof (Z.div_mod (z + 719468) 146097 ltac:(lia)) as Hdm.
  fold era in Hdm. lia.
Qed.

Lemma days_from_civil_day y m d :
  days_from_civil (mkDate y m 1) + (d - 1) = days_from_civil (mkDate y m d).
Proof. unfold days_from_civil; cbn [year month day]. lia. Qed.

(** [setDate(getDate() + n)] moves the local day of a [Date] by exactly
    [n] days. *)
Lemma setDate_getDate zone t n :
  localDay zone (setDate zone t (getDate zone t + n)) = localDay zone t + n.
Proof.
  unfold setDate, getDate, localDay at 1, localTime at 1.
  set (L := localTime zone t).
  set (D := localDay zone t).
  pose proof (days_from_civil_from_days D) as H.
  destruct (civil_from_days D) as [y m d]; cbn [year month day] in *.
  rewrite <- (days_from_civil_day y m d) in H.
  pose proof (Z.mod_pos_bound L msPerDay ltac:(unfold msPerDay; lia)) as Hr.
  replace ((days_from_civil (mkDate y m 1) + (d + n - 1)) * msPerDay
           + L mod msPerDay - zone * msPerMinute + zone * msPerMinute)
    with (L mod msPerDay + (D + n) * msPerDay) by lia.
  rewrite Z.div_add by (unfold msPerDay; lia).
  rewrite Z.div_small by exact Hr. lia.
Qed.

(** The local day of [new Date(dateOnly)]: the day itself at UTC and east
    of it, the day before west of it. *)
Lemma localDay_Date_of zone c :
  localDay zone (Date_of c)
  = days_from_civil c + zone * msPerMinute / msPerDay.
Proof.
  unfold localDay, localTime, Date_of.
  rewrite Z.add_comm. rewrite Z.div_add by (unfold msPerDay; lia).
  lia.
Qed.

Lemma zone_east_of_UTC zone :
  0 <= zone < 1440 -> zone * msPerMinute / msPerDay = 0.
Proof.
  intros H. apply Z.div_small. unfold msPerMinute, msPerDay. lia.
Qed.

Lemma zone_west_of_UTC zone :
  -1440 <= zone < 0 -> zone * msPerMinute / msPerDay = -1.
Proof.
  intros H. unfold msPerMinute, msPerDay.
  Z.to_euclidean_division_equations; lia.
Qed.

(** The scenario of the sentence adjustment workflow, on a server at
    UTC+05:30: ten days before 2025-06-01 is 2025-05-22. *)
Example setDate_scenario :
  toDateOnly 330 (setDate 330 (Date_of (mkDate 2025 6 1))
                          (getDate 330 (Date_of (mkDate 2025 6 1)) + -10))
  = mkDate 2025 5 22.
Proof. vm_compute. reflexivity. Qed.

(* ================================================================== *)
(** ** JavaScript values *)
(* ================================================================== *)

(** Truthiness of a number that may be [undefined] or [null]. *)
Definition truthyZ (o : option Z) : bool :=
  match o with
  | Some z => negb (z =? 0)
  | None => false
  end.

(** Truthiness of a string that may be [undefined] or [null]. *)
Definition truthyS (o : option string) : bool :=
  match o with
  | Some s => negb (String.eqb s "")
  | None => false
  end.

(** [a || b] on strings that may be absent. *)
Definition orS (a b : option string) : option string :=
  if truthyS a then a else b.

(** [a || b] where [a] is an object (a date, a time) that may be absent. *)
Definition orElse {A : Type} (a : option A) (b : A) : A :=
  match a with
  | Some x => x
  | None => b
  end.

Definition newline : string := String (ascii_of_nat 10) EmptyString.

(** What a service throws. *)
Inductive Error :=
| JsError (message : string)
    (** [throw new Error(message)] *)
| JsErrorN (message : string) (n : Z)
    (** [throw new Error(`message${n}`)], the number ending the message *)
| TypeError
    (** reading a property of [undefined] or [null] *).

(** A number inside a template literal. *)
Definition decimal (n : Z) : string := NilZero.string_of_int (Z.to_int n).

(** Sequelize's answer to [transaction.rollback()] once the transaction
    has been committed. *)
Definition rollback_after_commit : Error :=
  JsError "Transaction cannot be rolled back because it has been finished with state: commit".

(* ================================================================== *)
(** ** The models (src/models) *)
(* ================================================================== *)

(** Columns that no service reads in a condition or writes on its own
    (names, addresses, descriptions) are left out of the rows. *)

Module Prison.
Record row := mk {
  prison_id : Z;
  prison_name : string;
  capacity : Z;
  is_active : bool }.
End Prison.

Module Prisoner.
Record row := mk {
  prisoner_id : Z;
  nic : string;
  case_number : string;
  admission_date : CivilDate;
  expected_release_date : option CivilDate;
  actual_release_date : option CivilDate;
  status : PrisonerStatus;
  prison_id : Z }.

Definition isActive (p : row) : bool := PrisonerStatus_eqb (status p) Active.
End Prisoner.

Module Visitor.
Record row := mk {
  visitor_id : Z;
  nic : string }.
End Visitor.

(** A TIME column, in seconds since midnight. *)
Definition Time := Z.
Definition hhmm (h m : Z) : Time := h * 3600 + m * 60.

Module Visit.
Record row := mk {
  visit_id : Z;
  prisoner_id : Z;
  visitor_id : Z;
  relationship : string;
  visit_date : CivilDate;
  visit_time_start : Time;
  visit_time_end : Time;
  purpose : option string;
  status : VisitStatus;
  approved_by : option Z;
  notes : option string }.
End Visit.

Module PrisonerWorkRecord.
Record row := mk {
  work_record_id : Z;
  prisoner_id : Z;
  task_description : string;
  work_date : CivilDate;
  hours_worked : Z;       (** DECIMAL(5,2), in hundredths *)
  payment_amount : Z;     (** DECIMAL(10,2), in hundredths *)
  payment_status : PaymentStatus;
  payment_date : option CivilDate;
  recorded_by : Z }.
End PrisonerWorkRecord.

Module PrisonerBehaviourRecord.
Record row := mk {
  behaviour_id : Z;
  prisoner_id : Z;
  behaviour_type : BehaviourType;
  severity_level : option SeverityLevel;
  incident_date : CivilDate;
  sentence_adjustment_days : Z;
  adjustment_status : AdjustmentStatus;
  adjustment_approved_at : option Z;
  notes : option string;
  recorded_by : Z }.
End PrisonerBehaviourRecord.

(** The database: one list of rows per table, in insertion order, and the
    AUTO_INCREMENT counter of each primary key. *)
Record Store := mkStore {
  Prisons : list Prison.row;
  Prisoners : list Prisoner.row;
  Visitors : list Visitor.row;
  Visits : list Visit.row;
  WorkRecords : list PrisonerWorkRecord.row;
  BehaviourRecords : list PrisonerBehaviourRecord.row;
  next_prison_id : Z;
  next_prisoner_id : Z;
  next_visit_id : Z;
  next_work_record_id : Z;
  next_behaviour_id : Z }.

Definition set_Prisons (f : list Prison.row -> list Prison.row) (s : Store) :=
  mkStore (f (Prisons s)) (Prisoners s) (Visitors s) (Visits s)
          (WorkRecords s) (BehaviourRecords s)
          (next_prison_id s) (next_prisoner_id s) (next_visit_id s)
          (next_work_record_id s) (next_behaviour_id s).

Definition set_Prisoners (f : list Prisoner.row -> list Prisoner.row)
    (s : Store) :=
  mkStore (Prisons s) (f (Prisoners s)) (Visitors s) (Visits s)
          (WorkRecords s) (BehaviourRecords s)
          (next_prison_id s) (next_prisoner_id s) (next_visit_id s)
          (next_work_record_id s) (next_behaviour_id s).

Definition set_Visits (f : list Visit.row -> list Visit.row) (s : Store) :=
  mkStore (Prisons s) (Prisoners s) (Visitors s) (f (Visits s))
          (WorkRecords s) (BehaviourRecords s)
          (next_prison_id s) (next_prisoner_id s) (next_visit_id s)
          (next_work_record_id s) (next_behaviour_id s).

Definition set_WorkRecords
    (f : list PrisonerWorkRecord.row -> list PrisonerWorkRecord.row)
    (s : Store) :=
  mkStore (Prisons s) (Prisoners s) (Visitors s) (Visits s)
          (f (WorkRecords s)) (BehaviourRecords s)
          (next_prison_id s) (next_prisoner_id s) (next_visit_id s)
          (next_work_record_id s) (next_behaviour_id s).

Definition set_BehaviourRecords
    (f : list PrisonerBehaviourRecord.row -> list PrisonerBehaviourRecord.row)
    (s : Store) :=
  mkStore (Prisons s) (Prisoners s) (Visitors s) (Visits s)
          (WorkRecords s) (f (BehaviourRecords s))
          (next_prison_id s) (next_prisoner_id s) (next_visit_id s)
          (next_work_record_id s) (next_behaviour_id s).

(** *** Queries on one table *)

Section Table.
Variable R : Type.
Variable pk : R -> Z.

(** [Model.findByPk(id)] *)
Definition findByPk (t : list R) (id : Z) : option R :=
  find (fun r => pk r =? id) t.

(** [Model.findOne({ where })] *)
Definition findOne (where_ : R -> bool) (t : list R) : option R :=
  find where_ t.

(** [Model.count({ where })] *)
Definition count (where_ : R -> bool) (t : list R) : Z :=
  Z.of_nat (List.length (filter where_ t)).

(** [instance.update(values)]: UPDATE ... WHERE pk = id *)
Definition updateRow (id : Z) (f : R -> R) (t : list R) : list R :=
  map (fun r => if pk r =? id then f r else r) t.

(** [instance.destroy()]: DELETE ... WHERE pk = id *)
Definition destroyRow (id : Z) (t : list R) : list R :=
  filter (fun r => negb (pk r =? id)) t.

(** [Model.create(values)]: INSERT *)
Definition insertRow (r : R) (t : list R) : list R := t ++ [r].

(** Primary keys are unique and below the AUTO_INCREMENT counter. *)
Definition keys_ok (next : Z) (t : list R) : Prop :=
  NoDup (map pk t) /\ Forall (fun r => pk r < next) t.
End Table.

(* ================================================================== *)
(** ** Services as state passing with exceptions *)
(* ================================================================== *)

Inductive Outcome (A : Type) :=
| Ok (a : A)
| Throw (e : Error).
Arguments Throw {A} e.

(** An async service function: from the store before the call to what it
    returns or throws, and the store after it. *)
Definition Service (A : Type) := Store -> Outcome A * Store.

Definition ret {A} (a : A) : Service A := fun s => (Ok a, s).

Definition throw {A} (e : Error) : Service A := fun s => (Throw e, s).

Definition bind {A B} (c : Service A) (k : A -> Service B) : Service B :=
  fun s =>
    match c s with
    | (Ok a, s1) => k a s1
    | (Throw e, s1) => (Throw e, s1)
    end.

Notation "x <- c ;; k" := (bind c (fun x => k))
  (at level 61, c at next level, right associativity).
Notation "c ;;; k" := (bind c (fun _ => k))
  (at level 61, right associativity).

(** A query. *)
Definition query {A} (f : Store -> A) : Service A := fun s => (Ok (f s), s).

(** A write. *)
Definition write (f : Store -> Store) : Service unit :=
  fun s => (Ok tt, f s).

(** [if (cond) throw e] *)
Definition throwIf (cond : bool) (e : Error) : Service unit :=
  if cond then throw e else ret tt.

(** [if (!x) throw e], giving [x] *)
Definition orThrow {A} (x : option A) (e : Error) : Service A :=
  match x with
  | Some a => ret a
  | None => throw e
  end.

(** The shape every transactional service has:
    [const transaction = await db.sequelize.transaction();
     try { body; await transaction.commit(); return after }
     catch (error) { await transaction.rollback(); throw error }].
    A throw in [body] rolls its writes back.  A throw in [after] reaches
    the handler with the transaction already committed: the rollback is
    refused and its error is what the caller sees, the writes staying. *)
Definition transaction {A B} (body : Service A) (after : A -> Service B)
  : Service B :=
  fun s =>
    match body s with
    | (Throw e, _) => (Throw e, s)
    | (Ok a, s1) =>
        match after a s1 with
        | (Ok b, s2) => (Ok b, s2)
        | (Throw _, s2) => (Throw rollback_after_commit, s2)
        end
    end.

(** The result of a service call, and the store it leaves. *)
Definition succeeds {A} (r : Outcome A * Store) : bool :=
  match fst r with
  | Ok _ => true
  | Throw _ => false
  end.

(** [checkPrisonAccess], the same in every service *)
Definition checkPrisonAccess (userPrisonId : option Z) (prisonerPrisonId : Z)
    (userRole : UserRole) : bool :=
  if UserRole_eqb userRole SuperAdmin then true
  else match userPrisonId with
       | Some u => u =? prisonerPrisonId
       | None => false
       end.

(** Only Prison Admin or Super Admin. *)
Definition isAdmin (userRole : UserRole) : bool :=
  UserRole_eqb userRole PrisonAdmin || UserRole_eqb userRole SuperAdmin.

(* ================================================================== *)
(** ** services/prisonerService.js *)
(* ================================================================== *)

(** [activePrisoners]: the count both capacity checks run. *)
Definition activeCount (s : Store) (prisonId : Z) : Z :=
  count (fun p => (Prisoner.prison_id p =? prisonId) && Prisoner.isActive p)
        (Prisoners s).

Definition getPrisonerById (prisonerId : Z) (userPrisonId : option Z)
    (userRole : UserRole) : Service Prisoner.row :=
  found <- query (fun s => findByPk Prisoner.prisoner_id (Prisoners s) prisonerId) ;;
  prisoner <- orThrow found (JsError "Prisoner not found") ;;
  throwIf (negb (checkPrisonAccess userPrisonId (Prisoner.prison_id prisoner) userRole))
          (JsError "You do not have access to this prisoner") ;;;
  ret prisoner.

(** The request body of a registration. *)
Record PrisonerData := mkPrisonerData {
  d_prison_id : option Z;
  d_nic : string;
  d_case_number : string;
  d_admission_date : option CivilDate;
  d_expected_release_date : option CivilDate }.

Definition registerPrisoner (prisonerData : PrisonerData)
    (userPrisonId : option Z) (userRole : UserRole) (userId : Z)
    (now : Clock) : Service Prisoner.row :=
  transaction
    (let prisonIdOpt :=
       if UserRole_eqb userRole SuperAdmin && truthyZ (d_prison_id prisonerData)
       then d_prison_id prisonerData
       else userPrisonId in
     throwIf (negb (truthyZ prisonIdOpt)) (JsError "Prison ID is required") ;;;
     let prisonId := orElse prisonIdOpt 0 in
     foundPrison <- query (fun s => findByPk Prison.prison_id (Prisons s) prisonId) ;;
     prison <- orThrow foundPrison (JsError "Prison not found") ;;
     activePrisoners <- query (fun s => activeCount s prisonId) ;;
     throwIf (Prison.capacity prison <=? activePrisoners)
             (JsErrorN "Prison has reached maximum capacity of "
                       (Prison.capacity prison)) ;;;
     existingPrisoner <- query (fun s =>
       findOne (fun p => String.eqb (Prisoner.nic p) (d_nic prisonerData)
                         || String.eqb (Prisoner.case_number p)
                                       (d_case_number prisonerData))
               (Prisoners s)) ;;
     match existingPrisoner with
     | Some e =>
         throwIf (String.eqb (Prisoner.nic e) (d_nic prisonerData))
                 (JsError "Prisoner with this NIC already exists") ;;;
         throwIf (String.eqb (Prisoner.case_number e)
                             (d_case_number prisonerData))
                 (JsError "Prisoner with this case number already exists")
     | None => ret tt
     end ;;;
     newId <- query next_prisoner_id ;;
     write (fun s =>
       mkStore (Prisons s)
         (insertRow
            (Prisoner.mk newId (d_nic prisonerData)
               (d_case_number prisonerData)
               (orElse (d_admission_date prisonerData) (today now))
               (d_expected_release_date prisonerData)
               None Active prisonId)
            (Prisoners s))
         (Visitors s) (Visits s) (WorkRecords s) (BehaviourRecords s)
         (next_prison_id s) (newId + 1) (next_visit_id s)
         (next_work_record_id s) (next_behaviour_id s)) ;;;
     ret newId)
    (fun newId => getPrisonerById newId userPrisonId userRole).

(** The request body of an update, which the controller hands over as it
    is: the columns it may carry.  The route validates [nic],
    [case_number], [expected_release_date] and [status] when present and
    lets any other key through, [prison_id] among them. *)
Record PrisonerUpdate := mkPrisonerUpdate {
  u_nic : option string;
  u_case_number : option string;
  u_expected_release_date : option CivilDate;
  u_status : option PrisonerStatus;
  u_prison_id : option Z }.

(** [prisoner.update(updateData)]: every column present in the body. *)
Definition applyPrisonerUpdate (u : PrisonerUpdate) (p : Prisoner.row)
  : Prisoner.row :=
  Prisoner.mk (Prisoner.prisoner_id p)
    (orElse (u_nic u) (Prisoner.nic p))
    (orElse (u_case_number u) (Prisoner.case_number p))
    (Prisoner.admission_date p)
    (match u_expected_release_date u with
     | Some d => Some d
     | None => Prisoner.expected_release_date p
     end)
    (Prisoner.actual_release_date p)
    (orElse (u_status u) (Prisoner.status p))
    (orElse (u_prison_id u) (Prisoner.prison_id p)).

(** [updatePrisoner], as the service is written: its own checks, then
    [prisoner.update(updateData)].  What the write still has to pass
    beneath the service -- the validators of the model (the pattern of
    [nic]) and the unique indexes on [nic] and [case_number] -- is outside
    the embedding, so a body the service lets through is written here even
    where the model or the database would refuse it. *)
Definition updatePrisoner (prisonerId : Z) (updateData : PrisonerUpdate)
    (userPrisonId : option Z) (userRole : UserRole) (userId : Z)
  : Service Prisoner.row :=
  transaction
    (found <- query (fun s => findByPk Prisoner.prisoner_id (Prisoners s) prisonerId) ;;
     prisoner <- orThrow found (JsError "Prisoner not found") ;;
     throwIf (negb (checkPrisonAccess userPrisonId (Prisoner.prison_id prisoner) userRole))
             (JsError "You do not have access to this prisoner") ;;;
     (if truthyS (u_nic updateData)
         && negb (String.eqb (orElse (u_nic updateData) "") (Prisoner.nic prisoner))
      then
        existingNIC <- query (fun s =>
          findOne (fun p => String.eqb (Prisoner.nic p) (orElse (u_nic updateData) "")
                            && negb (Prisoner.prisoner_id p =? prisonerId))
                  (Prisoners s)) ;;
        throwIf (match existingNIC with Some _ => true | None => false end)
                (JsError "Prisoner with this NIC already exists")
      else ret tt) ;;;
     (if truthyS (u_case_number updateData)
         && negb (String.eqb (orElse (u_case_number updateData) "")
                             (Prisoner.case_number prisoner))
      then
        existingCase <- query (fun s =>
          findOne (fun p => String.eqb (Prisoner.case_number p)
                                       (orElse (u_case_number updateData) "")
                            && negb (Prisoner.prisoner_id p =? prisonerId))
                  (Prisoners s)) ;;
        throwIf (match existingCase with Some _ => true | None => false end)
                (JsError "Prisoner with this case number already exists")
      else ret tt) ;;;
     write (set_Prisoners
              (updateRow Prisoner.prisoner_id prisonerId
                         (applyPrisonerUpdate updateData))))
    (fun _ => getPrisonerById prisonerId userPrisonId userRole).

(** [prisoner.update({ status, actual_release_date })] *)
Definition markLeft (newStatus : PrisonerStatus) (date : CivilDate)
    (p : Prisoner.row) : Prisoner.row :=
  Prisoner.mk (Prisoner.prisoner_id p) (Prisoner.nic p)
    (Prisoner.case_number p) (Prisoner.admission_date p)
    (Prisoner.expected_release_date p) (Some date) newStatus
    (Prisoner.prison_id p).

Definition deletePrisoner (prisonerId : Z) (reason : option string)
    (userPrisonId : option Z) (userRole : UserRole) (userId : Z)
    (now : Clock) : Service PrisonerStatus :=
  throwIf (negb (isAdmin userRole))
          (JsError "Only Prison Admin or Super Admin can delete prisoners") ;;;
  found <- query (fun s => findByPk Prisoner.prisoner_id (Prisoners s) prisonerId) ;;
  prisoner <- orThrow found (JsError "Prisoner not found") ;;
  throwIf (negb (checkPrisonAccess userPrisonId (Prisoner.prison_id prisoner) userRole))
          (JsError "You do not have access to this prisoner") ;;;
  let newStatus :=
    match reason with
    | Some r => if String.eqb r "deceased" then Deceased else Released
    | None => Released
    end in
  write (set_Prisoners
           (updateRow Prisoner.prisoner_id (Prisoner.prisoner_id prisoner)
                      (markLeft newStatus (today now)))) ;;;
  ret newStatus.

(** [prisoner.update({ prison_id: targetPrisonId, status: ACTIVE })] *)
Definition moveTo (targetPrisonId : Z) (p : Prisoner.row) : Prisoner.row :=
  Prisoner.mk (Prisoner.prisoner_id p) (Prisoner.nic p)
    (Prisoner.case_number p) (Prisoner.admission_date p)
    (Prisoner.expected_release_date p) (Prisoner.actual_release_date p)
    Active targetPrisonId.

Definition transferPrisoner (prisonerId : Z) (targetPrisonId : Z)
    (transferReason : option string) (userPrisonId : option Z)
    (userRole : UserRole) (userId : Z) : Service Prisoner.row :=
  transaction
    (throwIf (negb (isAdmin userRole))
             (JsError "Only Prison Admin or Super Admin can transfer prisoners") ;;;
     found <- query (fun s => findByPk Prisoner.prisoner_id (Prisoners s) prisonerId) ;;
     prisoner <- orThrow found (JsError "Prisoner not found") ;;
     throwIf (negb (checkPrisonAccess userPrisonId (Prisoner.prison_id prisoner) userRole))
             (JsError "You do not have access to this prisoner") ;;;
     foundTarget <- query (fun s => findByPk Prison.prison_id (Prisons s) targetPrisonId) ;;
     targetPrison <- orThrow foundTarget (JsError "Target prison not found") ;;
     activePrisoners <- query (fun s => activeCount s targetPrisonId) ;;
     throwIf (Prison.capacity targetPrison <=? activePrisoners)
             (JsErrorN "Target prison has reached maximum capacity of "
                       (Prison.capacity targetPrison)) ;;;
     write (set_Prisoners
              (updateRow Prisoner.prisoner_id (Prisoner.prisoner_id prisoner)
                         (moveTo targetPrisonId))) ;;;
     ret (moveTo targetPrisonId prisoner))
    (fun moved => ret moved).

Definition releasePrisoner (prisonerId : Z) (releaseReason : option string)
    (releaseNotes : option string) (userPrisonId : option Z)
    (userRole : UserRole) (userId : Z) (now : Clock)
  : Service Prisoner.row :=
  transaction
    (throwIf (negb (isAdmin userRole))
             (JsError "Only Prison Admin or Super Admin can release prisoners") ;;;
     found <- query (fun s => findByPk Prisoner.prisoner_id (Prisoners s) prisonerId) ;;
     prisoner <- orThrow found (JsError "Prisoner not found") ;;
     throwIf (negb (checkPrisonAccess userPrisonId (Prisoner.prison_id prisoner) userRole))
             (JsError "You do not have access to this prisoner") ;;;
     throwIf (PrisonerStatus_eqb (Prisoner.status prisoner) Released)
             (JsError "Prisoner is already released") ;;;
     write (set_Prisoners
              (updateRow Prisoner.prisoner_id (Prisoner.prisoner_id prisoner)
                         (markLeft Released (today now)))) ;;;
     ret (markLeft Released (today now) prisoner))
    (fun released => ret released).

(* ================================================================== *)
(** ** services/prisonService.js *)
(* ================================================================== *)

Definition getPrisonById (prisonId : Z) : Service Prison.row :=
  found <- query (fun s => findByPk Prison.prison_id (Prisons s) prisonId) ;;
  orThrow found (JsError "Prison not found").

Record PrisonData := mkPrisonData {
  pd_prison_name : string;
  pd_capacity : option Z;
  pd_is_active : option bool }.

Definition createPrison (prisonData : PrisonData) (userRole : UserRole)
  : Service Prison.row :=
  throwIf (negb (UserRole_eqb userRole SuperAdmin))
          (JsError "Only Super Admin can create prisons") ;;;
  existingPrison <- query (fun s =>
    findOne (fun f => String.eqb (Prison.prison_name f) (pd_prison_name prisonData))
            (Prisons s)) ;;
  throwIf (match existingPrison with Some _ => true | None => false end)
          (JsError "Prison with this name already exists") ;;;
  throwIf (truthyZ (pd_capacity prisonData)
           && (orElse (pd_capacity prisonData) 0 <? 0))
          (JsError "Capacity must be a positive number") ;;;
  newId <- query next_prison_id ;;
  write (fun s =>
    mkStore
      (insertRow
         (Prison.mk newId (pd_prison_name prisonData)
            (if truthyZ (pd_capacity prisonData)
             then orElse (pd_capacity prisonData) 0 else 0)
            (orElse (pd_is_active prisonData) true))
         (Prisons s))
      (Prisoners s) (Visitors s) (Visits s) (WorkRecords s)
      (BehaviourRecords s)
      (newId + 1) (next_prisoner_id s) (next_visit_id s)
      (next_work_record_id s) (next_behaviour_id s)) ;;;
  getPrisonById newId.

Record PrisonUpdate := mkPrisonUpdate {
  pu_prison_name : option string;
  pu_capacity : option Z;
  pu_is_active : option bool }.

(** [prison.update(updateData)] *)
Definition applyPrisonUpdate (u : PrisonUpdate) (f : Prison.row) : Prison.row :=
  Prison.mk (Prison.prison_id f)
    (orElse (pu_prison_name u) (Prison.prison_name f))
    (orElse (pu_capacity u) (Prison.capacity f))
    (orElse (pu_is_active u) (Prison.is_active f)).

Definition updatePrison (prisonId : Z) (updateData : PrisonUpdate)
    (userRole : UserRole) : Service Prison.row :=
  throwIf (negb (UserRole_eqb userRole SuperAdmin))
          (JsError "Only Super Admin can update prisons") ;;;
  found <- query (fun s => findByPk Prison.prison_id (Prisons s) prisonId) ;;
  prison <- orThrow found (JsError "Prison not found") ;;
  (if truthyS (pu_prison_name updateData)
      && negb (String.eqb (orElse (pu_prison_name updateData) "")
                          (Prison.prison_name prison))
   then
     existingPrison <- query (fun s =>
       findOne (fun f => String.eqb (Prison.prison_name f)
                                    (orElse (pu_prison_name updateData) "")
                         && negb (Prison.prison_id f =? prisonId))
               (Prisons s)) ;;
     throwIf (match existingPrison with Some _ => true | None => false end)
             (JsError "Prison with this name already exists")
   else ret tt) ;;;
  throwIf (match pu_capacity updateData with
           | Some c => c <? 0
           | None => false
           end)
          (JsError "Capacity must be a positive number") ;;;
  match pu_capacity updateData with
  | Some c =>
      currentOccupancy <- query (fun s => activeCount s prisonId) ;;
      throwIf (c <? currentOccupancy)
              (JsError ("Cannot reduce capacity below current occupancy of "
                        ++ decimal currentOccupancy ++ " prisoners"))
  | None => ret tt
  end ;;;
  write (set_Prisons
           (updateRow Prison.prison_id (Prison.prison_id prison)
                      (applyPrisonUpdate updateData))) ;;;
  getPrisonById prisonId.

(* ================================================================== *)
(** ** Eager loading of the prisoner association *)
(* ================================================================== *)

(** What [include: [{ model: db.Prisoner, as: 'prisoner', ... }]] puts in
    [record.prisoner]: the prisoner row and, only when that include nests
    [{ model: db.Prison, as: 'prison' }], the prison in
    [record.prisoner.prison].  Without the nested include the instance has
    no [prison] property. *)
Record PrisonerInclude := mkInclude {
  inc_prisoner : Prisoner.row;
  inc_prison : option Prison.row }.

Definition includePrisoner (nested : bool) (s : Store) (prisonerId : Z)
  : option PrisonerInclude :=
  match findByPk Prisoner.prisoner_id (Prisoners s) prisonerId with
  | Some p =>
      Some (mkInclude p
              (if nested
               then findByPk Prison.prison_id (Prisons s) (Prisoner.prison_id p)
               else None))
  | None => None
  end.

(** [record.prisoner.prison_id] *)
Definition prisoner_prison_id (inc : option PrisonerInclude) : Service Z :=
  match inc with
  | Some i => ret (Prisoner.prison_id (inc_prisoner i))
  | None => throw TypeError
  end.

(** [record.prisoner.prison.prison_id] *)
Definition prisoner_prison_prison_id (inc : option PrisonerInclude)
  : Service Z :=
  match inc with
  | Some i =>
      match inc_prison i with
      | Some f => ret (Prison.prison_id f)
      | None => throw TypeError
      end
  | None => throw TypeError
  end.

(* ================================================================== *)
(** ** services/behaviourService.js *)
(* ================================================================== *)

Definition getBehaviourRecordById (behaviourRecordId : Z)
    (userPrisonId : option Z) (userRole : UserRole)
  : Service PrisonerBehaviourRecord.row :=
  found <- query (fun s =>
    findByPk PrisonerBehaviourRecord.behaviour_id (BehaviourRecords s)
             behaviourRecordId) ;;
  behaviourRecord <- orThrow found (JsError "Behaviour record not found") ;;
  prisoner <- query (fun s =>
    includePrisoner true s (PrisonerBehaviourRecord.prisoner_id behaviourRecord)) ;;
  prisonId <- prisoner_prison_prison_id prisoner ;;
  throwIf (negb (checkPrisonAccess userPrisonId prisonId userRole))
          (JsError "You do not have access to this behaviour record") ;;;
  ret behaviourRecord.

Record BehaviourData := mkBehaviourData {
  bd_prisoner_id : Z;
  bd_behaviour_type : BehaviourType;
  bd_severity_level : option SeverityLevel;
  bd_incident_date : option CivilDate;
  bd_sentence_adjustment_days : option Z;
  bd_notes : option string }.

Definition createBehaviourRecord (behaviourData : BehaviourData) (userId : Z)
    (userPrisonId : option Z) (userRole : UserRole) (now : Clock)
  : Service PrisonerBehaviourRecord.row :=
  transaction
    (found <- query (fun s =>
       findByPk Prisoner.prisoner_id (Prisoners s) (bd_prisoner_id behaviourData)) ;;
     prisoner <- orThrow found (JsError "Prisoner not found") ;;
     throwIf (negb (Prisoner.isActive prisoner))
             (JsError "Behaviour records can only be created for active prisoners") ;;;
     throwIf (negb (checkPrisonAccess userPrisonId (Prisoner.prison_id prisoner) userRole))
             (JsError "You do not have access to this prisoner") ;;;
     let adjustmentStatus :=
       if truthyZ (bd_sentence_adjustment_days behaviourData)
          && negb (orElse (bd_sentence_adjustment_days behaviourData) 0 =? 0)
       then Pending else NotApplicable in
     newId <- query next_behaviour_id ;;
     write (fun s =>
       mkStore (Prisons s) (Prisoners s) (Visitors s) (Visits s)
         (WorkRecords s)
         (insertRow
            (PrisonerBehaviourRecord.mk newId
               (bd_prisoner_id behaviourData)
               (bd_behaviour_type behaviourData)
               (bd_severity_level behaviourData)
               (orElse (bd_incident_date behaviourData) (today now))
               (if truthyZ (bd_sentence_adjustment_days behaviourData)
                then orElse (bd_sentence_adjustment_days behaviourData) 0
                else 0)
               adjustmentStatus None (bd_notes behaviourData) userId)
            (BehaviourRecords s))
         (next_prison_id s) (next_prisoner_id s) (next_visit_id s)
         (next_work_record_id s) (newId + 1)) ;;;
     ret newId)
    (fun newId => getBehaviourRecordById newId userPrisonId userRole).

Record BehaviourUpdate := mkBehaviourUpdate {
  bu_behaviour_type : option BehaviourType;
  bu_severity_level : option SeverityLevel;
  bu_incident_date : option CivilDate;
  bu_sentence_adjustment_days : option Z;
  bu_notes : option string }.

(** [behaviourRecord.update(allowedUpdates)], [allowedUpdates] carrying the
    adjustment status when ['sentence_adjustment_days' in allowedUpdates]. *)
Definition applyBehaviourUpdate (u : BehaviourUpdate)
    (r : PrisonerBehaviourRecord.row) : PrisonerBehaviourRecord.row :=
  PrisonerBehaviourRecord.mk
    (PrisonerBehaviourRecord.behaviour_id r)
    (PrisonerBehaviourRecord.prisoner_id r)
    (orElse (bu_behaviour_type u) (PrisonerBehaviourRecord.behaviour_type r))
    (match bu_severity_level u with
     | Some l => Some l
     | None => PrisonerBehaviourRecord.severity_level r
     end)
    (orElse (bu_incident_date u) (PrisonerBehaviourRecord.incident_date r))
    (orElse (bu_sentence_adjustment_days u)
            (PrisonerBehaviourRecord.sentence_adjustment_days r))
    (match bu_sentence_adjustment_days u with
     | Some days => if negb (days =? 0) then Pending else NotApplicable
     | None => PrisonerBehaviourRecord.adjustment_status r
     end)
    (PrisonerBehaviourRecord.adjustment_approved_at r)
    (match bu_notes u with
     | Some n => Some n
     | None => PrisonerBehaviourRecord.notes r
     end)
    (PrisonerBehaviourRecord.recorded_by r).

(** [updateBehaviourRecord], for a given eager loading of
    [behaviourRecord.prisoner]. *)
Definition updateBehaviourRecordWith
    (include : Store -> Z -> option PrisonerInclude)
    (behaviourRecordId : Z) (updateData : BehaviourUpdate)
    (userPrisonId : option Z) (userRole : UserRole)
  : Service PrisonerBehaviourRecord.row :=
  transaction
    (found <- query (fun s =>
       findByPk PrisonerBehaviourRecord.behaviour_id (BehaviourRecords s)
                behaviourRecordId) ;;
     behaviourRecord <- orThrow found (JsError "Behaviour record not found") ;;
     prisoner <- query (fun s =>
       include s (PrisonerBehaviourRecord.prisoner_id behaviourRecord)) ;;
     prisonId <- prisoner_prison_prison_id prisoner ;;
     throwIf (negb (checkPrisonAccess userPrisonId prisonId userRole))
             (JsError "You do not have access to this behaviour record") ;;;
     throwIf (AdjustmentStatus_eqb
                (PrisonerBehaviourRecord.adjustment_status behaviourRecord)
                Approved)
             (JsError "Cannot update behaviour record with approved sentence adjustment") ;;;
     write (set_BehaviourRecords
              (updateRow PrisonerBehaviourRecord.behaviour_id
                         (PrisonerBehaviourRecord.behaviour_id behaviourRecord)
                         (applyBehaviourUpdate updateData))))
    (fun _ => getBehaviourRecordById behaviourRecordId userPrisonId userRole).

(** The service loads the prisoner with [attributes: ['prison_id']] and no
    nested include. *)
Definition updateBehaviourRecord :=
  updateBehaviourRecordWith (includePrisoner false).

Definition deleteBehaviourRecord (behaviourRecordId : Z)
    (userPrisonId : option Z) (userRole : UserRole) : Service unit :=
  found <- query (fun s =>
    findByPk PrisonerBehaviourRecord.behaviour_id (BehaviourRecords s)
             behaviourRecordId) ;;
  behaviourRecord <- orThrow found (JsError "Behaviour record not found") ;;
  prisoner <- query (fun s =>
    includePrisoner false s (PrisonerBehaviourRecord.prisoner_id behaviourRecord)) ;;
  prisonId <- prisoner_prison_id prisoner ;;
  throwIf (negb (checkPrisonAccess userPrisonId prisonId userRole))
          (JsError "You do not have access to this behaviour record") ;;;
  throwIf (AdjustmentStatus_eqb
             (PrisonerBehaviourRecord.adjustment_status behaviourRecord)
             Approved)
          (JsError "Cannot delete behaviour record with approved sentence adjustment") ;;;
  write (set_BehaviourRecords
           (destroyRow PrisonerBehaviourRecord.behaviour_id
                       (PrisonerBehaviourRecord.behaviour_id behaviourRecord))).

(** [currentEndDate.setDate(currentEndDate.getDate() + adjustmentDays)] on
    [new Date(prisoner.expected_release_date)], written back. *)
Definition adjustedReleaseDate (zone : Z) (d : CivilDate) (adjustmentDays : Z)
  : CivilDate :=
  let currentEndDate := Date_of d in
  toDateOnly zone
    (setDate zone currentEndDate (getDate zone currentEndDate + adjustmentDays)).

(** [prisoner.update({ expected_release_date })] *)
Definition withExpectedRelease (d : CivilDate) (p : Prisoner.row)
  : Prisoner.row :=
  Prisoner.mk (Prisoner.prisoner_id p) (Prisoner.nic p)
    (Prisoner.case_number p) (Prisoner.admission_date p)
    (Some d) (Prisoner.actual_release_date p) (Prisoner.status p)
    (Prisoner.prison_id p).

(** [behaviourRecord.update({ adjustment_status: 'Approved',
    adjustment_approved_at, notes })] *)
Definition markApproved (now : Clock) (notes : option string)
    (r : PrisonerBehaviourRecord.row) : PrisonerBehaviourRecord.row :=
  PrisonerBehaviourRecord.mk
    (PrisonerBehaviourRecord.behaviour_id r)
    (PrisonerBehaviourRecord.prisoner_id r)
    (PrisonerBehaviourRecord.behaviour_type r)
    (PrisonerBehaviourRecord.severity_level r)
    (PrisonerBehaviourRecord.incident_date r)
    (PrisonerBehaviourRecord.sentence_adjustment_days r)
    Approved (Some (millis now))
    (orS notes (PrisonerBehaviourRecord.notes r))
    (PrisonerBehaviourRecord.recorded_by r).

Definition approveSentenceAdjustment (behaviourRecordId : Z)
    (notes : option string) (userPrisonId : option Z) (userRole : UserRole)
    (now : Clock) : Service PrisonerBehaviourRecord.row :=
  transaction
    (found <- query (fun s =>
       findByPk PrisonerBehaviourRecord.behaviour_id (BehaviourRecords s)
                behaviourRecordId) ;;
     behaviourRecord <- orThrow found (JsError "Behaviour record not found") ;;
     included <- query (fun s =>
       includePrisoner false s (PrisonerBehaviourRecord.prisoner_id behaviourRecord)) ;;
     prisonId <- prisoner_prison_id included ;;
     throwIf (negb (checkPrisonAccess userPrisonId prisonId userRole))
             (JsError "You do not have access to this behaviour record") ;;;
     throwIf (negb (AdjustmentStatus_eqb
                      (PrisonerBehaviourRecord.adjustment_status behaviourRecord)
                      Pending))
             (JsError "This behaviour record does not have a pending sentence adjustment") ;;;
     throwIf (PrisonerBehaviourRecord.sentence_adjustment_days behaviourRecord =? 0)
             (JsError "No sentence adjustment to approve") ;;;
     match included with
     | Some i =>
         let prisoner := inc_prisoner i in
         match Prisoner.expected_release_date prisoner with
         | Some d =>
             write (set_Prisoners
                      (updateRow Prisoner.prisoner_id
                         (Prisoner.prisoner_id prisoner)
                         (withExpectedRelease
                            (adjustedReleaseDate (zone now) d
                               (PrisonerBehaviourRecord.sentence_adjustment_days
                                  behaviourRecord)))))
         | None => ret tt
         end
     | None => throw TypeError
     end ;;;
     write (set_BehaviourRecords
              (updateRow PrisonerBehaviourRecord.behaviour_id
                         (PrisonerBehaviourRecord.behaviour_id behaviourRecord)
                         (markApproved now notes))))
    (fun _ => getBehaviourRecordById behaviourRecordId userPrisonId userRole).

(** The notes of a rejection. *)
Definition rejectionNotes (reason : option string) (notes : option string)
  : option string :=
  if truthyS reason
  then Some ("REJECTION REASON: " ++ orElse reason ""
             ++ (if truthyS notes
                 then newline ++ newline ++ orElse notes ""
                 else ""))%string
  else notes.

(** [behaviourRecord.update({ adjustment_status: 'Rejected', notes })] *)
Definition markRejected (reason : option string)
    (r : PrisonerBehaviourRecord.row) : PrisonerBehaviourRecord.row :=
  PrisonerBehaviourRecord.mk
    (PrisonerBehaviourRecord.behaviour_id r)
    (PrisonerBehaviourRecord.prisoner_id r)
    (PrisonerBehaviourRecord.behaviour_type r)
    (PrisonerBehaviourRecord.severity_level r)
    (PrisonerBehaviourRecord.incident_date r)
    (PrisonerBehaviourRecord.sentence_adjustment_days r)
    Rejected
    (PrisonerBehaviourRecord.adjustment_approved_at r)
    (rejectionNotes reason (PrisonerBehaviourRecord.notes r))
    (PrisonerBehaviourRecord.recorded_by r).

(** [rejectSentenceAdjustment], for a given eager loading of
    [behaviourRecord.prisoner]. *)
Definition rejectSentenceAdjustmentWith
    (include : Store -> Z -> option PrisonerInclude)
    (behaviourRecordId : Z) (reason : option string)
    (userPrisonId : option Z) (userRole : UserRole)
  : Service PrisonerBehaviourRecord.row :=
  transaction
    (found <- query (fun s =>
       findByPk PrisonerBehaviourRecord.behaviour_id (BehaviourRecords s)
                behaviourRecordId) ;;
     behaviourRecord <- orThrow found (JsError "Behaviour record not found") ;;
     prisoner <- query (fun s =>
       include s (PrisonerBehaviourRecord.prisoner_id behaviourRecord)) ;;
     prisonId <- prisoner_prison_prison_id prisoner ;;
     throwIf (negb (checkPrisonAccess userPrisonId prisonId userRole))
             (JsError "You do not have access to this behaviour record") ;;;
     throwIf (negb (AdjustmentStatus_eqb
                      (PrisonerBehaviourRecord.adjustment_status behaviourRecord)
                      Pending))
             (JsError "This behaviour record does not have a pending sentence adjustment") ;;;
     write (set_BehaviourRecords
              (updateRow PrisonerBehaviourRecord.behaviour_id
                         (PrisonerBehaviourRecord.behaviour_id behaviourRecord)
                         (markRejected reason))))
    (fun _ => getBehaviourRecordById behaviourRecordId userPrisonId userRole).

(** The service loads the prisoner with [attributes: ['prison_id']] and no
    nested include. *)
Definition rejectSentenceAdjustment :=
  rejectSentenceAdjustmentWith (includePrisoner false).

(* ================================================================== *)
(** ** services/workRecordService.js *)
(* ================================================================== *)

Definition getWorkRecordById (workRecordId : Z) (userPrisonId : option Z)
    (userRole : UserRole) : Service PrisonerWorkRecord.row :=
  found <- query (fun s =>
    findByPk PrisonerWorkRecord.work_record_id (WorkRecords s) workRecordId) ;;
  workRecord <- orThrow found (JsError "Work record not found") ;;
  prisoner <- query (fun s =>
    includePrisoner true s (PrisonerWorkRecord.prisoner_id workRecord)) ;;
  prisonId <- prisoner_prison_prison_id prisoner ;;
  throwIf (negb (checkPrisonAccess userPrisonId prisonId userRole))
          (JsError "You do not have access to this work record") ;;;
  ret workRecord.

Record WorkRecordData := mkWorkRecordData {
  wd_prisoner_id : Z;
  wd_task_description : string;
  wd_work_date : option CivilDate;
  wd_hours_worked : Z;
  wd_payment_amount : Z }.

Definition createWorkRecord (workRecordData : WorkRecordData) (userId : Z)
    (userPrisonId : option Z) (userRole : UserRole) (now : Clock)
  : Service PrisonerWorkRecord.row :=
  transaction
    (found <- query (fun s =>
       findByPk Prisoner.prisoner_id (Prisoners s) (wd_prisoner_id workRecordData)) ;;
     prisoner <- orThrow found (JsError "Prisoner not found") ;;
     throwIf (negb (Prisoner.isActive prisoner))
             (JsError "Work records can only be created for active prisoners") ;;;
     throwIf (negb (checkPrisonAccess userPrisonId (Prisoner.prison_id prisoner) userRole))
             (JsError "You do not have access to this prisoner") ;;;
     newId <- query next_work_record_id ;;
     write (fun s =>
       mkStore (Prisons s) (Prisoners s) (Visitors s) (Visits s)
         (insertRow
            (PrisonerWorkRecord.mk newId
               (wd_prisoner_id workRecordData)
               (wd_task_description workRecordData)
               (orElse (wd_work_date workRecordData) (today now))
               (wd_hours_worked workRecordData)
               (wd_payment_amount workRecordData)
               PaymentPending None userId)
            (WorkRecords s))
         (BehaviourRecords s)
         (next_prison_id s) (next_prisoner_id s) (next_visit_id s)
         (newId + 1) (next_behaviour_id s)) ;;;
     ret newId)
    (fun newId => getWorkRecordById newId userPrisonId userRole).

Record WorkRecordUpdate := mkWorkRecordUpdate {
  wu_task_description : option string;
  wu_work_date : option CivilDate;
  wu_hours_worked : option Z;
  wu_payment_amount : option Z }.

(** [workRecord.update(allowedUpdates)] *)
Definition applyWorkRecordUpdate (u : WorkRecordUpdate)
    (w : PrisonerWorkRecord.row) : PrisonerWorkRecord.row :=
  PrisonerWorkRecord.mk
    (PrisonerWorkRecord.work_record_id w)
    (PrisonerWorkRecord.prisoner_id w)
    (orElse (wu_task_description u) (PrisonerWorkRecord.task_description w))
    (orElse (wu_work_date u) (PrisonerWorkRecord.work_date w))
    (orElse (wu_hours_worked u) (PrisonerWorkRecord.hours_worked w))
    (orElse (wu_payment_amount u) (PrisonerWorkRecord.payment_amount w))
    (PrisonerWorkRecord.payment_status w)
    (PrisonerWorkRecord.payment_date w)
    (PrisonerWorkRecord.recorded_by w).

Definition updateWorkRecord (workRecordId : Z) (updateData : WorkRecordUpdate)
    (userPrisonId : option Z) (userRole : UserRole)
  : Service PrisonerWorkRecord.row :=
  transaction
    (found <- query (fun s =>
       findByPk PrisonerWorkRecord.work_record_id (WorkRecords s) workRecordId) ;;
     workRecord <- orThrow found (JsError "Work record not found") ;;
     prisoner <- query (fun s =>
       includePrisoner false s (PrisonerWorkRecord.prisoner_id workRecord)) ;;
     prisonId <- prisoner_prison_id prisoner ;;
     throwIf (negb (checkPrisonAccess userPrisonId prisonId userRole))
             (JsError "You do not have access to this work record") ;;;
     throwIf (PaymentStatus_eqb (PrisonerWorkRecord.payment_status workRecord) Paid)
             (JsError "Cannot update work record with paid status") ;;;
     write (set_WorkRecords
              (updateRow PrisonerWorkRecord.work_record_id
                         (PrisonerWorkRecord.work_record_id workRecord)
                         (applyWorkRecordUpdate updateData))))
    (fun _ => getWorkRecordById workRecordId userPrisonId userRole).

Definition deleteWorkRecord (workRecordId : Z) (userPrisonId : option Z)
    (userRole : UserRole) : Service unit :=
  found <- query (fun s =>
    findByPk PrisonerWorkRecord.work_record_id (WorkRecords s) workRecordId) ;;
  workRecord <- orThrow found (JsError "Work record not found") ;;
  prisoner <- query (fun s =>
    includePrisoner false s (PrisonerWorkRecord.prisoner_id workRecord)) ;;
  prisonId <- prisoner_prison_id prisoner ;;
  throwIf (negb (checkPrisonAccess userPrisonId prisonId userRole))
          (JsError "You do not have access to this work record") ;;;
  throwIf (PaymentStatus_eqb (PrisonerWorkRecord.payment_status workRecord) Paid)
          (JsError "Cannot delete work record with paid status") ;;;
  write (set_WorkRecords
           (destroyRow PrisonerWorkRecord.work_record_id
                       (PrisonerWorkRecord.work_record_id workRecord))).

(** [workRecord.update({ payment_status: PAID, payment_date })] *)
Definition markPaid (date : CivilDate) (w : PrisonerWorkRecord.row)
  : PrisonerWorkRecord.row :=
  PrisonerWorkRecord.mk
    (PrisonerWorkRecord.work_record_id w)
    (PrisonerWorkRecord.prisoner_id w)
    (PrisonerWorkRecord.task_description w)
    (PrisonerWorkRecord.work_date w)
    (PrisonerWorkRecord.hours_worked w)
    (PrisonerWorkRecord.payment_amount w)
    Paid (Some date)
    (PrisonerWorkRecord.recorded_by w).

Definition approvePayment (workRecordId : Z) (paymentDate : option CivilDate)
    (userPrisonId : option Z) (userRole : UserRole) (now : Clock)
  : Service PrisonerWorkRecord.row :=
  transaction
    (found <- query (fun s =>
       findByPk PrisonerWorkRecord.work_record_id (WorkRecords s) workRecordId) ;;
     workRecord <- orThrow found (JsError "Work record not found") ;;
     prisoner <- query (fun s =>
       includePrisoner false s (PrisonerWorkRecord.prisoner_id workRecord)) ;;
     prisonId <- prisoner_prison_id prisoner ;;
     throwIf (negb (checkPrisonAccess userPrisonId prisonId userRole))
             (JsError "You do not have access to this work record") ;;;
     throwIf (PaymentStatus_eqb (PrisonerWorkRecord.payment_status workRecord) Paid)
             (JsError "Payment is already approved for this work record") ;;;
     write (set_WorkRecords
              (updateRow PrisonerWorkRecord.work_record_id
                         (PrisonerWorkRecord.work_record_id workRecord)
                         (markPaid (orElse paymentDate (today now))))))
    (fun _ => getWorkRecordById workRecordId userPrisonId userRole).

(** The outcome of a bulk approval. *)
Record BulkResults := mkBulkResults {
  total : Z;
  approved : Z;
  failed : Z;
  errors : list (Z * string) }.

Definition bulkFailed (results : BulkResults) (workRecordId : Z)
    (error : string) : BulkResults :=
  mkBulkResults (total results) (approved results) (failed results + 1)
                (errors results ++ [(workRecordId, error)]).

Definition bulkApproved (results : BulkResults) : BulkResults :=
  mkBulkResults (total results) (approved results + 1) (failed results)
                (errors results).

(** One turn of the loop of [bulkApprovePayments].  The record is read with
    [findByPk] outside the transaction, so from the store as committed
    before the call; the update is written inside it. *)
Definition bulkApproveOne (committed : Store) (paymentDate : option CivilDate)
    (userPrisonId : option Z) (userRole : UserRole) (now : Clock)
    (acc : BulkResults * Store) (workRecordId : Z) : BulkResults * Store :=
  let (results, s) := acc in
  match findByPk PrisonerWorkRecord.work_record_id (WorkRecords committed)
                 workRecordId with
  | None => (bulkFailed results workRecordId "Work record not found", s)
  | Some workRecord =>
      match includePrisoner false committed
                            (PrisonerWorkRecord.prisoner_id workRecord) with
      | None =>
          (bulkFailed results workRecordId
             "Cannot read properties of null (reading 'prison_id')", s)
      | Some i =>
          if negb (checkPrisonAccess userPrisonId
                     (Prisoner.prison_id (inc_prisoner i)) userRole)
          then (bulkFailed results workRecordId "Access denied", s)
          else if PaymentStatus_eqb
                    (PrisonerWorkRecord.payment_status workRecord) Paid
          then (bulkFailed results workRecordId "Already paid", s)
          else (bulkApproved results,
                set_WorkRecords
                  (updateRow PrisonerWorkRecord.work_record_id
                             (PrisonerWorkRecord.work_record_id workRecord)
                             (markPaid (orElse paymentDate (today now))))
                  s)
      end
  end.

Definition bulkApprovePayments (workRecordIds : list Z)
    (paymentDate : option CivilDate) (userPrisonId : option Z)
    (userRole : UserRole) (now : Clock) : Service BulkResults :=
  fun s =>
    let (results, s') :=
      fold_left (bulkApproveOne s paymentDate userPrisonId userRole now)
                workRecordIds
                (mkBulkResults (Z.of_nat (List.length workRecordIds)) 0 0 [], s) in
    (Ok results, s').

(* ================================================================== *)
(** ** services/visitService.js *)
(* ================================================================== *)

Definition getVisitById (visitId : Z) (userPrisonId : option Z)
    (userRole : UserRole) : Service Visit.row :=
  found <- query (fun s => findByPk Visit.visit_id (Visits s) visitId) ;;
  visit <- orThrow found (JsError "Visit not found") ;;
  prisoner <- query (fun s => includePrisoner true s (Visit.prisoner_id visit)) ;;
  prisonId <- prisoner_prison_prison_id prisoner ;;
  throwIf (negb (checkPrisonAccess userPrisonId prisonId userRole))
          (JsError "You do not have access to this visit") ;;;
  ret visit.

(** [column BETWEEN lo AND hi] *)
Definition between (x lo hi : Z) : bool := (lo <=? x) && (x <=? hi).

(** The [Op.or] of the conflict query, for the window asked for. *)
Definition timeConflict (timeStart timeEnd : Time) (v : Visit.row) : bool :=
  between (Visit.visit_time_start v) timeStart timeEnd
  || between (Visit.visit_time_end v) timeStart timeEnd
  || ((Visit.visit_time_start v <=? timeStart)
      && (timeEnd <=? Visit.visit_time_end v)).

(** The [where] of the conflict query of [scheduleVisit]. *)
Definition conflictWhere (prisonerId : Z) (visitDate : CivilDate)
    (timeStart timeEnd : Time) (v : Visit.row) : bool :=
  (Visit.prisoner_id v =? prisonerId)
  && CivilDate_eqb (Visit.visit_date v) visitDate
  && VisitStatus_eqb (Visit.status v) Scheduled
  && timeConflict timeStart timeEnd v.

(** The [where] of the conflict query of [updateVisit], which leaves the
    visit being updated out. *)
Definition conflictWhereExcept (visitId : Z) (prisonerId : Z)
    (visitDate : CivilDate) (timeStart timeEnd : Time) (v : Visit.row)
  : bool :=
  negb (Visit.visit_id v =? visitId)
  && conflictWhere prisonerId visitDate timeStart timeEnd v.

Record VisitData := mkVisitData {
  vd_prisoner_id : Z;
  vd_visitor_id : Z;
  vd_relationship : string;
  vd_visit_date : CivilDate;
  vd_visit_time_start : Time;
  vd_visit_time_end : Time;
  vd_purpose : option string;
  vd_notes : option string }.

Definition scheduleVisit (visitData : VisitData) (userId : Z)
    (userPrisonId : option Z) (userRole : UserRole) : Service Visit.row :=
  transaction
    (found <- query (fun s =>
       findByPk Prisoner.prisoner_id (Prisoners s) (vd_prisoner_id visitData)) ;;
     prisoner <- orThrow found (JsError "Prisoner not found") ;;
     throwIf (negb (Prisoner.isActive prisoner))
             (JsError "Visits can only be scheduled for active prisoners") ;;;
     throwIf (negb (checkPrisonAccess userPrisonId (Prisoner.prison_id prisoner) userRole))
             (JsError "You do not have access to this prisoner") ;;;
     visitor <- query (fun s =>
       findByPk Visitor.visitor_id (Visitors s) (vd_visitor_id visitData)) ;;
     throwIf (match visitor with Some _ => false | None => true end)
             (JsError "Visitor not found") ;;;
     conflictingVisit <- query (fun s =>
       findOne (conflictWhere (vd_prisoner_id visitData)
                              (vd_visit_date visitData)
                              (vd_visit_time_start visitData)
                              (vd_visit_time_end visitData))
               (Visits s)) ;;
     throwIf (match conflictingVisit with Some _ => true | None => false end)
             (JsError "Visit time conflict: Another visit is already scheduled during this time") ;;;
     newId <- query next_visit_id ;;
     write (fun s =>
       mkStore (Prisons s) (Prisoners s) (Visitors s)
         (insertRow
            (Visit.mk newId
               (vd_prisoner_id visitData) (vd_visitor_id visitData)
               (vd_relationship visitData) (vd_visit_date visitData)
               (vd_visit_time_start visitData) (vd_visit_time_end visitData)
               (vd_purpose visitData) Scheduled (Some userId)
               (orS (vd_notes visitData) None))
            (Visits s))
         (WorkRecords s) (BehaviourRecords s)
         (next_prison_id s) (next_prisoner_id s) (newId + 1)
         (next_work_record_id s) (next_behaviour_id s)) ;;;
     ret newId)
    (fun newId => getVisitById newId userPrisonId userRole).

Record VisitUpdate := mkVisitUpdate {
  vu_relationship : option string;
  vu_visit_date : option CivilDate;
  vu_visit_time_start : option Time;
  vu_visit_time_end : option Time;
  vu_purpose : option string;
  vu_notes : option string }.

(** [visit.update(allowedUpdates)] *)
Definition applyVisitUpdate (u : VisitUpdate) (v : Visit.row) : Visit.row :=
  Visit.mk (Visit.visit_id v) (Visit.prisoner_id v) (Visit.visitor_id v)
    (orElse (vu_relationship u) (Visit.relationship v))
    (orElse (vu_visit_date u) (Visit.visit_date v))
    (orElse (vu_visit_time_start u) (Visit.visit_time_start v))
    (orElse (vu_visit_time_end u) (Visit.visit_time_end v))
    (match vu_purpose u with Some p => Some p | None => Visit.purpose v end)
    (Visit.status v) (Visit.approved_by v)
    (match vu_notes u with Some n => Some n | None => Visit.notes v end).

Definition isSome {A} (o : option A) : bool :=
  match o with Some _ => true | None => false end.

Definition updateVisit (visitId : Z) (updateData : VisitUpdate)
    (userPrisonId : option Z) (userRole : UserRole) : Service Visit.row :=
  transaction
    (found <- query (fun s => findByPk Visit.visit_id (Visits s) visitId) ;;
     visit <- orThrow found (JsError "Visit not found") ;;
     prisoner <- query (fun s => includePrisoner false s (Visit.prisoner_id visit)) ;;
     prisonId <- prisoner_prison_id prisoner ;;
     throwIf (negb (checkPrisonAccess userPrisonId prisonId userRole))
             (JsError "You do not have access to this visit") ;;;
     throwIf (negb (VisitStatus_eqb (Visit.status visit) Scheduled))
             (JsError ("Cannot update visit with status: "
                       ++ VisitStatus_name (Visit.status visit))) ;;;
     (if isSome (vu_visit_date updateData)
         || isSome (vu_visit_time_start updateData)
         || isSome (vu_visit_time_end updateData)
      then
        let visitDate := orElse (vu_visit_date updateData) (Visit.visit_date visit) in
        let timeStart :=
          orElse (vu_visit_time_start updateData) (Visit.visit_time_start visit) in
        let timeEnd :=
          orElse (vu_visit_time_end updateData) (Visit.visit_time_end visit) in
        conflictingVisit <- query (fun s =>
          findOne (conflictWhereExcept visitId (Visit.prisoner_id visit)
                                       visitDate timeStart timeEnd)
                  (Visits s)) ;;
        throwIf (isSome conflictingVisit)
                (JsError "Visit time conflict: Another visit is already scheduled during this time")
      else ret tt) ;;;
     write (set_Visits
              (updateRow Visit.visit_id (Visit.visit_id visit)
                         (applyVisitUpdate updateData))))
    (fun _ => getVisitById visitId userPrisonId userRole).

(** [visit.update({ status, notes: notes || visit.notes })] *)
Definition withStatus (status : VisitStatus) (notes : option string)
    (v : Visit.row) : Visit.row :=
  Visit.mk (Visit.visit_id v) (Visit.prisoner_id v) (Visit.visitor_id v)
    (Visit.relationship v) (Visit.visit_date v) (Visit.visit_time_start v)
    (Visit.visit_time_end v) (Visit.purpose v) status (Visit.approved_by v)
    (orS notes (Visit.notes v)).

Definition updateVisitStatus (visitId : Z) (status : string)
    (notes : option string) (userPrisonId : option Z) (userRole : UserRole)
  : Service Visit.row :=
  transaction
    (found <- query (fun s => findByPk Visit.visit_id (Visits s) visitId) ;;
     visit <- orThrow found (JsError "Visit not found") ;;
     prisoner <- query (fun s => includePrisoner false s (Visit.prisoner_id visit)) ;;
     prisonId <- prisoner_prison_id prisoner ;;
     throwIf (negb (checkPrisonAccess userPrisonId prisonId userRole))
             (JsError "You do not have access to this visit") ;;;
     newStatus <- orThrow (VisitStatus_of_string status)
                          (JsError "Invalid visit status") ;;
     write (set_Visits
              (updateRow Visit.visit_id (Visit.visit_id visit)
                         (withStatus newStatus notes))))
    (fun _ => getVisitById visitId userPrisonId userRole).

Definition deleteVisit (visitId : Z) (userPrisonId : option Z)
    (userRole : UserRole) : Service unit :=
  found <- query (fun s => findByPk Visit.visit_id (Visits s) visitId) ;;
  visit <- orThrow found (JsError "Visit not found") ;;
  prisoner <- query (fun s => includePrisoner false s (Visit.prisoner_id visit)) ;;
  prisonId <- prisoner_prison_id prisoner ;;
  throwIf (negb (checkPrisonAccess userPrisonId prisonId userRole))
          (JsError "You do not have access to this visit") ;;;
  throwIf (VisitStatus_eqb (Visit.status visit) Completed)
          (JsError "Cannot delete completed visit") ;;;
  write (set_Visits (destroyRow Visit.visit_id (Visit.visit_id visit))).

(** [visit.update({ approved_by: userId })] *)
Definition withApprover (userId : Z) (v : Visit.row) : Visit.row :=
  Visit.mk (Visit.visit_id v) (Visit.prisoner_id v) (Visit.visitor_id v)
    (Visit.relationship v) (Visit.visit_date v) (Visit.visit_time_start v)
    (Visit.visit_time_end v) (Visit.purpose v) (Visit.status v)
    (Some userId) (Visit.notes v).

Definition approveVisit (visitId : Z) (userId : Z) (userPrisonId : option Z)
    (userRole : UserRole) : Service Visit.row :=
  transaction
    (found <- query (fun s => findByPk Visit.visit_id (Visits s) visitId) ;;
     visit <- orThrow found (JsError "Visit not found") ;;
     prisoner <- query (fun s => includePrisoner false s (Visit.prisoner_id visit)) ;;
     prisonId <- prisoner_prison_id prisoner ;;
     throwIf (negb (checkPrisonAccess userPrisonId prisonId userRole))
             (JsError "You do not have access to this visit") ;;;
     throwIf (truthyZ (Visit.approved_by visit))
             (JsError "Visit is already approved") ;;;
     write (set_Visits
              (updateRow Visit.visit_id (Visit.visit_id visit)
                         (withApprover userId))))
    (fun _ => getVisitById visitId userPrisonId userRole).

(* ================================================================== *)
(** * Properties *)
(* ================================================================== *)

(** ** Tables *)

Section TableFacts.
Variable R : Type.
Variable pk : R -> Z.

Lemma findByPk_Some (t : list R) id r :
  findByPk pk t id = Some r -> pk r = id /\ In r t.
Proof.
  unfold findByPk. intros H. apply find_some in H as [Hin Hk].
  apply Z.eqb_eq in Hk. auto.
Qed.

Lemma findByPk_None (t : list R) id :
  findByPk pk t id = None -> forall r, In r t -> pk r <> id.
Proof.
  unfold findByPk. intros H r Hin Hk.
  apply (find_none _ _ H) in Hin. apply Z.eqb_neq in Hin. auto.
Qed.

Lemma findByPk_In_NoDup (t : list R) r :
  NoDup (map pk t) -> In r t -> findByPk pk t (pk r) = Some r.
Proof.
  unfold findByPk. induction t as [|x t IH]; intros Hnd Hin; [easy|].
  cbn [find]. inversion Hnd as [|? ? Hx Hnd']; subst.
  destruct Hin as [->|Hin].
  - rewrite Z.eqb_refl. reflexivity.
  - destruct (pk x =? pk r) eqn:E.
    + apply Z.eqb_eq in E. exfalso. apply Hx. rewrite E.
      apply in_map. exact Hin.
    + apply IH; assumption.
Qed.

Section Update.
Variable f : R -> R.
Hypothesis f_pk : forall r, pk (f r) = pk r.

Lemma map_pk_updateRow id (t : list R) :
  map pk (updateRow pk id f t) = map pk t.
Proof.
  unfold updateRow. rewrite map_map. apply map_ext.
  intros r. destruct (pk r =? id); auto.
Qed.

Lemma findByPk_updateRow_same id (t : list R) :
  findByPk pk (updateRow pk id f t) id
  = option_map f (findByPk pk t id).
Proof.
  unfold findByPk, updateRow.
  induction t as [|x t IH]; [reflexivity|]. cbn [map find].
  destruct (pk x =? id) eqn:E.
  - rewrite f_pk, E. reflexivity.
  - rewrite E. exact IH.
Qed.

Lemma findByPk_updateRow_other id id' (t : list R) :
  id' <> id ->
  findByPk pk (updateRow pk id f t) id' = findByPk pk t id'.
Proof.
  intros Hne. unfold findByPk, updateRow.
  induction t as [|x t IH]; [reflexivity|]. cbn [map find].
  destruct (pk x =? id) eqn:E.
  - rewrite f_pk. apply Z.eqb_eq in E.
    assert (E' : (pk x =? id') = false) by (apply Z.eqb_neq; lia).
    rewrite E'. exact IH.
  - destruct (pk x =? id'); [reflexivity | exact IH].
Qed.

Lemma keys_ok_updateRow next id (t : list R) :
  keys_ok pk next t -> keys_ok pk next (updateRow pk id f t).
Proof.
  intros [Hnd Hlt]. split.
  - rewrite map_pk_updateRow. exact Hnd.
  - unfold updateRow. rewrite Forall_map.
    eapply Forall_impl; [|exact Hlt]. cbn beta.
    intros r Hr. destruct (pk r =? id); [rewrite f_pk|]; exact Hr.
Qed.
End Update.

Lemma findByPk_destroyRow_same id (t : list R) :
  findByPk pk (destroyRow pk id t) id = None.
Proof.
  unfold findByPk, destroyRow.
  induction t as [|x t IH]; [reflexivity|]. cbn [filter].
  destruct (pk x =? id) eqn:E; cbn [negb]; [exact IH|].
  cbn [find]. rewrite E. exact IH.
Qed.

Lemma findByPk_destroyRow_other id id' (t : list R) :
  id' <> id ->
  findByPk pk (destroyRow pk id t) id' = findByPk pk t id'.
Proof.
  intros Hne. unfold findByPk, destroyRow.
  induction t as [|x t IH]; [reflexivity|]. cbn [filter find].
  destruct (pk x =? id) eqn:E; cbn [negb].
  - apply Z.eqb_eq in E.
    assert (E' : (pk x =? id') = false) by (apply Z.eqb_neq; lia).
    rewrite E'. exact IH.
  - cbn [find]. destruct (pk x =? id'); [reflexivity | exact IH].
Qed.

Lemma keys_ok_destroyRow next id (t : list R) :
  keys_ok pk next t -> keys_ok pk next (destroyRow pk id t).
Proof.
  intros [Hnd Hlt]. unfold destroyRow. split.
  - clear Hlt. induction t as [|x t IH]; [constructor|].
    cbn [filter]. inversion Hnd as [|? ? Hx Hnd']; subst.
    destruct (negb (pk x =? id)); [|auto].
    cbn [map]. constructor; [|auto].
    intros Hin. apply Hx. apply in_map_iff in Hin as [y [Hy Hin]].
    apply filter_In in Hin as [Hin _]. rewrite <- Hy.
    apply in_map. exact Hin.
  - apply Forall_forall. intros r Hin.
    apply filter_In in Hin as [Hin _].
    rewrite Forall_forall in Hlt. auto.
Qed.

Lemma findByPk_insertRow r id (t : list R) :
  findByPk pk (insertRow r t) id
  = match findByPk pk t id with
    | Some x => Some x
    | None => if pk r =? id then Some r else None
    end.
Proof.
  unfold findByPk, insertRow.
  induction t as [|x t IH]; [reflexivity|]. cbn [app find].
  destruct (pk x =? id); [reflexivity | exact IH].
Qed.

Lemma keys_ok_insertRow next r (t : list R) :
  keys_ok pk next t -> pk r = next ->
  keys_ok pk (next + 1) (insertRow r t).
Proof.
  intros [Hnd Hlt] Hr. unfold insertRow. split.
  - rewrite map_app. cbn [map].
    rewrite Forall_forall in Hlt.
    assert (Hnot : ~ In (pk r) (map pk t)).
    { intros Hin. apply in_map_iff in Hin as [y [Hy Hin]].
      apply Hlt in Hin. lia. }
    clear Hlt. induction t as [|x t IH].
    + cbn. constructor; [easy | constructor].
    + cbn [map app]. inversion Hnd as [|? ? Hx Hnd']; subst.
      constructor.
      * intros Hin. apply in_app_or in Hin as [Hin|[Hin|[]]].
        -- auto.
        -- apply Hnot. left. auto.
      * apply IH; [exact Hnd'|]. intros Hin. apply Hnot. right. exact Hin.
  - apply Forall_app. split.
    + eapply Forall_impl; [|exact Hlt]. cbn beta. intros; lia.
    + constructor; [lia | constructor].
Qed.

Lemma keys_ok_fresh next (t : list R) :
  keys_ok pk next t -> findByPk pk t next = None.
Proof.
  intros [_ Hlt]. unfold findByPk.
  destruct (find (fun r => pk r =? next) t) as [r|] eqn:E; [|reflexivity].
  apply find_some in E as [Hin Hk]. apply Z.eqb_eq in Hk.
  rewrite Forall_forall in Hlt. apply Hlt in Hin. lia.
Qed.

(** *** Counting *)

Variable P : R -> bool.

Lemma count_nonneg (t : list R) : 0 <= count P t.
Proof. unfold count. lia. Qed.

Lemma count_insertRow r (t : list R) :
  count P (insertRow r t) = count P t + (if P r then 1 else 0).
Proof.
  unfold count, insertRow. rewrite filter_app, length_app. cbn [filter].
  destruct (P r); cbn [List.length]; lia.
Qed.

Lemma count_map_le (g : R -> R) (t : list R) :
  (forall r, P (g r) = true -> P r = true) ->
  count P (map g t) <= count P t.
Proof.
  intros Hg. unfold count.
  induction t as [|x t IH]; [cbn; lia|]. cbn [map filter].
  destruct (P (g x)) eqn:E.
  - rewrite (Hg _ E). cbn [List.length]. lia.
  - destruct (P x); cbn [List.length]; lia.
Qed.

Lemma count_updateRow_le id (f : R -> R) (t : list R) :
  (forall r, P (f r) = true -> P r = true) ->
  count P (updateRow pk id f t) <= count P t.
Proof.
  intros Hf. unfold updateRow. apply count_map_le.
  intros r. destruct (pk r =? id); auto.
Qed.

Lemma count_updateRow_absent id (f : R -> R) (t : list R) :
  ~ In id (map pk t) ->
  count P (updateRow pk id f t) = count P t.
Proof.
  unfold count, updateRow.
  induction t as [|x t IH]; intros Hnot; [reflexivity|].
  cbn [map filter]. cbn [map] in Hnot.
  assert (E : (pk x =? id) = false)
    by (apply Z.eqb_neq; intros Heq; apply Hnot; left; exact Heq).
  rewrite E.
  assert (IH' := IH (fun H => Hnot (or_intror H))).
  destruct (P x); cbn [List.length]; lia.
Qed.

Lemma count_updateRow_one id (f : R -> R) (t : list R) :
  NoDup (map pk t) ->
  count P (updateRow pk id f t) <= count P t + 1.
Proof.
  induction t as [|x t IH]; intros Hnd; [cbn; lia|].
  inversion Hnd as [|? ? Hx Hnd']; subst.
  destruct (pk x =? id) eqn:E.
  - apply Z.eqb_eq in E. rewrite E in Hx.
    pose proof (@count_updateRow_absent id f t Hx) as Habs.
    unfold count, updateRow in *. cbn [map filter].
    assert (E' : (pk x =? id) = true) by (apply Z.eqb_eq; exact E).
    rewrite E'.
    destruct (P (f x)), (P x); cbn [List.length]; lia.
  - specialize (IH Hnd').
    unfold count, updateRow in *. cbn [map filter]. rewrite E.
    destruct (P x); cbn [List.length]; lia.
Qed.
End TableFacts.

(** ** Running a service *)

Ltac unfold_service :=
  unfold prisoner_prison_id, prisoner_prison_prison_id in *;
  unfold transaction, bind, query, throwIf, orThrow, write, ret, throw in *.

(** Case analysis on the first condition a service result is stuck on. *)
Ltac case_step_in H :=
  match type of H with
  | context [match ?x with _ => _ end] =>
      lazymatch x with
      | context [match _ with _ => _ end] => fail
      | _ => destruct x eqn:?
      end
  end; cbv beta iota zeta in H.

Ltac case_step :=
  match goal with
  | |- context [match ?x with _ => _ end] =>
      lazymatch x with
      | context [match _ with _ => _ end] => fail
      | _ => destruct x eqn:?
      end
  end; cbv beta iota zeta.

Lemma transaction_throw A B (body : Service A) (after : A -> Service B) s e s1 :
  body s = (Throw e, s1) -> transaction body after s = (Throw e, s).
Proof. intros H. unfold transaction. rewrite H. reflexivity. Qed.

Lemma checkPrisonAccess_SuperAdmin ups pid :
  checkPrisonAccess ups pid SuperAdmin = true.
Proof. reflexivity. Qed.

Lemma checkPrisonAccess_own pid role :
  checkPrisonAccess (Some pid) pid role = true.
Proof.
  unfold checkPrisonAccess. destruct (UserRole_eqb role SuperAdmin); auto.
  apply Z.eqb_refl.
Qed.

(* ================================================================== *)
(** ** Capacity guard *)
(* ================================================================== *)

(** No prison holds more active prisoners than its capacity. *)
Definition capacity_ok (s : Store) : Prop :=
  forall id f,
    findByPk Prison.prison_id (Prisons s) id = Some f ->
    activeCount s id <= Prison.capacity f.

(** Prisoner keys are unique and were handed out by the counter. *)
Definition prisoner_keys_ok (s : Store) : Prop :=
  keys_ok Prisoner.prisoner_id (next_prisoner_id s) (Prisoners s).

(** The prison a registration goes to. *)
Definition registrationPrison (prisonerData : PrisonerData)
    (userPrisonId : option Z) (userRole : UserRole) : option Z :=
  if UserRole_eqb userRole SuperAdmin && truthyZ (d_prison_id prisonerData)
  then d_prison_id prisonerData
  else userPrisonId.

(** What [registerPrisoner] inserts. *)
Definition registeredRow (prisonerData : PrisonerData) (prisonId : Z)
    (now : Clock) (newId : Z) : Prisoner.row :=
  Prisoner.mk newId (d_nic prisonerData) (d_case_number prisonerData)
    (orElse (d_admission_date prisonerData) (today now))
    (d_expected_release_date prisonerData) None Active prisonId.

Definition afterRegistration (row : Prisoner.row) (s : Store) : Store :=
  mkStore (Prisons s) (insertRow row (Prisoners s))
    (Visitors s) (Visits s) (WorkRecords s) (BehaviourRecords s)
    (next_prison_id s) (next_prisoner_id s + 1) (next_visit_id s)
    (next_work_record_id s) (next_behaviour_id s).

(** The store a registration leaves: the one it found, or that store with
    one active prisoner more in a prison that had room. *)
Lemma registerPrisoner_store prisonerData ups role uid now s r s' :
  registerPrisoner prisonerData ups role uid now s = (r, s') ->
  s' = s \/
  exists prisonId f,
    registrationPrison prisonerData ups role = Some prisonId /\
    findByPk Prison.prison_id (Prisons s) prisonId = Some f /\
    activeCount s prisonId < Prison.capacity f /\
    s' = afterRegistration
           (registeredRow prisonerData prisonId now (next_prisoner_id s)) s.
Proof.
  intros H. unfold registerPrisoner, getPrisonerById in H. unfold_service.
  fold (registrationPrison prisonerData ups role) in H.
  destruct (registrationPrison prisonerData ups role) as [prisonId|] eqn:Hreg;
    cbn [truthyZ orElse negb] in H.
  2: { cbv beta iota in H. inversion H; auto. }
  repeat case_step_in H;
    try (inversion H; subst; auto; fail);
    (inversion H; subst; right; exists prisonId; eexists;
     repeat split; try eassumption; try reflexivity;
     match goal with
     | E : (_ <=? _) = false |- _ => apply Z.leb_gt in E; exact E
     end).
Qed.

Lemma registerPrisoner_full prisonerData ups role uid now s prisonId f :
  registrationPrison prisonerData ups role = Some prisonId ->
  prisonId <> 0 ->
  findByPk Prison.prison_id (Prisons s) prisonId = Some f ->
  Prison.capacity f <= activeCount s prisonId ->
  registerPrisoner prisonerData ups role uid now s
  = (Throw (JsErrorN "Prison has reached maximum capacity of "
                     (Prison.capacity f)), s).
Proof.
  intros Hreg Hnz Hf Hfull.
  unfold registerPrisoner. apply transaction_throw with (s1 := s).
  unfold_service. fold (registrationPrison prisonerData ups role).
  rewrite Hreg. cbn [truthyZ orElse negb].
  assert (E : (prisonId =? 0) = false) by (apply Z.eqb_neq; exact Hnz).
  rewrite E. cbn [negb]. cbv beta iota. rewrite Hf. cbv beta iota.
  assert (E2 : (Prison.capacity f <=? activeCount s prisonId) = true)
    by (apply Z.leb_le; exact Hfull).
  rewrite E2. reflexivity.
Qed.

(** The store a transfer leaves. *)
Lemma transferPrisoner_store prisonerId target reason ups role uid s r s' :
  transferPrisoner prisonerId target reason ups role uid s = (r, s') ->
  s' = s \/
  exists p t,
    findByPk Prisoner.prisoner_id (Prisoners s) prisonerId = Some p /\
    findByPk Prison.prison_id (Prisons s) target = Some t /\
    activeCount s target < Prison.capacity t /\
    s' = set_Prisoners
           (updateRow Prisoner.prisoner_id (Prisoner.prisoner_id p)
                      (moveTo target)) s.
Proof.
  intros H. unfold transferPrisoner in H. unfold_service.
  repeat case_step_in H;
    try (inversion H; subst; auto; fail).
  inversion H; subst. right. do 2 eexists.
  repeat split; try eassumption; try reflexivity.
  match goal with
  | E : (_ <=? _) = false |- _ => apply Z.leb_gt in E; exact E
  end.
Qed.

Lemma transferPrisoner_full prisonerId target reason ups role uid s p t :
  isAdmin role = true ->
  findByPk Prisoner.prisoner_id (Prisoners s) prisonerId = Some p ->
  checkPrisonAccess ups (Prisoner.prison_id p) role = true ->
  findByPk Prison.prison_id (Prisons s) target = Some t ->
  Prison.capacity t <= activeCount s target ->
  transferPrisoner prisonerId target reason ups role uid s
  = (Throw (JsErrorN "Target prison has reached maximum capacity of "
                     (Prison.capacity t)), s).
Proof.
  intros Hrole Hp Hacc Ht Hfull.
  unfold transferPrisoner. apply transaction_throw with (s1 := s).
  unfold_service. rewrite Hrole. cbn [negb]. cbv beta iota.
  rewrite Hp. cbv beta iota. rewrite Hacc. cbn [negb]. cbv beta iota.
  rewrite Ht. cbv beta iota.
  assert (E : (Prison.capacity t <=? activeCount s target) = true)
    by (apply Z.leb_le; exact Hfull).
  rewrite E. reflexivity.
Qed.

(** A transfer that throws leaves the store as it found it. *)
Lemma transferPrisoner_throw prisonerId target reason ups role uid s e s' :
  transferPrisoner prisonerId target reason ups role uid s = (Throw e, s') ->
  s' = s.
Proof.
  intros H. unfold transferPrisoner in H. unfold_service.
  repeat case_step_in H; inversion H; subst; auto.
Qed.

(** The store a prison update leaves. *)
Lemma updatePrison_store prisonId updateData role s r s' :
  updatePrison prisonId updateData role s = (r, s') ->
  s' = s \/
  exists f,
    findByPk Prison.prison_id (Prisons s) prisonId = Some f /\
    (forall c, pu_capacity updateData = Some c -> activeCount s prisonId <= c) /\
    s' = set_Prisons
           (updateRow Prison.prison_id (Prison.prison_id f)
                      (applyPrisonUpdate updateData)) s.
Proof.
  intros H. unfold updatePrison, getPrisonById in H. unfold_service.
  destruct (pu_capacity updateData) as [c|] eqn:Hc;
    repeat case_step_in H;
    try (inversion H; subst; auto; fail);
    (inversion H; subst; right; eexists;
     repeat split; try eassumption; try reflexivity;
     intros c' Hc'; inversion Hc'; subst;
     match goal with
     | E : (_ <? _) = false |- _ <= _ => apply Z.ltb_ge in E; exact E
     end).
Qed.

Lemma updatePrison_below_occupancy prisonId updateData s f c :
  findByPk Prison.prison_id (Prisons s) prisonId = Some f ->
  pu_capacity updateData = Some c ->
  c < activeCount s prisonId ->
  exists e, updatePrison prisonId updateData SuperAdmin s = (Throw e, s).
Proof.
  intros Hf Hc Hlt.
  unfold updatePrison, getPrisonById. unfold_service.
  cbn [UserRole_eqb negb]. cbv beta iota. rewrite Hf, Hc. cbv beta iota.
  assert (E : (c <? activeCount s prisonId) = true)
    by (apply Z.ltb_lt; exact Hlt).
  repeat case_step; try (eexists; reflexivity); congruence.
Qed.

(** With the name unchanged and a capacity that is not negative, the
    rejection is the occupancy one. *)
Lemma updatePrison_below_occupancy_error prisonId s f c :
  findByPk Prison.prison_id (Prisons s) prisonId = Some f ->
  0 <= c < activeCount s prisonId ->
  updatePrison prisonId (mkPrisonUpdate None (Some c) None) SuperAdmin s
  = (Throw (JsError ("Cannot reduce capacity below current occupancy of "
                     ++ decimal (activeCount s prisonId) ++ " prisoners")), s).
Proof.
  intros Hf Hc.
  unfold updatePrison, getPrisonById. unfold_service.
  cbn [UserRole_eqb negb pu_prison_name pu_capacity truthyS andb].
  cbv beta iota. rewrite Hf. cbv beta iota.
  assert (E0 : (c <? 0) = false) by (apply Z.ltb_ge; lia).
  assert (E : (c <? activeCount s prisonId) = true) by (apply Z.ltb_lt; lia).
  rewrite E0. cbv beta iota. rewrite E. reflexivity.
Qed.

(** The store a release and a deletion leave. *)
Lemma releasePrisoner_store prisonerId reason notes ups role uid now s r s' :
  releasePrisoner prisonerId reason notes ups role uid now s = (r, s') ->
  s' = s \/
  exists p,
    findByPk Prisoner.prisoner_id (Prisoners s) prisonerId = Some p /\
    s' = set_Prisoners
           (updateRow Prisoner.prisoner_id (Prisoner.prisoner_id p)
                      (markLeft Released (today now))) s.
Proof.
  intros H. unfold releasePrisoner in H. unfold_service.
  repeat case_step_in H;
    try (inversion H; subst; auto; fail).
  inversion H; subst. right. eexists. split; reflexivity.
Qed.

Lemma deletePrisoner_store prisonerId reason ups role uid now s r s' :
  deletePrisoner prisonerId reason ups role uid now s = (r, s') ->
  s' = s \/
  exists p st,
    findByPk Prisoner.prisoner_id (Prisoners s) prisonerId = Some p /\
    (st = Released \/ st = Deceased) /\
    s' = set_Prisoners
           (updateRow Prisoner.prisoner_id (Prisoner.prisoner_id p)
                      (markLeft st (today now))) s.
Proof.
  intros H. unfold deletePrisoner in H. unfold_service.
  repeat case_step_in H;
    try (inversion H; subst; auto; fail);
    (inversion H; subst; right; do 2 eexists;
     split; [reflexivity | split; [|reflexivity]]; auto).
Qed.

(** *** The guarded operations keep the capacity bound *)

Lemma markLeft_id st d p :
  Prisoner.prisoner_id (markLeft st d p) = Prisoner.prisoner_id p.
Proof. reflexivity. Qed.

Lemma moveTo_id target p :
  Prisoner.prisoner_id (moveTo target p) = Prisoner.prisoner_id p.
Proof. reflexivity. Qed.

Lemma registerPrisoner_capacity_ok prisonerData ups role uid now s :
  capacity_ok s ->
  capacity_ok (snd (registerPrisoner prisonerData ups role uid now s)).
Proof.
  intros Hok.
  destruct (registerPrisoner prisonerData ups role uid now s) as [r s'] eqn:E.
  apply registerPrisoner_store in E.
  destruct E as [->|(prisonId & f & _ & Hf & Hroom & ->)]; [exact Hok|].
  cbn [snd]. intros id g Hg. cbn [Prisons afterRegistration] in Hg.
  unfold activeCount. cbn [Prisoners afterRegistration].
  rewrite count_insertRow. specialize (Hok id g Hg).
  unfold activeCount in Hok, Hroom.
  cbn [registeredRow Prisoner.prison_id Prisoner.isActive Prisoner.status
       PrisonerStatus_eqb].
  destruct (prisonId =? id) eqn:Eid; cbn [andb].
  - apply Z.eqb_eq in Eid. subst id. rewrite Hf in Hg.
    inversion Hg; subst. lia.
  - lia.
Qed.

Lemma registerPrisoner_keys_ok prisonerData ups role uid now s :
  prisoner_keys_ok s ->
  prisoner_keys_ok (snd (registerPrisoner prisonerData ups role uid now s)).
Proof.
  intros Hok.
  destruct (registerPrisoner prisonerData ups role uid now s) as [r s'] eqn:E.
  apply registerPrisoner_store in E.
  destruct E as [->|(prisonId & f & _ & _ & _ & ->)]; [exact Hok|].
  cbn [snd]. unfold prisoner_keys_ok.
  cbn [Prisoners next_prisoner_id afterRegistration].
  apply keys_ok_insertRow; [exact Hok | reflexivity].
Qed.

Lemma transferPrisoner_capacity_ok prisonerId target reason ups role uid s :
  prisoner_keys_ok s -> capacity_ok s ->
  capacity_ok (snd (transferPrisoner prisonerId target reason ups role uid s)).
Proof.
  intros [Hnd _] Hok.
  destruct (transferPrisoner prisonerId target reason ups role uid s)
    as [r s'] eqn:E.
  apply transferPrisoner_store in E.
  destruct E as [->|(p & t & Hp & Ht & Hroom & ->)]; [exact Hok|].
  cbn [snd]. intros id g Hg. cbn [Prisons set_Prisons set_Prisoners] in Hg.
  unfold activeCount. cbn [Prisoners set_Prisoners].
  specialize (Hok id g Hg). unfold activeCount in Hok, Hroom.
  destruct (Z.eq_dec id target) as [->|Hne].
  - rewrite Ht in Hg. inversion Hg; subst g.
    pose proof (@count_updateRow_one _ Prisoner.prisoner_id
                  (fun p0 => (Prisoner.prison_id p0 =? target)
                             && Prisoner.isActive p0)
                  (Prisoner.prisoner_id p) (moveTo target) (Prisoners s) Hnd).
    lia.
  - pose proof (@count_updateRow_le _ Prisoner.prisoner_id
                  (fun p0 => (Prisoner.prison_id p0 =? id)
                             && Prisoner.isActive p0)
                  (Prisoner.prisoner_id p) (moveTo target) (Prisoners s)) as Hle.
    assert (forall r0,
               (Prisoner.prison_id (moveTo target r0) =? id)
               && Prisoner.isActive (moveTo target r0) = true ->
               (Prisoner.prison_id r0 =? id) && Prisoner.isActive r0 = true).
    { intros r0. cbn [moveTo Prisoner.prison_id].
      assert (E : (target =? id) = false) by (apply Z.eqb_neq; lia).
      rewrite E. cbn [andb]. discriminate. }
    specialize (Hle H). lia.
Qed.

Lemma transferPrisoner_keys_ok prisonerId target reason ups role uid s :
  prisoner_keys_ok s ->
  prisoner_keys_ok (snd (transferPrisoner prisonerId target reason ups role uid s)).
Proof.
  intros Hok.
  destruct (transferPrisoner prisonerId target reason ups role uid s)
    as [r s'] eqn:E.
  apply transferPrisoner_store in E.
  destruct E as [->|(p & t & _ & _ & _ & ->)]; [exact Hok|].
  cbn [snd]. unfold prisoner_keys_ok. cbn [Prisoners next_prisoner_id set_Prisoners].
  apply keys_ok_updateRow; [apply moveTo_id | exact Hok].
Qed.

Lemma updatePrison_capacity_ok prisonId updateData role s :
  capacity_ok s ->
  capacity_ok (snd (updatePrison prisonId updateData role s)).
Proof.
  intros Hok.
  destruct (updatePrison prisonId updateData role s) as [r s'] eqn:E.
  apply updatePrison_store in E.
  destruct E as [->|(f & Hf & Hcap & ->)]; [exact Hok|].
  cbn [snd]. intros id g Hg. cbn [Prisons set_Prisons] in Hg.
  unfold activeCount. cbn [Prisoners set_Prisons].
  fold (activeCount s id).
  pose proof (findByPk_Some _ _ _ Hf) as [Hfid _].
  rewrite Hfid in Hg.
  destruct (Z.eq_dec id prisonId) as [->|Hne].
  - rewrite findByPk_updateRow_same in Hg by reflexivity.
    rewrite Hf in Hg. cbn [option_map] in Hg. inversion Hg; subst g.
    cbn [applyPrisonUpdate Prison.capacity].
    destruct (pu_capacity updateData) as [c|] eqn:Hc; cbn [orElse].
    + apply Hcap. reflexivity.
    + apply Hok. exact Hf.
  - rewrite findByPk_updateRow_other in Hg by (reflexivity || exact Hne).
    apply Hok. exact Hg.
Qed.

Lemma markLeft_capacity_ok st d id s :
  st <> Active ->
  capacity_ok s ->
  capacity_ok (set_Prisoners
                 (updateRow Prisoner.prisoner_id id (markLeft st d)) s).
Proof.
  intros Hst Hok pid g Hg. cbn [Prisons set_Prisoners] in Hg.
  unfold activeCount. cbn [Prisoners set_Prisoners].
  specialize (Hok pid g Hg). unfold activeCount in Hok.
  pose proof (@count_updateRow_le _ Prisoner.prisoner_id
                (fun p0 => (Prisoner.prison_id p0 =? pid)
                           && Prisoner.isActive p0)
                id (markLeft st d) (Prisoners s)) as Hle.
  assert (forall r0,
             (Prisoner.prison_id (markLeft st d r0) =? pid)
             && Prisoner.isActive (markLeft st d r0) = true ->
             (Prisoner.prison_id r0 =? pid) && Prisoner.isActive r0 = true).
  { intros r0. unfold Prisoner.isActive. cbn [markLeft Prisoner.status].
    destruct st; cbn [PrisonerStatus_eqb]; try congruence;
      rewrite andb_false_r; discriminate. }
  specialize (Hle H). lia.
Qed.

Lemma releasePrisoner_capacity_ok prisonerId reason notes ups role uid now s :
  capacity_ok s ->
  capacity_ok (snd (releasePrisoner prisonerId reason notes ups role uid now s)).
Proof.
  intros Hok.
  destruct (releasePrisoner prisonerId reason notes ups role uid now s)
    as [r s'] eqn:E.
  apply releasePrisoner_store in E.
  destruct E as [->|(p & _ & ->)]; [exact Hok|].
  cbn [snd]. apply markLeft_capacity_ok; [discriminate | exact Hok].
Qed.

Lemma deletePrisoner_capacity_ok prisonerId reason ups role uid now s :
  capacity_ok s ->
  capacity_ok (snd (deletePrisoner prisonerId reason ups role uid now s)).
Proof.
  intros Hok.
  destruct (deletePrisoner prisonerId reason ups role uid now s)
    as [r s'] eqn:E.
  apply deletePrisoner_store in E.
  destruct E as [->|(p & st & _ & Hst & ->)]; [exact Hok|].
  cbn [snd]. apply markLeft_capacity_ok; [|exact Hok].
  destruct Hst; subst; discriminate.
Qed.

Lemma markLeft_keys_ok st d id s :
  prisoner_keys_ok s ->
  prisoner_keys_ok (set_Prisoners
                      (updateRow Prisoner.prisoner_id id (markLeft st d)) s).
Proof.
  intros Hok. unfold prisoner_keys_ok.
  cbn [Prisoners next_prisoner_id set_Prisoners].
  apply keys_ok_updateRow; [apply markLeft_id | exact Hok].
Qed.

(** The operations that admit, move or discharge a prisoner or resize a
    prison, with their arguments. *)
Inductive GuardedCommand :=
| Register (prisonerData : PrisonerData) (userPrisonId : option Z)
    (userRole : UserRole) (userId : Z) (now : Clock)
| Transfer (prisonerId targetPrisonId : Z) (transferReason : option string)
    (userPrisonId : option Z) (userRole : UserRole) (userId : Z)
| UpdatePrison (prisonId : Z) (updateData : PrisonUpdate) (userRole : UserRole)
| Release (prisonerId : Z) (releaseReason releaseNotes : option string)
    (userPrisonId : option Z) (userRole : UserRole) (userId : Z)
    (now : Clock)
| Delete (prisonerId : Z) (reason : option string) (userPrisonId : option Z)
    (userRole : UserRole) (userId : Z) (now : Clock).

Definition runGuarded (c : GuardedCommand) (s : Store) : Store :=
  match c with
  | Register d ups role uid now => snd (registerPrisoner d ups role uid now s)
  | Transfer id target reason ups role uid =>
      snd (transferPrisoner id target reason ups role uid s)
  | UpdatePrison id u role => snd (updatePrison id u role s)
  | Release id reason notes ups role uid now =>
      snd (releasePrisoner id reason notes ups role uid now s)
  | Delete id reason ups role uid now =>
      snd (deletePrisoner id reason ups role uid now s)
  end.

Lemma runGuarded_keys_ok c s :
  prisoner_keys_ok s -> prisoner_keys_ok (runGuarded c s).
Proof.
  intros Hok. destruct c; cbn [runGuarded].
  - apply registerPrisoner_keys_ok; exact Hok.
  - apply transferPrisoner_keys_ok; exact Hok.
  - destruct (updatePrison prisonId updateData userRole s) as [r s'] eqn:E.
    apply updatePrison_store in E.
    destruct E as [->|(f & _ & _ & ->)]; exact Hok.
  - destruct (releasePrisoner prisonerId releaseReason releaseNotes
                userPrisonId userRole userId now s) as [r s'] eqn:E.
    apply releasePrisoner_store in E.
    destruct E as [->|(p & _ & ->)]; [exact Hok|].
    apply markLeft_keys_ok; exact Hok.
  - destruct (deletePrisoner prisonerId reason userPrisonId userRole userId
                now s) as [r s'] eqn:E.
    apply deletePrisoner_store in E.
    destruct E as [->|(p & st & _ & _ & ->)]; [exact Hok|].
    apply markLeft_keys_ok; exact Hok.
Qed.

Lemma runGuarded_capacity_ok c s :
  prisoner_keys_ok s -> capacity_ok s -> capacity_ok (runGuarded c s).
Proof.
  intros Hk Hok. destruct c; cbn [runGuarded].
  - apply registerPrisoner_capacity_ok; exact Hok.
  - apply transferPrisoner_capacity_ok; assumption.
  - apply updatePrison_capacity_ok; exact Hok.
  - apply releasePrisoner_capacity_ok; exact Hok.
  - apply deletePrisoner_capacity_ok; exact Hok.
Qed.

(** Registration, transfer, prison update, release and deletion, in any
    order and with any arguments, never take a prison over its capacity. *)
Lemma guarded_commands_capacity_ok (cmds : list GuardedCommand) : forall s,
  prisoner_keys_ok s -> capacity_ok s ->
  capacity_ok (fold_left (fun s c => runGuarded c s) cmds s).
Proof.
  induction cmds as [|c cmds IH]; intros s Hk Hok; [exact Hok|].
  cbn [fold_left]. apply IH.
  - apply runGuarded_keys_ok; exact Hk.
  - apply runGuarded_capacity_ok; assumption.
Qed.

(** *** The update of a prisoner is not guarded *)

(** A prison of capacity 1 with one active prisoner and one released. *)
Definition fullPrison : Store :=
  mkStore
    [Prison.mk 1 "Welikada" 1 true]
    [Prisoner.mk 1 "901234567V" "CASE-1" (mkDate 2024 1 10) None None Active 1;
     Prisoner.mk 2 "911234567V" "CASE-2" (mkDate 2023 3 5) None
                 (Some (mkDate 2024 6 1)) Released 1]
    [] [] [] []
    2 3 1 1 1.

Lemma fullPrison_capacity_ok : capacity_ok fullPrison.
Proof.
  intros id f Hf. apply findByPk_Some in Hf as [Hid Hin].
  destruct Hin as [<-|[]]. cbn in Hid. subst id. vm_compute. discriminate.
Qed.

(** C1: the capacity bound does not survive every committed operation.
    [updatePrisoner] writes the request body, which may carry
    [status: 'Active'], without the capacity check of [registerPrisoner]
    and [transferPrisoner]: on a prison of capacity 1 that holds one active
    and one released prisoner, setting the released prisoner back to Active
    commits and leaves two active prisoners. *)
Theorem updatePrisoner_exceeds_capacity :
  let request := mkPrisonerUpdate None None None (Some Active) None in
  let result := updatePrisoner 2 request (Some 1) Officer 7 fullPrison in
  capacity_ok fullPrison /\
  prisoner_keys_ok fullPrison /\
  succeeds result = true /\
  findByPk Prison.prison_id (Prisons (snd result)) 1
    = Some (Prison.mk 1 "Welikada" 1 true) /\
  activeCount (snd result) 1 = 2 /\
  ~ capacity_ok (snd result).
Proof.
  cbv zeta. split; [exact fullPrison_capacity_ok|].
  split.
  { split.
    - cbn. repeat constructor; cbn; intuition lia.
    - cbn. repeat constructor; cbn; lia. }
  split; [vm_compute; reflexivity|].
  split; [vm_compute; reflexivity|].
  split; [vm_compute; reflexivity|].
  intros Hok.
  specialize (Hok 1 (Prison.mk 1 "Welikada" 1 true)).
  assert (Hf : findByPk Prison.prison_id
                 (Prisons (snd (updatePrisoner 2
                    (mkPrisonerUpdate None None None (Some Active) None)
                    (Some 1) Officer 7 fullPrison))) 1
               = Some (Prison.mk 1 "Welikada" 1 true))
    by (vm_compute; reflexivity).
  specialize (Hok Hf). vm_compute in Hok. apply Hok. reflexivity.
Qed.

(* ================================================================== *)
(** ** Lifecycle: transfer *)
(* ================================================================== *)

(** What the caller and the store must offer for a transfer. *)
Definition transferable (s : Store) (prisonerId target : Z)
    (ups : option Z) (role : UserRole) (p : Prisoner.row) (t : Prison.row)
  : Prop :=
  isAdmin role = true /\
  findByPk Prisoner.prisoner_id (Prisoners s) prisonerId = Some p /\
  checkPrisonAccess ups (Prisoner.prison_id p) role = true /\
  findByPk Prison.prison_id (Prisons s) target = Some t /\
  activeCount s target < Prison.capacity t.

Lemma transferPrisoner_cases prisonerId target reason ups role uid s :
  (exists e, transferPrisoner prisonerId target reason ups role uid s
             = (Throw e, s)) \/
  (exists p t,
      transferable s prisonerId target ups role p t /\
      transferPrisoner prisonerId target reason ups role uid s
      = (Ok (moveTo target p),
         set_Prisoners
           (updateRow Prisoner.prisoner_id (Prisoner.prisoner_id p)
                      (moveTo target)) s)).
Proof.
  unfold transferable, transferPrisoner. unfold_service.
  repeat case_step; try (left; eexists; reflexivity).
  right. do 2 eexists. repeat split; try reflexivity.
  - destruct (isAdmin role); [reflexivity | discriminate].
  - match goal with
    | E : negb (checkPrisonAccess _ _ _) = false |- _ =>
        apply negb_false_iff in E; exact E
    end.
  - match goal with
    | E : (_ <=? _) = false |- _ => apply Z.leb_gt in E; exact E
    end.
Qed.

Lemma transferPrisoner_run prisonerId target reason ups role uid s p t :
  transferable s prisonerId target ups role p t ->
  transferPrisoner prisonerId target reason ups role uid s
  = (Ok (moveTo target p),
     set_Prisoners
       (updateRow Prisoner.prisoner_id (Prisoner.prisoner_id p)
                  (moveTo target)) s).
Proof.
  intros (Hrole & Hp & Hacc & Ht & Hroom).
  unfold transferPrisoner. unfold_service.
  rewrite Hrole. cbn [negb]. cbv beta iota. rewrite Hp. cbv beta iota.
  rewrite Hacc. cbn [negb]. cbv beta iota. rewrite Ht. cbv beta iota.
  assert (E : (Prison.capacity t <=? activeCount s target) = false)
    by (apply Z.leb_gt; exact Hroom).
  rewrite E. reflexivity.
Qed.

(** The specification's reading of the precondition: a person whose status
    is not Active cannot be transferred. *)
Definition transfer_requires_Active : Prop :=
  forall s prisonerId target reason ups role uid p,
    findByPk Prisoner.prisoner_id (Prisoners s) prisonerId = Some p ->
    Prisoner.status p <> Active ->
    exists e,
      transferPrisoner prisonerId target reason ups role uid s = (Throw e, s).

(** Two prisons with room; prisoner 2 was released from the first. *)
Definition twoPrisons : Store :=
  mkStore
    [Prison.mk 1 "Welikada" 5 true; Prison.mk 2 "Bogambara" 5 true]
    [Prisoner.mk 1 "901234567V" "CASE-1" (mkDate 2024 1 10) None None Active 1;
     Prisoner.mk 2 "911234567V" "CASE-2" (mkDate 2023 3 5) None
                 (Some (mkDate 2024 6 1)) Released 1;
     Prisoner.mk 3 "921234567V" "CASE-3" (mkDate 2022 7 9) None
                 (Some (mkDate 2024 2 2)) Deceased 1]
    [] [] [] []
    3 4 1 1 1.

Definition releasedPerson : Prisoner.row :=
  Prisoner.mk 2 "911234567V" "CASE-2" (mkDate 2023 3 5) None
              (Some (mkDate 2024 6 1)) Released 1.

(** C2, as stated, fails: the transfer of a Released person succeeds, moves
    the person to the target prison and makes the person Active again. *)
Lemma transferPrisoner_released_person :
  let result := transferPrisoner 2 2 None None SuperAdmin 7 twoPrisons in
  findByPk Prisoner.prisoner_id (Prisoners twoPrisons) 2 = Some releasedPerson /\
  Prisoner.status releasedPerson = Released /\
  succeeds result = true /\
  findByPk Prisoner.prisoner_id (Prisoners (snd result)) 2
  = Some (Prisoner.mk 2 "911234567V" "CASE-2" (mkDate 2023 3 5) None
                      (Some (mkDate 2024 6 1)) Active 2) /\
  ~ transfer_requires_Active.
Proof.
  cbv zeta.
  split; [vm_compute; reflexivity|].
  split; [vm_compute; reflexivity|].
  split; [vm_compute; reflexivity|].
  split; [vm_compute; reflexivity|].
  intros Hclaim.
  destruct (Hclaim twoPrisons 2 2 None None SuperAdmin 7 releasedPerson)
    as [e He].
  - vm_compute. reflexivity.
  - discriminate.
  - vm_compute in He. discriminate.
Qed.

(** C2, amended: [transferPrisoner] does not look at the person's status.
    It succeeds exactly when the caller is a Prison Admin or Super Admin
    with access to the person's prison and the target prison exists and
    holds fewer active prisoners than its capacity; on success the person's
    prison is the target and the status is Active, whatever it was; a
    failed transfer leaves the store as it was. *)
Theorem transferPrisoner_spec :
  forall s prisonerId target reason ups role uid,
    let result := transferPrisoner prisonerId target reason ups role uid s in
    (succeeds result = true <->
     exists p t, transferable s prisonerId target ups role p t) /\
    (forall p,
        findByPk Prisoner.prisoner_id (Prisoners s) prisonerId = Some p ->
        succeeds result = true ->
        exists p',
          findByPk Prisoner.prisoner_id (Prisoners (snd result)) prisonerId
          = Some p' /\
          p' = moveTo target p /\
          Prisoner.prison_id p' = target /\
          Prisoner.status p' = Active) /\
    (succeeds result = false -> snd result = s).
Proof.
  intros s prisonerId target reason ups role uid. cbv zeta.
  destruct (transferPrisoner_cases prisonerId target reason ups role uid s)
    as [[e He]|(p & t & Hcond & Hrun)].
  - rewrite He. unfold succeeds. cbn [fst snd]. repeat split.
    + discriminate.
    + intros (p & t & Hcond).
      rewrite (transferPrisoner_run reason uid Hcond) in He. discriminate.
    + discriminate.
  - rewrite Hrun. unfold succeeds. cbn [fst snd]. repeat split.
    + intros _. exists p, t. exact Hcond.
    + intros p0 Hp0 _. destruct Hcond as (_ & Hp & _).
      rewrite Hp in Hp0. inversion Hp0; subst p0.
      exists (moveTo target p). cbn [Prisoners set_Prisoners].
      pose proof (findByPk_Some _ _ _ Hp) as [Hid _].
      rewrite Hid.
      rewrite findByPk_updateRow_same by reflexivity.
      rewrite Hp. repeat split.
    + discriminate.
Qed.

(* ================================================================== *)
(** ** Lifecycle: release and decease *)
(* ================================================================== *)

Definition releasable (s : Store) (prisonerId : Z) (ups : option Z)
    (role : UserRole) (p : Prisoner.row) : Prop :=
  isAdmin role = true /\
  findByPk Prisoner.prisoner_id (Prisoners s) prisonerId = Some p /\
  checkPrisonAccess ups (Prisoner.prison_id p) role = true /\
  Prisoner.status p <> Released.

Definition deletable (s : Store) (prisonerId : Z) (ups : option Z)
    (role : UserRole) (p : Prisoner.row) : Prop :=
  isAdmin role = true /\
  findByPk Prisoner.prisoner_id (Prisoners s) prisonerId = Some p /\
  checkPrisonAccess ups (Prisoner.prison_id p) role = true.

(** [reason === 'deceased' ? DECEASED : RELEASED] *)
Definition statusForReason (reason : option string) : PrisonerStatus :=
  match reason with
  | Some r => if String.eqb r "deceased" then Deceased else Released
  | None => Released
  end.

Lemma releasePrisoner_cases prisonerId reason notes ups role uid now s :
  (exists e, releasePrisoner prisonerId reason notes ups role uid now s
             = (Throw e, s)) \/
  (exists p,
      releasable s prisonerId ups role p /\
      releasePrisoner prisonerId reason notes ups role uid now s
      = (Ok (markLeft Released (today now) p),
         set_Prisoners
           (updateRow Prisoner.prisoner_id (Prisoner.prisoner_id p)
                      (markLeft Released (today now))) s)).
Proof.
  unfold releasable, releasePrisoner. unfold_service.
  repeat case_step; try (left; eexists; reflexivity).
  right. eexists. repeat split; try reflexivity.
  - destruct (isAdmin role); [reflexivity | discriminate].
  - match goal with
    | E : negb (checkPrisonAccess _ _ _) = false |- _ =>
        apply negb_false_iff in E; exact E
    end.
  - intros Hst.
    match goal with
    | E : PrisonerStatus_eqb _ Released = false |- _ =>
        rewrite Hst in E; discriminate
    end.
Qed.

Lemma releasePrisoner_run prisonerId reason notes ups role uid now s p :
  releasable s prisonerId ups role p ->
  releasePrisoner prisonerId reason notes ups role uid now s
  = (Ok (markLeft Released (today now) p),
     set_Prisoners
       (updateRow Prisoner.prisoner_id (Prisoner.prisoner_id p)
                  (markLeft Released (today now))) s).
Proof.
  intros (Hrole & Hp & Hacc & Hst).
  unfold releasePrisoner. unfold_service.
  rewrite Hrole. cbn [negb]. cbv beta iota. rewrite Hp. cbv beta iota.
  rewrite Hacc. cbn [negb]. cbv beta iota.
  assert (E : PrisonerStatus_eqb (Prisoner.status p) Released = false).
  { destruct (PrisonerStatus_eqb (Prisoner.status p) Released) eqn:E; auto.
    apply PrisonerStatus_eqb_eq in E. contradiction. }
  rewrite E. reflexivity.
Qed.

Lemma releasePrisoner_already_released prisonerId reason notes ups role uid
    now s p :
  isAdmin role = true ->
  findByPk Prisoner.prisoner_id (Prisoners s) prisonerId = Some p ->
  checkPrisonAccess ups (Prisoner.prison_id p) role = true ->
  Prisoner.status p = Released ->
  releasePrisoner prisonerId reason notes ups role uid now s
  = (Throw (JsError "Prisoner is already released"), s).
Proof.
  intros Hrole Hp Hacc Hst.
  unfold releasePrisoner. unfold_service.
  rewrite Hrole. cbn [negb]. cbv beta iota. rewrite Hp. cbv beta iota.
  rewrite Hacc. cbn [negb]. cbv beta iota. rewrite Hst. reflexivity.
Qed.

Lemma deletePrisoner_cases prisonerId reason ups role uid now s :
  (exists e, deletePrisoner prisonerId reason ups role uid now s
             = (Throw e, s)) \/
  (exists p,
      deletable s prisonerId ups role p /\
      deletePrisoner prisonerId reason ups role uid now s
      = (Ok (statusForReason reason),
         set_Prisoners
           (updateRow Prisoner.prisoner_id (Prisoner.prisoner_id p)
                      (markLeft (statusForReason reason) (today now))) s)).
Proof.
  unfold deletable, deletePrisoner. unfold_service.
  fold (statusForReason reason).
  repeat case_step; try (left; eexists; reflexivity).
  right. eexists. repeat split; try reflexivity.
  - destruct (isAdmin role); [reflexivity | discriminate].
  - match goal with
    | E : negb (checkPrisonAccess _ _ _) = false |- _ =>
        apply negb_false_iff in E; exact E
    end.
Qed.

Lemma deletePrisoner_run prisonerId reason ups role uid now s p :
  deletable s prisonerId ups role p ->
  deletePrisoner prisonerId reason ups role uid now s
  = (Ok (statusForReason reason),
     set_Prisoners
       (updateRow Prisoner.prisoner_id (Prisoner.prisoner_id p)
                  (markLeft (statusForReason reason) (today now))) s).
Proof.
  intros (Hrole & Hp & Hacc).
  unfold deletePrisoner. unfold_service. fold (statusForReason reason).
  rewrite Hrole. cbn [negb]. cbv beta iota. rewrite Hp. cbv beta iota.
  rewrite Hacc. reflexivity.
Qed.

(** The specification's reading of the precondition: a person whose status
    is not Active can be neither released nor marked deceased. *)
Definition discharge_requires_Active : Prop :=
  forall s prisonerId reason notes ups role uid now p,
    findByPk Prisoner.prisoner_id (Prisoners s) prisonerId = Some p ->
    Prisoner.status p <> Active ->
    (exists e, releasePrisoner prisonerId reason notes ups role uid now s
               = (Throw e, s)) /\
    (exists e, deletePrisoner prisonerId reason ups role uid now s
               = (Throw e, s)).

(** 2024-09-01 10:00 UTC, read on a server at UTC+05:30. *)
Definition aClock : Clock := mkClock (19967 * 86400000 + 36000000) 330.

(** C3, as stated, fails: a Deceased person is released, and a Released
    person is marked deceased, each time with a new actual release date. *)
Lemma discharge_of_discharged_person :
  let released := releasePrisoner 3 None None None SuperAdmin 7 aClock twoPrisons in
  let deceased := deletePrisoner 2 (Some "deceased") None SuperAdmin 7 aClock twoPrisons in
  today aClock = mkDate 2024 9 1 /\
  findByPk Prisoner.prisoner_id (Prisoners twoPrisons) 3
  = Some (Prisoner.mk 3 "921234567V" "CASE-3" (mkDate 2022 7 9) None
                      (Some (mkDate 2024 2 2)) Deceased 1) /\
  succeeds released = true /\
  findByPk Prisoner.prisoner_id (Prisoners (snd released)) 3
  = Some (Prisoner.mk 3 "921234567V" "CASE-3" (mkDate 2022 7 9) None
                      (Some (mkDate 2024 9 1)) Released 1) /\
  findByPk Prisoner.prisoner_id (Prisoners twoPrisons) 2 = Some releasedPerson /\
  succeeds deceased = true /\
  findByPk Prisoner.prisoner_id (Prisoners (snd deceased)) 2
  = Some (Prisoner.mk 2 "911234567V" "CASE-2" (mkDate 2023 3 5) None
                      (Some (mkDate 2024 9 1)) Deceased 1) /\
  ~ discharge_requires_Active.
Proof.
  cbv zeta.
  split; [vm_compute; reflexivity|].
  split; [vm_compute; reflexivity|].
  split; [vm_compute; reflexivity|].
  split; [vm_compute; reflexivity|].
  split; [vm_compute; reflexivity|].
  split; [vm_compute; reflexivity|].
  split; [vm_compute; reflexivity|].
  intros Hclaim.
  destruct (Hclaim twoPrisons 2 (Some "deceased") None None SuperAdmin 7
                   aClock releasedPerson) as [_ [e He]].
  - vm_compute. reflexivity.
  - discriminate.
  - vm_compute in He. discriminate.
Qed.

(** C3, amended.  [releasePrisoner] refuses only a person who is already
    Released: it succeeds exactly when the caller is a Prison Admin or
    Super Admin with access to the person's prison and the status is not
    Released, and then sets the status to Released and the actual release
    date to today; on a Released person it throws 'Prisoner is already
    released'.  [deletePrisoner] checks no status: it succeeds exactly when
    the caller is such an administrator with access, and sets the status to
    Deceased (reason 'deceased') or Released (any other reason) and the
    actual release date to today.  A call that throws leaves the store as
    it was. *)
Theorem discharge_spec :
  forall s prisonerId ups role uid now,
    (forall reason notes,
        let result :=
          releasePrisoner prisonerId reason notes ups role uid now s in
        (succeeds result = true <->
         exists p, releasable s prisonerId ups role p) /\
        (forall p,
            findByPk Prisoner.prisoner_id (Prisoners s) prisonerId = Some p ->
            succeeds result = true ->
            exists p',
              findByPk Prisoner.prisoner_id (Prisoners (snd result)) prisonerId
              = Some p' /\
              p' = markLeft Released (today now) p /\
              Prisoner.status p' = Released /\
              Prisoner.actual_release_date p' = Some (today now)) /\
        (forall p,
            isAdmin role = true ->
            findByPk Prisoner.prisoner_id (Prisoners s) prisonerId = Some p ->
            checkPrisonAccess ups (Prisoner.prison_id p) role = true ->
            Prisoner.status p = Released ->
            result = (Throw (JsError "Prisoner is already released"), s)) /\
        (succeeds result = false -> snd result = s)) /\
    (forall reason,
        let result := deletePrisoner prisonerId reason ups role uid now s in
        (succeeds result = true <->
         exists p, deletable s prisonerId ups role p) /\
        (forall p,
            findByPk Prisoner.prisoner_id (Prisoners s) prisonerId = Some p ->
            succeeds result = true ->
            exists p',
              findByPk Prisoner.prisoner_id (Prisoners (snd result)) prisonerId
              = Some p' /\
              p' = markLeft (statusForReason reason) (today now) p /\
              Prisoner.status p' = statusForReason reason /\
              Prisoner.actual_release_date p' = Some (today now)) /\
        (succeeds result = false -> snd result = s)).
Proof.
  intros s prisonerId ups role uid now. split.
  - intros reason notes. cbv zeta.
    destruct (releasePrisoner_cases prisonerId reason notes ups role uid now s)
      as [[e He]|(p & Hcond & Hrun)].
    + rewrite He. unfold succeeds. cbn [fst snd]. repeat split.
      * discriminate.
      * intros (p & Hcond).
        rewrite (releasePrisoner_run reason notes uid now Hcond) in He.
        discriminate.
      * discriminate.
      * intros p Hrole Hp Hacc Hst. rewrite <- He.
        apply releasePrisoner_already_released with (p := p); assumption.
    + rewrite Hrun. unfold succeeds. cbn [fst snd]. repeat split.
      * intros _. exists p. exact Hcond.
      * intros p0 Hp0 _. destruct Hcond as (_ & Hp & _).
        rewrite Hp in Hp0. inversion Hp0; subst p0.
        exists (markLeft Released (today now) p).
        cbn [Prisoners set_Prisoners].
        pose proof (findByPk_Some _ _ _ Hp) as [Hid _]. rewrite Hid.
        rewrite findByPk_updateRow_same by reflexivity.
        rewrite Hp. repeat split.
      * intros p0 _ Hp0 _ Hst. destruct Hcond as (_ & Hp & _ & Hne).
        rewrite Hp in Hp0. inversion Hp0; subst p0. contradiction.
      * discriminate.
  - intros reason. cbv zeta.
    destruct (deletePrisoner_cases prisonerId reason ups role uid now s)
      as [[e He]|(p & Hcond & Hrun)].
    + rewrite He. unfold succeeds. cbn [fst snd]. repeat split.
      * discriminate.
      * intros (p & Hcond).
        rewrite (deletePrisoner_run reason uid now Hcond) in He.
        discriminate.
      * discriminate.
    + rewrite Hrun. unfold succeeds. cbn [fst snd]. repeat split.
      * intros _. exists p. exact Hcond.
      * intros p0 Hp0 _. destruct Hcond as (_ & Hp & _).
        rewrite Hp in Hp0. inversion Hp0; subst p0.
        exists (markLeft (statusForReason reason) (today now) p).
        cbn [Prisoners set_Prisoners].
        pose proof (findByPk_Some _ _ _ Hp) as [Hid _]. rewrite Hid.
        rewrite findByPk_updateRow_same by reflexivity.
        rewrite Hp. repeat split.
      * discriminate.
Qed.

(* ================================================================== *)
(** ** Sentence adjustment workflow *)
(* ================================================================== *)

Abbreviation findBehaviour s id :=
  (findByPk PrisonerBehaviourRecord.behaviour_id (BehaviourRecords s) id).
Abbreviation findPrisoner s id :=
  (findByPk Prisoner.prisoner_id (Prisoners s) id).

(** An adjusted release date is the local day of midnight UTC of the old
    one, moved by the adjustment. *)
Lemma adjustedReleaseDate_local_days zone d n :
  days_from_civil (adjustedReleaseDate zone d n)
  = days_from_civil d + zone * msPerMinute / msPerDay + n.
Proof.
  unfold adjustedReleaseDate, toDateOnly. cbv zeta.
  rewrite setDate_getDate, localDay_Date_of.
  apply days_from_civil_from_days.
Qed.

(** On a server at UTC or east of it, an adjusted release date is the old
    one moved by the adjustment. *)
Lemma adjustedReleaseDate_days zone d n :
  0 <= zone < 1440 ->
  days_from_civil (adjustedReleaseDate zone d n) = days_from_civil d + n.
Proof.
  intros Hzone.
  rewrite adjustedReleaseDate_local_days, (zone_east_of_UTC Hzone). lia.
Qed.

(** West of UTC, midnight UTC falls on the evening before, and the date
    written back is one day short. *)
Lemma adjustedReleaseDate_days_west zone d n :
  -1440 <= zone < 0 ->
  days_from_civil (adjustedReleaseDate zone d n) = days_from_civil d + n - 1.
Proof.
  intros Hzone.
  rewrite adjustedReleaseDate_local_days, (zone_west_of_UTC Hzone). lia.
Qed.

(** Ten days off 2025-06-01 on a server at UTC-05:00, where
    [new Date('2025-06-01')] is the evening of 31 May. *)
Example adjustedReleaseDate_west_of_UTC :
  adjustedReleaseDate (-300) (mkDate 2025 6 1) (-10) = mkDate 2025 5 21.
Proof. vm_compute. reflexivity. Qed.

(** What the caller and the store must offer for an approval. *)
Definition approvable (s : Store) (behaviourRecordId : Z) (ups : option Z)
    (role : UserRole) (r : PrisonerBehaviourRecord.row) (p : Prisoner.row)
  : Prop :=
  findBehaviour s behaviourRecordId = Some r /\
  findPrisoner s (PrisonerBehaviourRecord.prisoner_id r) = Some p /\
  checkPrisonAccess ups (Prisoner.prison_id p) role = true /\
  PrisonerBehaviourRecord.adjustment_status r = Pending /\
  PrisonerBehaviourRecord.sentence_adjustment_days r <> 0.

(** The prisoner of an approved record: the expected release date, when
    there is one, moved by the adjustment. *)
Definition adjustedPrisoner (now : Clock) (r : PrisonerBehaviourRecord.row)
    (p : Prisoner.row) : Prisoner.row :=
  match Prisoner.expected_release_date p with
  | Some d =>
      withExpectedRelease
        (adjustedReleaseDate (zone now) d
           (PrisonerBehaviourRecord.sentence_adjustment_days r)) p
  | None => p
  end.

(** The store an approval commits. *)
Definition afterApproval (now : Clock) (notes : option string)
    (r : PrisonerBehaviourRecord.row) (p : Prisoner.row) (s : Store)
  : Store :=
  set_BehaviourRecords
    (updateRow PrisonerBehaviourRecord.behaviour_id
               (PrisonerBehaviourRecord.behaviour_id r)
               (markApproved now notes))
    (match Prisoner.expected_release_date p with
     | Some d =>
         set_Prisoners
           (updateRow Prisoner.prisoner_id (Prisoner.prisoner_id p)
              (withExpectedRelease
                 (adjustedReleaseDate (zone now) d
                    (PrisonerBehaviourRecord.sentence_adjustment_days r))))
           s
     | None => s
     end).

Lemma afterApproval_findBehaviour now notes r p s id :
  findBehaviour (afterApproval now notes r p s) id
  = if id =? PrisonerBehaviourRecord.behaviour_id r
    then option_map (markApproved now notes) (findBehaviour s id)
    else findBehaviour s id.
Proof.
  unfold afterApproval. cbn [BehaviourRecords set_BehaviourRecords].
  assert (Hsame : BehaviourRecords
            (match Prisoner.expected_release_date p with
             | Some d =>
                 set_Prisoners
                   (updateRow Prisoner.prisoner_id (Prisoner.prisoner_id p)
                      (withExpectedRelease
                         (adjustedReleaseDate (zone now) d
                            (PrisonerBehaviourRecord.sentence_adjustment_days r))))
                   s
             | None => s
             end) = BehaviourRecords s)
    by (destruct (Prisoner.expected_release_date p); reflexivity).
  rewrite Hsame.
  destruct (id =? PrisonerBehaviourRecord.behaviour_id r) eqn:E.
  - apply Z.eqb_eq in E. subst id.
    apply findByPk_updateRow_same. reflexivity.
  - apply Z.eqb_neq in E.
    apply findByPk_updateRow_other; [reflexivity | exact E].
Qed.

Lemma afterApproval_findPrisoner now notes r p s :
  findPrisoner s (Prisoner.prisoner_id p) = Some p ->
  findPrisoner (afterApproval now notes r p s) (Prisoner.prisoner_id p)
  = Some (adjustedPrisoner now r p).
Proof.
  intros Hp. unfold afterApproval, adjustedPrisoner.
  cbn [Prisoners set_BehaviourRecords].
  destruct (Prisoner.expected_release_date p) as [d|].
  - cbn [Prisoners set_Prisoners].
    rewrite findByPk_updateRow_same by reflexivity. rewrite Hp. reflexivity.
  - exact Hp.
Qed.

Lemma afterApproval_Prisons now notes r p s :
  Prisons (afterApproval now notes r p s) = Prisons s.
Proof.
  unfold afterApproval. destruct (Prisoner.expected_release_date p); reflexivity.
Qed.

Lemma adjustedPrisoner_prison_id now r p :
  Prisoner.prison_id (adjustedPrisoner now r p) = Prisoner.prison_id p.
Proof.
  unfold adjustedPrisoner. destruct (Prisoner.expected_release_date p); reflexivity.
Qed.

(** The transaction of an approval, before the record is read back. *)
Lemma approveSentenceAdjustment_cases behaviourRecordId notes ups role now s :
  (exists e, approveSentenceAdjustment behaviourRecordId notes ups role now s
             = (Throw e, s)) \/
  (exists r p,
      approvable s behaviourRecordId ups role r p /\
      approveSentenceAdjustment behaviourRecordId notes ups role now s
      = match getBehaviourRecordById behaviourRecordId ups role
                (afterApproval now notes r p s) with
        | (Ok b, s2) => (Ok b, s2)
        | (Throw _, s2) => (Throw rollback_after_commit, s2)
        end).
Proof.
  unfold approvable, approveSentenceAdjustment, afterApproval.
  remember (getBehaviourRecordById behaviourRecordId ups role) as after.
  unfold_service. unfold includePrisoner.
  destruct (findBehaviour s behaviourRecordId) as [r|] eqn:Hr;
    cbv beta iota; [|left; eexists; reflexivity].
  destruct (findPrisoner s (PrisonerBehaviourRecord.prisoner_id r))
    as [p|] eqn:Hp; cbn [inc_prisoner]; cbv beta iota;
    [|left; eexists; reflexivity].
  destruct (checkPrisonAccess ups (Prisoner.prison_id p) role) eqn:Hacc;
    cbn [negb]; cbv beta iota; [|left; eexists; reflexivity].
  destruct (AdjustmentStatus_eqb
              (PrisonerBehaviourRecord.adjustment_status r) Pending) eqn:Hst;
    cbn [negb]; cbv beta iota; [|left; eexists; reflexivity].
  destruct (PrisonerBehaviourRecord.sentence_adjustment_days r =? 0) eqn:Hd;
    cbv beta iota; [left; eexists; reflexivity|].
  right. exists r, p. split.
  { repeat split; auto.
    - apply AdjustmentStatus_eqb_eq. exact Hst.
    - apply Z.eqb_neq. exact Hd. }
  destruct (Prisoner.expected_release_date p); reflexivity.
Qed.

(** Reading the record back succeeds when the prisoner's prison exists. *)
Lemma getBehaviourRecordById_run behaviourRecordId ups role s r p f :
  findBehaviour s behaviourRecordId = Some r ->
  findPrisoner s (PrisonerBehaviourRecord.prisoner_id r) = Some p ->
  findByPk Prison.prison_id (Prisons s) (Prisoner.prison_id p) = Some f ->
  checkPrisonAccess ups (Prisoner.prison_id p) role = true ->
  getBehaviourRecordById behaviourRecordId ups role s = (Ok r, s).
Proof.
  intros Hr Hp Hf Hacc. unfold getBehaviourRecordById. unfold_service.
  rewrite Hr. cbv beta iota. unfold includePrisoner. rewrite Hp, Hf.
  cbn [inc_prison]. cbv beta iota.
  pose proof (findByPk_Some _ _ _ Hf) as [Hfid _]. rewrite Hfid, Hacc.
  reflexivity.
Qed.

Lemma approveSentenceAdjustment_run behaviourRecordId notes ups role now s r p f :
  approvable s behaviourRecordId ups role r p ->
  findByPk Prison.prison_id (Prisons s) (Prisoner.prison_id p) = Some f ->
  approveSentenceAdjustment behaviourRecordId notes ups role now s
  = (Ok (markApproved now notes r), afterApproval now notes r p s).
Proof.
  intros (Hr & Hp & Hacc & Hst & Hd) Hf.
  pose proof (findByPk_Some _ _ _ Hr) as [Hrid _].
  pose proof (findByPk_Some _ _ _ Hp) as [Hpid _].
  assert (Hafter :
    getBehaviourRecordById behaviourRecordId ups role
      (afterApproval now notes r p s)
    = (Ok (markApproved now notes r), afterApproval now notes r p s)).
  { apply getBehaviourRecordById_run with (p := adjustedPrisoner now r p) (f := f).
    - rewrite afterApproval_findBehaviour, Hrid, Z.eqb_refl, Hr. reflexivity.
    - cbn [markApproved PrisonerBehaviourRecord.prisoner_id].
      rewrite <- Hpid. apply afterApproval_findPrisoner.
      rewrite Hpid. exact Hp.
    - rewrite afterApproval_Prisons, adjustedPrisoner_prison_id. exact Hf.
    - rewrite adjustedPrisoner_prison_id. exact Hacc. }
  unfold afterApproval in Hafter.
  unfold approveSentenceAdjustment, afterApproval.
  remember (getBehaviourRecordById behaviourRecordId ups role) as after.
  unfold_service. unfold includePrisoner.
  rewrite Hr. cbv beta iota. rewrite Hp. cbn [inc_prisoner]. cbv beta iota.
  rewrite Hacc, Hst. cbn [negb AdjustmentStatus_eqb]. cbv beta iota.
  apply Z.eqb_neq in Hd. rewrite Hd. cbv beta iota.
  destruct (Prisoner.expected_release_date p); cbv beta iota;
    rewrite Hafter; reflexivity.
Qed.

(** Reading a record back changes nothing. *)
Lemma getBehaviourRecordById_store behaviourRecordId ups role s o s' :
  getBehaviourRecordById behaviourRecordId ups role s = (o, s') -> s' = s.
Proof.
  unfold getBehaviourRecordById. unfold_service. intros H.
  repeat case_step_in H; inversion H; reflexivity.
Qed.

(** The store an approval leaves. *)
Lemma approveSentenceAdjustment_store behaviourRecordId notes ups role now s o s' :
  approveSentenceAdjustment behaviourRecordId notes ups role now s = (o, s') ->
  (s' = s /\ exists e, o = Throw e) \/
  exists r p,
    approvable s behaviourRecordId ups role r p /\
    s' = afterApproval now notes r p s.
Proof.
  intros H.
  destruct (approveSentenceAdjustment_cases behaviourRecordId notes ups role
              now s) as [[e He]|(r & p & Hcond & Hrun)].
  - rewrite He in H. inversion H; subst. left. split; [reflexivity|].
    exists e. reflexivity.
  - right. exists r, p. split; [exact Hcond|].
    rewrite Hrun in H.
    destruct (getBehaviourRecordById behaviourRecordId ups role
                (afterApproval now notes r p s)) as [o2 s2] eqn:E.
    apply getBehaviourRecordById_store in E. subst s2.
    destruct o2; inversion H; reflexivity.
Qed.

Lemma approveSentenceAdjustment_not_pending behaviourRecordId notes ups role
    now s r p :
  findBehaviour s behaviourRecordId = Some r ->
  findPrisoner s (PrisonerBehaviourRecord.prisoner_id r) = Some p ->
  checkPrisonAccess ups (Prisoner.prison_id p) role = true ->
  PrisonerBehaviourRecord.adjustment_status r <> Pending ->
  approveSentenceAdjustment behaviourRecordId notes ups role now s
  = (Throw (JsError "This behaviour record does not have a pending sentence adjustment"),
     s).
Proof.
  intros Hr Hp Hacc Hst.
  unfold approveSentenceAdjustment. apply transaction_throw with (s1 := s).
  unfold_service. unfold includePrisoner.
  rewrite Hr. cbv beta iota. rewrite Hp. cbn [inc_prisoner]. cbv beta iota.
  rewrite Hacc. cbn [negb]. cbv beta iota.
  destruct (AdjustmentStatus_eqb
              (PrisonerBehaviourRecord.adjustment_status r) Pending) eqn:E.
  - apply AdjustmentStatus_eqb_eq in E. contradiction.
  - reflexivity.
Qed.

(** [rejectSentenceAdjustment] and [updateBehaviourRecord] read
    [behaviourRecord.prisoner.prison.prison_id] from a prisoner loaded
    without its prison: the read throws before any check or write. *)
Lemma rejectSentenceAdjustment_throws behaviourRecordId reason ups role s :
  rejectSentenceAdjustment behaviourRecordId reason ups role s
  = (Throw (match findBehaviour s behaviourRecordId with
            | Some _ => TypeError
            | None => JsError "Behaviour record not found"
            end), s).
Proof.
  unfold rejectSentenceAdjustment, rejectSentenceAdjustmentWith.
  apply transaction_throw with (s1 := s).
  unfold_service. unfold includePrisoner.
  destruct (findBehaviour s behaviourRecordId) as [r|]; cbv beta iota.
  - destruct (findPrisoner s (PrisonerBehaviourRecord.prisoner_id r));
      cbn [inc_prison]; cbv beta iota; reflexivity.
  - reflexivity.
Qed.

Lemma updateBehaviourRecord_throws behaviourRecordId updateData ups role s :
  updateBehaviourRecord behaviourRecordId updateData ups role s
  = (Throw (match findBehaviour s behaviourRecordId with
            | Some _ => TypeError
            | None => JsError "Behaviour record not found"
            end), s).
Proof.
  unfold updateBehaviourRecord, updateBehaviourRecordWith.
  apply transaction_throw with (s1 := s).
  unfold_service. unfold includePrisoner.
  destruct (findBehaviour s behaviourRecordId) as [r|]; cbv beta iota.
  - destruct (findPrisoner s (PrisonerBehaviourRecord.prisoner_id r));
      cbn [inc_prison]; cbv beta iota; reflexivity.
  - reflexivity.
Qed.

(** The scenario of the specification: prisoner 1 expects release on
    2025-06-01 and has a pending reduction of ten days; prisoner 2 has no
    expected release date and a pending extension. *)
Definition adjustmentStore : Store :=
  mkStore
    [Prison.mk 1 "Welikada" 5 true]
    [Prisoner.mk 1 "901234567V" "CASE-1" (mkDate 2024 1 10)
                 (Some (mkDate 2025 6 1)) None Active 1;
     Prisoner.mk 2 "911234567V" "CASE-2" (mkDate 2024 2 11) None None Active 1]
    [] [] []
    [PrisonerBehaviourRecord.mk 1 1 Positive (Some Minor) (mkDate 2024 8 1)
       (-10) Pending None None 7;
     PrisonerBehaviourRecord.mk 2 2 Negative (Some Severe) (mkDate 2024 8 2)
       30 Pending None (Some "fight") 7;
     PrisonerBehaviourRecord.mk 3 1 Negative (Some Minor) (mkDate 2024 8 3)
       5 Rejected None None 7]
    2 3 1 1 4.

Example approveSentenceAdjustment_scenario :
  let result :=
    approveSentenceAdjustment 1 None (Some 1) PrisonAdmin aClock adjustmentStore in
  succeeds result = true /\
  option_map PrisonerBehaviourRecord.adjustment_status
             (findBehaviour (snd result) 1) = Some Approved /\
  option_map PrisonerBehaviourRecord.adjustment_approved_at
             (findBehaviour (snd result) 1) = Some (Some (millis aClock)) /\
  option_map Prisoner.expected_release_date (findPrisoner (snd result) 1)
  = Some (Some (mkDate 2025 5 22)).
Proof.
  cbv zeta.
  split; [vm_compute; reflexivity|].
  split; [vm_compute; reflexivity|].
  split; vm_compute; reflexivity.
Qed.

Example approveSentenceAdjustment_no_release_date :
  let result :=
    approveSentenceAdjustment 2 None (Some 1) PrisonAdmin aClock adjustmentStore in
  succeeds result = true /\
  option_map PrisonerBehaviourRecord.adjustment_status
             (findBehaviour (snd result) 2) = Some Approved /\
  findPrisoner (snd result) 2 = findPrisoner adjustmentStore 2 /\
  option_map Prisoner.expected_release_date (findPrisoner (snd result) 2)
  = Some None.
Proof.
  cbv zeta.
  split; [vm_compute; reflexivity|].
  split; [vm_compute; reflexivity|].
  split; vm_compute; reflexivity.
Qed.

(** On a server at UTC or east of it: approving a Pending record with a
    nonzero adjustment marks the record Approved with
    [adjustment_approved_at] set to the time of the call and moves the
    prisoner's expected release date by exactly [sentence_adjustment_days]
    days; when the prisoner has no expected release date the prisoner is
    left as it is and the record is still Approved.  The caller has access
    to the prisoner, whose prison exists. *)
Theorem approveSentenceAdjustment_spec :
  forall s behaviourRecordId notes ups role now r p f,
    findBehaviour s behaviourRecordId = Some r ->
    PrisonerBehaviourRecord.adjustment_status r = Pending ->
    PrisonerBehaviourRecord.sentence_adjustment_days r <> 0 ->
    findPrisoner s (PrisonerBehaviourRecord.prisoner_id r) = Some p ->
    checkPrisonAccess ups (Prisoner.prison_id p) role = true ->
    findByPk Prison.prison_id (Prisons s) (Prisoner.prison_id p) = Some f ->
    0 <= zone now < 1440 ->
    let result :=
      approveSentenceAdjustment behaviourRecordId notes ups role now s in
    exists r' p',
      succeeds result = true /\
      findBehaviour (snd result) behaviourRecordId = Some r' /\
      PrisonerBehaviourRecord.adjustment_status r' = Approved /\
      PrisonerBehaviourRecord.adjustment_approved_at r' = Some (millis now) /\
      findPrisoner (snd result) (PrisonerBehaviourRecord.prisoner_id r)
      = Some p' /\
      match Prisoner.expected_release_date p with
      | Some d =>
          exists d',
            Prisoner.expected_release_date p' = Some d' /\
            d' = adjustedReleaseDate (zone now) d
                   (PrisonerBehaviourRecord.sentence_adjustment_days r) /\
            days_from_civil d'
            = days_from_civil d
              + PrisonerBehaviourRecord.sentence_adjustment_days r
      | None => p' = p
      end.
Proof.
  intros s behaviourRecordId notes ups role now r p f Hr Hst Hd Hp Hacc Hf
         Hzone.
  cbv zeta.
  assert (Hcond : approvable s behaviourRecordId ups role r p)
    by (repeat split; assumption).
  rewrite (approveSentenceAdjustment_run notes now Hcond Hf).
  pose proof (findByPk_Some _ _ _ Hr) as [Hrid _].
  pose proof (findByPk_Some _ _ _ Hp) as [Hpid _].
  exists (markApproved now notes r), (adjustedPrisoner now r p).
  unfold succeeds. cbn [fst snd].
  split; [reflexivity|].
  split.
  { rewrite afterApproval_findBehaviour, Hrid, Z.eqb_refl, Hr. reflexivity. }
  split; [reflexivity|]. split; [reflexivity|].
  split.
  { rewrite <- Hpid. apply afterApproval_findPrisoner.
    rewrite Hpid. exact Hp. }
  unfold adjustedPrisoner.
  destruct (Prisoner.expected_release_date p) as [d|]; [|reflexivity].
  eexists. split; [reflexivity|]. split; [reflexivity|].
  apply adjustedReleaseDate_days. exact Hzone.
Qed.

Lemma approveSentenceAdjustment_spec_witness :
  let result :=
    approveSentenceAdjustment 1 None (Some 1) PrisonAdmin aClock adjustmentStore in
  exists r' p',
    succeeds result = true /\
    findBehaviour (snd result) 1 = Some r' /\
    PrisonerBehaviourRecord.adjustment_status r' = Approved /\
    PrisonerBehaviourRecord.adjustment_approved_at r' = Some (millis aClock) /\
    findPrisoner (snd result) 1 = Some p' /\
    exists d',
      Prisoner.expected_release_date p' = Some d' /\
      d' = adjustedReleaseDate 330 (mkDate 2025 6 1) (-10) /\
      days_from_civil d' = days_from_civil (mkDate 2025 6 1) + -10.
Proof.
  exact (@approveSentenceAdjustment_spec adjustmentStore 1 None (Some 1)
           PrisonAdmin aClock
           (PrisonerBehaviourRecord.mk 1 1 Positive (Some Minor)
              (mkDate 2024 8 1) (-10) Pending None None 7)
           (Prisoner.mk 1 "901234567V" "CASE-1" (mkDate 2024 1 10)
              (Some (mkDate 2025 6 1)) None Active 1)
           (Prison.mk 1 "Welikada" 5 true)
           eq_refl eq_refl ltac:(discriminate) eq_refl eq_refl eq_refl
           ltac:(cbn; lia)).
Defined.

(** In every time zone an approval marks the record Approved with
    [adjustment_approved_at] set to the time of the call, and leaves a
    prisoner without an expected release date as it is; the time zone only
    bears on the date that is written when there is one. *)
Lemma approveSentenceAdjustment_marks_approved :
  forall s behaviourRecordId notes ups role now r p f,
    findBehaviour s behaviourRecordId = Some r ->
    PrisonerBehaviourRecord.adjustment_status r = Pending ->
    PrisonerBehaviourRecord.sentence_adjustment_days r <> 0 ->
    findPrisoner s (PrisonerBehaviourRecord.prisoner_id r) = Some p ->
    checkPrisonAccess ups (Prisoner.prison_id p) role = true ->
    findByPk Prison.prison_id (Prisons s) (Prisoner.prison_id p) = Some f ->
    let result :=
      approveSentenceAdjustment behaviourRecordId notes ups role now s in
    exists r' p',
      succeeds result = true /\
      findBehaviour (snd result) behaviourRecordId = Some r' /\
      PrisonerBehaviourRecord.adjustment_status r' = Approved /\
      PrisonerBehaviourRecord.adjustment_approved_at r' = Some (millis now) /\
      findPrisoner (snd result) (PrisonerBehaviourRecord.prisoner_id r)
      = Some p' /\
      match Prisoner.expected_release_date p with
      | Some d =>
          Prisoner.expected_release_date p'
          = Some (adjustedReleaseDate (zone now) d
                    (PrisonerBehaviourRecord.sentence_adjustment_days r))
      | None => p' = p
      end.
Proof.
  intros s behaviourRecordId notes ups role now r p f Hr Hst Hd Hp Hacc Hf.
  cbv zeta.
  assert (Hcond : approvable s behaviourRecordId ups role r p)
    by (repeat split; assumption).
  rewrite (approveSentenceAdjustment_run notes now Hcond Hf).
  pose proof (findByPk_Some _ _ _ Hr) as [Hrid _].
  pose proof (findByPk_Some _ _ _ Hp) as [Hpid _].
  exists (markApproved now notes r), (adjustedPrisoner now r p).
  unfold succeeds. cbn [fst snd].
  split; [reflexivity|].
  split.
  { rewrite afterApproval_findBehaviour, Hrid, Z.eqb_refl, Hr. reflexivity. }
  split; [reflexivity|]. split; [reflexivity|].
  split.
  { rewrite <- Hpid. apply afterApproval_findPrisoner.
    rewrite Hpid. exact Hp. }
  unfold adjustedPrisoner.
  destruct (Prisoner.expected_release_date p) as [d|]; reflexivity.
Qed.

(** The effect of an approval as the specification words it, whatever the
    server's time zone: the expected release date moves by exactly
    [sentence_adjustment_days] days. *)
Definition approval_moves_date_by_adjustment : Prop :=
  forall s behaviourRecordId notes ups role now r p f d,
    findBehaviour s behaviourRecordId = Some r ->
    PrisonerBehaviourRecord.adjustment_status r = Pending ->
    PrisonerBehaviourRecord.sentence_adjustment_days r <> 0 ->
    findPrisoner s (PrisonerBehaviourRecord.prisoner_id r) = Some p ->
    checkPrisonAccess ups (Prisoner.prison_id p) role = true ->
    findByPk Prison.prison_id (Prisons s) (Prisoner.prison_id p) = Some f ->
    Prisoner.expected_release_date p = Some d ->
    exists p' d',
      findPrisoner
        (snd (approveSentenceAdjustment behaviourRecordId notes ups role now s))
        (PrisonerBehaviourRecord.prisoner_id r) = Some p' /\
      Prisoner.expected_release_date p' = Some d' /\
      days_from_civil d'
      = days_from_civil d + PrisonerBehaviourRecord.sentence_adjustment_days r.

(** The instant of [aClock], read on a server at UTC-05:00. *)
Definition westClock : Clock := mkClock (millis aClock) (-300).

(** West of UTC an approval moves the date one day too far back: the effect
    of an approval on any such server. *)
Lemma approveSentenceAdjustment_west_of_UTC
    s behaviourRecordId notes ups role now r p f d :
  findBehaviour s behaviourRecordId = Some r ->
  PrisonerBehaviourRecord.adjustment_status r = Pending ->
  PrisonerBehaviourRecord.sentence_adjustment_days r <> 0 ->
  findPrisoner s (PrisonerBehaviourRecord.prisoner_id r) = Some p ->
  checkPrisonAccess ups (Prisoner.prison_id p) role = true ->
  findByPk Prison.prison_id (Prisons s) (Prisoner.prison_id p) = Some f ->
  Prisoner.expected_release_date p = Some d ->
  -1440 <= zone now < 0 ->
  exists p' d',
    findPrisoner
      (snd (approveSentenceAdjustment behaviourRecordId notes ups role now s))
      (PrisonerBehaviourRecord.prisoner_id r) = Some p' /\
    Prisoner.expected_release_date p' = Some d' /\
    days_from_civil d'
    = days_from_civil d + PrisonerBehaviourRecord.sentence_adjustment_days r
      - 1.
Proof.
  intros Hr Hst Hd Hp Hacc Hf Hdate Hzone.
  assert (Hcond : approvable s behaviourRecordId ups role r p)
    by (repeat split; assumption).
  rewrite (approveSentenceAdjustment_run notes now Hcond Hf).
  pose proof (findByPk_Some _ _ _ Hp) as [Hpid _].
  exists (adjustedPrisoner now r p). cbn [snd].
  eexists. split.
  { rewrite <- Hpid. apply afterApproval_findPrisoner.
    rewrite Hpid. exact Hp. }
  unfold adjustedPrisoner. rewrite Hdate. split; [reflexivity|].
  apply adjustedReleaseDate_days_west. exact Hzone.
Qed.

(** C4: the expected release date does not move by exactly
    [sentence_adjustment_days] days on every server.  The date is parsed
    with [new Date('YYYY-MM-DD')], which is midnight UTC, moved with
    [setDate(getDate() + n)] on the server's local calendar and written
    back formatted on the local calendar.  On a server at UTC-05:00 the
    scenario of the specification (2025-06-01, adjustment -10) is approved
    and the record set to Approved, but the date written is 2025-05-21, one
    day before the 2025-05-22 the specification gives. *)
Theorem approveSentenceAdjustment_one_day_short :
  let result :=
    approveSentenceAdjustment 1 None (Some 1) PrisonAdmin westClock
                              adjustmentStore in
  succeeds result = true /\
  option_map PrisonerBehaviourRecord.adjustment_status
             (findBehaviour (snd result) 1) = Some Approved /\
  option_map PrisonerBehaviourRecord.adjustment_approved_at
             (findBehaviour (snd result) 1) = Some (Some (millis westClock)) /\
  option_map Prisoner.expected_release_date (findPrisoner adjustmentStore 1)
  = Some (Some (mkDate 2025 6 1)) /\
  option_map Prisoner.expected_release_date (findPrisoner (snd result) 1)
  = Some (Some (mkDate 2025 5 21)) /\
  days_from_civil (mkDate 2025 5 21)
  = days_from_civil (mkDate 2025 6 1) + (-10) - 1 /\
  ~ approval_moves_date_by_adjustment.
Proof.
  cbv zeta.
  split; [vm_compute; reflexivity|].
  split; [vm_compute; reflexivity|].
  split; [vm_compute; reflexivity|].
  split; [vm_compute; reflexivity|].
  split; [vm_compute; reflexivity|].
  split; [vm_compute; reflexivity|].
  intros H.
  destruct (H adjustmentStore 1 None (Some 1) PrisonAdmin westClock
              (PrisonerBehaviourRecord.mk 1 1 Positive (Some Minor)
                 (mkDate 2024 8 1) (-10) Pending None None 7)
              (Prisoner.mk 1 "901234567V" "CASE-1" (mkDate 2024 1 10)
                 (Some (mkDate 2025 6 1)) None Active 1)
              (Prison.mk 1 "Welikada" 5 true) (mkDate 2025 6 1)
              eq_refl eq_refl ltac:(discriminate) eq_refl eq_refl eq_refl
              eq_refl) as (p' & d' & Hp' & Hd' & Hdays).
  vm_compute in Hp'. inversion Hp'; subst p'.
  cbn in Hd'. inversion Hd'; subst d'.
  vm_compute in Hdays. discriminate Hdays.
Qed.

(** On a record whose adjustment status is not Pending both
    [approveSentenceAdjustment] and [rejectSentenceAdjustment] throw and
    leave the store, so the record and the prisoner's expected release
    date, as it was; and once an approval has succeeded the prisoner's date
    has moved by the adjustment once, and every further approval of that
    record throws and changes nothing (for the same caller, with 'This
    behaviour record does not have a pending sentence adjustment'). *)
Theorem non_pending_adjustment_refused :
  (forall s behaviourRecordId r,
      findBehaviour s behaviourRecordId = Some r ->
      PrisonerBehaviourRecord.adjustment_status r <> Pending ->
      (forall notes ups role now,
          exists e,
            approveSentenceAdjustment behaviourRecordId notes ups role now s
            = (Throw e, s)) /\
      (forall reason ups role,
          exists e,
            rejectSentenceAdjustment behaviourRecordId reason ups role s
            = (Throw e, s))) /\
  (forall s behaviourRecordId notes ups role now b s1,
      approveSentenceAdjustment behaviourRecordId notes ups role now s
      = (Ok b, s1) ->
      exists r p,
        findBehaviour s behaviourRecordId = Some r /\
        PrisonerBehaviourRecord.adjustment_status r = Pending /\
        findPrisoner s (PrisonerBehaviourRecord.prisoner_id r) = Some p /\
        findPrisoner s1 (PrisonerBehaviourRecord.prisoner_id r)
        = Some (adjustedPrisoner now r p) /\
        (forall notes' now',
            approveSentenceAdjustment behaviourRecordId notes' ups role now' s1
            = (Throw (JsError "This behaviour record does not have a pending sentence adjustment"),
               s1)) /\
        (forall notes' ups' role' now',
            exists e,
              approveSentenceAdjustment behaviourRecordId notes' ups' role'
                                        now' s1
              = (Throw e, s1))).
Proof.
  assert (Hfirst :
    forall s behaviourRecordId r,
      findBehaviour s behaviourRecordId = Some r ->
      PrisonerBehaviourRecord.adjustment_status r <> Pending ->
      forall notes ups role now,
        exists e,
          approveSentenceAdjustment behaviourRecordId notes ups role now s
          = (Throw e, s)).
  { intros s behaviourRecordId r Hr Hst notes ups role now.
    destruct (approveSentenceAdjustment_cases behaviourRecordId notes ups
                role now s) as [He|(r0 & p0 & Hcond & _)]; [exact He|].
    destruct Hcond as (Hr0 & _ & _ & Hst0 & _).
    rewrite Hr in Hr0. inversion Hr0; subst r0. contradiction. }
  split.
  - intros s behaviourRecordId r Hr Hst. split.
    + apply Hfirst with (r := r); assumption.
    + intros reason ups role. eexists.
      apply rejectSentenceAdjustment_throws.
  - intros s behaviourRecordId notes ups role now b s1 Hrun.
    apply approveSentenceAdjustment_store in Hrun.
    destruct Hrun as [[_ [e He]]|(r & p & Hcond & ->)]; [discriminate|].
    destruct Hcond as (Hr & Hp & Hacc & Hst & Hd).
    pose proof (findByPk_Some _ _ _ Hr) as [Hrid _].
    pose proof (findByPk_Some _ _ _ Hp) as [Hpid _].
    assert (Hr1 : findBehaviour (afterApproval now notes r p s)
                    behaviourRecordId = Some (markApproved now notes r)).
    { rewrite afterApproval_findBehaviour, Hrid, Z.eqb_refl, Hr.
      reflexivity. }
    assert (Hp1 : findPrisoner (afterApproval now notes r p s)
                    (PrisonerBehaviourRecord.prisoner_id r)
                  = Some (adjustedPrisoner now r p)).
    { rewrite <- Hpid. apply afterApproval_findPrisoner.
      rewrite Hpid. exact Hp. }
    exists r, p. repeat split; try assumption.
    + intros notes' now'.
      apply approveSentenceAdjustment_not_pending
        with (r := markApproved now notes r) (p := adjustedPrisoner now r p).
      * exact Hr1.
      * exact Hp1.
      * rewrite adjustedPrisoner_prison_id. exact Hacc.
      * discriminate.
    + intros notes' ups' role' now'.
      apply Hfirst with (r := markApproved now notes r);
        [exact Hr1 | discriminate].
Qed.

(** An approval, then a second one of the same record by the same caller:
    the release date moves from 2025-06-01 to 2025-05-22 and stays. *)
Example approve_twice_scenario :
  let first :=
    approveSentenceAdjustment 1 None (Some 1) PrisonAdmin aClock adjustmentStore in
  let second :=
    approveSentenceAdjustment 1 None (Some 1) PrisonAdmin aClock (snd first) in
  succeeds first = true /\
  second
  = (Throw (JsError "This behaviour record does not have a pending sentence adjustment"),
     snd first) /\
  option_map Prisoner.expected_release_date (findPrisoner (snd second) 1)
  = Some (Some (mkDate 2025 5 22)).
Proof.
  cbv zeta.
  split; [vm_compute; reflexivity|].
  split; vm_compute; reflexivity.
Qed.

(** The store of the scenario once record 1 has been approved. *)
Definition approvedStore : Store :=
  snd (approveSentenceAdjustment 1 None (Some 1) PrisonAdmin aClock
                                 adjustmentStore).

Definition notPendingError : Error :=
  JsError "This behaviour record does not have a pending sentence adjustment".

(** C5: [rejectSentenceAdjustment] does not answer a record that is not
    Pending with its status check.  It reads
    [behaviourRecord.prisoner.prison.prison_id] from a prisoner loaded
    without its prison, so on every record that exists the call ends in a
    TypeError before the status is looked at: on the Approved record 1 the
    answer is the TypeError and not 'This behaviour record does not have a
    pending sentence adjustment', which [approveSentenceAdjustment] gives
    for that record and which the rejection gives too once the prison is
    loaded with the prisoner; and the Pending record 2, which the rejection
    would set to Rejected with the prison loaded, cannot be rejected
    either. *)
Theorem rejectSentenceAdjustment_never_reaches_status_check :
  option_map PrisonerBehaviourRecord.adjustment_status
             (findBehaviour approvedStore 1) = Some Approved /\
  rejectSentenceAdjustment 1 (Some "late") (Some 1) PrisonAdmin approvedStore
  = (Throw TypeError, approvedStore) /\
  approveSentenceAdjustment 1 None (Some 1) PrisonAdmin aClock approvedStore
  = (Throw notPendingError, approvedStore) /\
  rejectSentenceAdjustmentWith (includePrisoner true) 1 (Some "late") (Some 1)
                               PrisonAdmin approvedStore
  = (Throw notPendingError, approvedStore) /\
  option_map PrisonerBehaviourRecord.adjustment_status
             (findBehaviour adjustmentStore 2) = Some Pending /\
  rejectSentenceAdjustment 2 (Some "unfounded") (Some 1) PrisonAdmin
                           adjustmentStore
  = (Throw TypeError, adjustmentStore) /\
  option_map PrisonerBehaviourRecord.adjustment_status
    (findBehaviour
       (snd (rejectSentenceAdjustmentWith (includePrisoner true) 2
               (Some "unfounded") (Some 1) PrisonAdmin adjustmentStore)) 2)
  = Some Rejected /\
  (forall s behaviourRecordId reason ups role r,
      findBehaviour s behaviourRecordId = Some r ->
      rejectSentenceAdjustment behaviourRecordId reason ups role s
      = (Throw TypeError, s)).
Proof.
  split; [vm_compute; reflexivity|].
  split; [vm_compute; reflexivity|].
  split; [vm_compute; reflexivity|].
  split; [vm_compute; reflexivity|].
  split; [vm_compute; reflexivity|].
  split; [vm_compute; reflexivity|].
  split; [vm_compute; reflexivity|].
  intros s behaviourRecordId reason ups role r Hr.
  rewrite rejectSentenceAdjustment_throws, Hr. reflexivity.
Qed.

(* ================================================================== *)
(** ** The adjustment status only moves forward *)
(* ================================================================== *)

(** One step of the status: it stays, or leaves Pending for Approved or
    Rejected. *)
Definition adjustment_step (a b : AdjustmentStatus) : Prop :=
  a = b \/ (a = Pending /\ (b = Approved \/ b = Rejected)).

Lemma adjustment_step_refl a : adjustment_step a a.
Proof. left. reflexivity. Qed.

Lemma adjustment_step_trans a b c :
  adjustment_step a b -> adjustment_step b c -> adjustment_step a c.
Proof.
  unfold adjustment_step.
  intros [Hab|[Ha Hb]] [Hbc|[Hb' Hc]]; subst; auto.
Qed.

(** Behaviour record keys are unique and were handed out by the counter. *)
Definition behaviour_keys_ok (s : Store) : Prop :=
  keys_ok PrisonerBehaviourRecord.behaviour_id (next_behaviour_id s)
          (BehaviourRecords s).

(** The store a creation leaves: the one it found, or that store with one
    more row under the next key. *)
Lemma createBehaviourRecord_store behaviourData uid ups role now s o s' :
  createBehaviourRecord behaviourData uid ups role now s = (o, s') ->
  s' = s \/
  exists row,
    BehaviourRecords s' = insertRow row (BehaviourRecords s) /\
    PrisonerBehaviourRecord.behaviour_id row = next_behaviour_id s /\
    next_behaviour_id s' = next_behaviour_id s + 1.
Proof.
  unfold createBehaviourRecord.
  remember (fun newId => getBehaviourRecordById newId ups role) as after.
  unfold_service. intros H.
  repeat match type of H with
         | context [match ?x with _ => _ end] =>
             lazymatch x with
             | context [match _ with _ => _ end] => fail
             | context [after] => fail
             | _ => destruct x eqn:?
             end; cbv beta iota zeta in H
         end;
    try (inversion H; subst; auto; fail).
  all: match goal with
       | Heq : ?a = (fun _ => getBehaviourRecordById _ _ _),
         H0 : context [?a ?i ?st] |- _ =>
           destruct (a i st) as [o2 s2] eqn:E
       end;
    rewrite Heqafter in E; apply getBehaviourRecordById_store in E; subst s2;
    right; eexists;
    destruct o2; inversion H; subst; cbn;
    (split; [reflexivity|]); split; reflexivity.
Qed.

Lemma deleteBehaviourRecord_store behaviourRecordId ups role s o s' :
  deleteBehaviourRecord behaviourRecordId ups role s = (o, s') ->
  s' = s \/
  exists r,
    findBehaviour s behaviourRecordId = Some r /\
    PrisonerBehaviourRecord.adjustment_status r <> Approved /\
    s' = set_BehaviourRecords
           (destroyRow PrisonerBehaviourRecord.behaviour_id
                       (PrisonerBehaviourRecord.behaviour_id r)) s.
Proof.
  unfold deleteBehaviourRecord. unfold_service. intros H.
  repeat case_step_in H;
    try (inversion H; subst; auto; fail).
  inversion H; subst. right. eexists.
  split; [reflexivity|]. split; [|reflexivity].
  intros Hst.
  match goal with
  | E : AdjustmentStatus_eqb _ Approved = false |- _ =>
      rewrite Hst in E; discriminate
  end.
Qed.

Lemma afterApproval_BehaviourRecords now notes r p s :
  BehaviourRecords (afterApproval now notes r p s)
  = updateRow PrisonerBehaviourRecord.behaviour_id
              (PrisonerBehaviourRecord.behaviour_id r)
              (markApproved now notes) (BehaviourRecords s).
Proof.
  unfold afterApproval.
  destruct (Prisoner.expected_release_date p); reflexivity.
Qed.

Lemma afterApproval_next_behaviour_id now notes r p s :
  next_behaviour_id (afterApproval now notes r p s) = next_behaviour_id s.
Proof.
  unfold afterApproval.
  destruct (Prisoner.expected_release_date p); reflexivity.
Qed.

(** The operations of the behaviour service that write, with their
    arguments. *)
Inductive BehaviourCommand :=
| CreateRecord (behaviourData : BehaviourData) (userId : Z)
    (userPrisonId : option Z) (userRole : UserRole) (now : Clock)
| UpdateRecord (behaviourRecordId : Z) (updateData : BehaviourUpdate)
    (userPrisonId : option Z) (userRole : UserRole)
| DeleteRecord (behaviourRecordId : Z) (userPrisonId : option Z)
    (userRole : UserRole)
| ApproveAdjustment (behaviourRecordId : Z) (notes : option string)
    (userPrisonId : option Z) (userRole : UserRole) (now : Clock)
| RejectAdjustment (behaviourRecordId : Z) (reason : option string)
    (userPrisonId : option Z) (userRole : UserRole).

Definition runBehaviour (c : BehaviourCommand) (s : Store) : Store :=
  match c with
  | CreateRecord d uid ups role now =>
      snd (createBehaviourRecord d uid ups role now s)
  | UpdateRecord id u ups role => snd (updateBehaviourRecord id u ups role s)
  | DeleteRecord id ups role => snd (deleteBehaviourRecord id ups role s)
  | ApproveAdjustment id notes ups role now =>
      snd (approveSentenceAdjustment id notes ups role now s)
  | RejectAdjustment id reason ups role =>
      snd (rejectSentenceAdjustment id reason ups role s)
  end.

Definition runBehaviours (cmds : list BehaviourCommand) (s : Store) : Store :=
  fold_left (fun s c => runBehaviour c s) cmds s.

(** What one command does to the record [id]: the keys stay in order, the
    counter does not go back, a record that is there takes a step of its
    status or goes, and a key below the counter that is free stays free. *)
Lemma runBehaviour_step c s id :
  behaviour_keys_ok s ->
  behaviour_keys_ok (runBehaviour c s) /\
  next_behaviour_id s <= next_behaviour_id (runBehaviour c s) /\
  match findBehaviour s id with
  | Some r =>
      match findBehaviour (runBehaviour c s) id with
      | Some r' =>
          adjustment_step (PrisonerBehaviourRecord.adjustment_status r)
                          (PrisonerBehaviourRecord.adjustment_status r')
      | None => True
      end
  | None =>
      id < next_behaviour_id s -> findBehaviour (runBehaviour c s) id = None
  end.
Proof.
  intros Hk.
  assert (Hsame :
    behaviour_keys_ok s /\
    next_behaviour_id s <= next_behaviour_id s /\
    match findBehaviour s id with
    | Some r =>
        match findBehaviour s id with
        | Some r' =>
            adjustment_step (PrisonerBehaviourRecord.adjustment_status r)
                            (PrisonerBehaviourRecord.adjustment_status r')
        | None => True
        end
    | None => id < next_behaviour_id s -> findBehaviour s id = None
    end).
  { split; [exact Hk|]. split; [lia|].
    destruct (findBehaviour s id) as [r|] eqn:E.
    - apply adjustment_step_refl.
    - auto. }
  destruct c; cbn [runBehaviour].
  - (* create *)
    destruct (createBehaviourRecord behaviourData userId userPrisonId
                userRole now s) as [o s'] eqn:E.
    apply createBehaviourRecord_store in E. cbn [snd].
    destruct E as [->|(row & Hrows & Hid & Hnext)]; [exact Hsame|].
    unfold behaviour_keys_ok. rewrite Hrows, Hnext.
    split; [apply keys_ok_insertRow; assumption|].
    split; [lia|].
    rewrite findByPk_insertRow.
    destruct (findBehaviour s id) as [r|] eqn:Er.
    + apply adjustment_step_refl.
    + intros Hlt.
      assert (En : (PrisonerBehaviourRecord.behaviour_id row =? id) = false)
        by (apply Z.eqb_neq; lia).
      rewrite En. reflexivity.
  - (* update *)
    rewrite updateBehaviourRecord_throws. exact Hsame.
  - (* delete *)
    destruct (deleteBehaviourRecord behaviourRecordId userPrisonId userRole s)
      as [o s'] eqn:E.
    apply deleteBehaviourRecord_store in E. cbn [snd].
    destruct E as [->|(r0 & Hr0 & _ & ->)]; [exact Hsame|].
    unfold behaviour_keys_ok.
    cbn [BehaviourRecords next_behaviour_id set_BehaviourRecords].
    split; [apply keys_ok_destroyRow; exact Hk|].
    split; [lia|].
    destruct (Z.eq_dec id (PrisonerBehaviourRecord.behaviour_id r0))
      as [->|Hne].
    + rewrite findByPk_destroyRow_same.
      destruct (findBehaviour s (PrisonerBehaviourRecord.behaviour_id r0));
        auto.
    + rewrite findByPk_destroyRow_other by exact Hne.
      destruct (findBehaviour s id) as [r|] eqn:Er.
      * apply adjustment_step_refl.
      * auto.
  - (* approve *)
    destruct (approveSentenceAdjustment behaviourRecordId notes userPrisonId
                userRole now s) as [o s'] eqn:E.
    apply approveSentenceAdjustment_store in E. cbn [snd].
    destruct E as [[-> _]|(r0 & p0 & Hcond & ->)]; [exact Hsame|].
    destruct Hcond as (Hr0 & _ & _ & Hst0 & _).
    pose proof (findByPk_Some _ _ _ Hr0) as [Hid0 _].
    unfold behaviour_keys_ok.
    rewrite afterApproval_BehaviourRecords, afterApproval_next_behaviour_id.
    split; [apply keys_ok_updateRow; [reflexivity | exact Hk]|].
    split; [lia|].
    rewrite <- afterApproval_BehaviourRecords with (p := p0).
    rewrite afterApproval_findBehaviour.
    destruct (id =? PrisonerBehaviourRecord.behaviour_id r0) eqn:Eid.
    + apply Z.eqb_eq in Eid. rewrite Hid0 in Eid. subst id.
      rewrite Hr0. cbn [option_map markApproved
                          PrisonerBehaviourRecord.adjustment_status].
      right. split; [exact Hst0 | left; reflexivity].
    + destruct (findBehaviour s id) as [r|] eqn:Er.
      * apply adjustment_step_refl.
      * auto.
  - (* reject *)
    rewrite rejectSentenceAdjustment_throws. exact Hsame.
Qed.

Lemma runBehaviours_steps cmds : forall s id st,
  behaviour_keys_ok s ->
  id < next_behaviour_id s ->
  match findBehaviour s id with
  | Some r => adjustment_step st (PrisonerBehaviourRecord.adjustment_status r)
  | None => True
  end ->
  match findBehaviour (runBehaviours cmds s) id with
  | Some r' => adjustment_step st (PrisonerBehaviourRecord.adjustment_status r')
  | None => True
  end.
Proof.
  induction cmds as [|c cmds IH]; intros s id st Hk Hlt Hst; [exact Hst|].
  unfold runBehaviours. cbn [fold_left].
  destruct (runBehaviour_step c id Hk) as (Hk' & Hnext & Hstep).
  apply IH; [exact Hk' | lia |].
  destruct (findBehaviour s id) as [r|] eqn:Er.
  - destruct (findBehaviour (runBehaviour c s) id) as [r'|]; [|exact I].
    eapply adjustment_step_trans; eassumption.
  - rewrite (Hstep Hlt). exact I.
Qed.

(** C6: over any sequence of create, update, delete, approve and reject
    calls, with any arguments, the adjustment status of a record is, at any
    later point where the record still exists, the status it had or, when
    that was Pending, Approved or Rejected; so a record that is Approved,
    Rejected or N/A keeps that status, and none goes back to Pending or
    N/A. *)
Theorem adjustment_status_moves_forward :
  forall cmds s id r r',
    behaviour_keys_ok s ->
    findBehaviour s id = Some r ->
    findBehaviour (runBehaviours cmds s) id = Some r' ->
    adjustment_step (PrisonerBehaviourRecord.adjustment_status r)
                    (PrisonerBehaviourRecord.adjustment_status r') /\
    (PrisonerBehaviourRecord.adjustment_status r <> Pending ->
     PrisonerBehaviourRecord.adjustment_status r'
     = PrisonerBehaviourRecord.adjustment_status r).
Proof.
  intros cmds s id r r' Hk Hr Hr'.
  assert (Hstep : adjustment_step
                    (PrisonerBehaviourRecord.adjustment_status r)
                    (PrisonerBehaviourRecord.adjustment_status r')).
  { pose proof (@runBehaviours_steps cmds s id
                  (PrisonerBehaviourRecord.adjustment_status r) Hk) as H.
    rewrite Hr, Hr' in H. apply H.
    - pose proof (findByPk_Some _ _ _ Hr) as [Hid Hin].
      destruct Hk as [_ Hlt]. rewrite Forall_forall in Hlt.
      apply Hlt in Hin. lia.
    - apply adjustment_step_refl. }
  split; [exact Hstep|].
  intros Hnp. destruct Hstep as [<-|[Hp _]]; [reflexivity | contradiction].
Qed.

Lemma adjustmentStore_keys_ok : behaviour_keys_ok adjustmentStore.
Proof.
  split.
  - cbn. repeat constructor; cbn; intuition lia.
  - cbn. repeat constructor; cbn; lia.
Qed.

(** An approval of record 1, an update of the rejected record 3 that asks
    for seven days, and a rejection of record 2. *)
Definition adjustmentCommands : list BehaviourCommand :=
  [ApproveAdjustment 1 None (Some 1) PrisonAdmin aClock;
   UpdateRecord 3 (mkBehaviourUpdate None None None (Some 7) None)
                (Some 1) PrisonAdmin;
   RejectAdjustment 2 (Some "no grounds") (Some 1) PrisonAdmin].

Lemma adjustment_status_moves_forward_witness :
  adjustment_step Pending Approved /\ (Pending <> Pending -> Approved = Pending).
Proof.
  exact (@adjustment_status_moves_forward adjustmentCommands adjustmentStore 1
           (PrisonerBehaviourRecord.mk 1 1 Positive (Some Minor)
              (mkDate 2024 8 1) (-10) Pending None None 7)
           (PrisonerBehaviourRecord.mk 1 1 Positive (Some Minor)
              (mkDate 2024 8 1) (-10) Approved (Some (millis aClock)) None 7)
           adjustmentStore_keys_ok eq_refl eq_refl).
Defined.

(** What the commands above leave: record 1 Approved, record 2 still
    Pending (the rejection threw), record 3 still Rejected (the update
    threw). *)
Example adjustmentCommands_run :
  map PrisonerBehaviourRecord.adjustment_status
      (BehaviourRecords (runBehaviours adjustmentCommands adjustmentStore))
  = [Approved; Pending; Rejected].
Proof. vm_compute. reflexivity. Qed.

(** The guard of [updateBehaviourRecord] refuses Approved records only.
    With the prisoner loaded together with its prison, as
    [getBehaviourRecordById] loads it, the update would go through on a
    Rejected record and set it back to Pending. *)
Remark updateBehaviourRecord_guard_with_nested_include :
  let result :=
    updateBehaviourRecordWith (includePrisoner true) 3
      (mkBehaviourUpdate None None None (Some 7) None) (Some 1) PrisonAdmin
      adjustmentStore in
  option_map PrisonerBehaviourRecord.adjustment_status
             (findBehaviour adjustmentStore 3) = Some Rejected /\
  succeeds result = true /\
  option_map PrisonerBehaviourRecord.adjustment_status
             (findBehaviour (snd result) 3) = Some Pending.
Proof.
  cbv zeta.
  split; [vm_compute; reflexivity|].
  split; vm_compute; reflexivity.
Qed.

(* ================================================================== *)
(** ** Work records: a paid record is final *)
(* ================================================================== *)

Abbreviation findWork s id :=
  (findByPk PrisonerWorkRecord.work_record_id (WorkRecords s) id).

Lemma getWorkRecordById_store workRecordId ups role s o s' :
  getWorkRecordById workRecordId ups role s = (o, s') -> s' = s.
Proof.
  unfold getWorkRecordById. unfold_service. intros H.
  repeat case_step_in H; inversion H; reflexivity.
Qed.

(** The three guarded operations on a paid record. *)
Lemma updateWorkRecord_paid workRecordId updateData ups role s w :
  findWork s workRecordId = Some w ->
  PrisonerWorkRecord.payment_status w = Paid ->
  updateWorkRecord workRecordId updateData ups role s
  = (Throw (match findPrisoner s (PrisonerWorkRecord.prisoner_id w) with
            | None => TypeError
            | Some p =>
                if checkPrisonAccess ups (Prisoner.prison_id p) role
                then JsError "Cannot update work record with paid status"
                else JsError "You do not have access to this work record"
            end), s).
Proof.
  intros Hw Hpaid. unfold updateWorkRecord.
  apply transaction_throw with (s1 := s).
  unfold_service. unfold includePrisoner. rewrite Hw. cbv beta iota.
  destruct (findPrisoner s (PrisonerWorkRecord.prisoner_id w)) as [p|];
    cbn [inc_prisoner]; cbv beta iota; [|reflexivity].
  destruct (checkPrisonAccess ups (Prisoner.prison_id p) role);
    cbn [negb]; cbv beta iota; [|reflexivity].
  rewrite Hpaid. reflexivity.
Qed.

Lemma deleteWorkRecord_paid workRecordId ups role s w :
  findWork s workRecordId = Some w ->
  PrisonerWorkRecord.payment_status w = Paid ->
  deleteWorkRecord workRecordId ups role s
  = (Throw (match findPrisoner s (PrisonerWorkRecord.prisoner_id w) with
            | None => TypeError
            | Some p =>
                if checkPrisonAccess ups (Prisoner.prison_id p) role
                then JsError "Cannot delete work record with paid status"
                else JsError "You do not have access to this work record"
            end), s).
Proof.
  intros Hw Hpaid. unfold deleteWorkRecord.
  unfold_service. unfold includePrisoner. rewrite Hw. cbv beta iota.
  destruct (findPrisoner s (PrisonerWorkRecord.prisoner_id w)) as [p|];
    cbn [inc_prisoner]; cbv beta iota; [|reflexivity].
  destruct (checkPrisonAccess ups (Prisoner.prison_id p) role);
    cbn [negb]; cbv beta iota; [|reflexivity].
  rewrite Hpaid. reflexivity.
Qed.

Lemma approvePayment_paid workRecordId paymentDate ups role now s w :
  findWork s workRecordId = Some w ->
  PrisonerWorkRecord.payment_status w = Paid ->
  approvePayment workRecordId paymentDate ups role now s
  = (Throw (match findPrisoner s (PrisonerWorkRecord.prisoner_id w) with
            | None => TypeError
            | Some p =>
                if checkPrisonAccess ups (Prisoner.prison_id p) role
                then JsError "Payment is already approved for this work record"
                else JsError "You do not have access to this work record"
            end), s).
Proof.
  intros Hw Hpaid. unfold approvePayment.
  apply transaction_throw with (s1 := s).
  unfold_service. unfold includePrisoner. rewrite Hw. cbv beta iota.
  destruct (findPrisoner s (PrisonerWorkRecord.prisoner_id w)) as [p|];
    cbn [inc_prisoner]; cbv beta iota; [|reflexivity].
  destruct (checkPrisonAccess ups (Prisoner.prison_id p) role);
    cbn [negb]; cbv beta iota; [|reflexivity].
  rewrite Hpaid. reflexivity.
Qed.

(** The stores the work record operations leave. *)
Lemma createWorkRecord_store workRecordData uid ups role now s o s' :
  createWorkRecord workRecordData uid ups role now s = (o, s') ->
  s' = s \/
  exists row, WorkRecords s' = insertRow row (WorkRecords s).
Proof.
  unfold createWorkRecord.
  remember (fun newId => getWorkRecordById newId ups role) as after.
  unfold_service. intros H.
  repeat match type of H with
         | context [match ?x with _ => _ end] =>
             lazymatch x with
             | context [match _ with _ => _ end] => fail
             | context [after] => fail
             | _ => destruct x eqn:?
             end; cbv beta iota zeta in H
         end;
    try (inversion H; subst; auto; fail).
  all: match goal with
       | Heq : ?a = (fun _ => getWorkRecordById _ _ _),
         H0 : context [?a ?i ?st] |- _ =>
           destruct (a i st) as [o2 s2] eqn:E
       end;
    rewrite Heqafter in E; apply getWorkRecordById_store in E; subst s2;
    right; eexists;
    destruct o2; inversion H; subst; cbn; reflexivity.
Qed.

Lemma updateWorkRecord_store workRecordId updateData ups role s o s' :
  updateWorkRecord workRecordId updateData ups role s = (o, s') ->
  s' = s \/
  exists w,
    findWork s workRecordId = Some w /\
    PrisonerWorkRecord.payment_status w <> Paid /\
    s' = set_WorkRecords
           (updateRow PrisonerWorkRecord.work_record_id
                      (PrisonerWorkRecord.work_record_id w)
                      (applyWorkRecordUpdate updateData)) s.
Proof.
  unfold updateWorkRecord.
  remember (fun _ : unit => getWorkRecordById workRecordId ups role) as after.
  unfold_service. unfold includePrisoner. intros H.
  repeat match type of H with
         | context [match ?x with _ => _ end] =>
             lazymatch x with
             | context [match _ with _ => _ end] => fail
             | context [after] => fail
             | _ => destruct x eqn:?
             end; cbv beta iota zeta in H
         end;
    try (inversion H; subst; auto; fail).
  all: match goal with
       | Heq : ?a = (fun _ => getWorkRecordById _ _ _),
         H0 : context [?a ?i ?st] |- _ =>
           destruct (a i st) as [o2 s2] eqn:E
       end;
    rewrite Heqafter in E; apply getWorkRecordById_store in E; subst s2;
    right; eexists; split; [reflexivity|]; split;
    [ intros Hst;
      match goal with
      | E1 : PaymentStatus_eqb _ Paid = false |- _ =>
          rewrite Hst in E1; discriminate
      end
    | destruct o2; inversion H; subst; reflexivity ].
Qed.

Lemma deleteWorkRecord_store workRecordId ups role s o s' :
  deleteWorkRecord workRecordId ups role s = (o, s') ->
  s' = s \/
  exists w,
    findWork s workRecordId = Some w /\
    PrisonerWorkRecord.payment_status w <> Paid /\
    s' = set_WorkRecords
           (destroyRow PrisonerWorkRecord.work_record_id
                       (PrisonerWorkRecord.work_record_id w)) s.
Proof.
  unfold deleteWorkRecord. unfold_service. unfold includePrisoner. intros H.
  repeat case_step_in H;
    try (inversion H; subst; auto; fail).
  inversion H; subst. right. eexists.
  split; [reflexivity|]. split; [|reflexivity].
  intros Hst.
  match goal with
  | E : PaymentStatus_eqb _ Paid = false |- _ =>
      rewrite Hst in E; discriminate
  end.
Qed.

Lemma approvePayment_store workRecordId paymentDate ups role now s o s' :
  approvePayment workRecordId paymentDate ups role now s = (o, s') ->
  (s' = s /\ exists e, o = Throw e) \/
  exists w,
    findWork s workRecordId = Some w /\
    PrisonerWorkRecord.payment_status w <> Paid /\
    s' = set_WorkRecords
           (updateRow PrisonerWorkRecord.work_record_id
                      (PrisonerWorkRecord.work_record_id w)
                      (markPaid (orElse paymentDate (today now)))) s.
Proof.
  unfold approvePayment.
  remember (fun _ : unit => getWorkRecordById workRecordId ups role) as after.
  unfold_service. unfold includePrisoner. intros H.
  repeat match type of H with
         | context [match ?x with _ => _ end] =>
             lazymatch x with
             | context [match _ with _ => _ end] => fail
             | context [after] => fail
             | _ => destruct x eqn:?
             end; cbv beta iota zeta in H
         end;
    try (inversion H; subst; left; split; [reflexivity | eexists; reflexivity]; fail).
  all: match goal with
       | Heq : ?a = (fun _ => getWorkRecordById _ _ _),
         H0 : context [?a ?i ?st] |- _ =>
           destruct (a i st) as [o2 s2] eqn:E
       end;
    rewrite Heqafter in E; apply getWorkRecordById_store in E; subst s2;
    right; eexists; split; [reflexivity|]; split;
    [ intros Hst;
      match goal with
      | E1 : PaymentStatus_eqb _ Paid = false |- _ =>
          rewrite Hst in E1; discriminate
      end
    | destruct o2; inversion H; subst; reflexivity ].
Qed.

(** The operations of the work record service that write. *)
Inductive WorkCommand :=
| CreateWork (workRecordData : WorkRecordData) (userId : Z)
    (userPrisonId : option Z) (userRole : UserRole) (now : Clock)
| UpdateWork (workRecordId : Z) (updateData : WorkRecordUpdate)
    (userPrisonId : option Z) (userRole : UserRole)
| DeleteWork (workRecordId : Z) (userPrisonId : option Z) (userRole : UserRole)
| ApprovePayment (workRecordId : Z) (paymentDate : option CivilDate)
    (userPrisonId : option Z) (userRole : UserRole) (now : Clock)
| BulkApprovePayments (workRecordIds : list Z) (paymentDate : option CivilDate)
    (userPrisonId : option Z) (userRole : UserRole) (now : Clock).

Definition runWork (c : WorkCommand) (s : Store) : Store :=
  match c with
  | CreateWork d uid ups role now => snd (createWorkRecord d uid ups role now s)
  | UpdateWork id u ups role => snd (updateWorkRecord id u ups role s)
  | DeleteWork id ups role => snd (deleteWorkRecord id ups role s)
  | ApprovePayment id d ups role now => snd (approvePayment id d ups role now s)
  | BulkApprovePayments ids d ups role now =>
      snd (bulkApprovePayments ids d ups role now s)
  end.

Definition runWorks (cmds : list WorkCommand) (s : Store) : Store :=
  fold_left (fun s c => runWork c s) cmds s.

Lemma bulkApproveOne_paid_stable committed d ups role now wid w acc id :
  findWork committed wid = Some w ->
  PrisonerWorkRecord.payment_status w = Paid ->
  findWork (snd acc) wid = Some w ->
  findWork (snd (bulkApproveOne committed d ups role now acc id)) wid = Some w.
Proof.
  intros Hw Hpaid Hacc. unfold bulkApproveOne.
  destruct acc as [results s]. cbn [snd] in *.
  destruct (findWork committed id) as [workRecord|] eqn:Hrec; [|exact Hacc].
  destruct (includePrisoner false committed
              (PrisonerWorkRecord.prisoner_id workRecord)); [|exact Hacc].
  destruct (negb (checkPrisonAccess ups (Prisoner.prison_id (inc_prisoner p))
                                    role)); [exact Hacc|].
  destruct (PaymentStatus_eqb (PrisonerWorkRecord.payment_status workRecord)
                              Paid) eqn:Est; [exact Hacc|].
  cbn [snd WorkRecords set_WorkRecords].
  pose proof (findByPk_Some _ _ _ Hrec) as [Hid _].
  rewrite findByPk_updateRow_other; [exact Hacc | reflexivity |].
  intros Heq. rewrite Hid in Heq. rewrite <- Heq in Hrec.
  rewrite Hw in Hrec. inversion Hrec; subst workRecord.
  rewrite Hpaid in Est. discriminate.
Qed.

Lemma bulkApprovePayments_paid_stable ids d ups role now s wid w :
  findWork s wid = Some w ->
  PrisonerWorkRecord.payment_status w = Paid ->
  findWork (snd (bulkApprovePayments ids d ups role now s)) wid = Some w.
Proof.
  intros Hw Hpaid. unfold bulkApprovePayments.
  assert (Hfold : forall l acc,
            findWork (snd acc) wid = Some w ->
            findWork (snd (fold_left (bulkApproveOne s d ups role now) l acc))
                     wid = Some w).
  { induction l as [|id l IH]; intros acc Hacc; [exact Hacc|].
    cbn [fold_left]. apply IH.
    apply bulkApproveOne_paid_stable; assumption. }
  specialize (Hfold ids
                (mkBulkResults (Z.of_nat (List.length ids)) 0 0 [], s) Hw).
  destruct (fold_left (bulkApproveOne s d ups role now) ids
              (mkBulkResults (Z.of_nat (List.length ids)) 0 0 [], s))
    as [results s'].
  exact Hfold.
Qed.

(** No command of the work record service touches a paid record. *)
Lemma runWork_paid_stable c s wid w :
  findWork s wid = Some w ->
  PrisonerWorkRecord.payment_status w = Paid ->
  findWork (runWork c s) wid = Some w.
Proof.
  intros Hw Hpaid. destruct c; cbn [runWork].
  - destruct (createWorkRecord workRecordData userId userPrisonId userRole
                now s) as [o s'] eqn:E.
    apply createWorkRecord_store in E. cbn [snd].
    destruct E as [->|(row & ->)]; [exact Hw|].
    rewrite findByPk_insertRow, Hw. reflexivity.
  - destruct (updateWorkRecord workRecordId updateData userPrisonId userRole s)
      as [o s'] eqn:E.
    apply updateWorkRecord_store in E. cbn [snd].
    destruct E as [->|(w0 & Hw0 & Hst & ->)]; [exact Hw|].
    cbn [WorkRecords set_WorkRecords].
    pose proof (findByPk_Some _ _ _ Hw0) as [Hid _].
    rewrite findByPk_updateRow_other; [exact Hw | reflexivity |].
    intros Heq. rewrite Hid in Heq. rewrite <- Heq in Hw0.
    rewrite Hw in Hw0. inversion Hw0; subst w0. contradiction.
  - destruct (deleteWorkRecord workRecordId userPrisonId userRole s)
      as [o s'] eqn:E.
    apply deleteWorkRecord_store in E. cbn [snd].
    destruct E as [->|(w0 & Hw0 & Hst & ->)]; [exact Hw|].
    cbn [WorkRecords set_WorkRecords].
    pose proof (findByPk_Some _ _ _ Hw0) as [Hid _].
    rewrite findByPk_destroyRow_other; [exact Hw |].
    intros Heq. rewrite Hid in Heq. rewrite <- Heq in Hw0.
    rewrite Hw in Hw0. inversion Hw0; subst w0. contradiction.
  - destruct (approvePayment workRecordId paymentDate userPrisonId userRole
                now s) as [o s'] eqn:E.
    apply approvePayment_store in E. cbn [snd].
    destruct E as [[-> _]|(w0 & Hw0 & Hst & ->)]; [exact Hw|].
    cbn [WorkRecords set_WorkRecords].
    pose proof (findByPk_Some _ _ _ Hw0) as [Hid _].
    rewrite findByPk_updateRow_other; [exact Hw | reflexivity |].
    intros Heq. rewrite Hid in Heq. rewrite <- Heq in Hw0.
    rewrite Hw in Hw0. inversion Hw0; subst w0. contradiction.
  - apply bulkApprovePayments_paid_stable; assumption.
Qed.

Lemma runWorks_paid_stable cmds : forall s wid w,
  findWork s wid = Some w ->
  PrisonerWorkRecord.payment_status w = Paid ->
  findWork (runWorks cmds s) wid = Some w.
Proof.
  induction cmds as [|c cmds IH]; intros s wid w Hw Hpaid; [exact Hw|].
  unfold runWorks. cbn [fold_left]. apply IH; [|exact Hpaid].
  apply runWork_paid_stable; assumption.
Qed.

(** C9: on a work record whose payment status is Paid every
    [updateWorkRecord], [deleteWorkRecord] and [approvePayment] call throws
    and leaves the store as it was (for a caller with access the messages
    are 'Cannot update work record with paid status', 'Cannot delete work
    record with paid status' and 'Payment is already approved for this work
    record'), and the record stays what it is over any later sequence of
    work record operations; an [approvePayment] call that succeeds found a
    record that was not Paid and leaves it Paid with its payment date
    set. *)
Theorem paid_work_record_is_final :
  (forall s workRecordId w,
      findWork s workRecordId = Some w ->
      PrisonerWorkRecord.payment_status w = Paid ->
      (forall updateData ups role,
          (exists e,
              updateWorkRecord workRecordId updateData ups role s
              = (Throw e, s)) /\
          (forall p,
              findPrisoner s (PrisonerWorkRecord.prisoner_id w) = Some p ->
              checkPrisonAccess ups (Prisoner.prison_id p) role = true ->
              updateWorkRecord workRecordId updateData ups role s
              = (Throw (JsError "Cannot update work record with paid status"),
                 s))) /\
      (forall ups role,
          (exists e, deleteWorkRecord workRecordId ups role s = (Throw e, s)) /\
          (forall p,
              findPrisoner s (PrisonerWorkRecord.prisoner_id w) = Some p ->
              checkPrisonAccess ups (Prisoner.prison_id p) role = true ->
              deleteWorkRecord workRecordId ups role s
              = (Throw (JsError "Cannot delete work record with paid status"),
                 s))) /\
      (forall paymentDate ups role now,
          (exists e,
              approvePayment workRecordId paymentDate ups role now s
              = (Throw e, s)) /\
          (forall p,
              findPrisoner s (PrisonerWorkRecord.prisoner_id w) = Some p ->
              checkPrisonAccess ups (Prisoner.prison_id p) role = true ->
              approvePayment workRecordId paymentDate ups role now s
              = (Throw (JsError "Payment is already approved for this work record"),
                 s))) /\
      (forall cmds, findWork (runWorks cmds s) workRecordId = Some w)) /\
  (forall s workRecordId paymentDate ups role now w' s1,
      approvePayment workRecordId paymentDate ups role now s = (Ok w', s1) ->
      exists w paid,
        findWork s workRecordId = Some w /\
        PrisonerWorkRecord.payment_status w <> Paid /\
        findWork s1 workRecordId = Some paid /\
        paid = markPaid (orElse paymentDate (today now)) w /\
        PrisonerWorkRecord.payment_status paid = Paid /\
        PrisonerWorkRecord.payment_date paid
        = Some (orElse paymentDate (today now))).
Proof.
  split.
  - intros s workRecordId w Hw Hpaid.
    split; [|split; [|split]].
    + intros updateData ups role.
      rewrite (@updateWorkRecord_paid workRecordId updateData ups role s w Hw Hpaid).
      split; [eexists; reflexivity|].
      intros p Hp Hacc. rewrite Hp, Hacc. reflexivity.
    + intros ups role. rewrite (@deleteWorkRecord_paid workRecordId ups role s w Hw Hpaid).
      split; [eexists; reflexivity|].
      intros p Hp Hacc. rewrite Hp, Hacc. reflexivity.
    + intros paymentDate ups role now.
      rewrite (@approvePayment_paid workRecordId paymentDate ups role now s w Hw Hpaid).
      split; [eexists; reflexivity|].
      intros p Hp Hacc. rewrite Hp, Hacc. reflexivity.
    + intros cmds. apply runWorks_paid_stable; assumption.
  - intros s workRecordId paymentDate ups role now w' s1 Hrun.
    apply approvePayment_store in Hrun.
    destruct Hrun as [[_ [e He]]|(w & Hw & Hst & ->)]; [discriminate|].
    exists w, (markPaid (orElse paymentDate (today now)) w).
    split; [exact Hw|]. split; [exact Hst|].
    split.
    { cbn [WorkRecords set_WorkRecords].
      pose proof (findByPk_Some _ _ _ Hw) as [Hid _]. rewrite Hid.
      rewrite findByPk_updateRow_same by reflexivity.
      rewrite Hw. reflexivity. }
    repeat split.
Qed.

(** A paid and a pending record of prisoner 1. *)
Definition workStore : Store :=
  mkStore
    [Prison.mk 1 "Welikada" 5 true]
    [Prisoner.mk 1 "901234567V" "CASE-1" (mkDate 2024 1 10) None None Active 1]
    [] []
    [PrisonerWorkRecord.mk 1 1 "laundry" (mkDate 2024 8 1) 800 120000 Paid
       (Some (mkDate 2024 8 15)) 7;
     PrisonerWorkRecord.mk 2 1 "kitchen" (mkDate 2024 8 2) 600 90000
       PaymentPending None 7]
    []
    2 2 1 3 1.

Example paid_work_record_scenario :
  updateWorkRecord 1 (mkWorkRecordUpdate None None (Some 100) None) (Some 1)
                   Officer workStore
  = (Throw (JsError "Cannot update work record with paid status"), workStore) /\
  deleteWorkRecord 1 (Some 1) Officer workStore
  = (Throw (JsError "Cannot delete work record with paid status"), workStore) /\
  approvePayment 1 None (Some 1) PrisonAdmin aClock workStore
  = (Throw (JsError "Payment is already approved for this work record"),
     workStore) /\
  succeeds (approvePayment 2 None (Some 1) PrisonAdmin aClock workStore) = true /\
  findWork (snd (approvePayment 2 None (Some 1) PrisonAdmin aClock workStore)) 2
  = Some (PrisonerWorkRecord.mk 2 1 "kitchen" (mkDate 2024 8 2) 600 90000
            Paid (Some (mkDate 2024 9 1)) 7).
Proof.
  split; [vm_compute; reflexivity|].
  split; [vm_compute; reflexivity|].
  split; [vm_compute; reflexivity|].
  split; vm_compute; reflexivity.
Qed.

(* ================================================================== *)
(** ** Visits: the conflict check *)
(* ================================================================== *)

Abbreviation findVisit s id := (findByPk Visit.visit_id (Visits s) id).

Definition conflictError : Error :=
  JsError "Visit time conflict: Another visit is already scheduled during this time".

(** Two windows overlap as closed intervals. *)
Definition closedOverlap (timeStart timeEnd : Time) (v : Visit.row) : Prop :=
  Visit.visit_time_start v <= timeEnd /\ timeStart <= Visit.visit_time_end v.

(** Two windows overlap as half-open intervals [start, end). *)
Definition halfOpenOverlap (timeStart timeEnd : Time) (v : Visit.row) : Prop :=
  Visit.visit_time_start v < timeEnd /\ timeStart < Visit.visit_time_end v.

(** The three alternatives of the query cover exactly the closed overlap
    of two well-formed windows. *)
Lemma timeConflict_closedOverlap timeStart timeEnd v :
  timeStart <= timeEnd ->
  Visit.visit_time_start v <= Visit.visit_time_end v ->
  timeConflict timeStart timeEnd v = true <-> closedOverlap timeStart timeEnd v.
Proof.
  intros Hq Hv. unfold timeConflict, between, closedOverlap.
  rewrite !orb_true_iff, !andb_true_iff, !Z.leb_le. lia.
Qed.

(** Whatever the windows, a half-open overlap is caught by the query. *)
Lemma halfOpenOverlap_timeConflict timeStart timeEnd v :
  halfOpenOverlap timeStart timeEnd v ->
  timeConflict timeStart timeEnd v = true.
Proof.
  unfold timeConflict, between, halfOpenOverlap.
  rewrite !orb_true_iff, !andb_true_iff, !Z.leb_le. lia.
Qed.

Lemma conflictWhere_true prisonerId visitDate timeStart timeEnd v :
  conflictWhere prisonerId visitDate timeStart timeEnd v = true <->
  Visit.prisoner_id v = prisonerId /\
  Visit.visit_date v = visitDate /\
  Visit.status v = Scheduled /\
  timeConflict timeStart timeEnd v = true.
Proof.
  unfold conflictWhere.
  rewrite !andb_true_iff, Z.eqb_eq, CivilDate_eqb_eq, VisitStatus_eqb_eq.
  tauto.
Qed.

Lemma findOne_isSome R (where_ : R -> bool) (t : list R) :
  isSome (findOne where_ t) = true <-> exists r, In r t /\ where_ r = true.
Proof.
  unfold findOne. split.
  - destruct (find where_ t) as [r|] eqn:E; [|discriminate].
    intros _. apply find_some in E. exists r. exact E.
  - intros [r [Hin Hr]].
    destruct (find where_ t) as [r'|] eqn:E; [reflexivity|].
    apply (find_none _ _ E) in Hin. congruence.
Qed.

(** What [scheduleVisit] inserts. *)
Definition scheduledRow (visitData : VisitData) (userId newId : Z)
  : Visit.row :=
  Visit.mk newId (vd_prisoner_id visitData) (vd_visitor_id visitData)
    (vd_relationship visitData) (vd_visit_date visitData)
    (vd_visit_time_start visitData) (vd_visit_time_end visitData)
    (vd_purpose visitData) Scheduled (Some userId)
    (orS (vd_notes visitData) None).

Definition afterSchedule (row : Visit.row) (s : Store) : Store :=
  mkStore (Prisons s) (Prisoners s) (Visitors s) (insertRow row (Visits s))
    (WorkRecords s) (BehaviourRecords s)
    (next_prison_id s) (next_prisoner_id s) (next_visit_id s + 1)
    (next_work_record_id s) (next_behaviour_id s).

Lemma getVisitById_store visitId ups role s o s' :
  getVisitById visitId ups role s = (o, s') -> s' = s.
Proof.
  unfold getVisitById. unfold_service. intros H.
  repeat case_step_in H; inversion H; reflexivity.
Qed.

(** [scheduleVisit] once the prisoner, the access and the visitor are
    there: the conflict query decides. *)
Lemma scheduleVisit_checked visitData uid ups role s p visitor :
  findPrisoner s (vd_prisoner_id visitData) = Some p ->
  Prisoner.isActive p = true ->
  checkPrisonAccess ups (Prisoner.prison_id p) role = true ->
  findByPk Visitor.visitor_id (Visitors s) (vd_visitor_id visitData)
  = Some visitor ->
  scheduleVisit visitData uid ups role s
  = if isSome (findOne (conflictWhere (vd_prisoner_id visitData)
                                      (vd_visit_date visitData)
                                      (vd_visit_time_start visitData)
                                      (vd_visit_time_end visitData))
                       (Visits s))
    then (Throw conflictError, s)
    else match getVisitById (next_visit_id s) ups role
                 (afterSchedule (scheduledRow visitData uid (next_visit_id s)) s)
         with
         | (Ok b, s2) => (Ok b, s2)
         | (Throw _, s2) => (Throw rollback_after_commit, s2)
         end.
Proof.
  intros Hp Hact Hacc Hv. unfold scheduleVisit.
  remember (fun newId => getVisitById newId ups role) as after.
  unfold_service. rewrite Hp. cbv beta iota. rewrite Hact, Hacc.
  cbn [negb]. cbv beta iota. rewrite Hv. cbv beta iota.
  destruct (findOne (conflictWhere (vd_prisoner_id visitData)
                                   (vd_visit_date visitData)
                                   (vd_visit_time_start visitData)
                                   (vd_visit_time_end visitData))
                    (Visits s)); cbn [isSome]; cbv beta iota.
  - reflexivity.
  - subst after. reflexivity.
Qed.

(** The store a scheduling leaves. *)
Lemma scheduleVisit_store visitData uid ups role s o s' :
  scheduleVisit visitData uid ups role s = (o, s') ->
  (s' = s /\ exists e, o = Throw e) \/
  (findOne (conflictWhere (vd_prisoner_id visitData)
                          (vd_visit_date visitData)
                          (vd_visit_time_start visitData)
                          (vd_visit_time_end visitData))
           (Visits s) = None /\
   s' = afterSchedule (scheduledRow visitData uid (next_visit_id s)) s /\
   (forall b, o = Ok b -> findVisit s' (next_visit_id s) = Some b)).
Proof.
  unfold scheduleVisit.
  remember (fun newId => getVisitById newId ups role) as after.
  unfold_service. intros H.
  repeat match type of H with
         | context [match ?x with _ => _ end] =>
             lazymatch x with
             | context [match _ with _ => _ end] => fail
             | context [after] => fail
             | _ => destruct x eqn:?
             end; cbv beta iota zeta in H
         end;
    try (inversion H; subst; left; split; [reflexivity | eexists; reflexivity]; fail).
  match goal with
  | Heq : ?a = (fun _ => getVisitById _ _ _),
    H0 : context [?a ?i ?st] |- _ =>
      destruct (a i st) as [o2 s2] eqn:E
  end.
  rewrite Heqafter in E.
  pose proof (getVisitById_store _ _ _ _ E) as Hs2. subst s2.
  right. split; [reflexivity|].
  destruct o2 as [b|e]; inversion H; subst.
  - split; [reflexivity|]. intros b0 Hb0. inversion Hb0; subst b0.
    unfold getVisitById in E. unfold_service.
    repeat case_step_in E; inversion E; subst. reflexivity.
  - split; [reflexivity|]. intros b0 Hb0. discriminate.
Qed.

(** [updateVisit] on a Scheduled visit the caller has access to, when the
    body carries a date or a time: the conflict query, run on the window
    the visit would get and leaving the visit itself out, decides. *)
Lemma updateVisit_checked visitId updateData ups role s v p :
  findVisit s visitId = Some v ->
  findPrisoner s (Visit.prisoner_id v) = Some p ->
  checkPrisonAccess ups (Prisoner.prison_id p) role = true ->
  Visit.status v = Scheduled ->
  isSome (vu_visit_date updateData)
  || isSome (vu_visit_time_start updateData)
  || isSome (vu_visit_time_end updateData) = true ->
  updateVisit visitId updateData ups role s
  = if isSome (findOne
                 (conflictWhereExcept visitId (Visit.prisoner_id v)
                    (orElse (vu_visit_date updateData) (Visit.visit_date v))
                    (orElse (vu_visit_time_start updateData)
                            (Visit.visit_time_start v))
                    (orElse (vu_visit_time_end updateData)
                            (Visit.visit_time_end v)))
                 (Visits s))
    then (Throw conflictError, s)
    else match getVisitById visitId ups role
                 (set_Visits
                    (updateRow Visit.visit_id (Visit.visit_id v)
                               (applyVisitUpdate updateData)) s)
         with
         | (Ok b, s2) => (Ok b, s2)
         | (Throw _, s2) => (Throw rollback_after_commit, s2)
         end.
Proof.
  intros Hv Hp Hacc Hst Hgiven. unfold updateVisit.
  remember (fun _ : unit => getVisitById visitId ups role) as after.
  unfold_service. unfold includePrisoner.
  rewrite Hv. cbv beta iota. rewrite Hp. cbn [inc_prisoner]. cbv beta iota.
  rewrite Hacc, Hst. cbn [negb VisitStatus_eqb]. cbv beta iota.
  rewrite Hgiven. cbv beta iota zeta.
  destruct (findOne
              (conflictWhereExcept visitId (Visit.prisoner_id v)
                 (orElse (vu_visit_date updateData) (Visit.visit_date v))
                 (orElse (vu_visit_time_start updateData)
                         (Visit.visit_time_start v))
                 (orElse (vu_visit_time_end updateData)
                         (Visit.visit_time_end v)))
              (Visits s)); cbn [isSome]; cbv beta iota.
  - reflexivity.
  - subst after. reflexivity.
Qed.

(** The detector as the specification words it: some other Scheduled visit
    of the person on the date has [timeStart < queryEnd] and
    [timeEnd > queryStart]. *)
Definition hasConflict_spec (s : Store) (personId : Z) (date : CivilDate)
    (timeStart timeEnd : Time) (excludeVisitId : option Z) : bool :=
  existsb
    (fun v =>
       (Visit.prisoner_id v =? personId)
       && CivilDate_eqb (Visit.visit_date v) date
       && VisitStatus_eqb (Visit.status v) Scheduled
       && match excludeVisitId with
          | Some x => negb (Visit.visit_id v =? x)
          | None => true
          end
       && (Visit.visit_time_start v <? timeEnd)
       && (timeStart <? Visit.visit_time_end v))
    (Visits s).

(** Visit A of the scenario: prisoner 1 on 2025-01-10 from 09:00 to 09:30. *)
Definition visitStore : Store :=
  mkStore
    [Prison.mk 1 "Welikada" 5 true]
    [Prisoner.mk 1 "901234567V" "CASE-1" (mkDate 2024 1 10) None None Active 1]
    [Visitor.mk 1 "851234567V"]
    [Visit.mk 1 1 1 "brother" (mkDate 2025 1 10) (hhmm 9 0) (hhmm 9 30)
       None Scheduled (Some 7) None]
    [] []
    2 2 2 1 1.

Definition visitB (timeStart timeEnd : Time) : VisitData :=
  mkVisitData 1 1 "brother" (mkDate 2025 1 10) timeStart timeEnd None None.

(** C7, as stated, fails: with visit A from 09:00 to 09:30, the window
    09:30 to 10:00 does not overlap it in the half-open sense, yet
    [scheduleVisit] refuses it with the conflict error. *)
Lemma back_to_back_visit_refused :
  hasConflict_spec visitStore 1 (mkDate 2025 1 10) (hhmm 9 30) (hhmm 10 0) None
  = false /\
  scheduleVisit (visitB (hhmm 9 30) (hhmm 10 0)) 7 (Some 1) VisitorManager
                visitStore
  = (Throw conflictError, visitStore).
Proof. split; vm_compute; reflexivity. Qed.

(** A visit of the store that is Scheduled for the person on the date,
    other than the excluded one, and whose window meets the one asked for
    as closed intervals. *)
Definition closedConflict (s : Store) (excludeVisitId : option Z)
    (prisonerId : Z) (visitDate : CivilDate) (timeStart timeEnd : Time)
  : Prop :=
  exists v,
    In v (Visits s) /\
    (forall x, excludeVisitId = Some x -> Visit.visit_id v <> x) /\
    Visit.prisoner_id v = prisonerId /\
    Visit.visit_date v = visitDate /\
    Visit.status v = Scheduled /\
    closedOverlap timeStart timeEnd v.

Lemma conflictWhere_closedConflict s prisonerId visitDate timeStart timeEnd :
  timeStart <= timeEnd ->
  (forall v, In v (Visits s) ->
             Visit.visit_time_start v <= Visit.visit_time_end v) ->
  isSome (findOne (conflictWhere prisonerId visitDate timeStart timeEnd)
                  (Visits s)) = true <->
  closedConflict s None prisonerId visitDate timeStart timeEnd.
Proof.
  intros Hq Hwf. rewrite findOne_isSome. unfold closedConflict. split.
  - intros (v & Hin & Hw). apply conflictWhere_true in Hw.
    destruct Hw as (Hp & Hd & Hs & Ht).
    apply timeConflict_closedOverlap in Ht; [|exact Hq | apply Hwf; exact Hin].
    exists v. repeat split; try assumption; try discriminate;
      destruct Ht; assumption.
  - intros (v & Hin & _ & Hp & Hd & Hs & Ht). exists v.
    split; [exact Hin|]. apply conflictWhere_true.
    repeat split; try assumption.
    apply timeConflict_closedOverlap; [exact Hq | apply Hwf; exact Hin | exact Ht].
Qed.

Lemma conflictWhereExcept_closedConflict s visitId prisonerId visitDate
    timeStart timeEnd :
  timeStart <= timeEnd ->
  (forall v, In v (Visits s) ->
             Visit.visit_time_start v <= Visit.visit_time_end v) ->
  isSome (findOne (conflictWhereExcept visitId prisonerId visitDate
                                       timeStart timeEnd)
                  (Visits s)) = true <->
  closedConflict s (Some visitId) prisonerId visitDate timeStart timeEnd.
Proof.
  intros Hq Hwf. rewrite findOne_isSome. unfold closedConflict. split.
  - intros (v & Hin & Hw). unfold conflictWhereExcept in Hw.
    apply andb_true_iff in Hw as [Hne Hw].
    apply negb_true_iff, Z.eqb_neq in Hne.
    apply conflictWhere_true in Hw.
    destruct Hw as (Hp & Hd & Hs & Ht).
    apply timeConflict_closedOverlap in Ht; [|exact Hq | apply Hwf; exact Hin].
    exists v. split; [exact Hin|]. split.
    { intros x Hx. inversion Hx; subst x. exact Hne. }
    repeat split; try assumption; destruct Ht; assumption.
  - intros (v & Hin & Hne & Hp & Hd & Hs & Ht). exists v.
    split; [exact Hin|]. unfold conflictWhereExcept.
    apply andb_true_iff. split.
    + apply negb_true_iff, Z.eqb_neq. apply Hne. reflexivity.
    + apply conflictWhere_true. repeat split; try assumption.
      apply timeConflict_closedOverlap;
        [exact Hq | apply Hwf; exact Hin | exact Ht].
Qed.

Lemma rollback_is_not_conflict : rollback_after_commit <> conflictError.
Proof. unfold rollback_after_commit, conflictError. discriminate. Qed.

(** The three alternatives of the conflict query, said of the two windows:
    the existing visit starts or ends within the window asked for, ends
    included, or spans it. *)
Definition withinOrSpans (timeStart timeEnd : Time) (v : Visit.row) : Prop :=
  timeStart <= Visit.visit_time_start v <= timeEnd
  \/ timeStart <= Visit.visit_time_end v <= timeEnd
  \/ (Visit.visit_time_start v <= timeStart
      /\ timeEnd <= Visit.visit_time_end v).

Lemma timeConflict_withinOrSpans timeStart timeEnd v :
  timeConflict timeStart timeEnd v = true <-> withinOrSpans timeStart timeEnd v.
Proof.
  unfold timeConflict, between, withinOrSpans.
  rewrite !orb_true_iff, !andb_true_iff, !Z.leb_le. tauto.
Qed.

(** A visit of the store that is Scheduled for the person on the date,
    other than the excluded one, and that starts or ends within the window
    asked for or spans it. *)
Definition queryConflict (s : Store) (excludeVisitId : option Z)
    (prisonerId : Z) (visitDate : CivilDate) (timeStart timeEnd : Time)
  : Prop :=
  exists v,
    In v (Visits s) /\
    (forall x, excludeVisitId = Some x -> Visit.visit_id v <> x) /\
    Visit.prisoner_id v = prisonerId /\
    Visit.visit_date v = visitDate /\
    Visit.status v = Scheduled /\
    withinOrSpans timeStart timeEnd v.

Lemma conflictWhere_queryConflict s prisonerId visitDate timeStart timeEnd :
  isSome (findOne (conflictWhere prisonerId visitDate timeStart timeEnd)
                  (Visits s)) = true <->
  queryConflict s None prisonerId visitDate timeStart timeEnd.
Proof.
  rewrite findOne_isSome. unfold queryConflict. split.
  - intros (v & Hin & Hw). apply conflictWhere_true in Hw.
    destruct Hw as (Hp & Hd & Hs & Ht).
    apply timeConflict_withinOrSpans in Ht.
    exists v. repeat split; try assumption; discriminate.
  - intros (v & Hin & _ & Hp & Hd & Hs & Ht). exists v.
    split; [exact Hin|]. apply conflictWhere_true.
    repeat split; try assumption.
    apply timeConflict_withinOrSpans. exact Ht.
Qed.

Lemma conflictWhereExcept_queryConflict s visitId prisonerId visitDate
    timeStart timeEnd :
  isSome (findOne (conflictWhereExcept visitId prisonerId visitDate
                                       timeStart timeEnd)
                  (Visits s)) = true <->
  queryConflict s (Some visitId) prisonerId visitDate timeStart timeEnd.
Proof.
  rewrite findOne_isSome. unfold queryConflict. split.
  - intros (v & Hin & Hw). unfold conflictWhereExcept in Hw.
    apply andb_true_iff in Hw as [Hne Hw].
    apply negb_true_iff, Z.eqb_neq in Hne.
    apply conflictWhere_true in Hw.
    destruct Hw as (Hp & Hd & Hs & Ht).
    apply timeConflict_withinOrSpans in Ht.
    exists v. split; [exact Hin|]. split.
    { intros x Hx. inversion Hx; subst x. exact Hne. }
    repeat split; assumption.
  - intros (v & Hin & Hne & Hp & Hd & Hs & Ht). exists v.
    split; [exact Hin|]. unfold conflictWhereExcept.
    apply andb_true_iff. split.
    + apply negb_true_iff, Z.eqb_neq. apply Hne. reflexivity.
    + apply conflictWhere_true. repeat split; try assumption.
      apply timeConflict_withinOrSpans. exact Ht.
Qed.

(** On windows that both have their start before their end, the three
    alternatives are the overlap of closed intervals. *)
Lemma queryConflict_closedConflict s excludeVisitId prisonerId visitDate
    timeStart timeEnd :
  timeStart <= timeEnd ->
  (forall v, In v (Visits s) ->
             Visit.visit_time_start v <= Visit.visit_time_end v) ->
  queryConflict s excludeVisitId prisonerId visitDate timeStart timeEnd <->
  closedConflict s excludeVisitId prisonerId visitDate timeStart timeEnd.
Proof.
  intros Hq Hwf. unfold queryConflict, closedConflict, withinOrSpans,
                   closedOverlap.
  split; intros (v & Hin & Hne & Hp & Hd & Hs & Ht); exists v;
    pose proof (Hwf v Hin); repeat split; try assumption; lia.
Qed.

(** C7, amended: the conflict check of [scheduleVisit] and [updateVisit]
    reports a conflict exactly when some other Scheduled visit of the same
    person on the same date starts or ends within the requested window,
    ends included, or spans it.  When the requested window and the windows
    on record have their start at or before their end, this is the overlap
    of closed intervals, [existing.timeStart <= requested.timeEnd] and
    [existing.timeEnd >= requested.timeStart].  With visit A from 09:00 to
    09:30 on record, 09:15 to 09:45 is refused as a conflict, and so is the
    window 09:30 to 10:00 that only touches it. *)
Theorem conflict_check_inclusive :
  (forall s prisonerId visitDate timeStart timeEnd,
      (forall visitData uid ups role p visitor,
          vd_prisoner_id visitData = prisonerId ->
          vd_visit_date visitData = visitDate ->
          vd_visit_time_start visitData = timeStart ->
          vd_visit_time_end visitData = timeEnd ->
          findPrisoner s prisonerId = Some p ->
          Prisoner.isActive p = true ->
          checkPrisonAccess ups (Prisoner.prison_id p) role = true ->
          findByPk Visitor.visitor_id (Visitors s) (vd_visitor_id visitData)
          = Some visitor ->
          (scheduleVisit visitData uid ups role s = (Throw conflictError, s) <->
           queryConflict s None prisonerId visitDate timeStart timeEnd)) /\
      (forall visitId updateData ups role v p,
          findVisit s visitId = Some v ->
          findPrisoner s (Visit.prisoner_id v) = Some p ->
          checkPrisonAccess ups (Prisoner.prison_id p) role = true ->
          Visit.status v = Scheduled ->
          isSome (vu_visit_date updateData)
          || isSome (vu_visit_time_start updateData)
          || isSome (vu_visit_time_end updateData) = true ->
          Visit.prisoner_id v = prisonerId ->
          orElse (vu_visit_date updateData) (Visit.visit_date v) = visitDate ->
          orElse (vu_visit_time_start updateData) (Visit.visit_time_start v)
          = timeStart ->
          orElse (vu_visit_time_end updateData) (Visit.visit_time_end v)
          = timeEnd ->
          (updateVisit visitId updateData ups role s
           = (Throw conflictError, s) <->
           queryConflict s (Some visitId) prisonerId visitDate timeStart
                         timeEnd)) /\
      (timeStart <= timeEnd ->
       (forall v, In v (Visits s) ->
                  Visit.visit_time_start v <= Visit.visit_time_end v) ->
       forall excludeVisitId,
         queryConflict s excludeVisitId prisonerId visitDate timeStart timeEnd
         <-> closedConflict s excludeVisitId prisonerId visitDate timeStart
                            timeEnd)) /\
  scheduleVisit (visitB (hhmm 9 15) (hhmm 9 45)) 7 (Some 1) VisitorManager
                visitStore
  = (Throw conflictError, visitStore) /\
  scheduleVisit (visitB (hhmm 9 30) (hhmm 10 0)) 7 (Some 1) VisitorManager
                visitStore
  = (Throw conflictError, visitStore).
Proof.
  split; [|split; vm_compute; reflexivity].
  intros s prisonerId visitDate timeStart timeEnd.
  split; [|split].
  - intros visitData uid ups role p visitor Hpid Hdate Hstart Hend Hp Hact
           Hacc Hvis.
    rewrite <- Hpid in Hp.
    rewrite (scheduleVisit_checked visitData uid ups role s Hp Hact Hacc Hvis).
    rewrite Hpid, Hdate, Hstart, Hend.
    rewrite <- (@conflictWhere_queryConflict s prisonerId visitDate
                  timeStart timeEnd).
    destruct (isSome (findOne (conflictWhere prisonerId visitDate timeStart
                                             timeEnd) (Visits s))).
    + split; reflexivity.
    + split; [|discriminate].
      destruct (getVisitById (next_visit_id s) ups role
                  (afterSchedule (scheduledRow visitData uid (next_visit_id s))
                                 s)) as [[b|e] s2];
        intros H; inversion H.
  - intros visitId updateData ups role v p Hv Hp Hacc Hst Hgiven Hpid Hdate
           Hstart Hend.
    rewrite (updateVisit_checked visitId updateData ups role s Hv Hp Hacc Hst
                                 Hgiven).
    rewrite Hpid, Hdate, Hstart, Hend.
    rewrite <- (@conflictWhereExcept_queryConflict s visitId prisonerId
                  visitDate timeStart timeEnd).
    destruct (isSome (findOne (conflictWhereExcept visitId prisonerId
                                 visitDate timeStart timeEnd) (Visits s))).
    + split; reflexivity.
    + split; [|discriminate].
      destruct (getVisitById visitId ups role
                  (set_Visits
                     (updateRow Visit.visit_id (Visit.visit_id v)
                                (applyVisitUpdate updateData)) s))
        as [[b|e] s2];
        intros H; inversion H.
  - intros Hq Hwf excludeVisitId.
    apply queryConflict_closedConflict; assumption.
Qed.

Lemma visitStore_windows :
  forall v, In v (Visits visitStore) ->
            Visit.visit_time_start v <= Visit.visit_time_end v.
Proof. intros v [<-|[]]. vm_compute. discriminate. Qed.

(** The touching window on the store of the scenario: the call is refused,
    the three alternatives hold of visit A, and so does closed overlap. *)
Lemma conflict_check_inclusive_witness :
  (scheduleVisit (visitB (hhmm 9 30) (hhmm 10 0)) 7 (Some 1) VisitorManager
                 visitStore
   = (Throw conflictError, visitStore) <->
   queryConflict visitStore None 1 (mkDate 2025 1 10) (hhmm 9 30) (hhmm 10 0))
  /\
  (queryConflict visitStore None 1 (mkDate 2025 1 10) (hhmm 9 30) (hhmm 10 0)
   <-> closedConflict visitStore None 1 (mkDate 2025 1 10) (hhmm 9 30)
                      (hhmm 10 0)).
Proof.
  pose proof (proj1 conflict_check_inclusive visitStore 1 (mkDate 2025 1 10)
                (hhmm 9 30) (hhmm 10 0)) as (Hschedule & _ & Hclosed).
  split.
  - exact (Hschedule (visitB (hhmm 9 30) (hhmm 10 0)) 7 (Some 1)
             VisitorManager
             (Prisoner.mk 1 "901234567V" "CASE-1" (mkDate 2024 1 10) None None
                          Active 1)
             (Visitor.mk 1 "851234567V")
             eq_refl eq_refl eq_refl eq_refl eq_refl eq_refl eq_refl eq_refl).
  - exact (Hclosed ltac:(vm_compute; discriminate) visitStore_windows None).
Defined.

(** Visit A and a second visit of the same person from 10:00 to 10:30. *)
Definition twoVisits : Store :=
  afterSchedule (scheduledRow (visitB (hhmm 10 0) (hhmm 10 30)) 7 2) visitStore.

(** The services do not keep the start of a window before its end:
    [updateVisit] with a body that carries only [visit_time_end] tests the
    window 10:00 to 08:00 for the second visit.  Visit A, from 09:00 to
    09:30, spans it in the sense of the third alternative, and the call is
    refused as a conflict, although the two windows do not meet the closed
    overlap test. *)
Example inverted_window_conflict :
  updateVisit 2 (mkVisitUpdate None None None (Some (hhmm 8 0)) None None)
              (Some 1) VisitorManager twoVisits
  = (Throw conflictError, twoVisits) /\
  ~ closedConflict twoVisits (Some 2) 1 (mkDate 2025 1 10) (hhmm 10 0)
                   (hhmm 8 0).
Proof.
  split; [vm_compute; reflexivity|].
  intros (v & Hin & Hne & _ & _ & _ & Hov).
  destruct Hin as [<-|[<-|[]]].
  - destruct Hov as [Hov _]. vm_compute in Hov. apply Hov. reflexivity.
  - apply (Hne 2 eq_refl). reflexivity.
Qed.

(** The scenario on the code: 09:15 to 09:45 is refused, and so is 09:30 to
    10:00; 09:31 to 10:00 is accepted. *)
Example visit_scenario :
  scheduleVisit (visitB (hhmm 9 15) (hhmm 9 45)) 7 (Some 1) VisitorManager
                visitStore
  = (Throw conflictError, visitStore) /\
  scheduleVisit (visitB (hhmm 9 30) (hhmm 10 0)) 7 (Some 1) VisitorManager
                visitStore
  = (Throw conflictError, visitStore) /\
  succeeds (scheduleVisit (visitB (hhmm 9 31) (hhmm 10 0)) 7 (Some 1)
                          VisitorManager visitStore) = true.
Proof.
  split; [vm_compute; reflexivity|].
  split; vm_compute; reflexivity.
Qed.

(* ================================================================== *)
(** ** Visits: the stores the operations leave *)
(* ================================================================== *)

Lemma updateVisit_store visitId updateData ups role s o s' :
  updateVisit visitId updateData ups role s = (o, s') ->
  s' = s \/
  exists v,
    findVisit s visitId = Some v /\
    Visit.status v = Scheduled /\
    (isSome (vu_visit_date updateData)
     || isSome (vu_visit_time_start updateData)
     || isSome (vu_visit_time_end updateData) = true ->
     findOne (conflictWhereExcept visitId (Visit.prisoner_id v)
                (orElse (vu_visit_date updateData) (Visit.visit_date v))
                (orElse (vu_visit_time_start updateData)
                        (Visit.visit_time_start v))
                (orElse (vu_visit_time_end updateData)
                        (Visit.visit_time_end v)))
             (Visits s) = None) /\
    s' = set_Visits
           (updateRow Visit.visit_id (Visit.visit_id v)
                      (applyVisitUpdate updateData)) s.
Proof.
  unfold updateVisit.
  remember (fun _ : unit => getVisitById visitId ups role) as after.
  unfold_service. unfold includePrisoner. intros H.
  repeat match type of H with
         | context [match ?x with _ => _ end] =>
             lazymatch x with
             | context [match _ with _ => _ end] => fail
             | context [after] => fail
             | _ => destruct x eqn:?
             end; cbv beta iota zeta in H
         end;
    try (inversion H; subst; auto; fail).
  all: match goal with
       | Heq : ?a = (fun _ => getVisitById _ _ _),
         H0 : context [?a ?i ?st] |- _ =>
           destruct (a i st) as [o2 s2] eqn:E
       end;
    rewrite Heqafter in E; apply getVisitById_store in E; subst s2;
    right; eexists; split; [reflexivity|]; split;
    [ match goal with
      | E1 : negb (VisitStatus_eqb _ Scheduled) = false |- _ =>
          apply negb_false_iff, VisitStatus_eqb_eq in E1; exact E1
      end
    | split;
      [ intros Hgiven;
        try (match goal with
             | E2 : isSome (findOne _ _) = false |- _ =>
                 destruct (findOne _ _); [discriminate | reflexivity]
             end);
        try congruence
      | destruct o2; inversion H; subst; reflexivity ] ].
Qed.

Lemma updateVisitStatus_store visitId status notes ups role s o s' :
  updateVisitStatus visitId status notes ups role s = (o, s') ->
  s' = s \/
  exists v newStatus,
    findVisit s visitId = Some v /\
    VisitStatus_of_string status = Some newStatus /\
    s' = set_Visits
           (updateRow Visit.visit_id (Visit.visit_id v)
                      (withStatus newStatus notes)) s.
Proof.
  unfold updateVisitStatus.
  remember (fun _ : unit => getVisitById visitId ups role) as after.
  unfold_service. unfold includePrisoner. intros H.
  repeat match type of H with
         | context [match ?x with _ => _ end] =>
             lazymatch x with
             | context [match _ with _ => _ end] => fail
             | context [after] => fail
             | _ => destruct x eqn:?
             end; cbv beta iota zeta in H
         end;
    try (inversion H; subst; auto; fail).
  all: match goal with
       | Heq : ?a = (fun _ => getVisitById _ _ _),
         H0 : context [?a ?i ?st] |- _ =>
           destruct (a i st) as [o2 s2] eqn:E
       end;
    rewrite Heqafter in E; apply getVisitById_store in E; subst s2;
    right; do 2 eexists; split; [reflexivity|]; split;
    [ reflexivity | destruct o2; inversion H; subst; reflexivity ].
Qed.

Lemma deleteVisit_store visitId ups role s o s' :
  deleteVisit visitId ups role s = (o, s') ->
  s' = s \/
  exists v,
    findVisit s visitId = Some v /\
    s' = set_Visits (destroyRow Visit.visit_id (Visit.visit_id v)) s.
Proof.
  unfold deleteVisit. unfold_service. unfold includePrisoner. intros H.
  repeat case_step_in H;
    try (inversion H; subst; auto; fail).
  inversion H; subst. right. eexists. split; reflexivity.
Qed.

Lemma approveVisit_store visitId uid ups role s o s' :
  approveVisit visitId uid ups role s = (o, s') ->
  (s' = s /\ exists e, o = Throw e) \/
  exists v,
    findVisit s visitId = Some v /\
    truthyZ (Visit.approved_by v) = false /\
    s' = set_Visits
           (updateRow Visit.visit_id (Visit.visit_id v) (withApprover uid)) s.
Proof.
  unfold approveVisit.
  remember (fun _ : unit => getVisitById visitId ups role) as after.
  unfold_service. unfold includePrisoner. intros H.
  repeat match type of H with
         | context [match ?x with _ => _ end] =>
             lazymatch x with
             | context [match _ with _ => _ end] => fail
             | context [after] => fail
             | _ => destruct x eqn:?
             end; cbv beta iota zeta in H
         end;
    try (inversion H; subst; left; split; [reflexivity | eexists; reflexivity]; fail).
  all: match goal with
       | Heq : ?a = (fun _ => getVisitById _ _ _),
         H0 : context [?a ?i ?st] |- _ =>
           destruct (a i st) as [o2 s2] eqn:E
       end;
    rewrite Heqafter in E; apply getVisitById_store in E; subst s2;
    right; eexists; split; [reflexivity|]; split;
    [ assumption | destruct o2; inversion H; subst; reflexivity ].
Qed.

(** An approval of a visit whose [approved_by] is set. *)
Lemma approveVisit_already_approved visitId uid ups role s v :
  findVisit s visitId = Some v ->
  truthyZ (Visit.approved_by v) = true ->
  approveVisit visitId uid ups role s
  = (Throw (match findPrisoner s (Visit.prisoner_id v) with
            | None => TypeError
            | Some p =>
                if checkPrisonAccess ups (Prisoner.prison_id p) role
                then JsError "Visit is already approved"
                else JsError "You do not have access to this visit"
            end), s).
Proof.
  intros Hv Happ. unfold approveVisit.
  apply transaction_throw with (s1 := s).
  unfold_service. unfold includePrisoner. rewrite Hv. cbv beta iota.
  destruct (findPrisoner s (Visit.prisoner_id v)) as [p|];
    cbn [inc_prisoner]; cbv beta iota; [|reflexivity].
  destruct (checkPrisonAccess ups (Prisoner.prison_id p) role);
    cbn [negb]; cbv beta iota; [|reflexivity].
  rewrite Happ. reflexivity.
Qed.

(** The operations of the visit service that write. *)
Inductive VisitCommand :=
| ScheduleVisit (visitData : VisitData) (userId : Z)
    (userPrisonId : option Z) (userRole : UserRole)
| UpdateVisit (visitId : Z) (updateData : VisitUpdate)
    (userPrisonId : option Z) (userRole : UserRole)
| UpdateVisitStatus (visitId : Z) (status : string) (notes : option string)
    (userPrisonId : option Z) (userRole : UserRole)
| DeleteVisit (visitId : Z) (userPrisonId : option Z) (userRole : UserRole)
| ApproveVisit (visitId : Z) (userId : Z) (userPrisonId : option Z)
    (userRole : UserRole).

Definition runVisit (c : VisitCommand) (s : Store) : Store :=
  match c with
  | ScheduleVisit d uid ups role => snd (scheduleVisit d uid ups role s)
  | UpdateVisit id u ups role => snd (updateVisit id u ups role s)
  | UpdateVisitStatus id st notes ups role =>
      snd (updateVisitStatus id st notes ups role s)
  | DeleteVisit id ups role => snd (deleteVisit id ups role s)
  | ApproveVisit id uid ups role => snd (approveVisit id uid ups role s)
  end.

Definition runVisits (cmds : list VisitCommand) (s : Store) : Store :=
  fold_left (fun s c => runVisit c s) cmds s.

(** Visit keys are unique and were handed out by the counter. *)
Definition visit_keys_ok (s : Store) : Prop :=
  keys_ok Visit.visit_id (next_visit_id s) (Visits s).

(* ================================================================== *)
(** ** Visits: a scheduled visit is already approved *)
(* ================================================================== *)

Lemma approveVisit_not_found visitId uid ups role s :
  findVisit s visitId = None ->
  approveVisit visitId uid ups role s = (Throw (JsError "Visit not found"), s).
Proof.
  intros Hv. unfold approveVisit. apply transaction_throw with (s1 := s).
  unfold_service. rewrite Hv. reflexivity.
Qed.

(** What one command does to the approver of the visit [id]. *)
Lemma runVisit_approver c s id uid :
  uid <> 0 ->
  visit_keys_ok s ->
  visit_keys_ok (runVisit c s) /\
  next_visit_id s <= next_visit_id (runVisit c s) /\
  match findVisit s id with
  | Some v =>
      Visit.approved_by v = Some uid ->
      match findVisit (runVisit c s) id with
      | Some v' => Visit.approved_by v' = Some uid
      | None => True
      end
  | None => id < next_visit_id s -> findVisit (runVisit c s) id = None
  end.
Proof.
  intros Huid Hk.
  assert (Hsame :
    visit_keys_ok s /\
    next_visit_id s <= next_visit_id s /\
    match findVisit s id with
    | Some v =>
        Visit.approved_by v = Some uid ->
        match findVisit s id with
        | Some v' => Visit.approved_by v' = Some uid
        | None => True
        end
    | None => id < next_visit_id s -> findVisit s id = None
    end).
  { split; [exact Hk|]. split; [lia|].
    destruct (findVisit s id) as [v|] eqn:E; auto. }
  assert (Hupd :
    forall id0 (f : Visit.row -> Visit.row),
      (forall r, Visit.visit_id (f r) = Visit.visit_id r) ->
      (forall r, Visit.visit_id r = id ->
                 findVisit s id = Some r ->
                 Visit.approved_by r = Some uid ->
                 id0 = id ->
                 Visit.approved_by (f r) = Some uid) ->
      let s' := set_Visits (updateRow Visit.visit_id id0 f) s in
      visit_keys_ok s' /\
      next_visit_id s <= next_visit_id s' /\
      match findVisit s id with
      | Some v =>
          Visit.approved_by v = Some uid ->
          match findVisit s' id with
          | Some v' => Visit.approved_by v' = Some uid
          | None => True
          end
      | None => id < next_visit_id s -> findVisit s' id = None
      end).
  { intros id0 f Hfid Hfapp. cbv zeta. unfold visit_keys_ok.
    cbn [Visits next_visit_id set_Visits].
    split; [apply keys_ok_updateRow; assumption|]. split; [lia|].
    destruct (Z.eq_dec id id0) as [<-|Hne].
    - rewrite findByPk_updateRow_same by exact Hfid.
      destruct (findVisit s id) as [v|] eqn:Ev; cbn [option_map]; [|auto].
      intros Happ. apply Hfapp; auto.
      apply (findByPk_Some _ _ _ Ev).
    - rewrite findByPk_updateRow_other by (exact Hfid || exact Hne).
      destruct (findVisit s id) as [v|] eqn:Ev; auto. }
  destruct c; cbn [runVisit].
  - (* schedule *)
    destruct (scheduleVisit visitData userId userPrisonId userRole s)
      as [o s'] eqn:E.
    apply scheduleVisit_store in E. cbn [snd].
    destruct E as [[-> _]|(_ & -> & _)]; [exact Hsame|].
    unfold visit_keys_ok. cbn [Visits next_visit_id afterSchedule].
    split; [apply keys_ok_insertRow; [exact Hk | reflexivity]|].
    split; [lia|].
    rewrite findByPk_insertRow.
    destruct (findVisit s id) as [v|] eqn:Ev; [auto|].
    intros Hlt. cbn [scheduledRow Visit.visit_id].
    assert (En : (next_visit_id s =? id) = false) by (apply Z.eqb_neq; lia).
    rewrite En. reflexivity.
  - (* update *)
    destruct (updateVisit visitId updateData userPrisonId userRole s)
      as [o s'] eqn:E.
    apply updateVisit_store in E. cbn [snd].
    destruct E as [->|(v0 & _ & _ & _ & ->)]; [exact Hsame|].
    apply Hupd; [reflexivity|]. intros r _ _ Happ _. exact Happ.
  - (* status *)
    destruct (updateVisitStatus visitId status notes userPrisonId userRole s)
      as [o s'] eqn:E.
    apply updateVisitStatus_store in E. cbn [snd].
    destruct E as [->|(v0 & st & _ & _ & ->)]; [exact Hsame|].
    apply Hupd; [reflexivity|]. intros r _ _ Happ _. exact Happ.
  - (* delete *)
    destruct (deleteVisit visitId userPrisonId userRole s) as [o s'] eqn:E.
    apply deleteVisit_store in E. cbn [snd].
    destruct E as [->|(v0 & _ & ->)]; [exact Hsame|].
    unfold visit_keys_ok. cbn [Visits next_visit_id set_Visits].
    split; [apply keys_ok_destroyRow; exact Hk|]. split; [lia|].
    destruct (Z.eq_dec id (Visit.visit_id v0)) as [->|Hne].
    + rewrite findByPk_destroyRow_same.
      destruct (findVisit s (Visit.visit_id v0)); auto.
    + rewrite findByPk_destroyRow_other by exact Hne.
      destruct (findVisit s id) as [v|] eqn:Ev; auto.
  - (* approve *)
    destruct (approveVisit visitId userId userPrisonId userRole s)
      as [o s'] eqn:E.
    apply approveVisit_store in E. cbn [snd].
    destruct E as [[-> _]|(v0 & Hv0 & Hfalsy & ->)]; [exact Hsame|].
    apply Hupd; [reflexivity|].
    intros r Hrid Hr Happ Hid0. exfalso.
    pose proof (findByPk_Some _ _ _ Hv0) as [Hv0id _].
    rewrite <- Hid0, Hv0id in Hr.
    rewrite Hv0 in Hr. inversion Hr; subst r.
    rewrite Happ in Hfalsy. cbn [truthyZ] in Hfalsy.
    apply negb_false_iff, Z.eqb_eq in Hfalsy. contradiction.
Qed.

Lemma runVisits_approver cmds : forall s id uid,
  uid <> 0 ->
  visit_keys_ok s ->
  id < next_visit_id s ->
  (forall v, findVisit s id = Some v -> Visit.approved_by v = Some uid) ->
  forall v', findVisit (runVisits cmds s) id = Some v' ->
             Visit.approved_by v' = Some uid.
Proof.
  induction cmds as [|c cmds IH]; intros s id uid Huid Hk Hlt Happ v' Hv';
    [apply Happ; exact Hv'|].
  unfold runVisits in Hv'. cbn [fold_left] in Hv'.
  destruct (@runVisit_approver c s id uid Huid Hk) as (Hk' & Hnext & Hstep).
  apply (IH (runVisit c s) id uid Huid Hk'); [lia | | exact Hv'].
  intros v1 Hv1.
  destruct (findVisit s id) as [v|] eqn:Ev.
  - specialize (Hstep (Happ v eq_refl)). rewrite Hv1 in Hstep. exact Hstep.
  - rewrite (Hstep Hlt) in Hv1. discriminate.
Qed.

(** C10: a visit that [scheduleVisit] created carries the scheduling
    user's id in [approved_by] from the start and keeps it over any later
    visit operations, so every [approveVisit] call on it throws and changes
    nothing; for a caller with access to the visit the error is 'Visit is
    already approved'. *)
Theorem scheduled_visit_is_already_approved :
  forall s visitData userId ups role v s1,
    visit_keys_ok s ->
    userId <> 0 ->
    scheduleVisit visitData userId ups role s = (Ok v, s1) ->
    Visit.approved_by v = Some userId /\
    findVisit s1 (Visit.visit_id v) = Some v /\
    forall cmds approver ups' role',
      (exists e,
          approveVisit (Visit.visit_id v) approver ups' role'
                       (runVisits cmds s1)
          = (Throw e, runVisits cmds s1)) /\
      (forall v2 p,
          findVisit (runVisits cmds s1) (Visit.visit_id v) = Some v2 ->
          findPrisoner (runVisits cmds s1) (Visit.prisoner_id v2) = Some p ->
          checkPrisonAccess ups' (Prisoner.prison_id p) role' = true ->
          Visit.approved_by v2 = Some userId /\
          approveVisit (Visit.visit_id v) approver ups' role'
                       (runVisits cmds s1)
          = (Throw (JsError "Visit is already approved"), runVisits cmds s1)).
Proof.
  intros s visitData userId ups role v s1 Hk Huid Hrun.
  apply scheduleVisit_store in Hrun.
  destruct Hrun as [[_ [e He]]|(_ & -> & Hfound)]; [discriminate|].
  specialize (Hfound v eq_refl).
  assert (Hrow : v = scheduledRow visitData userId (next_visit_id s)).
  { cbn [Visits afterSchedule] in Hfound.
    rewrite findByPk_insertRow in Hfound.
    rewrite (keys_ok_fresh Hk) in Hfound.
    cbn [scheduledRow Visit.visit_id] in Hfound.
    rewrite Z.eqb_refl in Hfound. inversion Hfound. reflexivity. }
  assert (Hvid : Visit.visit_id v = next_visit_id s) by (rewrite Hrow; reflexivity).
  assert (Happ : Visit.approved_by v = Some userId) by (rewrite Hrow; reflexivity).
  rewrite Hvid.
  split; [exact Happ|]. split; [exact Hfound|].
  intros cmds approver ups' role'.
  set (s1 := afterSchedule (scheduledRow visitData userId (next_visit_id s)) s) in *.
  assert (Hk1 : visit_keys_ok s1).
  { unfold visit_keys_ok, s1. cbn [Visits next_visit_id afterSchedule].
    apply keys_ok_insertRow; [exact Hk | reflexivity]. }
  assert (Hkeep : forall v2,
             findVisit (runVisits cmds s1) (next_visit_id s) = Some v2 ->
             Visit.approved_by v2 = Some userId).
  { apply runVisits_approver; [exact Huid | exact Hk1 | |].
    - unfold s1. cbn [next_visit_id afterSchedule]. lia.
    - intros v0 Hv0. rewrite Hfound in Hv0. inversion Hv0; subst v0.
      exact Happ. }
  split.
  - destruct (findVisit (runVisits cmds s1) (next_visit_id s)) as [v2|] eqn:Ev2.
    + eexists. apply approveVisit_already_approved with (v := v2);
        [exact Ev2|].
      rewrite (Hkeep v2 eq_refl). cbn [truthyZ].
      apply negb_true_iff, Z.eqb_neq. exact Huid.
    + eexists. apply approveVisit_not_found. exact Ev2.
  - intros v2 p Hv2 Hp Hacc. split; [apply Hkeep; exact Hv2|].
    rewrite (@approveVisit_already_approved (next_visit_id s) approver ups'
               role' (runVisits cmds s1) v2 Hv2).
    + rewrite Hp, Hacc. reflexivity.
    + rewrite (Hkeep v2 Hv2). cbn [truthyZ].
      apply negb_true_iff, Z.eqb_neq. exact Huid.
Qed.

Lemma visitStore_keys_ok : visit_keys_ok visitStore.
Proof.
  split.
  - cbn. repeat constructor; cbn; intuition lia.
  - cbn. repeat constructor; cbn; lia.
Qed.

(** A second visit of prisoner 1 on 2025-01-10, from 10:00 to 10:30,
    scheduled by user 7. *)
Definition visitC : Visit.row :=
  Visit.mk 2 1 1 "brother" (mkDate 2025 1 10) (hhmm 10 0) (hhmm 10 30)
           None Scheduled (Some 7) None.

Definition visitStoreC : Store := afterSchedule visitC visitStore.

Lemma scheduleVisit_visitC :
  scheduleVisit (visitB (hhmm 10 0) (hhmm 10 30)) 7 (Some 1) VisitorManager
                visitStore
  = (Ok visitC, visitStoreC).
Proof. vm_compute. reflexivity. Qed.

Lemma scheduled_visit_is_already_approved_witness :
  exists e, approveVisit 2 9 (Some 1) PrisonAdmin visitStoreC
            = (Throw e, visitStoreC).
Proof.
  exact (proj1
           (proj2 (proj2
              (@scheduled_visit_is_already_approved visitStore
                 (visitB (hhmm 10 0) (hhmm 10 30)) 7 (Some 1) VisitorManager
                 visitC visitStoreC visitStore_keys_ok
                 ltac:(discriminate) scheduleVisit_visitC))
              [] 9 (Some 1) PrisonAdmin)).
Defined.

Example approveVisit_after_scheduleVisit :
  approveVisit 2 9 (Some 1) PrisonAdmin visitStoreC
  = (Throw (JsError "Visit is already approved"), visitStoreC).
Proof. vm_compute. reflexivity. Qed.

(* ================================================================== *)
(** ** Visits: double booking *)
(* ================================================================== *)

(** Two different visits, both Scheduled, of one person on one date, whose
    windows [start, end) overlap. *)
Definition doubleBooked (a b : Visit.row) : Prop :=
  Visit.visit_id a <> Visit.visit_id b /\
  Visit.status a = Scheduled /\
  Visit.status b = Scheduled /\
  Visit.prisoner_id a = Visit.prisoner_id b /\
  Visit.visit_date a = Visit.visit_date b /\
  Visit.visit_time_start a < Visit.visit_time_end b /\
  Visit.visit_time_start b < Visit.visit_time_end a.

Definition no_double_booking (s : Store) : Prop :=
  forall a b, In a (Visits s) -> In b (Visits s) -> ~ doubleBooked a b.

(** Prisoner 1 and visitor 1, no visit yet. *)
Definition noVisits : Store :=
  mkStore
    [Prison.mk 1 "Welikada" 5 true]
    [Prisoner.mk 1 "901234567V" "CASE-1" (mkDate 2024 1 10) None None Active 1]
    [Visitor.mk 1 "851234567V"]
    [] [] []
    2 2 1 1 1.

(** Visit 1 is scheduled from 09:15 to 09:45 and cancelled; visit 2 is
    scheduled from 09:00 to 09:30; visit 1 is set back to Scheduled. *)
Definition reschedule : list VisitCommand :=
  [ScheduleVisit (visitB (hhmm 9 15) (hhmm 9 45)) 7 (Some 1) VisitorManager;
   UpdateVisitStatus 1 "Cancelled" None (Some 1) VisitorManager;
   ScheduleVisit (visitB (hhmm 9 0) (hhmm 9 30)) 7 (Some 1) VisitorManager;
   UpdateVisitStatus 1 "Scheduled" None (Some 1) VisitorManager].

(** C8: the invariant does not survive [updateVisitStatus].  It writes the
    status it is given without the conflict query that [scheduleVisit] and
    [updateVisit] run, so setting a cancelled visit back to Scheduled
    leaves two Scheduled visits of one person with overlapping windows.
    Each of the four calls below succeeds; no store before the last is
    double booked, the last one is. *)
Theorem rescheduled_visit_double_books :
  let s1 := runVisits (firstn 1 reschedule) noVisits in
  let s2 := runVisits (firstn 2 reschedule) noVisits in
  let s3 := runVisits (firstn 3 reschedule) noVisits in
  let s4 := runVisits reschedule noVisits in
  succeeds (scheduleVisit (visitB (hhmm 9 15) (hhmm 9 45)) 7 (Some 1)
                          VisitorManager noVisits) = true /\
  succeeds (updateVisitStatus 1 "Cancelled" None (Some 1) VisitorManager s1)
  = true /\
  succeeds (scheduleVisit (visitB (hhmm 9 0) (hhmm 9 30)) 7 (Some 1)
                          VisitorManager s2) = true /\
  succeeds (updateVisitStatus 1 "Scheduled" None (Some 1) VisitorManager s3)
  = true /\
  no_double_booking noVisits /\
  no_double_booking s1 /\
  no_double_booking s2 /\
  no_double_booking s3 /\
  Visits s4
  = [Visit.mk 1 1 1 "brother" (mkDate 2025 1 10) (hhmm 9 15) (hhmm 9 45)
       None Scheduled (Some 7) None;
     Visit.mk 2 1 1 "brother" (mkDate 2025 1 10) (hhmm 9 0) (hhmm 9 30)
       None Scheduled (Some 7) None] /\
  ~ no_double_booking s4.
Proof.
  cbv zeta.
  split; [vm_compute; reflexivity|].
  split; [vm_compute; reflexivity|].
  split; [vm_compute; reflexivity|].
  split; [vm_compute; reflexivity|].
  split; [intros a b []|].
  split.
  { intros a b Ha Hb. vm_compute in Ha, Hb.
    destruct Ha as [<-|[]]. destruct Hb as [<-|[]].
    intros (Hne & _). apply Hne. reflexivity. }
  split.
  { intros a b Ha Hb. vm_compute in Ha, Hb.
    destruct Ha as [<-|[]]. destruct Hb as [<-|[]].
    intros (Hne & _). apply Hne. reflexivity. }
  split.
  { intros a b Ha Hb. vm_compute in Ha, Hb.
    destruct Ha as [<-|[<-|[]]]; destruct Hb as [<-|[<-|[]]];
      intros (Hne & Hsa & Hsb & _);
      try (apply Hne; reflexivity); discriminate. }
  split; [vm_compute; reflexivity|].
  intros Hno.
  apply (Hno (Visit.mk 1 1 1 "brother" (mkDate 2025 1 10) (hhmm 9 15)
                (hhmm 9 45) None Scheduled (Some 7) None)
             (Visit.mk 2 1 1 "brother" (mkDate 2025 1 10) (hhmm 9 0)
                (hhmm 9 30) None Scheduled (Some 7) None)).
  - vm_compute. left. reflexivity.
  - vm_compute. right. left. reflexivity.
  - unfold doubleBooked. cbn [Visit.visit_id Visit.status Visit.prisoner_id
                               Visit.visit_date Visit.visit_time_start
                               Visit.visit_time_end].
    repeat split; try discriminate; vm_compute; reflexivity.
Qed.

(* ================================================================== *)
(** ** Visits: the operations that run the conflict query keep visits apart *)
(* ================================================================== *)

(** What double booking looks at in a visit. *)
Definition booking (v : Visit.row)
  : Z * VisitStatus * Z * CivilDate * Time * Time :=
  (Visit.visit_id v, Visit.status v, Visit.prisoner_id v, Visit.visit_date v,
   Visit.visit_time_start v, Visit.visit_time_end v).

Lemma doubleBooked_booking a b a' b' :
  booking a' = booking a -> booking b' = booking b ->
  doubleBooked a' b' -> doubleBooked a b.
Proof.
  unfold booking, doubleBooked. intros Ha Hb.
  inversion Ha as [[Ha1 Ha2 Ha3 Ha4 Ha5 Ha6]].
  inversion Hb as [[Hb1 Hb2 Hb3 Hb4 Hb5 Hb6]].
  rewrite Ha1, Ha2, Ha3, Ha4, Ha5, Ha6, Hb1, Hb2, Hb3, Hb4, Hb5, Hb6.
  tauto.
Qed.

Lemma In_updateRow id (f : Visit.row -> Visit.row) (t : list Visit.row) a :
  In a (updateRow Visit.visit_id id f t) ->
  exists a0, In a0 t /\ a = (if Visit.visit_id a0 =? id then f a0 else a0).
Proof.
  unfold updateRow. intros H. apply in_map_iff in H as [a0 [Heq Hin]].
  exists a0. split; [exact Hin | symmetry; exact Heq].
Qed.

(** A write that leaves what double booking looks at alone. *)
Lemma no_double_booking_updateRow id (f : Visit.row -> Visit.row) s :
  (forall r, booking (f r) = booking r) ->
  no_double_booking s ->
  no_double_booking (set_Visits (updateRow Visit.visit_id id f) s).
Proof.
  intros Hf Hno a b Ha Hb Hdb. cbn [Visits set_Visits] in Ha, Hb.
  apply In_updateRow in Ha as [a0 [Ha0 ->]].
  apply In_updateRow in Hb as [b0 [Hb0 ->]].
  apply (Hno a0 b0 Ha0 Hb0).
  eapply doubleBooked_booking; [| |exact Hdb].
  - destruct (Visit.visit_id a0 =? id); [apply Hf | reflexivity].
  - destruct (Visit.visit_id b0 =? id); [apply Hf | reflexivity].
Qed.

(** A write that takes a visit out of the Scheduled ones. *)
Lemma no_double_booking_unscheduled id (f : Visit.row -> Visit.row) s :
  (forall r, Visit.status (f r) <> Scheduled) ->
  no_double_booking s ->
  no_double_booking (set_Visits (updateRow Visit.visit_id id f) s).
Proof.
  intros Hf Hno a b Ha Hb Hdb. cbn [Visits set_Visits] in Ha, Hb.
  apply In_updateRow in Ha as [a0 [Ha0 ->]].
  apply In_updateRow in Hb as [b0 [Hb0 ->]].
  destruct (Visit.visit_id a0 =? id) eqn:Ea.
  { destruct Hdb as (_ & Hsa & _). exact (Hf a0 Hsa). }
  destruct (Visit.visit_id b0 =? id) eqn:Eb.
  { destruct Hdb as (_ & _ & Hsb & _). exact (Hf b0 Hsb). }
  exact (Hno a0 b0 Ha0 Hb0 Hdb).
Qed.

Lemma scheduleVisit_no_double_booking visitData uid ups role s :
  no_double_booking s ->
  no_double_booking (snd (scheduleVisit visitData uid ups role s)).
Proof.
  intros Hno.
  destruct (scheduleVisit visitData uid ups role s) as [o s'] eqn:E.
  apply scheduleVisit_store in E. cbn [snd].
  destruct E as [[-> _]|(Hnone & -> & _)]; [exact Hno|].
  set (row := scheduledRow visitData uid (next_visit_id s)).
  assert (Hclash : forall v,
            In v (Visits s) ->
            Visit.status v = Scheduled ->
            Visit.prisoner_id v = vd_prisoner_id visitData ->
            Visit.visit_date v = vd_visit_date visitData ->
            Visit.visit_time_start v < vd_visit_time_end visitData ->
            vd_visit_time_start visitData < Visit.visit_time_end v ->
            False).
  { intros v Hin Hst Hp Hd H1 H2.
    unfold findOne in Hnone. apply (find_none _ _ Hnone) in Hin.
    assert (Ht : conflictWhere (vd_prisoner_id visitData)
                   (vd_visit_date visitData) (vd_visit_time_start visitData)
                   (vd_visit_time_end visitData) v = true).
    { apply conflictWhere_true. repeat split; try assumption.
      apply halfOpenOverlap_timeConflict. split; assumption. }
    congruence. }
  intros a b Ha Hb Hdb. cbn [Visits afterSchedule] in Ha, Hb.
  unfold insertRow in Ha, Hb.
  apply in_app_or in Ha. apply in_app_or in Hb.
  destruct Hdb as (Hne & Hsa & Hsb & Hp & Hd & H1 & H2).
  destruct Ha as [Ha|[<-|[]]]; destruct Hb as [Hb|[<-|[]]].
  - apply (Hno a b Ha Hb). repeat split; assumption.
  - cbn [row scheduledRow Visit.prisoner_id Visit.visit_date
           Visit.visit_time_start Visit.visit_time_end] in Hp, Hd, H1, H2.
    apply (Hclash a Ha Hsa Hp Hd H1 H2).
  - cbn [row scheduledRow Visit.prisoner_id Visit.visit_date
           Visit.visit_time_start Visit.visit_time_end] in Hp, Hd, H1, H2.
    apply (Hclash b Hb Hsb (eq_sym Hp) (eq_sym Hd) H2 H1).
  - apply Hne. reflexivity.
Qed.

(** An update whose body carries neither date nor time leaves the window
    where it was. *)
Lemma applyVisitUpdate_booking updateData v :
  isSome (vu_visit_date updateData)
  || isSome (vu_visit_time_start updateData)
  || isSome (vu_visit_time_end updateData) = false ->
  booking (applyVisitUpdate updateData v) = booking v.
Proof.
  intros H. apply orb_false_iff in H as [H H3].
  apply orb_false_iff in H as [H1 H2].
  unfold booking, applyVisitUpdate.
  cbn [Visit.visit_id Visit.status Visit.prisoner_id Visit.visit_date
       Visit.visit_time_start Visit.visit_time_end].
  destruct (vu_visit_date updateData); [discriminate|].
  destruct (vu_visit_time_start updateData); [discriminate|].
  destruct (vu_visit_time_end updateData); [discriminate|].
  reflexivity.
Qed.

Lemma updateVisit_no_double_booking visitId updateData ups role s :
  visit_keys_ok s ->
  no_double_booking s ->
  no_double_booking (snd (updateVisit visitId updateData ups role s)).
Proof.
  intros Hk Hno.
  destruct (updateVisit visitId updateData ups role s) as [o s'] eqn:E.
  apply updateVisit_store in E. cbn [snd].
  destruct E as [->|(v & Hv & Hst & Hquery & ->)]; [exact Hno|].
  pose proof (findByPk_Some _ _ _ Hv) as [Hvid Hvin].
  destruct (isSome (vu_visit_date updateData)
            || isSome (vu_visit_time_start updateData)
            || isSome (vu_visit_time_end updateData)) eqn:Egiven.
  2:{ apply no_double_booking_updateRow; [|exact Hno].
      intros r. apply applyVisitUpdate_booking. exact Egiven. }
  specialize (Hquery eq_refl).
  set (d := orElse (vu_visit_date updateData) (Visit.visit_date v)) in *.
  set (ts := orElse (vu_visit_time_start updateData)
                    (Visit.visit_time_start v)) in *.
  set (te := orElse (vu_visit_time_end updateData)
                    (Visit.visit_time_end v)) in *.
  assert (Hclash : forall w,
            In w (Visits s) ->
            Visit.visit_id w <> visitId ->
            Visit.status w = Scheduled ->
            Visit.prisoner_id w = Visit.prisoner_id v ->
            Visit.visit_date w = d ->
            Visit.visit_time_start w < te ->
            ts < Visit.visit_time_end w ->
            False).
  { intros w Hin Hne Hsw Hp Hd H1 H2.
    unfold findOne in Hquery. apply (find_none _ _ Hquery) in Hin.
    assert (Ht : conflictWhereExcept visitId (Visit.prisoner_id v) d ts te w
                 = true).
    { unfold conflictWhereExcept. apply andb_true_iff. split.
      - apply negb_true_iff, Z.eqb_neq. exact Hne.
      - apply conflictWhere_true. repeat split; try assumption.
        apply halfOpenOverlap_timeConflict. split; assumption. }
    congruence. }
  assert (Hsame : forall w,
            In w (Visits s) -> Visit.visit_id w = Visit.visit_id v -> w = v).
  { intros w Hin Hid. destruct Hk as [Hnd _].
    pose proof (findByPk_In_NoDup Visit.visit_id _ w Hnd Hin) as Hw.
    rewrite Hid, Hvid, Hv in Hw. inversion Hw. reflexivity. }
  intros a b Ha Hb Hdb. cbn [Visits set_Visits] in Ha, Hb.
  apply In_updateRow in Ha as [a0 [Ha0 ->]].
  apply In_updateRow in Hb as [b0 [Hb0 ->]].
  destruct (Visit.visit_id a0 =? Visit.visit_id v) eqn:Ea;
    destruct (Visit.visit_id b0 =? Visit.visit_id v) eqn:Eb.
  - apply Z.eqb_eq in Ea, Eb. destruct Hdb as (Hne & _).
    apply Hne. cbn [applyVisitUpdate Visit.visit_id]. congruence.
  - apply Z.eqb_eq in Ea. apply Z.eqb_neq in Eb.
    rewrite (Hsame a0 Ha0 Ea) in Hdb.
    destruct Hdb as (_ & _ & Hsb & Hp & Hd & H1 & H2).
    cbn [applyVisitUpdate Visit.prisoner_id Visit.visit_date
         Visit.visit_time_start Visit.visit_time_end] in Hp, Hd, H1, H2.
    apply (Hclash b0 Hb0); try assumption; try congruence.
    symmetry. exact Hd.
  - apply Z.eqb_neq in Ea. apply Z.eqb_eq in Eb.
    rewrite (Hsame b0 Hb0 Eb) in Hdb.
    destruct Hdb as (_ & Hsa & _ & Hp & Hd & H1 & H2).
    cbn [applyVisitUpdate Visit.prisoner_id Visit.visit_date
         Visit.visit_time_start Visit.visit_time_end] in Hp, Hd, H1, H2.
    apply (Hclash a0 Ha0); try assumption; congruence.
  - exact (Hno a0 b0 Ha0 Hb0 Hdb).
Qed.

Lemma deleteVisit_no_double_booking visitId ups role s :
  no_double_booking s ->
  no_double_booking (snd (deleteVisit visitId ups role s)).
Proof.
  intros Hno.
  destruct (deleteVisit visitId ups role s) as [o s'] eqn:E.
  apply deleteVisit_store in E. cbn [snd].
  destruct E as [->|(v & _ & ->)]; [exact Hno|].
  intros a b Ha Hb. cbn [Visits set_Visits] in Ha, Hb.
  unfold destroyRow in Ha, Hb.
  apply filter_In in Ha as [Ha _]. apply filter_In in Hb as [Hb _].
  exact (Hno a b Ha Hb).
Qed.

Lemma approveVisit_no_double_booking visitId uid ups role s :
  no_double_booking s ->
  no_double_booking (snd (approveVisit visitId uid ups role s)).
Proof.
  intros Hno.
  destruct (approveVisit visitId uid ups role s) as [o s'] eqn:E.
  apply approveVisit_store in E. cbn [snd].
  destruct E as [[-> _]|(v & _ & _ & ->)]; [exact Hno|].
  apply no_double_booking_updateRow; [|exact Hno]. reflexivity.
Qed.

(** [updateVisitStatus] with a status other than 'Scheduled'. *)
Lemma updateVisitStatus_no_double_booking visitId status notes ups role s :
  status <> "Scheduled" ->
  no_double_booking s ->
  no_double_booking (snd (updateVisitStatus visitId status notes ups role s)).
Proof.
  intros Hstatus Hno.
  destruct (updateVisitStatus visitId status notes ups role s) as [o s'] eqn:E.
  apply updateVisitStatus_store in E. cbn [snd].
  destruct E as [->|(v & st & _ & Hst & ->)]; [exact Hno|].
  apply no_double_booking_unscheduled; [|exact Hno].
  intros r. cbn [withStatus Visit.status]. intros ->.
  unfold VisitStatus_of_string in Hst.
  destruct (String.eqb_spec status "Scheduled") as [Heq|_];
    [contradiction|].
  destruct (status =? "Completed")%string; [discriminate|].
  destruct (status =? "Cancelled")%string; discriminate.
Qed.

(** The commands that set a visit's status to Scheduled without asking. *)
Definition reschedules (c : VisitCommand) : bool :=
  match c with
  | UpdateVisitStatus _ status _ _ _ => String.eqb status "Scheduled"
  | _ => false
  end.

Lemma runVisit_keys_ok c s : visit_keys_ok s -> visit_keys_ok (runVisit c s).
Proof.
  intros Hk.
  exact (proj1 (@runVisit_approver c s 0 1 ltac:(discriminate) Hk)).
Qed.

Lemma runVisit_no_double_booking c s :
  reschedules c = false ->
  visit_keys_ok s ->
  no_double_booking s ->
  no_double_booking (runVisit c s).
Proof.
  intros Hc Hk Hno. destruct c; cbn [runVisit].
  - apply scheduleVisit_no_double_booking; exact Hno.
  - apply updateVisit_no_double_booking; assumption.
  - apply updateVisitStatus_no_double_booking; [|exact Hno].
    cbn [reschedules] in Hc. apply String.eqb_neq. exact Hc.
  - apply deleteVisit_no_double_booking; exact Hno.
  - apply approveVisit_no_double_booking; exact Hno.
Qed.

(** Scheduling, updating, deleting, approving and setting a status other
    than Scheduled, in any order and with any arguments, never leave two
    Scheduled visits of one person with overlapping windows: the double
    booking above needs [updateVisitStatus] with 'Scheduled'. *)
Lemma checked_commands_no_double_booking (cmds : list VisitCommand) :
  forall s,
    forallb (fun c => negb (reschedules c)) cmds = true ->
    visit_keys_ok s ->
    no_double_booking s ->
    no_double_booking (runVisits cmds s).
Proof.
  induction cmds as [|c cmds IH]; intros s Hall Hk Hno; [exact Hno|].
  cbn [forallb] in Hall. apply andb_true_iff in Hall as [Hc Hall].
  apply negb_true_iff in Hc.
  unfold runVisits. cbn [fold_left]. apply IH.
  - exact Hall.
  - apply runVisit_keys_ok; exact Hk.
  - apply runVisit_no_double_booking; assumption.
Qed.

(* ================================================================== *)
(** * Further properties of the services *)
(* ================================================================== *)

(** ** Access to another prison's prisoner *)

(** A caller who is not Super Admin and whose prison is not the
    prisoner's. *)
Definition noAccess (ups : option Z) (role : UserRole) (p : Prisoner.row)
  : Prop :=
  checkPrisonAccess ups (Prisoner.prison_id p) role = false.

Ltac refused_with H :=
  rewrite H; cbn [negb inc_prisoner inc_prison]; cbv beta iota zeta.

(** X1: a caller without access to a prisoner's prison gets an error from
    every operation of the prisoner service on that prisoner (read, update,
    delete, transfer, release) and from every operation that would create a
    visit, a work record or a behaviour record for that prisoner; none of
    them writes anything. *)
Theorem prisoner_of_another_prison_is_out_of_reach :
  forall s prisonerId p ups role,
    findPrisoner s prisonerId = Some p ->
    noAccess ups role p ->
    (exists e, getPrisonerById prisonerId ups role s = (Throw e, s)) /\
    (forall updateData uid,
        exists e, updatePrisoner prisonerId updateData ups role uid s
                  = (Throw e, s)) /\
    (forall reason uid now,
        exists e, deletePrisoner prisonerId reason ups role uid now s
                  = (Throw e, s)) /\
    (forall target reason uid,
        exists e, transferPrisoner prisonerId target reason ups role uid s
                  = (Throw e, s)) /\
    (forall reason notes uid now,
        exists e, releasePrisoner prisonerId reason notes ups role uid now s
                  = (Throw e, s)) /\
    (forall visitData uid,
        vd_prisoner_id visitData = prisonerId ->
        exists e, scheduleVisit visitData uid ups role s = (Throw e, s)) /\
    (forall workRecordData uid now,
        wd_prisoner_id workRecordData = prisonerId ->
        exists e, createWorkRecord workRecordData uid ups role now s
                  = (Throw e, s)) /\
    (forall behaviourData uid now,
        bd_prisoner_id behaviourData = prisonerId ->
        exists e, createBehaviourRecord behaviourData uid ups role now s
                  = (Throw e, s)).
Proof.
  intros s prisonerId p ups role Hp Hacc. unfold noAccess in Hacc.
  split.
  { eexists. unfold getPrisonerById. unfold_service.
    refused_with Hp. refused_with Hacc. reflexivity. }
  split.
  { intros updateData uid. eexists. unfold updatePrisoner.
    apply transaction_throw with (s1 := s). unfold_service.
    refused_with Hp. refused_with Hacc. reflexivity. }
  split.
  { intros reason uid now. unfold deletePrisoner. unfold_service.
    destruct (isAdmin role); cbn [negb]; cbv beta iota zeta.
    - eexists. refused_with Hp. refused_with Hacc. reflexivity.
    - eexists. reflexivity. }
  split.
  { intros target reason uid. unfold transferPrisoner.
    destruct (isAdmin role) eqn:Hrole.
    - eexists. apply transaction_throw with (s1 := s). unfold_service.
      cbn [negb]; cbv beta iota zeta. refused_with Hp. refused_with Hacc. reflexivity.
    - eexists. apply transaction_throw with (s1 := s). unfold_service.
      cbn [negb]; cbv beta iota zeta. reflexivity. }
  split.
  { intros reason notes uid now. unfold releasePrisoner.
    destruct (isAdmin role) eqn:Hrole.
    - eexists. apply transaction_throw with (s1 := s). unfold_service.
      cbn [negb]; cbv beta iota zeta. refused_with Hp. refused_with Hacc. reflexivity.
    - eexists. apply transaction_throw with (s1 := s). unfold_service.
      cbn [negb]; cbv beta iota zeta. reflexivity. }
  split.
  { intros visitData uid Hid. rewrite <- Hid in Hp. unfold scheduleVisit.
    destruct (Prisoner.isActive p) eqn:Hact.
    - eexists. apply transaction_throw with (s1 := s). unfold_service.
      refused_with Hp. refused_with Hact. refused_with Hacc. reflexivity.
    - eexists. apply transaction_throw with (s1 := s). unfold_service.
      refused_with Hp. refused_with Hact. reflexivity. }
  split.
  { intros workRecordData uid now Hid. rewrite <- Hid in Hp.
    unfold createWorkRecord.
    destruct (Prisoner.isActive p) eqn:Hact.
    - eexists. apply transaction_throw with (s1 := s). unfold_service.
      refused_with Hp. refused_with Hact. refused_with Hacc. reflexivity.
    - eexists. apply transaction_throw with (s1 := s). unfold_service.
      refused_with Hp. refused_with Hact. reflexivity. }
  { intros behaviourData uid now Hid. rewrite <- Hid in Hp.
    unfold createBehaviourRecord.
    destruct (Prisoner.isActive p) eqn:Hact.
    - eexists. apply transaction_throw with (s1 := s). unfold_service.
      refused_with Hp. refused_with Hact. refused_with Hacc. reflexivity.
    - eexists. apply transaction_throw with (s1 := s). unfold_service.
      refused_with Hp. refused_with Hact. reflexivity. }
Qed.

Lemma prisoner_of_another_prison_is_out_of_reach_witness :
  exists e,
    updatePrisoner 1 (mkPrisonerUpdate None None None (Some Released) None)
                   (Some 2) PrisonAdmin 7 twoPrisons
    = (Throw e, twoPrisons).
Proof.
  exact (proj1 (proj2
    (@prisoner_of_another_prison_is_out_of_reach twoPrisons 1
       (Prisoner.mk 1 "901234567V" "CASE-1" (mkDate 2024 1 10) None None
                    Active 1)
       (Some 2) PrisonAdmin eq_refl eq_refl))
    (mkPrisonerUpdate None None None (Some Released) None) 7).
Defined.

(** X2: a caller without access to the prison of the prisoner a visit, a
    work record or a behaviour record belongs to gets an error from every
    operation on that record (read, update, status change, delete,
    approval, rejection), and the store stays as it was; a bulk approval
    leaves such a work record as it is. *)
Theorem records_of_another_prison_are_out_of_reach :
  forall s p ups role,
    noAccess ups role p ->
    (forall visitId v,
        findVisit s visitId = Some v ->
        findPrisoner s (Visit.prisoner_id v) = Some p ->
        (exists e, getVisitById visitId ups role s = (Throw e, s)) /\
        (forall u, exists e, updateVisit visitId u ups role s = (Throw e, s)) /\
        (forall status notes,
            exists e, updateVisitStatus visitId status notes ups role s
                      = (Throw e, s)) /\
        (exists e, deleteVisit visitId ups role s = (Throw e, s)) /\
        (forall uid, exists e, approveVisit visitId uid ups role s
                               = (Throw e, s))) /\
    (forall workRecordId w,
        findWork s workRecordId = Some w ->
        findPrisoner s (PrisonerWorkRecord.prisoner_id w) = Some p ->
        (exists e, getWorkRecordById workRecordId ups role s = (Throw e, s)) /\
        (forall u, exists e, updateWorkRecord workRecordId u ups role s
                             = (Throw e, s)) /\
        (exists e, deleteWorkRecord workRecordId ups role s = (Throw e, s)) /\
        (forall d now, exists e, approvePayment workRecordId d ups role now s
                                 = (Throw e, s)) /\
        (forall ids d now,
            findWork (snd (bulkApprovePayments ids d ups role now s))
                     workRecordId = Some w)) /\
    (forall behaviourRecordId r,
        findBehaviour s behaviourRecordId = Some r ->
        findPrisoner s (PrisonerBehaviourRecord.prisoner_id r) = Some p ->
        (exists e, getBehaviourRecordById behaviourRecordId ups role s
                   = (Throw e, s)) /\
        (forall u, exists e, updateBehaviourRecord behaviourRecordId u ups role s
                             = (Throw e, s)) /\
        (exists e, deleteBehaviourRecord behaviourRecordId ups role s
                   = (Throw e, s)) /\
        (forall notes now,
            exists e, approveSentenceAdjustment behaviourRecordId notes ups
                                                role now s
                      = (Throw e, s)) /\
        (forall reason,
            exists e, rejectSentenceAdjustment behaviourRecordId reason ups
                                               role s
                      = (Throw e, s))).
Proof.
  intros s p ups role Hacc. unfold noAccess in Hacc.
  assert (Hnested : forall f,
            findByPk Prison.prison_id (Prisons s) (Prisoner.prison_id p)
            = Some f ->
            checkPrisonAccess ups (Prison.prison_id f) role = false).
  { intros f Hf. apply findByPk_Some in Hf as [Hid _]. rewrite Hid.
    exact Hacc. }
  split; [|split].
  - intros visitId v Hv Hp.
    split.
    { unfold getVisitById. unfold_service. unfold includePrisoner.
      destruct (findByPk Prison.prison_id (Prisons s) (Prisoner.prison_id p))
        as [f|] eqn:Hf.
      - eexists. refused_with Hv. refused_with Hp. refused_with Hf.
        rewrite (Hnested f eq_refl). reflexivity.
      - eexists. refused_with Hv. refused_with Hp. refused_with Hf.
        reflexivity. }
    split.
    { intros u. eexists. unfold updateVisit.
      apply transaction_throw with (s1 := s).
      unfold_service. unfold includePrisoner.
      refused_with Hv. refused_with Hp. refused_with Hacc. reflexivity. }
    split.
    { intros status notes. eexists. unfold updateVisitStatus.
      apply transaction_throw with (s1 := s).
      unfold_service. unfold includePrisoner.
      refused_with Hv. refused_with Hp. refused_with Hacc. reflexivity. }
    split.
    { eexists. unfold deleteVisit. unfold_service. unfold includePrisoner.
      refused_with Hv. refused_with Hp. refused_with Hacc. reflexivity. }
    { intros uid. eexists. unfold approveVisit.
      apply transaction_throw with (s1 := s).
      unfold_service. unfold includePrisoner.
      refused_with Hv. refused_with Hp. refused_with Hacc. reflexivity. }
  - intros workRecordId w Hw Hp.
    split.
    { unfold getWorkRecordById. unfold_service. unfold includePrisoner.
      destruct (findByPk Prison.prison_id (Prisons s) (Prisoner.prison_id p))
        as [f|] eqn:Hf.
      - eexists. refused_with Hw. refused_with Hp. refused_with Hf.
        rewrite (Hnested f eq_refl). reflexivity.
      - eexists. refused_with Hw. refused_with Hp. refused_with Hf.
        reflexivity. }
    split.
    { intros u. eexists. unfold updateWorkRecord.
      apply transaction_throw with (s1 := s).
      unfold_service. unfold includePrisoner.
      refused_with Hw. refused_with Hp. refused_with Hacc. reflexivity. }
    split.
    { eexists. unfold deleteWorkRecord. unfold_service.
      unfold includePrisoner.
      refused_with Hw. refused_with Hp. refused_with Hacc. reflexivity. }
    split.
    { intros d now. eexists. unfold approvePayment.
      apply transaction_throw with (s1 := s).
      unfold_service. unfold includePrisoner.
      refused_with Hw. refused_with Hp. refused_with Hacc. reflexivity. }
    { intros ids d now. unfold bulkApprovePayments.
      assert (Hfold : forall l acc,
                findWork (snd acc) workRecordId = Some w ->
                findWork (snd (fold_left (bulkApproveOne s d ups role now) l
                                         acc)) workRecordId = Some w).
      { induction l as [|id l IH]; intros acc Hstep; [exact Hstep|].
        cbn [fold_left]. apply IH. unfold bulkApproveOne.
        destruct acc as [results s0]. cbn [snd] in *.
        destruct (findWork s id) as [workRecord|] eqn:Hrec; [|exact Hstep].
        unfold includePrisoner.
        destruct (findPrisoner s (PrisonerWorkRecord.prisoner_id workRecord))
          as [p0|] eqn:Hp0; [|exact Hstep].
        cbn [inc_prisoner].
        destruct (checkPrisonAccess ups (Prisoner.prison_id p0) role)
          eqn:Hacc0; cbn [negb]; [|exact Hstep].
        destruct (PaymentStatus_eqb
                    (PrisonerWorkRecord.payment_status workRecord) Paid);
          [exact Hstep|].
        cbn [snd WorkRecords set_WorkRecords].
        pose proof (findByPk_Some _ _ _ Hrec) as [Hid _].
        rewrite findByPk_updateRow_other; [exact Hstep | reflexivity |].
        intros Heq. rewrite Hid in Heq. rewrite <- Heq in Hrec.
        rewrite Hw in Hrec. inversion Hrec; subst workRecord.
        rewrite Hp in Hp0. inversion Hp0; subst p0.
        rewrite Hacc in Hacc0. discriminate. }
      specialize (Hfold ids
                    (mkBulkResults (Z.of_nat (List.length ids)) 0 0 [], s) Hw).
      destruct (fold_left (bulkApproveOne s d ups role now) ids
                  (mkBulkResults (Z.of_nat (List.length ids)) 0 0 [], s))
        as [results s'].
      exact Hfold. }
  - intros behaviourRecordId r Hr Hp.
    split.
    { unfold getBehaviourRecordById. unfold_service. unfold includePrisoner.
      destruct (findByPk Prison.prison_id (Prisons s) (Prisoner.prison_id p))
        as [f|] eqn:Hf.
      - eexists. refused_with Hr. refused_with Hp. refused_with Hf.
        rewrite (Hnested f eq_refl). reflexivity.
      - eexists. refused_with Hr. refused_with Hp. refused_with Hf.
        reflexivity. }
    split.
    { intros u. eexists. apply updateBehaviourRecord_throws. }
    split.
    { eexists. unfold deleteBehaviourRecord. unfold_service.
      unfold includePrisoner.
      refused_with Hr. refused_with Hp. refused_with Hacc. reflexivity. }
    split.
    { intros notes now. eexists. unfold approveSentenceAdjustment.
      apply transaction_throw with (s1 := s).
      unfold_service. unfold includePrisoner.
      refused_with Hr. refused_with Hp. refused_with Hacc. reflexivity. }
    { intros reason. eexists. apply rejectSentenceAdjustment_throws. }
Qed.

Lemma records_of_another_prison_are_out_of_reach_witness :
  exists e, approvePayment 2 None (Some 2) PrisonAdmin aClock workStore
            = (Throw e, workStore).
Proof.
  exact (proj1 (proj2 (proj2 (proj2
    (proj1 (proj2
      (@records_of_another_prison_are_out_of_reach workStore
         (Prisoner.mk 1 "901234567V" "CASE-1" (mkDate 2024 1 10) None None
                      Active 1)
         (Some 2) PrisonAdmin eq_refl))
      2 (PrisonerWorkRecord.mk 2 1 "kitchen" (mkDate 2024 8 2) 600 90000
           PaymentPending None 7)
      eq_refl eq_refl)))) None aClock).
Defined.

(* ================================================================== *)
(** ** Invariants at every step *)
(* ================================================================== *)

Lemma fullPrison_keys_ok : prisoner_keys_ok fullPrison.
Proof.
  split.
  - cbn. repeat constructor; cbn; intuition lia.
  - cbn. repeat constructor; cbn; lia.
Qed.

(** X3: registrations, transfers, prison updates, releases and deletions,
    in any order and with any arguments, keep every prison at or below its
    capacity after every single call of the sequence. *)
Theorem capacity_holds_after_every_guarded_call :
  forall (cmds : list GuardedCommand) s,
    prisoner_keys_ok s ->
    capacity_ok s ->
    forall n,
      capacity_ok (fold_left (fun s c => runGuarded c s) (firstn n cmds) s).
Proof.
  intros cmds s Hk Hok n. apply guarded_commands_capacity_ok; assumption.
Qed.

(** A registration into the full prison, refused, then a release and a
    new registration. *)
Definition guardedRun : list GuardedCommand :=
  [Register (mkPrisonerData None "931234567V" "CASE-9" None None) (Some 1)
            Officer 7 aClock;
   Release 1 None None (Some 1) PrisonAdmin 7 aClock;
   Register (mkPrisonerData None "931234567V" "CASE-9" None None) (Some 1)
            Officer 7 aClock].

Lemma capacity_holds_after_every_guarded_call_witness :
  capacity_ok (fold_left (fun s c => runGuarded c s) (firstn 3 guardedRun)
                         fullPrison).
Proof.
  exact (@capacity_holds_after_every_guarded_call guardedRun fullPrison
           fullPrison_keys_ok fullPrison_capacity_ok 3).
Defined.

Example guardedRun_counts :
  activeCount (fold_left (fun s c => runGuarded c s) (firstn 1 guardedRun)
                         fullPrison) 1 = 1 /\
  activeCount (fold_left (fun s c => runGuarded c s) (firstn 2 guardedRun)
                         fullPrison) 1 = 0 /\
  activeCount (fold_left (fun s c => runGuarded c s) guardedRun fullPrison) 1
  = 1 /\
  List.length (Prisoners (fold_left (fun s c => runGuarded c s) guardedRun
                                    fullPrison)) = 3%nat.
Proof.
  split; [vm_compute; reflexivity|].
  split; [vm_compute; reflexivity|].
  split; vm_compute; reflexivity.
Qed.

(** X4: scheduling, updating, deleting and approving visits, and setting a
    visit to a status other than Scheduled, in any order and with any
    arguments, leave no two Scheduled visits of one person on one date with
    overlapping windows after any call of the sequence. *)
Theorem visits_stay_apart_after_every_checked_call :
  forall (cmds : list VisitCommand) s,
    forallb (fun c => negb (reschedules c)) cmds = true ->
    visit_keys_ok s ->
    no_double_booking s ->
    forall n, no_double_booking (runVisits (firstn n cmds) s).
Proof.
  intros cmds s Hall Hk Hno n.
  apply checked_commands_no_double_booking; [|exact Hk | exact Hno].
  rewrite forallb_forall in *. intros c Hc. apply Hall.
  rewrite <- (firstn_skipn n cmds). apply in_or_app. left. exact Hc.
Qed.

Definition checkedRun : list VisitCommand :=
  [ScheduleVisit (visitB (hhmm 9 15) (hhmm 9 45)) 7 (Some 1) VisitorManager;
   ScheduleVisit (visitB (hhmm 9 0) (hhmm 9 30)) 7 (Some 1) VisitorManager;
   UpdateVisitStatus 1 "Cancelled" None (Some 1) VisitorManager;
   ScheduleVisit (visitB (hhmm 9 0) (hhmm 9 30)) 7 (Some 1) VisitorManager;
   UpdateVisit 2 (mkVisitUpdate None None (Some (hhmm 9 30)) (Some (hhmm 10 0))
                                None None)
               (Some 1) VisitorManager].

Lemma noVisits_keys_ok : visit_keys_ok noVisits.
Proof. split; cbn; constructor. Qed.

Lemma noVisits_no_double_booking : no_double_booking noVisits.
Proof. intros a b []. Qed.

Lemma visits_stay_apart_after_every_checked_call_witness :
  no_double_booking (runVisits (firstn 5 checkedRun) noVisits).
Proof.
  exact (@visits_stay_apart_after_every_checked_call checkedRun noVisits
           eq_refl noVisits_keys_ok noVisits_no_double_booking 5).
Defined.

Example checkedRun_visits :
  map (fun v => (Visit.visit_id v, Visit.status v, Visit.visit_time_start v,
                 Visit.visit_time_end v))
      (Visits (runVisits checkedRun noVisits))
  = [(1, Cancelled, hhmm 9 15, hhmm 9 45);
     (2, Scheduled, hhmm 9 30, hhmm 10 0)].
Proof. vm_compute. reflexivity. Qed.

(* ================================================================== *)
(** ** Behaviour records: update and rejection *)
(* ================================================================== *)

(** X5: [updateBehaviourRecord] and [rejectSentenceAdjustment] never
    write.  Both read [behaviourRecord.prisoner.prison.prison_id] although
    the prisoner is loaded without its prison, so on every record that
    exists they throw a TypeError, whoever calls and whatever the record's
    status; on a missing record they throw 'Behaviour record not found'.
    No record is ever set to Rejected by [rejectSentenceAdjustment]. *)
Theorem behaviour_update_and_rejection_always_throw :
  forall s behaviourRecordId ups role,
    let error :=
      match findBehaviour s behaviourRecordId with
      | Some _ => TypeError
      | None => JsError "Behaviour record not found"
      end in
    (forall updateData,
        updateBehaviourRecord behaviourRecordId updateData ups role s
        = (Throw error, s)) /\
    (forall reason,
        rejectSentenceAdjustment behaviourRecordId reason ups role s
        = (Throw error, s)).
Proof.
  intros s behaviourRecordId ups role. cbv zeta. split.
  - intros updateData. apply updateBehaviourRecord_throws.
  - intros reason. apply rejectSentenceAdjustment_throws.
Qed.

(* ================================================================== *)
(** ** Bulk approval of payments *)
(* ================================================================== *)

(** Whether a turn of the loop approves the record: it is there with its
    prisoner, the caller has access and the record is not Paid, all read
    from the store as committed before the call. *)
Definition payable (s : Store) (ups : option Z) (role : UserRole) (id : Z)
  : bool :=
  match findWork s id with
  | Some w =>
      match findPrisoner s (PrisonerWorkRecord.prisoner_id w) with
      | Some p =>
          checkPrisonAccess ups (Prisoner.prison_id p) role
          && negb (PaymentStatus_eqb (PrisonerWorkRecord.payment_status w) Paid)
      | None => false
      end
  | None => false
  end.

Lemma markPaid_twice date w : markPaid date (markPaid date w) = markPaid date w.
Proof. reflexivity. Qed.

(** One turn, on an identifier that is payable and on one that is not. *)
Lemma bulkApproveOne_payable s d ups role now results s0 id :
  payable s ups role id = true ->
  bulkApproveOne s d ups role now (results, s0) id
  = (bulkApproved results,
     set_WorkRecords
       (updateRow PrisonerWorkRecord.work_record_id id
                  (markPaid (orElse d (today now)))) s0).
Proof.
  unfold payable, bulkApproveOne, includePrisoner. intros H.
  destruct (findWork s id) as [w|] eqn:Hw; [|discriminate].
  pose proof (findByPk_Some _ _ _ Hw) as [Hid _].
  destruct (findPrisoner s (PrisonerWorkRecord.prisoner_id w)) as [p|];
    [|discriminate].
  cbn [inc_prisoner]. apply andb_true_iff in H as [Hacc Hst].
  rewrite Hacc. cbn [negb]. apply negb_true_iff in Hst. rewrite Hst.
  rewrite Hid. reflexivity.
Qed.

Lemma bulkApproveOne_not_payable s d ups role now results s0 id :
  payable s ups role id = false ->
  exists message,
    bulkApproveOne s d ups role now (results, s0) id
    = (bulkFailed results id message, s0).
Proof.
  unfold payable, bulkApproveOne, includePrisoner. intros H.
  destruct (findWork s id) as [w|] eqn:Hw; [|eexists; reflexivity].
  destruct (findPrisoner s (PrisonerWorkRecord.prisoner_id w)) as [p|];
    [|eexists; reflexivity].
  cbn [inc_prisoner].
  destruct (checkPrisonAccess ups (Prisoner.prison_id p) role);
    cbn [negb andb] in *; [|eexists; reflexivity].
  apply negb_false_iff in H. rewrite H. eexists. reflexivity.
Qed.

(** The loop, from any point on. *)
Lemma bulkApprove_fold s d ups role now : forall ids results s0,
  let paid := filter (payable s ups role) ids in
  let out := fold_left (bulkApproveOne s d ups role now) ids (results, s0) in
  total (fst out) = total results /\
  approved (fst out) = approved results + Z.of_nat (List.length paid) /\
  failed (fst out)
  = failed results + (Z.of_nat (List.length ids) - Z.of_nat (List.length paid)) /\
  List.length (errors (fst out))
  = (List.length (errors results)
     + (List.length ids - List.length paid))%nat /\
  forall id,
    findWork (snd out) id
    = if existsb (Z.eqb id) paid
      then option_map (markPaid (orElse d (today now))) (findWork s0 id)
      else findWork s0 id.
Proof.
  induction ids as [|x ids IH]; intros results s0; cbv zeta.
  - cbn. repeat split; lia.
  - cbn [fold_left filter].
    destruct (payable s ups role x) eqn:Hx.
    + rewrite (@bulkApproveOne_payable s d ups role now results s0 x Hx).
      specialize (IH (bulkApproved results)
                     (set_WorkRecords
                        (updateRow PrisonerWorkRecord.work_record_id x
                                   (markPaid (orElse d (today now)))) s0)).
      cbv zeta in IH. destruct IH as (Ht & Ha & Hf & He & Hw).
      cbn [List.length existsb].
      split; [exact Ht|]. split; [rewrite Ha; cbn [approved bulkApproved]; lia|].
      split; [rewrite Hf; cbn [failed bulkApproved]; lia|].
      split.
      { rewrite He. cbn [errors bulkApproved].
        pose proof (filter_length_le (payable s ups role) ids). lia. }
      intros id. rewrite Hw. cbn [WorkRecords set_WorkRecords].
      destruct (id =? x) eqn:Eid; cbn [orb].
      * apply Z.eqb_eq in Eid. subst id.
        rewrite findByPk_updateRow_same by reflexivity.
        destruct (existsb (Z.eqb x) (filter (payable s ups role) ids));
          [|reflexivity].
        destruct (findWork s0 x); reflexivity.
      * apply Z.eqb_neq in Eid.
        rewrite findByPk_updateRow_other by (reflexivity || exact Eid).
        reflexivity.
    + destruct (@bulkApproveOne_not_payable s d ups role now results s0 x Hx) as [m Hm].
      rewrite Hm.
      specialize (IH (bulkFailed results x m) s0).
      cbv zeta in IH. destruct IH as (Ht & Ha & Hf & He & Hw).
      cbn [List.length].
      split; [exact Ht|]. split; [rewrite Ha; cbn [approved bulkFailed]; lia|].
      split.
      { rewrite Hf. cbn [failed bulkFailed].
        pose proof (filter_length_le (payable s ups role) ids). lia. }
      split.
      { rewrite He. cbn [errors bulkFailed]. rewrite length_app.
        cbn [List.length].
        pose proof (filter_length_le (payable s ups role) ids). lia. }
      exact Hw.
Qed.

(** X6: [bulkApprovePayments] never throws and reports every listed
    identifier once as approved or as failed: [total] is the length of the
    list, [approved] the number of listed identifiers, repetitions
    counted, whose record was payable when the call began, [failed] the
    rest, with one entry in [errors] each.  Afterwards exactly the payable
    records that were listed are Paid with the payment date, and every
    other record is as it was. *)
Theorem bulkApprovePayments_outcome :
  forall ids d ups role now s,
    let paid := filter (payable s ups role) ids in
    exists results s',
      bulkApprovePayments ids d ups role now s = (Ok results, s') /\
      total results = Z.of_nat (List.length ids) /\
      approved results = Z.of_nat (List.length paid) /\
      approved results + failed results = total results /\
      Z.of_nat (List.length (errors results)) = failed results /\
      forall workRecordId,
        findWork s' workRecordId
        = if existsb (Z.eqb workRecordId) paid
          then option_map (markPaid (orElse d (today now)))
                          (findWork s workRecordId)
          else findWork s workRecordId.
Proof.
  intros ids d ups role now s. cbv zeta.
  pose proof (@bulkApprove_fold s d ups role now ids
                (mkBulkResults (Z.of_nat (List.length ids)) 0 0 []) s) as H.
  cbv zeta in H. unfold bulkApprovePayments.
  destruct (fold_left (bulkApproveOne s d ups role now) ids
              (mkBulkResults (Z.of_nat (List.length ids)) 0 0 [], s))
    as [results s'].
  cbn [fst snd total approved failed errors List.length] in H.
  destruct H as (Ht & Ha & Hf & He & Hw).
  exists results, s'. split; [reflexivity|].
  pose proof (filter_length_le (payable s ups role) ids) as Hle.
  split; [exact Ht|]. split; [lia|]. split; [lia|]. split; [lia|].
  exact Hw.
Qed.

(** Record 2 listed twice, the paid record 1 and a record that does not
    exist: two approvals are counted for the one record. *)
Example bulkApprovePayments_repeated :
  let result :=
    bulkApprovePayments [2; 1; 2; 9] None (Some 1) PrisonAdmin aClock workStore in
  fst result
  = Ok (mkBulkResults 4 2 2 [(1, "Already paid"); (9, "Work record not found")]) /\
  option_map PrisonerWorkRecord.payment_status (findWork (snd result) 2)
  = Some Paid.
Proof. cbv zeta. split; vm_compute; reflexivity. Qed.

(* ================================================================== *)
(** ** Prisoners: NIC and case number stay unique *)
(* ================================================================== *)

(** No two prisoners share a NIC or a case number. *)
Definition identities_unique (s : Store) : Prop :=
  forall a b,
    In a (Prisoners s) -> In b (Prisoners s) ->
    Prisoner.prisoner_id a <> Prisoner.prisoner_id b ->
    Prisoner.nic a <> Prisoner.nic b /\
    Prisoner.case_number a <> Prisoner.case_number b.

(** A request body as the route's validation lets it through: a NIC or a
    case number, when present, is not the empty string. *)
Definition update_well_formed (u : PrisonerUpdate) : Prop :=
  u_nic u <> Some "" /\ u_case_number u <> Some "".

Lemma registerPrisoner_fresh_identity prisonerData ups role uid now s r s' :
  registerPrisoner prisonerData ups role uid now s = (r, s') ->
  s' = s \/
  exists prisonId,
    (forall p, In p (Prisoners s) ->
               Prisoner.nic p <> d_nic prisonerData /\
               Prisoner.case_number p <> d_case_number prisonerData) /\
    s' = afterRegistration
           (registeredRow prisonerData prisonId now (next_prisoner_id s)) s.
Proof.
  intros H. unfold registerPrisoner, getPrisonerById in H. unfold_service.
  fold (registrationPrison prisonerData ups role) in H.
  destruct (registrationPrison prisonerData ups role) as [prisonId|] eqn:Hreg;
    cbn [truthyZ orElse negb] in H.
  2: { cbv beta iota in H. inversion H; auto. }
  repeat case_step_in H;
    try (inversion H; subst; auto; fail).
  all: try match goal with
       | E : findOne _ _ = Some ?e,
         E1 : String.eqb (Prisoner.nic ?e) _ = false,
         E2 : String.eqb (Prisoner.case_number ?e) _ = false |- _ =>
           exfalso; unfold findOne in E; apply find_some in E as [_ E];
           rewrite E1, E2 in E; discriminate
       end.
  all: inversion H; subst; right; exists prisonId; (split; [|reflexivity]);
    intros p Hin;
    match goal with
    | E : findOne _ _ = None |- _ =>
        unfold findOne in E; apply (find_none _ _ E) in Hin;
        apply orb_false_iff in Hin as [Hn Hc];
        apply String.eqb_neq in Hn; apply String.eqb_neq in Hc; auto
    end.
Qed.

Lemma updatePrisoner_store prisonerId updateData ups role uid s r s' :
  updatePrisoner prisonerId updateData ups role uid s = (r, s') ->
  s' = s \/
  exists p,
    findPrisoner s prisonerId = Some p /\
    (truthyS (u_nic updateData)
     && negb (String.eqb (orElse (u_nic updateData) "") (Prisoner.nic p))
     = true ->
     forall q, In q (Prisoners s) ->
               Prisoner.prisoner_id q <> prisonerId ->
               Prisoner.nic q <> orElse (u_nic updateData) "") /\
    (truthyS (u_case_number updateData)
     && negb (String.eqb (orElse (u_case_number updateData) "")
                         (Prisoner.case_number p))
     = true ->
     forall q, In q (Prisoners s) ->
               Prisoner.prisoner_id q <> prisonerId ->
               Prisoner.case_number q <> orElse (u_case_number updateData) "") /\
    s' = set_Prisoners
           (updateRow Prisoner.prisoner_id prisonerId
                      (applyPrisonerUpdate updateData)) s.
Proof.
  unfold updatePrisoner.
  remember (fun _ : unit => getPrisonerById prisonerId ups role) as after.
  unfold_service. intros H.
  repeat match type of H with
         | context [match ?x with _ => _ end] =>
             lazymatch x with
             | context [match _ with _ => _ end] => fail
             | context [after] => fail
             | _ => destruct x eqn:?
             end; cbv beta iota zeta in H
         end;
    try (inversion H; subst; auto; fail).
  all: match goal with
       | Heq : ?a = (fun _ => getPrisonerById _ _ _),
         H0 : context [?a ?i ?st] |- _ =>
           destruct (a i st) as [o2 s2] eqn:E
       end;
    rewrite Heqafter in E;
    assert (s2 = set_Prisoners
                   (updateRow Prisoner.prisoner_id prisonerId
                              (applyPrisonerUpdate updateData)) s)
      by (unfold getPrisonerById in E; unfold_service;
          repeat case_step_in E; inversion E; reflexivity);
    subst s2;
    right; eexists; split; [reflexivity|];
    (split; [|split; [|destruct o2; inversion H; subst; reflexivity]]);
    intros Hgiven q Hq Hne;
    try congruence;
    match goal with
    | E1 : findOne _ _ = None |- _ =>
        unfold findOne in E1; apply (find_none _ _ E1) in Hq;
        apply andb_false_iff in Hq as [Hq|Hq];
        [ apply String.eqb_neq in Hq; exact Hq
        | apply negb_false_iff, Z.eqb_eq in Hq; contradiction ]
    end.
Qed.

(** What uniqueness looks at in a prisoner. *)
Definition identity (p : Prisoner.row) : Z * string * string :=
  (Prisoner.prisoner_id p, Prisoner.nic p, Prisoner.case_number p).

Lemma In_updateRow_prisoner id f (t : list Prisoner.row) a :
  In a (updateRow Prisoner.prisoner_id id f t) ->
  exists a0,
    In a0 t /\ a = (if Prisoner.prisoner_id a0 =? id then f a0 else a0).
Proof.
  unfold updateRow. intros H. apply in_map_iff in H as [a0 [Heq Hin]].
  exists a0. split; [exact Hin | symmetry; exact Heq].
Qed.

(** A write that leaves key, NIC and case number alone. *)
Lemma identities_unique_updateRow id f s :
  (forall r, identity (f r) = identity r) ->
  identities_unique s ->
  identities_unique (set_Prisoners (updateRow Prisoner.prisoner_id id f) s).
Proof.
  intros Hf Hu a b Ha Hb. cbn [Prisoners set_Prisoners] in Ha, Hb.
  apply In_updateRow_prisoner in Ha as [a0 [Ha0 ->]].
  apply In_updateRow_prisoner in Hb as [b0 [Hb0 ->]].
  assert (Hfields : forall r,
            Prisoner.prisoner_id (f r) = Prisoner.prisoner_id r /\
            Prisoner.nic (f r) = Prisoner.nic r /\
            Prisoner.case_number (f r) = Prisoner.case_number r).
  { intros r. specialize (Hf r). unfold identity in Hf.
    inversion Hf as [[H1 H2 H3]]. rewrite H1, H2, H3. auto. }
  destruct (Hfields a0) as (Ha1 & Ha2 & Ha3).
  destruct (Hfields b0) as (Hb1 & Hb2 & Hb3).
  destruct (Prisoner.prisoner_id a0 =? id);
    destruct (Prisoner.prisoner_id b0 =? id);
    rewrite ?Ha1, ?Ha2, ?Ha3, ?Hb1, ?Hb2, ?Hb3; apply Hu; assumption.
Qed.

Lemma registerPrisoner_identities_unique prisonerData ups role uid now s :
  identities_unique s ->
  identities_unique (snd (registerPrisoner prisonerData ups role uid now s)).
Proof.
  intros Hu.
  destruct (registerPrisoner prisonerData ups role uid now s) as [r s'] eqn:E.
  apply registerPrisoner_fresh_identity in E. cbn [snd].
  destruct E as [->|(prisonId & Hfresh & ->)]; [exact Hu|].
  intros a b Ha Hb Hne. cbn [Prisoners afterRegistration] in Ha, Hb.
  unfold insertRow in Ha, Hb.
  apply in_app_or in Ha. apply in_app_or in Hb.
  destruct Ha as [Ha|[<-|[]]]; destruct Hb as [Hb|[<-|[]]].
  - apply Hu; assumption.
  - cbn [registeredRow Prisoner.nic Prisoner.case_number].
    apply Hfresh. exact Ha.
  - cbn [registeredRow Prisoner.nic Prisoner.case_number].
    destruct (Hfresh b Hb) as [Hn Hc]. split; congruence.
  - exfalso. apply Hne. reflexivity.
Qed.

Lemma updatePrisoner_keys_ok prisonerId updateData ups role uid s :
  prisoner_keys_ok s ->
  prisoner_keys_ok (snd (updatePrisoner prisonerId updateData ups role uid s)).
Proof.
  intros Hok.
  destruct (updatePrisoner prisonerId updateData ups role uid s)
    as [r s'] eqn:E.
  apply updatePrisoner_store in E. cbn [snd].
  destruct E as [->|(p & _ & _ & _ & ->)]; [exact Hok|].
  unfold prisoner_keys_ok. cbn [Prisoners next_prisoner_id set_Prisoners].
  apply keys_ok_updateRow; [reflexivity | exact Hok].
Qed.

Lemma updatePrisoner_identities_unique prisonerId updateData ups role uid s :
  update_well_formed updateData ->
  prisoner_keys_ok s ->
  identities_unique s ->
  identities_unique (snd (updatePrisoner prisonerId updateData ups role uid s)).
Proof.
  intros [Hwn Hwc] Hk Hu.
  destruct (updatePrisoner prisonerId updateData ups role uid s)
    as [r s'] eqn:E.
  apply updatePrisoner_store in E. cbn [snd].
  destruct E as [->|(p & Hp & Hnic & Hcase & ->)]; [exact Hu|].
  pose proof (findByPk_Some _ _ _ Hp) as [Hpid Hpin].
  assert (Hsame : forall w,
            In w (Prisoners s) -> Prisoner.prisoner_id w = prisonerId -> w = p).
  { intros w Hin Hid. destruct Hk as [Hnd _].
    pose proof (findByPk_In_NoDup Prisoner.prisoner_id _ w Hnd Hin) as Hw.
    rewrite Hid, Hp in Hw. inversion Hw. reflexivity. }
  (* the updated row against any other row *)
  assert (Hother : forall q,
            In q (Prisoners s) -> Prisoner.prisoner_id q <> prisonerId ->
            Prisoner.nic (applyPrisonerUpdate updateData p) <> Prisoner.nic q /\
            Prisoner.case_number (applyPrisonerUpdate updateData p)
            <> Prisoner.case_number q).
  { intros q Hq Hne.
    assert (Hpq : Prisoner.prisoner_id p <> Prisoner.prisoner_id q)
      by (rewrite Hpid; auto).
    destruct (Hu p q Hpin Hq Hpq) as [Hn Hc].
    cbn [applyPrisonerUpdate Prisoner.nic Prisoner.case_number]. split.
    - destruct (u_nic updateData) as [n|] eqn:En; cbn [orElse] in *;
        [|exact Hn].
      destruct (String.eqb_spec n (Prisoner.nic p)) as [->|Hdiff];
        [exact Hn|].
      assert (Hne' : n <> "") by congruence.
      apply String.eqb_neq in Hne'.
      cbn [truthyS] in Hnic. rewrite Hne' in Hnic. cbn [negb andb] in Hnic.
      intros Heq. apply (Hnic eq_refl q Hq Hne). symmetry. exact Heq.
    - destruct (u_case_number updateData) as [n|] eqn:En; cbn [orElse] in *;
        [|exact Hc].
      destruct (String.eqb_spec n (Prisoner.case_number p)) as [->|Hdiff];
        [exact Hc|].
      assert (Hne' : n <> "") by congruence.
      apply String.eqb_neq in Hne'.
      cbn [truthyS] in Hcase. rewrite Hne' in Hcase. cbn [negb andb] in Hcase.
      intros Heq. apply (Hcase eq_refl q Hq Hne). symmetry. exact Heq. }
  intros a b Ha Hb Hne. cbn [Prisoners set_Prisoners] in Ha, Hb.
  apply In_updateRow_prisoner in Ha as [a0 [Ha0 ->]].
  apply In_updateRow_prisoner in Hb as [b0 [Hb0 ->]].
  destruct (Prisoner.prisoner_id a0 =? prisonerId) eqn:Ea;
    destruct (Prisoner.prisoner_id b0 =? prisonerId) eqn:Eb.
  - exfalso. apply Hne. apply Z.eqb_eq in Ea, Eb.
    cbn [applyPrisonerUpdate Prisoner.prisoner_id]. congruence.
  - apply Z.eqb_eq in Ea. apply Z.eqb_neq in Eb.
    rewrite (Hsame a0 Ha0 Ea). apply Hother; assumption.
  - apply Z.eqb_neq in Ea. apply Z.eqb_eq in Eb.
    rewrite (Hsame b0 Hb0 Eb).
    destruct (Hother a0 Ha0 Ea) as [Hn Hc]. split; congruence.
  - apply Hu; assumption.
Qed.

(** The operations of the prisoner service that write a prisoner, and the
    update of a prison. *)
Inductive PrisonerCommand :=
| Guarded (c : GuardedCommand)
| UpdatePrisoner (prisonerId : Z) (updateData : PrisonerUpdate)
    (userPrisonId : option Z) (userRole : UserRole) (userId : Z).

Definition runPrisoner (c : PrisonerCommand) (s : Store) : Store :=
  match c with
  | Guarded c => runGuarded c s
  | UpdatePrisoner id u ups role uid => snd (updatePrisoner id u ups role uid s)
  end.

Definition command_well_formed (c : PrisonerCommand) : Prop :=
  match c with
  | Guarded _ => True
  | UpdatePrisoner _ u _ _ _ => update_well_formed u
  end.

Lemma runPrisoner_keys_ok c s :
  prisoner_keys_ok s -> prisoner_keys_ok (runPrisoner c s).
Proof.
  intros Hk. destruct c; cbn [runPrisoner].
  - apply runGuarded_keys_ok; exact Hk.
  - apply updatePrisoner_keys_ok; exact Hk.
Qed.

Lemma runPrisoner_identities_unique c s :
  command_well_formed c ->
  prisoner_keys_ok s ->
  identities_unique s ->
  identities_unique (runPrisoner c s).
Proof.
  intros Hwf Hk Hu. destruct c as [c|]; cbn [runPrisoner].
  - destruct c; cbn [runGuarded].
    + apply registerPrisoner_identities_unique; exact Hu.
    + destruct (transferPrisoner prisonerId targetPrisonId transferReason
                  userPrisonId userRole userId s) as [r s'] eqn:E.
      apply transferPrisoner_store in E. cbn [snd].
      destruct E as [->|(p & t & _ & _ & _ & ->)]; [exact Hu|].
      apply identities_unique_updateRow; [reflexivity | exact Hu].
    + destruct (updatePrison prisonId updateData userRole s) as [r s'] eqn:E.
      apply updatePrison_store in E. cbn [snd].
      destruct E as [->|(f & _ & _ & ->)]; exact Hu.
    + destruct (releasePrisoner prisonerId releaseReason releaseNotes
                  userPrisonId userRole userId now s) as [r s'] eqn:E.
      apply releasePrisoner_store in E. cbn [snd].
      destruct E as [->|(p & _ & ->)]; [exact Hu|].
      apply identities_unique_updateRow; [reflexivity | exact Hu].
    + destruct (deletePrisoner prisonerId reason userPrisonId userRole userId
                  now s) as [r s'] eqn:E.
      apply deletePrisoner_store in E. cbn [snd].
      destruct E as [->|(p & st & _ & _ & ->)]; [exact Hu|].
      apply identities_unique_updateRow; [reflexivity | exact Hu].
  - apply updatePrisoner_identities_unique; assumption.
Qed.

(** X7: the prisoner service keeps NIC and case number unique by its own
    checks: over any sequence of registrations, updates, transfers,
    releases and deletions, with update bodies whose NIC and case number
    are not empty when present, no two prisoners ever share a NIC or a
    case number. *)
Theorem prisoner_identities_stay_unique :
  forall (cmds : list PrisonerCommand) s,
    Forall command_well_formed cmds ->
    prisoner_keys_ok s ->
    identities_unique s ->
    forall n,
      identities_unique
        (fold_left (fun s c => runPrisoner c s) (firstn n cmds) s).
Proof.
  intros cmds s Hwf Hk Hu n.
  assert (Hwf' : Forall command_well_formed (firstn n cmds)).
  { rewrite Forall_forall in *. intros c Hc. apply Hwf.
    rewrite <- (firstn_skipn n cmds). apply in_or_app. left. exact Hc. }
  clear Hwf. revert s Hk Hu.
  induction (firstn n cmds) as [|c l IH]; intros s Hk Hu; [exact Hu|].
  inversion Hwf' as [|? ? Hc Hl]; subst.
  cbn [fold_left]. apply IH; [exact Hl | |].
  - apply runPrisoner_keys_ok; exact Hk.
  - apply runPrisoner_identities_unique; assumption.
Qed.

Lemma twoPrisons_keys_ok : prisoner_keys_ok twoPrisons.
Proof.
  split.
  - cbn. repeat constructor; cbn; intuition lia.
  - cbn. repeat constructor; cbn; lia.
Qed.

Lemma twoPrisons_identities_unique : identities_unique twoPrisons.
Proof.
  intros a b Ha Hb Hne. cbn in Ha, Hb.
  destruct Ha as [<-|[<-|[<-|[]]]]; destruct Hb as [<-|[<-|[<-|[]]]];
    cbn in *; try (exfalso; apply Hne; reflexivity);
    split; discriminate.
Qed.

(** An update that asks for the NIC of prisoner 1, a registration under
    the case number of prisoner 3, and an update to a free NIC. *)
Definition identityRun : list PrisonerCommand :=
  [UpdatePrisoner 2 (mkPrisonerUpdate (Some "901234567V") None None None None)
                  (Some 1) Officer 7;
   Guarded (Register (mkPrisonerData None "941234567V" "CASE-3" None None)
                     (Some 1) Officer 7 aClock);
   UpdatePrisoner 2 (mkPrisonerUpdate (Some "951234567V") None None None None)
                  (Some 1) Officer 7].

Lemma identityRun_well_formed : Forall command_well_formed identityRun.
Proof.
  repeat constructor; cbn; discriminate.
Qed.

Lemma prisoner_identities_stay_unique_witness :
  identities_unique
    (fold_left (fun s c => runPrisoner c s) (firstn 3 identityRun) twoPrisons).
Proof.
  exact (@prisoner_identities_stay_unique identityRun twoPrisons
           identityRun_well_formed twoPrisons_keys_ok
           twoPrisons_identities_unique 3).
Defined.

Example identityRun_nics :
  map Prisoner.nic
      (Prisoners (fold_left (fun s c => runPrisoner c s) identityRun twoPrisons))
  = ["901234567V"; "951234567V"; "921234567V"].
Proof. vm_compute. reflexivity. Qed.


(* ================================================================== *)
(** * The services around the lifecycle engine

    The visitor, user, authentication and prison services and the parts
    of the prisoner and behaviour services that the development above
    leaves out, over the tables they add to the database. *)
(* ================================================================== *)

(** ** Passwords

    [bcrypt.hash] and [bcrypt.compare] are taken symbolically, up to what
    bcrypt reads of a password.  bcryptjs appends a NUL to the UTF-8 bytes
    of the password and runs through them cyclically to fill the 18 words
    of its key, so a digest depends on the first 72 bytes of that cycle and
    on nothing else of the password: two passwords of 72 bytes or more that
    agree on their first 72 bytes have the same digests.  A digest records
    the salt it was made with and the key it was made of; a candidate
    matches a stored value exactly when that value is a digest of the
    candidate's key.  A stored value that is no digest matches nothing.  A
    digest, itself a string of 60 characters, is its own key when it is
    hashed or offered as a candidate. *)

Inductive Secret :=
| Plain (text : string)
| Bcrypt (salt : Z) (key : Secret).

Fixpoint Secret_eqb (a b : Secret) : bool :=
  match a, b with
  | Plain x, Plain y => String.eqb x y
  | Bcrypt s x, Bcrypt t y => (s =? t) && Secret_eqb x y
  | _, _ => false
  end.

Lemma Secret_eqb_eq a : forall b, Secret_eqb a b = true <-> a = b.
Proof.
  induction a as [x|s x IH]; intros [y|t y]; cbn [Secret_eqb];
    try (split; [discriminate | intros H; inversion H]).
  - rewrite String.eqb_eq. split; [intros ->; reflexivity | intros H; inversion H; reflexivity].
  - rewrite andb_true_iff, Z.eqb_eq, IH. split.
    + intros [-> ->]. reflexivity.
    + intros H. inversion H. auto.
Qed.

Lemma Secret_eqb_refl a : Secret_eqb a a = true.
Proof. apply Secret_eqb_eq. reflexivity. Qed.

(** [n] bytes of [whole] repeated without end, taken up at [rest]. *)
Fixpoint cycled (n : nat) (whole rest : list ascii) : list ascii :=
  match n with
  | O => []
  | S n' =>
      match rest with
      | a :: rest' => a :: cycled n' whole rest'
      | [] =>
          match whole with
          | a :: rest' => a :: cycled n' whole rest'
          | [] => []
          end
      end
  end.

(** The 72 bytes bcrypt reads of a password. *)
Definition bcrypt_key_bytes (text : string) : string :=
  let bytes := (list_ascii_of_string text ++ [Ascii.zero])%list in
  string_of_list_ascii (cycled 72 bytes bytes).

Definition bcrypt_key (value : Secret) : Secret :=
  match value with
  | Plain text => Plain (bcrypt_key_bytes text)
  | Bcrypt _ _ => value
  end.

(** [bcrypt.hash(value, 10)], with the salt the call draws. *)
Definition bcrypt_hash (salt : Z) (value : Secret) : Secret :=
  Bcrypt salt (bcrypt_key value).

(** [bcrypt.compare(candidate, stored)] *)
Definition bcrypt_compare (candidate stored : Secret) : bool :=
  match stored with
  | Bcrypt _ key => Secret_eqb (bcrypt_key candidate) key
  | Plain _ => false
  end.

(** Truthiness of a string. *)
Definition truthySecret (x : Secret) : bool :=
  match x with
  | Plain text => negb (String.eqb text "")
  | Bcrypt _ _ => true
  end.

(* ================================================================== *)
(** ** The other models (src/models) *)
(* ================================================================== *)

Module Role.
Record row := mk {
  role_id : Z;
  role_name : string }.
End Role.

Module User.
Record row := mk {
  user_id : Z;
  nic : string;
  email : string;
  username : string;
  password_hash : Secret;
  role_id : Z;
  prison_id : option Z;
  is_active : bool }.
End User.

Module PrisonerFamilyDetail.
Record row := mk {
  family_id : Z;
  prisoner_id : Z;
  family_member_name : string;
  relationship : string;
  emergency_contact : bool }.
End PrisonerFamilyDetail.

Module PrisonerBodyMark.
Record row := mk {
  mark_id : Z;
  prisoner_id : Z;
  mark_description : string;
  mark_location : string }.
End PrisonerBodyMark.

(** The whole database: the tables of the lifecycle engine, the counter of
    the visitor keys, and the tables of roles, users, family details and
    body marks with their counters. *)
Record System := mkSystem {
  store : Store;
  next_visitor_id : Z;
  Roles : list Role.row;
  Users : list User.row;
  next_user_id : Z;
  FamilyDetails : list PrisonerFamilyDetail.row;
  next_family_id : Z;
  BodyMarks : list PrisonerBodyMark.row;
  next_mark_id : Z }.

Definition set_store (f : Store -> Store) (w : System) : System :=
  mkSystem (f (store w)) (next_visitor_id w) (Roles w) (Users w)
           (next_user_id w) (FamilyDetails w) (next_family_id w)
           (BodyMarks w) (next_mark_id w).

Definition set_Users (f : list User.row -> list User.row) (w : System)
  : System :=
  mkSystem (store w) (next_visitor_id w) (Roles w) (f (Users w))
           (next_user_id w) (FamilyDetails w) (next_family_id w)
           (BodyMarks w) (next_mark_id w).

Definition set_FamilyDetails
    (f : list PrisonerFamilyDetail.row -> list PrisonerFamilyDetail.row)
    (w : System) : System :=
  mkSystem (store w) (next_visitor_id w) (Roles w) (Users w)
           (next_user_id w) (f (FamilyDetails w)) (next_family_id w)
           (BodyMarks w) (next_mark_id w).

Definition set_BodyMarks
    (f : list PrisonerBodyMark.row -> list PrisonerBodyMark.row)
    (w : System) : System :=
  mkSystem (store w) (next_visitor_id w) (Roles w) (Users w)
           (next_user_id w) (FamilyDetails w) (next_family_id w)
           (f (BodyMarks w)) (next_mark_id w).

Definition set_Visitors (f : list Visitor.row -> list Visitor.row)
    (s : Store) : Store :=
  mkStore (Prisons s) (Prisoners s) (f (Visitors s)) (Visits s)
          (WorkRecords s) (BehaviourRecords s)
          (next_prison_id s) (next_prisoner_id s) (next_visit_id s)
          (next_work_record_id s) (next_behaviour_id s).

(* ================================================================== *)
(** ** Services over the whole database *)
(* ================================================================== *)

Section Process.
Variable W : Type.

(** An async function over a state [W]. *)
Definition Process (A : Type) := W -> Outcome A * W.

Definition pret {A} (a : A) : Process A := fun w => (Ok a, w).

Definition pthrow {A} (e : Error) : Process A := fun w => (Throw e, w).

Definition pbind {A B} (c : Process A) (k : A -> Process B) : Process B :=
  fun w =>
    match c w with
    | (Ok a, w1) => k a w1
    | (Throw e, w1) => (Throw e, w1)
    end.

Definition pquery {A} (f : W -> A) : Process A := fun w => (Ok (f w), w).

Definition pwrite (f : W -> W) : Process unit := fun w => (Ok tt, f w).

Definition pthrowIf (cond : bool) (e : Error) : Process unit :=
  if cond then pthrow e else pret tt.

Definition porThrow {A} (x : option A) (e : Error) : Process A :=
  match x with
  | Some a => pret a
  | None => pthrow e
  end.
End Process.

Arguments pret {W A} a.
Arguments pthrow {W A} e.
Arguments pquery {W A} f.
Arguments pthrowIf {W} cond e.
Arguments porThrow {W A} x e.

Notation "x <~ c ;; k" := (pbind c (fun x => k))
  (at level 61, c at next level, right associativity).
Notation "c ;;~ k" := (pbind c (fun _ => k))
  (at level 61, right associativity).

(** A service of the lifecycle engine, run on the whole database. *)
Definition onStore {A} (c : Service A) : Process System A :=
  fun w => let (o, s') := c (store w) in (o, set_store (fun _ => s') w).

(* ================================================================== *)
(** ** services/visitorService.js *)
(* ================================================================== *)

Definition getVisitorById (visitorId : Z) : Process System Visitor.row :=
  found <~ pquery (fun w =>
    findByPk Visitor.visitor_id (Visitors (store w)) visitorId) ;;
  porThrow found (JsError "Visitor not found").

(** The request body of a visitor, the NIC being the column the service
    looks at. *)
Record VisitorData := mkVisitorData {
  vr_visitor_name : string;
  vr_nic : string }.

Definition createVisitor (visitorData : VisitorData)
  : Process System Visitor.row :=
  existingVisitor <~ pquery (fun w =>
    findOne (fun v => String.eqb (Visitor.nic v) (vr_nic visitorData))
            (Visitors (store w))) ;;
  pthrowIf (isSome existingVisitor)
           (JsError "Visitor with this NIC already exists") ;;~
  newId <~ pquery next_visitor_id ;;
  pwrite (fun w =>
    mkSystem
      (set_Visitors (insertRow (Visitor.mk newId (vr_nic visitorData)))
                    (store w))
      (newId + 1) (Roles w) (Users w) (next_user_id w)
      (FamilyDetails w) (next_family_id w) (BodyMarks w) (next_mark_id w)) ;;~
  getVisitorById newId.

Record VisitorUpdate := mkVisitorUpdate {
  vru_visitor_name : option string;
  vru_nic : option string }.

(** [visitor.update(allowedUpdates)] *)
Definition applyVisitorUpdate (u : VisitorUpdate) (v : Visitor.row)
  : Visitor.row :=
  Visitor.mk (Visitor.visitor_id v) (orElse (vru_nic u) (Visitor.nic v)).

Definition updateVisitor (visitorId : Z) (updateData : VisitorUpdate)
  : Process System Visitor.row :=
  found <~ pquery (fun w =>
    findByPk Visitor.visitor_id (Visitors (store w)) visitorId) ;;
  visitor <~ porThrow found (JsError "Visitor not found") ;;
  (if truthyS (vru_nic updateData)
      && negb (String.eqb (orElse (vru_nic updateData) "") (Visitor.nic visitor))
   then
     existingVisitor <~ pquery (fun w =>
       findOne (fun v => String.eqb (Visitor.nic v)
                                    (orElse (vru_nic updateData) "")
                         && negb (Visitor.visitor_id v =? visitorId))
               (Visitors (store w))) ;;
     pthrowIf (isSome existingVisitor)
              (JsError "Visitor with this NIC already exists")
   else pret tt) ;;~
  pwrite (set_store
            (set_Visitors
               (updateRow Visitor.visitor_id (Visitor.visitor_id visitor)
                          (applyVisitorUpdate updateData)))) ;;~
  getVisitorById visitorId.

Definition deleteVisitor (visitorId : Z) : Process System unit :=
  found <~ pquery (fun w =>
    findByPk Visitor.visitor_id (Visitors (store w)) visitorId) ;;
  visitor <~ porThrow found (JsError "Visitor not found") ;;
  visitCount <~ pquery (fun w =>
    count (fun v => Visit.visitor_id v =? visitorId) (Visits (store w))) ;;
  pthrowIf (0 <? visitCount)
           (JsError "Cannot delete visitor with existing visit records. Consider archiving instead.") ;;~
  pwrite (set_store
            (set_Visitors
               (destroyRow Visitor.visitor_id (Visitor.visitor_id visitor)))).

(* ================================================================== *)
(** ** Visitors: properties *)
(* ================================================================== *)

Ltac unfold_process :=
  unfold pbind, pquery, pthrowIf, porThrow, pwrite, pret, pthrow in *.

Lemma count_zero R (where_ : R -> bool) (t : list R) :
  (0 <? count where_ t) = false ->
  forall r, In r t -> where_ r = false.
Proof.
  unfold count. intros H r Hin. apply Z.ltb_ge in H.
  destruct (where_ r) eqn:E; [|reflexivity].
  assert (Hf : In r (filter where_ t)) by (apply filter_In; auto).
  destruct (filter where_ t); [destruct Hf|]. cbn [List.length] in H. lia.
Qed.

(** What [createVisitor] leaves: the database it found, or that database
    with one more visitor whose NIC nobody had. *)
Lemma createVisitor_system visitorData w o w' :
  createVisitor visitorData w = (o, w') ->
  w' = w \/
  ((forall v, In v (Visitors (store w)) ->
              Visitor.nic v <> vr_nic visitorData) /\
   store w' = set_Visitors
                (insertRow (Visitor.mk (next_visitor_id w) (vr_nic visitorData)))
                (store w) /\
   next_visitor_id w' = next_visitor_id w + 1).
Proof.
  unfold createVisitor, getVisitorById. unfold_process. intros H.
  destruct (findOne (fun v => String.eqb (Visitor.nic v) (vr_nic visitorData))
                    (Visitors (store w))) as [e|] eqn:E;
    cbn [isSome] in H; cbv beta iota zeta in H.
  - inversion H. auto.
  - right. split.
    + intros v Hin. unfold findOne in E. apply (find_none _ _ E) in Hin.
      apply String.eqb_neq in Hin. exact Hin.
    + repeat case_step_in H; inversion H; subst; cbn; auto.
Qed.

Lemma updateVisitor_system visitorId updateData w o w' :
  updateVisitor visitorId updateData w = (o, w') ->
  w' = w \/
  exists visitor,
    findByPk Visitor.visitor_id (Visitors (store w)) visitorId = Some visitor /\
    (truthyS (vru_nic updateData)
     && negb (String.eqb (orElse (vru_nic updateData) "") (Visitor.nic visitor))
     = true ->
     forall v, In v (Visitors (store w)) ->
               Visitor.visitor_id v <> visitorId ->
               Visitor.nic v <> orElse (vru_nic updateData) "") /\
    w' = set_store
           (set_Visitors
              (updateRow Visitor.visitor_id visitorId
                         (applyVisitorUpdate updateData))) w.
Proof.
  unfold updateVisitor, getVisitorById. unfold_process. intros H.
  destruct (findByPk Visitor.visitor_id (Visitors (store w)) visitorId)
    as [visitor|] eqn:Hv; cbv beta iota zeta in H; [|inversion H; auto].
  pose proof (findByPk_Some _ _ _ Hv) as [Hid _]. rewrite Hid in H.
  destruct (truthyS (vru_nic updateData)
            && negb (String.eqb (orElse (vru_nic updateData) "")
                                (Visitor.nic visitor))) eqn:Hgiven;
    cbv beta iota zeta in H.
  - destruct (findOne
                (fun v => String.eqb (Visitor.nic v)
                                     (orElse (vru_nic updateData) "")
                          && negb (Visitor.visitor_id v =? visitorId))
                (Visitors (store w))) as [e|] eqn:E;
      cbn [isSome] in H; cbv beta iota zeta in H; [inversion H; auto|].
    right. exists visitor. split; [reflexivity|]. split.
    + intros _ v Hin Hne. unfold findOne in E.
      apply (find_none _ _ E) in Hin.
      apply andb_false_iff in Hin as [Hin|Hin].
      * apply String.eqb_neq in Hin. exact Hin.
      * apply negb_false_iff, Z.eqb_eq in Hin. contradiction.
    + repeat case_step_in H; inversion H; reflexivity.
  - right. exists visitor. split; [reflexivity|]. split.
    + intros Hg. congruence.
    + repeat case_step_in H; inversion H; reflexivity.
Qed.

Lemma deleteVisitor_system visitorId w o w' :
  deleteVisitor visitorId w = (o, w') ->
  w' = w \/
  ((forall v, In v (Visits (store w)) -> Visit.visitor_id v <> visitorId) /\
   w' = set_store
          (set_Visitors (destroyRow Visitor.visitor_id visitorId)) w).
Proof.
  unfold deleteVisitor. unfold_process. intros H.
  destruct (findByPk Visitor.visitor_id (Visitors (store w)) visitorId)
    as [visitor|] eqn:Hv; cbv beta iota zeta in H; [|inversion H; auto].
  pose proof (findByPk_Some _ _ _ Hv) as [Hid _]. rewrite Hid in H.
  destruct (0 <? count (fun v => Visit.visitor_id v =? visitorId)
                       (Visits (store w))) eqn:Hc;
    cbv beta iota zeta in H; inversion H; [auto|].
  right. split; [|reflexivity].
  intros v Hin. apply (count_zero _ _ Hc) in Hin.
  apply Z.eqb_neq in Hin. exact Hin.
Qed.

(** The visit service leaves the visitors alone. *)
Lemma runVisit_Visitors c s : Visitors (runVisit c s) = Visitors s.
Proof.
  destruct c; cbn [runVisit].
  - destruct (scheduleVisit visitData userId userPrisonId userRole s)
      as [o s'] eqn:E.
    apply scheduleVisit_store in E. cbn [snd].
    destruct E as [[-> _]|(_ & -> & _)]; reflexivity.
  - destruct (updateVisit visitId updateData userPrisonId userRole s)
      as [o s'] eqn:E.
    apply updateVisit_store in E. cbn [snd].
    destruct E as [->|(v & _ & _ & _ & ->)]; reflexivity.
  - destruct (updateVisitStatus visitId status notes userPrisonId userRole s)
      as [o s'] eqn:E.
    apply updateVisitStatus_store in E. cbn [snd].
    destruct E as [->|(v & st & _ & _ & ->)]; reflexivity.
  - destruct (deleteVisit visitId userPrisonId userRole s) as [o s'] eqn:E.
    apply deleteVisit_store in E. cbn [snd].
    destruct E as [->|(v & _ & ->)]; reflexivity.
  - destruct (approveVisit visitId userId userPrisonId userRole s)
      as [o s'] eqn:E.
    apply approveVisit_store in E. cbn [snd].
    destruct E as [[-> _]|(v & _ & _ & ->)]; reflexivity.
Qed.

(** A visit is only scheduled with a visitor who is there. *)
Lemma scheduleVisit_visitor visitData uid ups role s o s' :
  scheduleVisit visitData uid ups role s = (o, s') ->
  s' = s \/
  (isSome (findByPk Visitor.visitor_id (Visitors s) (vd_visitor_id visitData))
   = true /\
   s' = afterSchedule (scheduledRow visitData uid (next_visit_id s)) s).
Proof.
  intros H. pose proof (scheduleVisit_store _ _ _ _ _ H) as Hs.
  destruct Hs as [[-> _]|(_ & -> & _)]; [auto|]. right. split; [|reflexivity].
  destruct (findByPk Visitor.visitor_id (Visitors s) (vd_visitor_id visitData))
    as [visitor|] eqn:Hv; [reflexivity|]. exfalso.
  assert (Hthrow : exists e, scheduleVisit visitData uid ups role s
                             = (Throw e, s)).
  { unfold scheduleVisit.
    destruct (findPrisoner s (vd_prisoner_id visitData)) as [p|] eqn:Hp.
    2:{ eexists. apply transaction_throw with (s1 := s). unfold_service.
        rewrite Hp. reflexivity. }
    destruct (Prisoner.isActive p) eqn:Hact.
    2:{ eexists. apply transaction_throw with (s1 := s). unfold_service.
        rewrite Hp. cbv beta iota. rewrite Hact. reflexivity. }
    destruct (checkPrisonAccess ups (Prisoner.prison_id p) role) eqn:Hacc.
    2:{ eexists. apply transaction_throw with (s1 := s). unfold_service.
        rewrite Hp. cbv beta iota. rewrite Hact. cbn [negb]. cbv beta iota.
        rewrite Hacc. reflexivity. }
    eexists. apply transaction_throw with (s1 := s). unfold_service.
    rewrite Hp. cbv beta iota. rewrite Hact. cbn [negb]. cbv beta iota.
    rewrite Hacc. cbn [negb]. cbv beta iota. rewrite Hv. reflexivity. }
  destruct Hthrow as [e He]. rewrite He in H. inversion H as [[Ho Hs]].
  assert (Hlen : List.length (Visits s)
                 = List.length (Visits (afterSchedule
                     (scheduledRow visitData uid (next_visit_id s)) s)))
    by (rewrite <- Hs; reflexivity).
  cbn [Visits afterSchedule] in Hlen. unfold insertRow in Hlen.
  rewrite length_app in Hlen. cbn in Hlen. lia.
Qed.

(** Every visit names a visitor who is in the table. *)
Definition visits_have_visitors (s : Store) : Prop :=
  forall v, In v (Visits s) ->
            isSome (findByPk Visitor.visitor_id (Visitors s) (Visit.visitor_id v))
            = true.

Lemma In_updateRow_visit_visitor id f (t : list Visit.row) a :
  (forall r, Visit.visitor_id (f r) = Visit.visitor_id r) ->
  In a (updateRow Visit.visit_id id f t) ->
  exists a0, In a0 t /\ Visit.visitor_id a = Visit.visitor_id a0.
Proof.
  intros Hf H. apply In_updateRow in H as [a0 [Hin ->]].
  exists a0. split; [exact Hin|].
  destruct (Visit.visit_id a0 =? id); [apply Hf | reflexivity].
Qed.

Lemma runVisit_visits_have_visitors c s :
  visits_have_visitors s -> visits_have_visitors (runVisit c s).
Proof.
  intros Hinv v Hin. rewrite runVisit_Visitors.
  destruct c; cbn [runVisit] in Hin.
  - destruct (scheduleVisit visitData userId userPrisonId userRole s)
      as [o s'] eqn:E.
    apply scheduleVisit_visitor in E. cbn [snd] in Hin.
    destruct E as [->|(Hvisitor & ->)]; [apply Hinv; exact Hin|].
    cbn [Visits afterSchedule] in Hin. unfold insertRow in Hin.
    apply in_app_or in Hin as [Hin|[<-|[]]]; [apply Hinv; exact Hin|].
    exact Hvisitor.
  - destruct (updateVisit visitId updateData userPrisonId userRole s)
      as [o s'] eqn:E.
    apply updateVisit_store in E. cbn [snd] in Hin.
    destruct E as [->|(v0 & _ & _ & _ & ->)]; [apply Hinv; exact Hin|].
    cbn [Visits set_Visits] in Hin.
    apply In_updateRow_visit_visitor in Hin as [a0 [Ha0 ->]];
      [apply Hinv; exact Ha0 | reflexivity].
  - destruct (updateVisitStatus visitId status notes userPrisonId userRole s)
      as [o s'] eqn:E.
    apply updateVisitStatus_store in E. cbn [snd] in Hin.
    destruct E as [->|(v0 & st & _ & _ & ->)]; [apply Hinv; exact Hin|].
    cbn [Visits set_Visits] in Hin.
    apply In_updateRow_visit_visitor in Hin as [a0 [Ha0 ->]];
      [apply Hinv; exact Ha0 | reflexivity].
  - destruct (deleteVisit visitId userPrisonId userRole s) as [o s'] eqn:E.
    apply deleteVisit_store in E. cbn [snd] in Hin.
    destruct E as [->|(v0 & _ & ->)]; [apply Hinv; exact Hin|].
    cbn [Visits set_Visits] in Hin. unfold destroyRow in Hin.
    apply filter_In in Hin as [Hin _]. apply Hinv; exact Hin.
  - destruct (approveVisit visitId userId userPrisonId userRole s)
      as [o s'] eqn:E.
    apply approveVisit_store in E. cbn [snd] in Hin.
    destruct E as [[-> _]|(v0 & _ & _ & ->)]; [apply Hinv; exact Hin|].
    cbn [Visits set_Visits] in Hin.
    apply In_updateRow_visit_visitor in Hin as [a0 [Ha0 ->]];
      [apply Hinv; exact Ha0 | reflexivity].
Qed.

(** The operations of the visit and visitor services that write. *)
Inductive DeskCommand :=
| OnVisit (c : VisitCommand)
| CreateVisitor (visitorData : VisitorData)
| UpdateVisitor (visitorId : Z) (updateData : VisitorUpdate)
| DeleteVisitor (visitorId : Z).

Definition runDesk (c : DeskCommand) (w : System) : System :=
  match c with
  | OnVisit c => set_store (runVisit c) w
  | CreateVisitor d => snd (createVisitor d w)
  | UpdateVisitor id u => snd (updateVisitor id u w)
  | DeleteVisitor id => snd (deleteVisitor id w)
  end.

Definition runDesks (cmds : list DeskCommand) (w : System) : System :=
  fold_left (fun w c => runDesk c w) cmds w.

Lemma runDesk_visits_have_visitors c w :
  visits_have_visitors (store w) ->
  visits_have_visitors (store (runDesk c w)).
Proof.
  intros Hinv. destruct c; cbn [runDesk].
  - cbn [store set_store]. apply runVisit_visits_have_visitors. exact Hinv.
  - destruct (createVisitor visitorData w) as [o w'] eqn:E.
    apply createVisitor_system in E. cbn [snd].
    destruct E as [->|(_ & Hs & _)]; [exact Hinv|].
    intros v Hin. rewrite Hs in *. cbn [Visits Visitors set_Visitors] in *.
    rewrite findByPk_insertRow. specialize (Hinv v Hin).
    destruct (findByPk Visitor.visitor_id (Visitors (store w))
                       (Visit.visitor_id v)); [reflexivity | discriminate].
  - destruct (updateVisitor visitorId updateData w) as [o w'] eqn:E.
    apply updateVisitor_system in E. cbn [snd].
    destruct E as [->|(visitor & _ & _ & ->)]; [exact Hinv|].
    intros v Hin. cbn [store set_store Visits Visitors set_Visitors] in *.
    specialize (Hinv v Hin).
    destruct (Z.eq_dec (Visit.visitor_id v) visitorId) as [Heq|Hne].
    + rewrite Heq in *. rewrite findByPk_updateRow_same by reflexivity.
      destruct (findByPk Visitor.visitor_id (Visitors (store w)) visitorId);
        [reflexivity | discriminate].
    + rewrite findByPk_updateRow_other by (reflexivity || exact Hne).
      exact Hinv.
  - destruct (deleteVisitor visitorId w) as [o w'] eqn:E.
    apply deleteVisitor_system in E. cbn [snd].
    destruct E as [->|(Hnone & ->)]; [exact Hinv|].
    intros v Hin. cbn [store set_store Visits Visitors set_Visitors] in *.
    rewrite findByPk_destroyRow_other by (apply Hnone; exact Hin).
    apply Hinv. exact Hin.
Qed.

(** X8: visits and visitors stay consistent.  Over any sequence of calls of
    the visit service (schedule, update, status change, delete, approve)
    and of the visitor service (create, update, delete), every visit in the
    database names a visitor who is in the database: a visit is only
    scheduled for a visitor who exists, and [deleteVisitor] refuses a
    visitor who has visit records. *)
Theorem visits_always_have_their_visitor :
  forall (cmds : list DeskCommand) w,
    visits_have_visitors (store w) ->
    forall n, visits_have_visitors (store (runDesks (firstn n cmds) w)).
Proof.
  intros cmds w Hinv n. revert w Hinv.
  induction (firstn n cmds) as [|c l IH]; intros w Hinv; [exact Hinv|].
  unfold runDesks. cbn [fold_left]. apply IH.
  apply runDesk_visits_have_visitors. exact Hinv.
Qed.

(** The database of the visit scenario: visitor 1 with one visit. *)
Definition frontDesk : System :=
  mkSystem visitStore 2 [] [] 1 [] 1 [] 1.

Lemma frontDesk_visits_have_visitors : visits_have_visitors (store frontDesk).
Proof. intros v [<-|[]]. reflexivity. Qed.

(** The visitor cannot be deleted while the visit is there; once the visit
    is deleted the visitor can be, and then no visit can be scheduled with
    that visitor. *)
Definition deskRun : list DeskCommand :=
  [DeleteVisitor 1;
   OnVisit (DeleteVisit 1 (Some 1) VisitorManager);
   DeleteVisitor 1;
   OnVisit (ScheduleVisit (visitB (hhmm 11 0) (hhmm 11 30)) 7 (Some 1)
                          VisitorManager)].

Lemma visits_always_have_their_visitor_witness :
  visits_have_visitors (store (runDesks (firstn 4 deskRun) frontDesk)).
Proof.
  exact (@visits_always_have_their_visitor deskRun frontDesk
           frontDesk_visits_have_visitors 4).
Defined.

Example deskRun_steps :
  deleteVisitor 1 frontDesk
  = (Throw (JsError "Cannot delete visitor with existing visit records. Consider archiving instead."),
     frontDesk) /\
  Visitors (store (runDesks (firstn 2 deskRun) frontDesk))
  = [Visitor.mk 1 "851234567V"] /\
  Visitors (store (runDesks (firstn 3 deskRun) frontDesk)) = [] /\
  Visits (store (runDesks deskRun frontDesk)) = [].
Proof.
  split; [vm_compute; reflexivity|].
  split; [vm_compute; reflexivity|].
  split; vm_compute; reflexivity.
Qed.

(** *** The NIC of a visitor stays unique *)

Definition visitor_keys_ok (w : System) : Prop :=
  keys_ok Visitor.visitor_id (next_visitor_id w) (Visitors (store w)).

Definition visitor_nics_unique (w : System) : Prop :=
  forall a b,
    In a (Visitors (store w)) -> In b (Visitors (store w)) ->
    Visitor.visitor_id a <> Visitor.visitor_id b ->
    Visitor.nic a <> Visitor.nic b.

(** A body as the route's validation lets it through: the NIC, when
    present, is not the empty string. *)
Definition desk_well_formed (c : DeskCommand) : Prop :=
  match c with
  | UpdateVisitor _ u => vru_nic u <> Some ""
  | _ => True
  end.

Lemma In_updateRow_visitor id f (t : list Visitor.row) a :
  In a (updateRow Visitor.visitor_id id f t) ->
  exists a0,
    In a0 t /\ a = (if Visitor.visitor_id a0 =? id then f a0 else a0).
Proof.
  unfold updateRow. intros H. apply in_map_iff in H as [a0 [Heq Hin]].
  exists a0. split; [exact Hin | symmetry; exact Heq].
Qed.

Lemma runDesk_visitor_keys_ok c w :
  visitor_keys_ok w -> visitor_keys_ok (runDesk c w).
Proof.
  intros Hk. unfold visitor_keys_ok in *. destruct c; cbn [runDesk].
  - cbn [store set_store next_visitor_id]. rewrite runVisit_Visitors.
    exact Hk.
  - destruct (createVisitor visitorData w) as [o w'] eqn:E.
    apply createVisitor_system in E. cbn [snd].
    destruct E as [->|(_ & Hs & Hn)]; [exact Hk|].
    rewrite Hs, Hn. cbn [Visitors set_Visitors].
    apply keys_ok_insertRow; [exact Hk | reflexivity].
  - destruct (updateVisitor visitorId updateData w) as [o w'] eqn:E.
    apply updateVisitor_system in E. cbn [snd].
    destruct E as [->|(visitor & _ & _ & ->)]; [exact Hk|].
    cbn [store set_store next_visitor_id Visitors set_Visitors].
    apply keys_ok_updateRow; [reflexivity | exact Hk].
  - destruct (deleteVisitor visitorId w) as [o w'] eqn:E.
    apply deleteVisitor_system in E. cbn [snd].
    destruct E as [->|(_ & ->)]; [exact Hk|].
    cbn [store set_store next_visitor_id Visitors set_Visitors].
    apply keys_ok_destroyRow. exact Hk.
Qed.

Lemma runDesk_visitor_nics_unique c w :
  desk_well_formed c ->
  visitor_keys_ok w ->
  visitor_nics_unique w ->
  visitor_nics_unique (runDesk c w).
Proof.
  intros Hwf Hk Hu. destruct c; cbn [runDesk].
  - intros a b. cbn [store set_store]. rewrite runVisit_Visitors. apply Hu.
  - destruct (createVisitor visitorData w) as [o w'] eqn:E.
    apply createVisitor_system in E. cbn [snd].
    destruct E as [->|(Hfresh & Hs & _)]; [exact Hu|].
    intros a b. rewrite Hs. cbn [Visitors set_Visitors]. unfold insertRow.
    intros Ha Hb Hne. apply in_app_or in Ha. apply in_app_or in Hb.
    destruct Ha as [Ha|[<-|[]]]; destruct Hb as [Hb|[<-|[]]].
    + apply Hu; assumption.
    + cbn [Visitor.nic]. apply Hfresh. exact Ha.
    + cbn [Visitor.nic]. intros Heq. apply (Hfresh b Hb). symmetry. exact Heq.
    + exfalso. apply Hne. reflexivity.
  - destruct (updateVisitor visitorId updateData w) as [o w'] eqn:E.
    apply updateVisitor_system in E. cbn [snd].
    destruct E as [->|(visitor & Hv & Hnic & ->)]; [exact Hu|].
    cbn [desk_well_formed] in Hwf.
    pose proof (findByPk_Some _ _ _ Hv) as [Hvid Hvin].
    assert (Hsame : forall x,
              In x (Visitors (store w)) -> Visitor.visitor_id x = visitorId ->
              x = visitor).
    { intros x Hin Hid. destruct Hk as [Hnd _].
      pose proof (findByPk_In_NoDup Visitor.visitor_id _ x Hnd Hin) as Hx.
      rewrite Hid, Hv in Hx. inversion Hx. reflexivity. }
    assert (Hother : forall q,
              In q (Visitors (store w)) -> Visitor.visitor_id q <> visitorId ->
              Visitor.nic (applyVisitorUpdate updateData visitor)
              <> Visitor.nic q).
    { intros q Hq Hne.
      assert (Hvq : Visitor.visitor_id visitor <> Visitor.visitor_id q)
        by (rewrite Hvid; auto).
      pose proof (Hu visitor q Hvin Hq Hvq) as Hn.
      cbn [applyVisitorUpdate Visitor.nic].
      destruct (vru_nic updateData) as [n|] eqn:En; cbn [orElse] in *;
        [|exact Hn].
      destruct (String.eqb_spec n (Visitor.nic visitor)) as [->|Hdiff];
        [exact Hn|].
      assert (Hne' : n <> "") by congruence.
      apply String.eqb_neq in Hne'.
      cbn [truthyS] in Hnic. rewrite Hne' in Hnic. cbn [negb andb] in Hnic.
      intros Heq. apply (Hnic eq_refl q Hq Hne). symmetry. exact Heq. }
    intros a b Ha Hb Hne.
    cbn [store set_store Visitors set_Visitors] in Ha, Hb.
    apply In_updateRow_visitor in Ha as [a0 [Ha0 ->]].
    apply In_updateRow_visitor in Hb as [b0 [Hb0 ->]].
    destruct (Visitor.visitor_id a0 =? visitorId) eqn:Ea;
      destruct (Visitor.visitor_id b0 =? visitorId) eqn:Eb.
    + exfalso. apply Hne. apply Z.eqb_eq in Ea, Eb.
      cbn [applyVisitorUpdate Visitor.visitor_id]. congruence.
    + apply Z.eqb_eq in Ea. apply Z.eqb_neq in Eb.
      rewrite (Hsame a0 Ha0 Ea). apply Hother; assumption.
    + apply Z.eqb_neq in Ea. apply Z.eqb_eq in Eb.
      rewrite (Hsame b0 Hb0 Eb). intros Heq.
      apply (Hother a0 Ha0 Ea). symmetry. exact Heq.
    + apply Hu; assumption.
  - destruct (deleteVisitor visitorId w) as [o w'] eqn:E.
    apply deleteVisitor_system in E. cbn [snd].
    destruct E as [->|(_ & ->)]; [exact Hu|].
    intros a b. cbn [store set_store Visitors set_Visitors]. unfold destroyRow.
    intros Ha Hb. apply filter_In in Ha as [Ha _].
    apply filter_In in Hb as [Hb _]. apply Hu; assumption.
Qed.

(** X9: the visitor service keeps the NIC of a visitor unique by its own
    checks: over any sequence of visitor creations, updates and deletions
    and of visit operations, with update bodies whose NIC is not empty when
    present, no two visitors ever share a NIC. *)
Theorem visitor_nics_stay_unique :
  forall (cmds : list DeskCommand) w,
    Forall desk_well_formed cmds ->
    visitor_keys_ok w ->
    visitor_nics_unique w ->
    forall n, visitor_nics_unique (runDesks (firstn n cmds) w).
Proof.
  intros cmds w Hwf Hk Hu n.
  assert (Hwf' : Forall desk_well_formed (firstn n cmds)).
  { rewrite Forall_forall in *. intros c Hc. apply Hwf.
    rewrite <- (firstn_skipn n cmds). apply in_or_app. left. exact Hc. }
  clear Hwf. revert w Hk Hu.
  induction (firstn n cmds) as [|c l IH]; intros w Hk Hu; [exact Hu|].
  inversion Hwf' as [|? ? Hc Hl]; subst.
  unfold runDesks. cbn [fold_left]. apply IH; [exact Hl | |].
  - apply runDesk_visitor_keys_ok; exact Hk.
  - apply runDesk_visitor_nics_unique; assumption.
Qed.

Definition nicRun : list DeskCommand :=
  [CreateVisitor (mkVisitorData "Nimal" "851234567V");
   CreateVisitor (mkVisitorData "Kamal" "861234567V");
   UpdateVisitor 2 (mkVisitorUpdate None (Some "851234567V"));
   UpdateVisitor 2 (mkVisitorUpdate (Some "Kamal P.") (Some "871234567V"))].

Lemma frontDesk_keys_ok : visitor_keys_ok frontDesk.
Proof.
  split.
  - cbn. repeat constructor; cbn; intuition lia.
  - cbn. repeat constructor; cbn; lia.
Qed.

Lemma frontDesk_nics_unique : visitor_nics_unique frontDesk.
Proof.
  intros a b [<-|[]] [<-|[]] Hne. exfalso. apply Hne. reflexivity.
Qed.

Lemma nicRun_well_formed : Forall desk_well_formed nicRun.
Proof. repeat constructor; cbn; discriminate. Qed.

Lemma visitor_nics_stay_unique_witness :
  visitor_nics_unique (runDesks (firstn 4 nicRun) frontDesk).
Proof.
  exact (@visitor_nics_stay_unique nicRun frontDesk nicRun_well_formed
           frontDesk_keys_ok frontDesk_nics_unique 4).
Defined.

Example nicRun_visitors :
  Visitors (store (runDesks nicRun frontDesk))
  = [Visitor.mk 1 "851234567V"; Visitor.mk 2 "871234567V"].
Proof. vm_compute. reflexivity. Qed.

(* ================================================================== *)
(** ** models/User.js: the password hooks *)
(* ================================================================== *)

Definition withPassword (h : Secret) (u : User.row) : User.row :=
  User.mk (User.user_id u) (User.nic u) (User.email u) (User.username u)
          h (User.role_id u) (User.prison_id u) (User.is_active u).

(** [beforeCreate]: a truthy [password_hash] is replaced by its digest. *)
Definition beforeCreate (salt : Z) (user : User.row) : User.row :=
  if truthySecret (User.password_hash user)
  then withPassword (bcrypt_hash salt (User.password_hash user)) user
  else user.

(** [beforeUpdate]: a [password_hash] that changed is replaced by its
    digest. *)
Definition beforeUpdate (salt : Z) (previous user : User.row) : User.row :=
  if negb (Secret_eqb (User.password_hash user) (User.password_hash previous))
  then withPassword (bcrypt_hash salt (User.password_hash user)) user
  else user.

(* ================================================================== *)
(** ** services/userService.js *)
(* ================================================================== *)

Definition SUPER_ADMIN : string := "Super Admin".
Definition PRISON_ADMIN : string := "Prison Admin".

(** [role_name === SUPER_ADMIN || role_name === PRISON_ADMIN] *)
Definition isAdminRole (roleName : string) : bool :=
  String.eqb roleName SUPER_ADMIN || String.eqb roleName PRISON_ADMIN.

(** [a !== b] on a prison id that may be [null]. *)
Definition samePrison (a b : option Z) : bool :=
  match a, b with
  | Some x, Some y => x =? y
  | None, None => true
  | _, _ => false
  end.

(** [user.role.role_name] *)
Definition user_role_name (user : User.row) : Process System string :=
  role <~ pquery (fun w => findByPk Role.role_id (Roles w) (User.role_id user)) ;;
  match role with
  | Some r => pret (Role.role_name r)
  | None => pthrow TypeError
  end.

Definition getUserById (userId : Z) : Process System User.row :=
  found <~ pquery (fun w => findByPk User.user_id (Users w) userId) ;;
  user <~ porThrow found (JsError "User not found") ;;
  user_role_name user ;;~
  pret user.

Record UserData := mkUserData {
  ud_nic : string;
  ud_email : string;
  ud_username : string;
  ud_password : Secret;
  ud_role_id : Z;
  ud_prison_id : option Z;
  ud_is_active : option bool }.

(** What [createUser] hands to [db.User.create]. *)
Definition newUser (userData : UserData) (newId : Z) : User.row :=
  User.mk newId (ud_nic userData) (ud_email userData) (ud_username userData)
          (ud_password userData) (ud_role_id userData)
          (if truthyZ (ud_prison_id userData) then ud_prison_id userData
           else None)
          (orElse (ud_is_active userData) true).

Definition set_next_user_id (n : Z) (w : System) : System :=
  mkSystem (store w) (next_visitor_id w) (Roles w) (Users w) n
           (FamilyDetails w) (next_family_id w) (BodyMarks w) (next_mark_id w).

(** [createUser], as the service is written: its own checks, then
    [db.User.create] and [getUserById].  The foreign keys of the table
    ([role_id], [prison_id]) are outside the embedding: for a role that
    does not exist the row is written here and [getUserById] then fails on
    the missing role, where the database would refuse the INSERT. *)
Definition createUser (userData : UserData) (creatorRole : string)
    (creatorPrisonId : option Z) (salt : Z) : Process System User.row :=
  (if negb (String.eqb creatorRole SUPER_ADMIN)
   then
     pthrowIf (negb (truthyZ (ud_prison_id userData))
               || negb (samePrison (ud_prison_id userData) creatorPrisonId))
              (JsError "You can only create users for your assigned prison") ;;~
     found <~ pquery (fun w =>
       findByPk Role.role_id (Roles w) (ud_role_id userData)) ;;
     targetRole <~ porThrow found (JsError "Invalid role") ;;
     pthrowIf (isAdminRole (Role.role_name targetRole))
              (JsError "You do not have permission to create this role")
   else pret tt) ;;~
  existingUser <~ pquery (fun w =>
    findOne (fun u => String.eqb (User.username u) (ud_username userData)
                      || String.eqb (User.email u) (ud_email userData)
                      || String.eqb (User.nic u) (ud_nic userData))
            (Users w)) ;;
  match existingUser with
  | Some e =>
      pthrowIf (String.eqb (User.username e) (ud_username userData))
               (JsError "Username already exists") ;;~
      pthrowIf (String.eqb (User.email e) (ud_email userData))
               (JsError "Email already exists") ;;~
      pthrowIf (String.eqb (User.nic e) (ud_nic userData))
               (JsError "NIC already exists")
  | None => pret tt
  end ;;~
  newId <~ pquery (@next_user_id) ;;
  pwrite (fun w =>
    set_next_user_id (newId + 1)
      (set_Users (insertRow (beforeCreate salt (newUser userData newId))) w)) ;;~
  getUserById newId.

(** The request body of an update, handed to [user.update] as it is. *)
Record UserUpdate := mkUserUpdate {
  uu_nic : option string;
  uu_email : option string;
  uu_username : option string;
  uu_password_hash : option Secret;
  uu_role_id : option Z;
  uu_prison_id : option (option Z);
  uu_is_active : option bool }.

(** [user.update(updateData)], before the hook. *)
Definition applyUserUpdate (u : UserUpdate) (user : User.row) : User.row :=
  User.mk (User.user_id user)
          (orElse (uu_nic u) (User.nic user))
          (orElse (uu_email u) (User.email user))
          (orElse (uu_username u) (User.username user))
          (orElse (uu_password_hash u) (User.password_hash user))
          (orElse (uu_role_id u) (User.role_id user))
          (orElse (uu_prison_id u) (User.prison_id user))
          (orElse (uu_is_active u) (User.is_active user)).

(** [instance.update(values)] on a user: the values, then the hook. *)
Definition updateUserRow (salt : Z) (change : User.row -> User.row)
    (user : User.row) : User.row :=
  beforeUpdate salt user (change user).

(** One alternative of the duplicate query per key present in the body. *)
Definition duplicateWhere (userId : Z) (u : UserUpdate) (other : User.row)
  : bool :=
  negb (User.user_id other =? userId)
  && ((truthyS (uu_username u)
       && String.eqb (User.username other) (orElse (uu_username u) ""))
      || (truthyS (uu_email u)
          && String.eqb (User.email other) (orElse (uu_email u) ""))
      || (truthyS (uu_nic u)
          && String.eqb (User.nic other) (orElse (uu_nic u) ""))).

Definition updateUser (userId : Z) (updateData : UserUpdate)
    (updaterRole : string) (updaterPrisonId : option Z) (salt : Z)
  : Process System User.row :=
  found <~ pquery (fun w => findByPk User.user_id (Users w) userId) ;;
  user <~ porThrow found (JsError "User not found") ;;
  (if negb (String.eqb updaterRole SUPER_ADMIN)
   then
     pthrowIf (negb (samePrison (User.prison_id user) updaterPrisonId))
              (JsError "You can only update users in your assigned prison") ;;~
     roleName <~ user_role_name user ;;
     pthrowIf (isAdminRole roleName)
              (JsError "You do not have permission to update this user") ;;~
     (if truthyZ (uu_role_id updateData)
      then
        targetRole <~ pquery (fun w =>
          findByPk Role.role_id (Roles w) (orElse (uu_role_id updateData) 0)) ;;
        pthrowIf (match targetRole with
                  | Some r => isAdminRole (Role.role_name r)
                  | None => false
                  end)
                 (JsError "You do not have permission to assign this role")
      else pret tt)
   else pret tt) ;;~
  (if truthyS (uu_username updateData) || truthyS (uu_email updateData)
      || truthyS (uu_nic updateData)
   then
     existingUser <~ pquery (fun w =>
       findOne (duplicateWhere userId updateData) (Users w)) ;;
     match existingUser with
     | Some e =>
         pthrowIf (truthyS (uu_username updateData)
                   && String.eqb (User.username e)
                                 (orElse (uu_username updateData) ""))
                  (JsError "Username already exists") ;;~
         pthrowIf (truthyS (uu_email updateData)
                   && String.eqb (User.email e)
                                 (orElse (uu_email updateData) ""))
                  (JsError "Email already exists") ;;~
         pthrowIf (truthyS (uu_nic updateData)
                   && String.eqb (User.nic e) (orElse (uu_nic updateData) ""))
                  (JsError "NIC already exists")
     | None => pret tt
     end
   else pret tt) ;;~
  pwrite (set_Users
            (updateRow User.user_id (User.user_id user)
                       (updateUserRow salt (applyUserUpdate updateData)))) ;;~
  getUserById userId.

(** [user.update({ is_active: false })] *)
Definition deactivated (user : User.row) : User.row :=
  User.mk (User.user_id user) (User.nic user) (User.email user)
          (User.username user) (User.password_hash user) (User.role_id user)
          (User.prison_id user) false.

(** The hook runs on this update too and leaves the row as it is:
    [password_hash] has not changed. *)
Definition deleteUser (userId : Z) (deleterRole : string)
    (deleterPrisonId : option Z) : Process System unit :=
  found <~ pquery (fun w => findByPk User.user_id (Users w) userId) ;;
  user <~ porThrow found (JsError "User not found") ;;
  (if negb (String.eqb deleterRole SUPER_ADMIN)
   then
     pthrowIf (negb (samePrison (User.prison_id user) deleterPrisonId))
              (JsError "You can only delete users in your assigned prison") ;;~
     roleName <~ user_role_name user ;;
     pthrowIf (isAdminRole roleName)
              (JsError "You do not have permission to delete this user")
   else pret tt) ;;~
  pwrite (set_Users (updateRow User.user_id (User.user_id user) deactivated)).

Definition resetUserPassword (userId : Z) (newPassword : Secret)
    (resetterRole : string) (resetterPrisonId : option Z) (salt : Z)
  : Process System unit :=
  found <~ pquery (fun w => findByPk User.user_id (Users w) userId) ;;
  user <~ porThrow found (JsError "User not found") ;;
  (if negb (String.eqb resetterRole SUPER_ADMIN)
   then
     pthrowIf (negb (samePrison (User.prison_id user) resetterPrisonId))
              (JsError "You can only reset passwords for users in your assigned prison") ;;~
     roleName <~ user_role_name user ;;
     pthrowIf (isAdminRole roleName)
              (JsError "You do not have permission to reset this user's password")
   else pret tt) ;;~
  pwrite (set_Users
            (updateRow User.user_id (User.user_id user)
                       (updateUserRow salt (withPassword newPassword)))).

(* ================================================================== *)
(** ** services/authService.js *)
(* ================================================================== *)

(** [{ username: username } OR { email: username }] *)
Definition loginWhere (username : string) (u : User.row) : bool :=
  String.eqb (User.username u) username || String.eqb (User.email u) username.

(** [login]; the tokens it returns are signed over the user's id, which is
    what is returned here. *)
Definition login (username : string) (password : Secret)
  : Process System Z :=
  found <~ pquery (fun w => findOne (loginWhere username) (Users w)) ;;
  user <~ porThrow found (JsError "Invalid credentials") ;;
  pthrowIf (negb (User.is_active user)) (JsError "Account is deactivated") ;;~
  pthrowIf (negb (bcrypt_compare password (User.password_hash user)))
           (JsError "Invalid credentials") ;;~
  user_role_name user ;;~
  pret (User.user_id user).

(** [changePassword]: [hashSalt] is the salt of the service's own
    [bcrypt.hash], [hookSalt] the one the model hook draws. *)
Definition changePassword (userId : Z) (currentPassword newPassword : Secret)
    (hashSalt hookSalt : Z) : Process System unit :=
  found <~ pquery (fun w => findByPk User.user_id (Users w) userId) ;;
  user <~ porThrow found (JsError "User not found") ;;
  pthrowIf (negb (bcrypt_compare currentPassword (User.password_hash user)))
           (JsError "Current password is incorrect") ;;~
  let hashedPassword := bcrypt_hash hashSalt newPassword in
  pwrite (set_Users
            (updateRow User.user_id (User.user_id user)
                       (updateUserRow hookSalt (withPassword hashedPassword)))).

(* ================================================================== *)
(** ** Accounts: what the services leave *)
(* ================================================================== *)

Definition findUser (w : System) (id : Z) : option User.row :=
  findByPk User.user_id (Users w) id.

Definition roleOf (w : System) (u : User.row) : option Role.row :=
  findByPk Role.role_id (Roles w) (User.role_id u).

(** The account holds the role 'Super Admin' or 'Prison Admin'. *)
Definition isAdminUser (w : System) (u : User.row) : bool :=
  match roleOf w u with
  | Some r => isAdminRole (Role.role_name r)
  | None => false
  end.

(** What the services check of a caller who is not a Super Admin before
    they touch an account. *)
Definition staffMayTouch (w : System) (role : string) (prison : option Z)
    (user : User.row) : Prop :=
  String.eqb role SUPER_ADMIN = false ->
  samePrison (User.prison_id user) prison = true /\
  isSome (roleOf w user) = true /\
  isAdminUser w user = false.

Lemma user_role_name_run w user :
  user_role_name user w
  = (match roleOf w user with
     | Some r => Ok (Role.role_name r)
     | None => Throw TypeError
     end, w).
Proof.
  unfold user_role_name, roleOf. unfold_process.
  destruct (findByPk Role.role_id (Roles w) (User.role_id user));
    reflexivity.
Qed.

(** The check the three services on an existing account share. *)
Lemma staff_check_run (A : Type) w role prison user (e1 e2 : Error)
    (k : Process System A) o w' :
  (((if negb (String.eqb role SUPER_ADMIN)
     then
       pthrowIf (negb (samePrison (User.prison_id user) prison)) e1 ;;~
       roleName <~ user_role_name user ;;
       pthrowIf (isAdminRole roleName) e2
     else pret tt) ;;~ k) w) = (o, w') ->
  ((exists e, o = Throw e) /\ w' = w) \/ (staffMayTouch w role prison user /\ k w = (o, w')).
Proof.
  unfold staffMayTouch. unfold pbind at 1.
  destruct (String.eqb role SUPER_ADMIN) eqn:Er; cbn [negb].
  - unfold pret. intros H. right. split; [discriminate | exact H].
  - unfold pbind, pthrowIf.
    destruct (samePrison (User.prison_id user) prison) eqn:Ep; cbn [negb].
    + unfold pret at 1. rewrite user_role_name_run. unfold isAdminUser.
      destruct (roleOf w user) as [r|] eqn:Hr.
      * destruct (isAdminRole (Role.role_name r)) eqn:Ea.
        -- unfold pthrow. intros H. inversion H. eauto.
        -- unfold pret. intros H. right. split; [|exact H].
           intros _. cbn [isSome]. auto.
      * intros H. inversion H. eauto.
    + unfold pthrow. intros H. inversion H. eauto.
Qed.

Lemma found_then (W A B : Type) (f : W -> option A) (e : Error)
    (k : A -> Process W B) (w : W) :
  (x <~ pquery f ;; y <~ porThrow x e ;; k y) w
  = match f w with
    | Some a => k a w
    | None => (Throw e, w)
    end.
Proof. unfold_process. destruct (f w); reflexivity. Qed.

Lemma deleteUser_system userId role prison w o w' :
  deleteUser userId role prison w = (o, w') ->
  ((exists e, o = Throw e) /\ w' = w) \/
  exists user,
    findUser w userId = Some user /\
    staffMayTouch w role prison user /\
    o = Ok tt /\
    w' = set_Users (updateRow User.user_id userId deactivated) w.
Proof.
  unfold deleteUser. rewrite found_then. fold (findUser w userId).
  destruct (findUser w userId) as [user|] eqn:Hu;
    [|intros H; inversion H; eauto].
  intros H. apply staff_check_run in H as [Hthrow|[Hs H]]; [auto|].
  right. exists user. unfold findUser in Hu.
  pose proof (findByPk_Some _ _ _ Hu) as [Hid _]. rewrite Hid in H.
  unfold pwrite in H. inversion H. auto.
Qed.

Lemma resetUserPassword_system userId newPassword role prison salt w o w' :
  resetUserPassword userId newPassword role prison salt w = (o, w') ->
  ((exists e, o = Throw e) /\ w' = w) \/
  exists user,
    findUser w userId = Some user /\
    staffMayTouch w role prison user /\
    o = Ok tt /\
    w' = set_Users
           (updateRow User.user_id userId
                      (updateUserRow salt (withPassword newPassword))) w.
Proof.
  unfold resetUserPassword. rewrite found_then. fold (findUser w userId).
  destruct (findUser w userId) as [user|] eqn:Hu;
    [|intros H; inversion H; eauto].
  intros H. apply staff_check_run in H as [Hthrow|[Hs H]]; [auto|].
  right. exists user. unfold findUser in Hu.
  pose proof (findByPk_Some _ _ _ Hu) as [Hid _]. rewrite Hid in H.
  unfold pwrite in H. inversion H. auto.
Qed.

Lemma changePassword_system userId currentPassword newPassword hashSalt
    hookSalt w o w' :
  changePassword userId currentPassword newPassword hashSalt hookSalt w
  = (o, w') ->
  ((exists e, o = Throw e) /\ w' = w) \/
  exists user,
    findUser w userId = Some user /\
    bcrypt_compare currentPassword (User.password_hash user) = true /\
    o = Ok tt /\
    w' = set_Users
           (updateRow User.user_id userId
              (updateUserRow hookSalt
                 (withPassword (bcrypt_hash hashSalt newPassword)))) w.
Proof.
  unfold changePassword. rewrite found_then. fold (findUser w userId).
  destruct (findUser w userId) as [user|] eqn:Hu;
    [|intros H; inversion H; eauto].
  unfold_process.
  destruct (bcrypt_compare currentPassword (User.password_hash user)) eqn:Ec;
    cbn [negb]; intros H; inversion H; [|eauto].
  right. exists user. unfold findUser in Hu.
  pose proof (findByPk_Some _ _ _ Hu) as [Hid _]. rewrite Hid. auto.
Qed.

(** What the duplicate check of [updateUser] has established when it lets
    the call through. *)
Definition noDuplicateOf (w : System) (userId : Z) (u : UserUpdate) : Prop :=
  forall q, In q (Users w) -> User.user_id q <> userId ->
    (truthyS (uu_username u) = true ->
     User.username q <> orElse (uu_username u) "") /\
    (truthyS (uu_email u) = true ->
     User.email q <> orElse (uu_email u) "") /\
    (truthyS (uu_nic u) = true -> User.nic q <> orElse (uu_nic u) "").

Lemma duplicate_check_run (A : Type) w userId u (k : Process System A) o w' :
  (((if truthyS (uu_username u) || truthyS (uu_email u) || truthyS (uu_nic u)
     then
       existingUser <~ pquery (fun w =>
         findOne (duplicateWhere userId u) (Users w)) ;;
       match existingUser with
       | Some e =>
           pthrowIf (truthyS (uu_username u)
                     && String.eqb (User.username e)
                                   (orElse (uu_username u) ""))
                    (JsError "Username already exists") ;;~
           pthrowIf (truthyS (uu_email u)
                     && String.eqb (User.email e) (orElse (uu_email u) ""))
                    (JsError "Email already exists") ;;~
           pthrowIf (truthyS (uu_nic u)
                     && String.eqb (User.nic e) (orElse (uu_nic u) ""))
                    (JsError "NIC already exists")
       | None => pret tt
       end
     else pret tt) ;;~ k) w) = (o, w') ->
  ((exists e, o = Throw e) /\ w' = w) \/ (noDuplicateOf w userId u /\ k w = (o, w')).
Proof.
  unfold pbind at 1.
  destruct (truthyS (uu_username u) || truthyS (uu_email u)
            || truthyS (uu_nic u)) eqn:Eany.
  - unfold pbind at 1. unfold pquery.
    destruct (findOne (duplicateWhere userId u) (Users w)) as [e|] eqn:Ef.
    + unfold findOne in Ef. apply find_some in Ef as [_ Hw].
      unfold duplicateWhere in Hw.
      apply andb_true_iff in Hw as [_ Hw].
      unfold pbind, pthrowIf.
      destruct (truthyS (uu_username u)
                && String.eqb (User.username e) (orElse (uu_username u) ""));
        [unfold pthrow; intros H; inversion H; eauto|].
      destruct (truthyS (uu_email u)
                && String.eqb (User.email e) (orElse (uu_email u) ""));
        [unfold pthrow; intros H; inversion H; eauto|].
      destruct (truthyS (uu_nic u)
                && String.eqb (User.nic e) (orElse (uu_nic u) ""));
        [unfold pthrow; intros H; inversion H; eauto|].
      discriminate Hw.
    + unfold pret. intros H. right. split; [|exact H].
      intros q Hq Hne. unfold findOne in Ef.
      pose proof (find_none _ _ Ef q Hq) as Hw. unfold duplicateWhere in Hw.
      apply Z.eqb_neq in Hne. rewrite Hne in Hw. cbn [negb andb] in Hw.
      apply orb_false_iff in Hw as [Hw Hn].
      apply orb_false_iff in Hw as [Hu He].
      repeat split; intros Ht; [rewrite Ht in Hu | rewrite Ht in He
                               | rewrite Ht in Hn];
        cbn [andb] in *; apply String.eqb_neq; assumption.
  - unfold pret. intros H. right. split; [|exact H].
    apply orb_false_iff in Eany as [Eany En].
    apply orb_false_iff in Eany as [Eu Ee].
    intros q _ _. rewrite Eu, Ee, En. repeat split; discriminate.
Qed.

Lemma getUserById_state userId w : snd (getUserById userId w) = w.
Proof.
  unfold getUserById. rewrite found_then.
  destruct (findByPk User.user_id (Users w) userId) as [u|]; [|reflexivity].
  unfold pbind. rewrite user_role_name_run.
  destruct (roleOf w u); reflexivity.
Qed.

(** What [updateUser] checks of the role a caller who is not a Super Admin
    assigns. *)
Definition staffMayAssign (w : System) (role : string) (u : UserUpdate)
  : Prop :=
  String.eqb role SUPER_ADMIN = false ->
  truthyZ (uu_role_id u) = true ->
  match findByPk Role.role_id (Roles w) (orElse (uu_role_id u) 0) with
  | Some r => isAdminRole (Role.role_name r) = false
  | None => True
  end.

Lemma updateUser_system userId updateData role prison salt w o w' :
  updateUser userId updateData role prison salt w = (o, w') ->
  ((exists e, o = Throw e) /\ w' = w) \/
  exists user,
    findUser w userId = Some user /\
    staffMayTouch w role prison user /\
    staffMayAssign w role updateData /\
    noDuplicateOf w userId updateData /\
    w' = set_Users
           (updateRow User.user_id userId
                      (updateUserRow salt (applyUserUpdate updateData))) w /\
    o = fst (getUserById userId w').
Proof.
  unfold updateUser. rewrite found_then. fold (findUser w userId).
  destruct (findUser w userId) as [user|] eqn:Hu;
    [|intros H; inversion H; eauto].
  unfold findUser in Hu. pose proof (findByPk_Some _ _ _ Hu) as [Hid _].
  rewrite Hid.
  assert (Hcheck : forall (k : Process System User.row),
    (((if negb (String.eqb role SUPER_ADMIN)
       then
         pthrowIf (negb (samePrison (User.prison_id user) prison))
           (JsError "You can only update users in your assigned prison") ;;~
         roleName <~ user_role_name user ;;
         pthrowIf (isAdminRole roleName)
           (JsError "You do not have permission to update this user") ;;~
         (if truthyZ (uu_role_id updateData)
          then
            targetRole <~ pquery (fun w =>
              findByPk Role.role_id (Roles w)
                       (orElse (uu_role_id updateData) 0)) ;;
            pthrowIf (match targetRole with
                      | Some r => isAdminRole (Role.role_name r)
                      | None => false
                      end)
              (JsError "You do not have permission to assign this role")
          else pret tt)
       else pret tt) ;;~ k) w) = (o, w') ->
    ((exists e, o = Throw e) /\ w' = w) \/ (staffMayTouch w role prison user
               /\ staffMayAssign w role updateData /\ k w = (o, w'))).
  { intros k. unfold staffMayTouch, staffMayAssign. unfold pbind at 1.
    destruct (String.eqb role SUPER_ADMIN) eqn:Er; cbn [negb].
    - unfold pret. intros H. right. repeat split; try discriminate. exact H.
    - unfold pbind, pthrowIf.
      destruct (samePrison (User.prison_id user) prison) eqn:Ep; cbn [negb];
        [|unfold pthrow; intros H; inversion H; eauto].
      unfold pret at 1. rewrite user_role_name_run. unfold isAdminUser.
      destruct (roleOf w user) as [r|] eqn:Hr;
        [|intros H; inversion H; eauto].
      destruct (isAdminRole (Role.role_name r)) eqn:Ea;
        [unfold pthrow; intros H; inversion H; eauto|].
      unfold pret at 1.
      destruct (truthyZ (uu_role_id updateData)) eqn:Et.
      + unfold pquery.
        destruct (findByPk Role.role_id (Roles w)
                           (orElse (uu_role_id updateData) 0)) as [t|] eqn:Ht.
        * destruct (isAdminRole (Role.role_name t)) eqn:Eta;
            [unfold pthrow; intros H; inversion H; eauto|].
          unfold pret. intros H. right. cbn [isSome]. auto.
        * unfold pret. intros H. right. cbn [isSome]. auto.
      + unfold pret. intros H. right. cbn [isSome].
        repeat split; auto; discriminate. }
  intros H. apply Hcheck in H as [Hthrow|(Hs & Ha & H)]; [auto|].
  apply duplicate_check_run in H as [Hthrow|(Hd & H)]; [auto|].
  right. exists user. unfold pbind at 1 in H. unfold pwrite in H.
  pose proof (getUserById_state userId
    (set_Users (updateRow User.user_id userId
                  (updateUserRow salt (applyUserUpdate updateData))) w)) as Hst.
  destruct (getUserById userId _) as [o1 w1] eqn:Eg in H.
  rewrite Eg in Hst. cbn [snd] in Hst. inversion H; subst.
  rewrite Eg. cbn [fst]. auto 10.
Qed.

(** What the checks of [createUser] have established of the caller. *)
Definition staffMayCreate (w : System) (role : string) (prison : option Z)
    (d : UserData) : Prop :=
  String.eqb role SUPER_ADMIN = false ->
  truthyZ (ud_prison_id d) = true /\
  samePrison (ud_prison_id d) prison = true /\
  exists r, findByPk Role.role_id (Roles w) (ud_role_id d) = Some r /\
            isAdminRole (Role.role_name r) = false.

Lemma createUser_system userData role prison salt w o w' :
  createUser userData role prison salt w = (o, w') ->
  ((exists e, o = Throw e) /\ w' = w) \/
  (staffMayCreate w role prison userData /\
   (forall e, In e (Users w) ->
      User.username e <> ud_username userData /\
      User.email e <> ud_email userData /\
      User.nic e <> ud_nic userData) /\
   w' = set_next_user_id (next_user_id w + 1)
          (set_Users (insertRow (beforeCreate salt
                                   (newUser userData (next_user_id w)))) w) /\
   o = fst (getUserById (next_user_id w) w')).
Proof.
  unfold createUser.
  assert (Hcheck : forall (k : Process System User.row),
    (((if negb (String.eqb role SUPER_ADMIN)
       then
         pthrowIf (negb (truthyZ (ud_prison_id userData))
                   || negb (samePrison (ud_prison_id userData) prison))
           (JsError "You can only create users for your assigned prison") ;;~
         found <~ pquery (fun w =>
           findByPk Role.role_id (Roles w) (ud_role_id userData)) ;;
         targetRole <~ porThrow found (JsError "Invalid role") ;;
         pthrowIf (isAdminRole (Role.role_name targetRole))
           (JsError "You do not have permission to create this role")
       else pret tt) ;;~ k) w) = (o, w') ->
    ((exists e, o = Throw e) /\ w' = w) \/ (staffMayCreate w role prison userData /\ k w = (o, w'))).
  { intros k. unfold staffMayCreate. unfold pbind at 1.
    destruct (String.eqb role SUPER_ADMIN) eqn:Er; cbn [negb].
    - unfold pret. intros H. right. split; [discriminate | exact H].
    - unfold pbind at 1. unfold pthrowIf.
      destruct (truthyZ (ud_prison_id userData)) eqn:Et; cbn [negb orb];
        [|unfold pthrow; intros H; inversion H; eauto].
      destruct (samePrison (ud_prison_id userData) prison) eqn:Ep;
        cbn [negb]; [|unfold pthrow; intros H; inversion H; eauto].
      unfold pret at 1. rewrite found_then.
      destruct (findByPk Role.role_id (Roles w) (ud_role_id userData))
        as [r|] eqn:Hr; [|intros H; inversion H; eauto].
      destruct (isAdminRole (Role.role_name r)) eqn:Ea;
        [unfold pthrow; intros H; inversion H; eauto|].
      unfold pret. intros H. right. split; [|exact H].
      intros _. repeat split. exists r. auto. }
  intros H. apply Hcheck in H as [Hthrow|(Hs & H)]; [auto|].
  unfold pbind at 1 in H. unfold pquery at 1 in H.
  unfold pbind at 1 in H.
  destruct (findOne _ (Users w)) as [e|] eqn:Ef in H.
  - left. unfold findOne in Ef. apply find_some in Ef as [_ Hw].
    revert H. unfold pbind, pthrowIf.
    destruct (String.eqb (User.username e) (ud_username userData));
      [unfold pthrow; intros H; inversion H; eauto|].
    destruct (String.eqb (User.email e) (ud_email userData));
      [unfold pthrow; intros H; inversion H; eauto|].
    destruct (String.eqb (User.nic e) (ud_nic userData));
      [unfold pthrow; intros H; inversion H; eauto|].
    discriminate Hw.
  - right. split; [exact Hs|]. split.
    + intros e He. unfold findOne in Ef.
      pose proof (find_none _ _ Ef e He) as Hw.
      apply orb_false_iff in Hw as [Hw Hn].
      apply orb_false_iff in Hw as [Hu Hm].
      repeat split; apply String.eqb_neq; assumption.
    + unfold pret, pbind, pquery, pwrite in H.
      match type of H with
      | context [getUserById ?i ?x] =>
          pose proof (getUserById_state i x) as Hst;
          destruct (getUserById i x) as [o1 w1] eqn:Eg
      end.
      cbn [snd] in Hst. inversion H; subst. rewrite Eg. cbn [fst]. auto.
Qed.

(* ================================================================== *)
(** ** Accounts under the user service *)
(* ================================================================== *)

(** [req.user], as far as the user service reads it. *)
Record Caller := mkCaller { roleName : string; prisonId : option Z }.

Inductive UserAction :=
| CreateUser (userData : UserData) (salt : Z)
| UpdateUser (userId : Z) (updateData : UserUpdate) (salt : Z)
| DeleteUser (userId : Z)
| ResetUserPassword (userId : Z) (newPassword : Secret) (salt : Z).

Definition runUser (caller : Caller) (a : UserAction) (w : System) : System :=
  match a with
  | CreateUser userData salt =>
      snd (createUser userData (roleName caller) (prisonId caller) salt w)
  | UpdateUser userId updateData salt =>
      snd (updateUser userId updateData (roleName caller) (prisonId caller)
                      salt w)
  | DeleteUser userId =>
      snd (deleteUser userId (roleName caller) (prisonId caller) w)
  | ResetUserPassword userId newPassword salt =>
      snd (resetUserPassword userId newPassword (roleName caller)
                             (prisonId caller) salt w)
  end.

Definition runUsers (calls : list (Caller * UserAction)) (w : System)
  : System :=
  fold_left (fun w c => runUser (fst c) (snd c) w) calls w.

(** The caller is not a Super Admin. *)
Definition isStaff (caller : Caller) : Prop :=
  String.eqb (roleName caller) SUPER_ADMIN = false.

(** Role ids come from AUTO_INCREMENT: none is 0. *)
Definition no_role_zero (w : System) : Prop :=
  findByPk Role.role_id (Roles w) 0 = None.

Lemma beforeUpdate_fields salt previous user :
  User.user_id (beforeUpdate salt previous user) = User.user_id user /\
  User.nic (beforeUpdate salt previous user) = User.nic user /\
  User.email (beforeUpdate salt previous user) = User.email user /\
  User.username (beforeUpdate salt previous user) = User.username user /\
  User.role_id (beforeUpdate salt previous user) = User.role_id user /\
  User.prison_id (beforeUpdate salt previous user) = User.prison_id user /\
  User.is_active (beforeUpdate salt previous user) = User.is_active user.
Proof.
  unfold beforeUpdate.
  destruct (negb (Secret_eqb (User.password_hash user)
                             (User.password_hash previous)));
    cbn; auto 10.
Qed.

Lemma isAdminUser_role w1 w2 u1 u2 :
  Roles w1 = Roles w2 -> User.role_id u1 = User.role_id u2 ->
  isAdminUser w1 u1 = isAdminUser w2 u2.
Proof.
  intros Hr Hu. unfold isAdminUser, roleOf. rewrite Hr, Hu. reflexivity.
Qed.

Lemma runUser_Roles caller a w : Roles (runUser caller a w) = Roles w.
Proof.
  destruct a; cbn [runUser].
  - destruct (createUser _ _ _ _ w) as [o w'] eqn:E. cbn [snd].
    apply createUser_system in E as [[_ ->]|(_ & _ & -> & _)]; reflexivity.
  - destruct (updateUser _ _ _ _ _ w) as [o w'] eqn:E. cbn [snd].
    apply updateUser_system in E
      as [[_ ->]|(user & _ & _ & _ & _ & -> & _)]; reflexivity.
  - destruct (deleteUser _ _ _ w) as [o w'] eqn:E. cbn [snd].
    apply deleteUser_system in E as [[_ ->]|(user & _ & _ & _ & ->)];
      reflexivity.
  - destruct (resetUserPassword _ _ _ _ _ w) as [o w'] eqn:E. cbn [snd].
    apply resetUserPassword_system in E
      as [[_ ->]|(user & _ & _ & _ & ->)]; reflexivity.
Qed.

(** An account the caller has no business with: an administrator's, or one
    of another prison. *)
Definition outOfReach (w : System) (caller : Caller) (u : User.row) : Prop :=
  isAdminUser w u = true
  \/ samePrison (User.prison_id u) (prisonId caller) = false.

(** An update of the account [target], which the caller may touch, that
    leaves it without an administrator's role. *)
Lemma update_step w caller userId f target :
  (forall r, User.user_id (f r) = User.user_id r) ->
  findUser w userId = Some target ->
  samePrison (User.prison_id target) (prisonId caller) = true ->
  isAdminUser w target = false ->
  isAdminUser w (f target) = false ->
  let w' := set_Users (updateRow User.user_id userId f) w in
  forall id u,
    (findUser w id = Some u -> outOfReach w caller u ->
     findUser w' id = Some u) /\
    (findUser w' id = Some u -> isAdminUser w u = true ->
     findUser w id = Some u).
Proof.
  intros Hf Ht Hp Ha Ha' w' id u. unfold findUser in *. subst w'.
  cbn [Users set_Users].
  destruct (Z.eq_dec id userId) as [->|Hne].
  - rewrite (findByPk_updateRow_same User.user_id f Hf). rewrite Ht.
    cbn [option_map]. split.
    + intros Hu [Hadm|Hpr]; inversion Hu; subst; congruence.
    + intros Hu Hadm. inversion Hu; subst. congruence.
  - rewrite (findByPk_updateRow_other User.user_id f Hf _ Hne). auto.
Qed.

Lemma runUser_staff caller a w :
  isStaff caller -> no_role_zero w ->
  forall id u,
    (findUser w id = Some u -> outOfReach w caller u ->
     findUser (runUser caller a w) id = Some u) /\
    (findUser (runUser caller a w) id = Some u -> isAdminUser w u = true ->
     findUser w id = Some u).
Proof.
  intros Hstaff Hzero id u. destruct a; cbn [runUser].
  - destruct (createUser _ _ _ _ w) as [o w'] eqn:E. cbn [snd].
    apply createUser_system in E as [[_ ->]|(Hc & _ & -> & _)]; [auto|].
    destruct (Hc Hstaff) as (Ht & Hp & r & Hr & Hadm).
    unfold findUser. cbn [Users set_Users set_next_user_id].
    rewrite findByPk_insertRow.
    destruct (findByPk User.user_id (Users w) id) as [x|]; [auto|].
    split; [discriminate|].
    destruct (User.user_id _ =? id); [|discriminate].
    intros Hu Ha. exfalso. inversion Hu; subst. revert Ha.
    unfold isAdminUser, roleOf, beforeCreate, newUser.
    destruct (truthySecret _); cbn [User.role_id withPassword];
      rewrite Hr, Hadm; discriminate.
  - destruct (updateUser _ _ _ _ _ w) as [o w'] eqn:E. cbn [snd].
    apply updateUser_system in E
      as [[_ ->]|(user & Hu & Ht & Ha & _ & -> & _)]; [auto|].
    destruct (Ht Hstaff) as (Hp & Hsome & Hadm).
    apply update_step with (target := user); auto.
    + intros r. unfold updateUserRow.
      destruct (beforeUpdate_fields salt r (applyUserUpdate updateData r))
        as (-> & _). reflexivity.
    + unfold updateUserRow, isAdminUser, roleOf.
      destruct (beforeUpdate_fields salt user
                  (applyUserUpdate updateData user))
        as (_ & _ & _ & _ & -> & _).
      cbn [applyUserUpdate User.role_id].
      specialize (Ha Hstaff). unfold isAdminUser, roleOf in Hadm.
      destruct (uu_role_id updateData) as [z|]; cbn [orElse] in *;
        [|exact Hadm].
      cbn [truthyZ] in Ha. destruct (z =? 0) eqn:Hz.
      * apply Z.eqb_eq in Hz. rewrite Hz. unfold no_role_zero in Hzero.
        rewrite Hzero. reflexivity.
      * specialize (Ha eq_refl).
        destruct (findByPk Role.role_id (Roles w) z); auto.
  - destruct (deleteUser _ _ _ w) as [o w'] eqn:E. cbn [snd].
    apply deleteUser_system in E as [[_ ->]|(user & Hu & Ht & _ & ->)];
      [auto|].
    destruct (Ht Hstaff) as (Hp & Hsome & Hadm).
    apply update_step with (target := user); auto.
  - destruct (resetUserPassword _ _ _ _ _ w) as [o w'] eqn:E. cbn [snd].
    apply resetUserPassword_system in E
      as [[_ ->]|(user & Hu & Ht & _ & ->)]; [auto|].
    destruct (Ht Hstaff) as (Hp & Hsome & Hadm).
    apply update_step with (target := user); auto.
    + intros r. unfold updateUserRow.
      destruct (beforeUpdate_fields salt r (withPassword newPassword r))
        as (-> & _). reflexivity.
    + unfold updateUserRow.
      rewrite (@isAdminUser_role w w _ user eq_refl); [exact Hadm|].
      destruct (beforeUpdate_fields salt user (withPassword newPassword user))
        as (_ & _ & _ & _ & -> & _). reflexivity.
Qed.

Lemma runUsers_Roles calls w : Roles (runUsers calls w) = Roles w.
Proof.
  revert w. induction calls as [|c l IH]; intros w; [reflexivity|].
  unfold runUsers. cbn [fold_left]. fold (runUsers l (runUser (fst c) (snd c) w)).
  rewrite IH. apply runUser_Roles.
Qed.

Lemma Forall_firstn (A : Type) (P : A -> Prop) n (l : list A) :
  Forall P l -> Forall P (firstn n l).
Proof.
  intros H. rewrite Forall_forall in *. intros c Hc. apply H.
  rewrite <- (firstn_skipn n l). apply in_or_app. left. exact Hc.
Qed.

(** X10: whatever callers who are not Super Admins do through the user
    service, the administrators' accounts are the same after every call:
    each one is as it was, and no account has become an administrator's. *)
Theorem staff_never_change_administrators :
  forall (calls : list (Caller * UserAction)) w,
    Forall (fun c => isStaff (fst c)) calls ->
    no_role_zero w ->
    forall n id u,
      isAdminUser w u = true ->
      (findUser (runUsers (firstn n calls) w) id = Some u
       <-> findUser w id = Some u).
Proof.
  intros calls w Hstaff Hzero n id u Hadm.
  apply (Forall_firstn n) in Hstaff. revert w Hzero Hadm.
  induction (firstn n calls) as [|c l IH]; intros w Hzero Hadm;
    [reflexivity|].
  inversion Hstaff as [|? ? Hc Hl]; subst.
  unfold runUsers. cbn [fold_left].
  fold (runUsers l (runUser (fst c) (snd c) w)).
  pose proof (runUser_Roles (fst c) (snd c) w) as Hr.
  rewrite IH; [| exact Hl | unfold no_role_zero in *; rewrite Hr; exact Hzero
               | rewrite <- Hadm; apply isAdminUser_role; auto].
  destruct (@runUser_staff (fst c) (snd c) w Hc Hzero id u) as [H1 H2].
  split; [intros H; apply H2; assumption|].
  intros H. apply H1; [exact H | left; exact Hadm].
Qed.

(** X11: whatever the staff of one prison do through the user service, the
    accounts of the other prisons are as they were after every call. *)
Theorem staff_never_change_accounts_of_other_prisons :
  forall (calls : list (Caller * UserAction)) (prison : option Z) w,
    Forall (fun c => isStaff (fst c) /\ prisonId (fst c) = prison) calls ->
    no_role_zero w ->
    forall n id u,
      findUser w id = Some u ->
      samePrison (User.prison_id u) prison = false ->
      findUser (runUsers (firstn n calls) w) id = Some u.
Proof.
  intros calls prison w Hstaff Hzero n id u Hu Hp.
  apply (Forall_firstn n) in Hstaff. revert w Hzero Hu.
  induction (firstn n calls) as [|c l IH]; intros w Hzero Hu; [exact Hu|].
  inversion Hstaff as [|? ? [Hc Hcp] Hl]; subst.
  unfold runUsers. cbn [fold_left].
  fold (runUsers l (runUser (fst c) (snd c) w)).
  pose proof (runUser_Roles (fst c) (snd c) w) as Hr.
  apply IH; [exact Hl | unfold no_role_zero in *; rewrite Hr; exact Hzero|].
  destruct (@runUser_staff (fst c) (snd c) w Hc Hzero id u) as [H1 _].
  apply H1; [exact Hu | right; exact Hp].
Qed.

(** A head office and two prisons: the Super Admin, the Prison Admin and
    an officer of prison 1, an officer of prison 2. *)
Definition superAdminRole : Role.row := Role.mk 1 "Super Admin".
Definition prisonAdminRole : Role.row := Role.mk 2 "Prison Admin".
Definition officerRole : Role.row := Role.mk 3 "Officer".

Definition root : User.row :=
  User.mk 1 "700000001V" "root@prisons.lk" "root"
          (bcrypt_hash 11 (Plain "root-secret")) 1 None true.
Definition warden : User.row :=
  User.mk 2 "700000002V" "warden@prisons.lk" "warden"
          (bcrypt_hash 12 (Plain "warden-secret")) 2 (Some 1) true.
Definition officer : User.row :=
  User.mk 3 "700000003V" "officer@prisons.lk" "officer"
          (bcrypt_hash 13 (Plain "officer-secret")) 3 (Some 1) true.
Definition guard : User.row :=
  User.mk 4 "700000004V" "guard@prisons.lk" "guard"
          (bcrypt_hash 14 (Plain "guard-secret")) 3 (Some 2) true.

Definition office : System :=
  mkSystem visitStore 2 [superAdminRole; prisonAdminRole; officerRole]
           [root; warden; officer; guard] 5 [] 1 [] 1.

(** The Prison Admin of prison 1. *)
Definition theWarden : Caller := mkCaller "Prison Admin" (Some 1).

Definition clerkData : UserData :=
  mkUserData "700000005V" "clerk@prisons.lk" "clerk" (Plain "clerk-secret")
             3 (Some 1) None.

Definition staffRun : list (Caller * UserAction) :=
  [(theWarden, UpdateUser 3 (mkUserUpdate None None None None (Some 2) None None) 21);
   (theWarden, DeleteUser 2);
   (theWarden, ResetUserPassword 1 (Plain "guessed") 22);
   (theWarden, ResetUserPassword 4 (Plain "guessed") 23);
   (theWarden, CreateUser clerkData 24);
   (theWarden, UpdateUser 3 (mkUserUpdate None None None None None
                                          (Some (Some 2)) None) 25);
   (theWarden, DeleteUser 3)].

Lemma staffRun_staff : Forall (fun c => isStaff (fst c)) staffRun.
Proof. repeat constructor. Qed.

Lemma staffRun_prison :
  Forall (fun c => isStaff (fst c) /\ prisonId (fst c) = Some 1) staffRun.
Proof. repeat constructor. Qed.

Lemma office_no_role_zero : no_role_zero office.
Proof. reflexivity. Qed.

Lemma staff_never_change_administrators_witness :
  findUser (runUsers (firstn 7 staffRun) office) 2 = Some warden
  <-> findUser office 2 = Some warden.
Proof.
  exact (@staff_never_change_administrators staffRun office staffRun_staff
           office_no_role_zero 7 2 warden eq_refl).
Defined.

Lemma staff_never_change_accounts_of_other_prisons_witness :
  findUser (runUsers (firstn 7 staffRun) office) 4 = Some guard.
Proof.
  exact (@staff_never_change_accounts_of_other_prisons staffRun (Some 1)
           office staffRun_prison office_no_role_zero 7 4 guard eq_refl
           eq_refl).
Defined.

(** What the Prison Admin of prison 1 is refused, and what is done: the
    officer cannot be made a Prison Admin, but can be moved to prison 2,
    where the Prison Admin of prison 1 no longer reaches the account. *)
Example staffRun_steps :
  fst (updateUser 3 (mkUserUpdate None None None None (Some 2) None None)
                  "Prison Admin" (Some 1) 21 office)
  = Throw (JsError "You do not have permission to assign this role") /\
  fst (deleteUser 2 "Prison Admin" (Some 1) office)
  = Throw (JsError "You do not have permission to delete this user") /\
  fst (resetUserPassword 4 (Plain "guessed") "Prison Admin" (Some 1) 23 office)
  = Throw (JsError "You can only reset passwords for users in your assigned prison") /\
  map User.user_id (Users (runUsers (firstn 5 staffRun) office))
  = [1; 2; 3; 4; 5] /\
  option_map User.prison_id (findUser (runUsers (firstn 6 staffRun) office) 3)
  = Some (Some 2) /\
  fst (deleteUser 3 "Prison Admin" (Some 1)
                  (runUsers (firstn 6 staffRun) office))
  = Throw (JsError "You can only delete users in your assigned prison").
Proof.
  split; [vm_compute; reflexivity|].
  split; [vm_compute; reflexivity|].
  split; [vm_compute; reflexivity|].
  split; [vm_compute; reflexivity|].
  split; vm_compute; reflexivity.
Qed.

(* ================================================================== *)
(** ** User names, e-mail addresses and NICs stay unique *)
(* ================================================================== *)

Definition user_keys_ok (w : System) : Prop :=
  keys_ok User.user_id (next_user_id w) (Users w).

Definition user_identities_unique (w : System) : Prop :=
  forall a b,
    In a (Users w) -> In b (Users w) -> User.user_id a <> User.user_id b ->
    User.username a <> User.username b /\
    User.email a <> User.email b /\
    User.nic a <> User.nic b.

(** A call as the routes' validation lets it through: the user name, the
    e-mail address and the NIC of an update body, when present, are not
    empty. *)
Definition user_call_well_formed (c : Caller * UserAction) : Prop :=
  match snd c with
  | UpdateUser _ u _ =>
      uu_username u <> Some "" /\ uu_email u <> Some "" /\ uu_nic u <> Some ""
  | _ => True
  end.

Lemma updateUserRow_pk salt change :
  (forall r, User.user_id (change r) = User.user_id r) ->
  forall r, User.user_id (updateUserRow salt change r) = User.user_id r.
Proof.
  intros Hc r. unfold updateUserRow.
  destruct (beforeUpdate_fields salt r (change r)) as (-> & _). apply Hc.
Qed.

Lemma runUser_user_keys_ok caller a w :
  user_keys_ok w -> user_keys_ok (runUser caller a w).
Proof.
  intros Hk. unfold user_keys_ok in *. destruct a; cbn [runUser].
  - destruct (createUser _ _ _ _ w) as [o w'] eqn:E. cbn [snd].
    apply createUser_system in E as [[_ ->]|(_ & _ & -> & _)]; [exact Hk|].
    cbn [Users set_Users set_next_user_id next_user_id].
    apply keys_ok_insertRow; [exact Hk|].
    unfold beforeCreate, newUser. destruct (truthySecret _); reflexivity.
  - destruct (updateUser _ _ _ _ _ w) as [o w'] eqn:E. cbn [snd].
    apply updateUser_system in E
      as [[_ ->]|(user & _ & _ & _ & _ & -> & _)]; [exact Hk|].
    cbn [Users set_Users next_user_id].
    apply keys_ok_updateRow; [|exact Hk].
    apply updateUserRow_pk. reflexivity.
  - destruct (deleteUser _ _ _ w) as [o w'] eqn:E. cbn [snd].
    apply deleteUser_system in E as [[_ ->]|(user & _ & _ & _ & ->)];
      [exact Hk|].
    cbn [Users set_Users next_user_id].
    apply keys_ok_updateRow; [reflexivity | exact Hk].
  - destruct (resetUserPassword _ _ _ _ _ w) as [o w'] eqn:E. cbn [snd].
    apply resetUserPassword_system in E
      as [[_ ->]|(user & _ & _ & _ & ->)]; [exact Hk|].
    cbn [Users set_Users next_user_id].
    apply keys_ok_updateRow; [|exact Hk].
    apply updateUserRow_pk. reflexivity.
Qed.

Lemma In_updateRow_user id f (t : list User.row) a :
  In a (updateRow User.user_id id f t) ->
  exists a0, In a0 t /\ a = (if User.user_id a0 =? id then f a0 else a0).
Proof.
  unfold updateRow. intros H. apply in_map_iff in H as [a0 [Heq Hin]].
  exists a0. split; [exact Hin | symmetry; exact Heq].
Qed.

(** An update that leaves the three identifying columns of every row. *)
Lemma user_identities_unique_same id f w :
  (forall r, User.user_id (f r) = User.user_id r /\
             User.username (f r) = User.username r /\
             User.email (f r) = User.email r /\
             User.nic (f r) = User.nic r) ->
  user_identities_unique w ->
  user_identities_unique (set_Users (updateRow User.user_id id f) w).
Proof.
  intros Hf Hu a b Ha Hb Hne. cbn [Users set_Users] in Ha, Hb.
  apply In_updateRow_user in Ha as [a0 [Ha0 ->]].
  apply In_updateRow_user in Hb as [b0 [Hb0 ->]].
  assert (Ha1 : forall x, User.user_id (if User.user_id x =? id then f x else x)
                          = User.user_id x
                          /\ User.username (if User.user_id x =? id then f x else x)
                             = User.username x
                          /\ User.email (if User.user_id x =? id then f x else x)
                             = User.email x
                          /\ User.nic (if User.user_id x =? id then f x else x)
                             = User.nic x).
  { intros x. destruct (User.user_id x =? id); [apply Hf | auto]. }
  destruct (Ha1 a0) as (Ea & -> & -> & ->).
  destruct (Ha1 b0) as (Eb & -> & -> & ->).
  rewrite Ea, Eb in Hne. apply Hu; assumption.
Qed.

Lemma runUser_user_identities_unique c w :
  user_call_well_formed c ->
  user_keys_ok w ->
  user_identities_unique w ->
  user_identities_unique (runUser (fst c) (snd c) w).
Proof.
  destruct c as [caller a]. unfold user_call_well_formed. cbn [fst snd].
  intros Hwf Hk Hu. destruct a; cbn [runUser].
  - destruct (createUser _ _ _ _ w) as [o w'] eqn:E. cbn [snd].
    apply createUser_system in E as [[_ ->]|(_ & Hfresh & -> & _)];
      [exact Hu|].
    assert (Hnew : forall x,
              In x (Users w) ->
              User.username x
              <> User.username (beforeCreate salt
                                  (newUser userData (next_user_id w))) /\
              User.email x
              <> User.email (beforeCreate salt
                               (newUser userData (next_user_id w))) /\
              User.nic x
              <> User.nic (beforeCreate salt
                             (newUser userData (next_user_id w)))).
    { intros x Hx. unfold beforeCreate, newUser.
      destruct (truthySecret _); cbn; apply Hfresh; exact Hx. }
    intros a b. cbn [Users set_Users set_next_user_id]. unfold insertRow.
    intros Ha Hb Hne. apply in_app_or in Ha. apply in_app_or in Hb.
    destruct Ha as [Ha|[<-|[]]]; destruct Hb as [Hb|[<-|[]]].
    + apply Hu; assumption.
    + apply Hnew. exact Ha.
    + destruct (Hnew b Hb) as (H1 & H2 & H3).
      repeat split; intros Heq; [apply H1 | apply H2 | apply H3];
        symmetry; exact Heq.
    + exfalso. apply Hne. reflexivity.
  - destruct (updateUser _ _ _ _ _ w) as [o w'] eqn:E. cbn [snd].
    apply updateUser_system in E
      as [[_ ->]|(user & Hv & _ & _ & Hdup & -> & _)]; [exact Hu|].
    destruct Hwf as (Hwu & Hwe & Hwn).
    unfold findUser in Hv.
    pose proof (findByPk_Some _ _ _ Hv) as [Hvid Hvin].
    set (f := updateUserRow salt (applyUserUpdate updateData)).
    assert (Hsame : forall x,
              In x (Users w) -> User.user_id x = userId -> x = user).
    { intros x Hin Hid. destruct Hk as [Hnd _].
      pose proof (findByPk_In_NoDup User.user_id _ x Hnd Hin) as Hx.
      rewrite Hid, Hv in Hx. inversion Hx. reflexivity. }
    assert (Hfields : User.user_id (f user) = User.user_id user /\
                      User.username (f user)
                      = orElse (uu_username updateData) (User.username user) /\
                      User.email (f user)
                      = orElse (uu_email updateData) (User.email user) /\
                      User.nic (f user)
                      = orElse (uu_nic updateData) (User.nic user)).
    { unfold f, updateUserRow.
      destruct (beforeUpdate_fields salt user (applyUserUpdate updateData user))
        as (-> & -> & -> & -> & _). cbn. auto. }
    destruct Hfields as (Hf0 & Hf1 & Hf2 & Hf3).
    assert (Hother : forall q,
              In q (Users w) -> User.user_id q <> userId ->
              User.username (f user) <> User.username q /\
              User.email (f user) <> User.email q /\
              User.nic (f user) <> User.nic q).
    { intros q Hq Hne.
      assert (Hvq : User.user_id user <> User.user_id q)
        by (rewrite Hvid; auto).
      destruct (Hu user q Hvin Hq Hvq) as (Hn1 & Hn2 & Hn3).
      destruct (Hdup q Hq Hne) as (Hd1 & Hd2 & Hd3).
      rewrite Hf1, Hf2, Hf3.
      repeat split.
      - destruct (uu_username updateData) as [n|]; cbn [orElse] in *;
          [|exact Hn1].
        assert (Hne' : n <> "") by congruence.
        apply String.eqb_neq in Hne'. cbn [truthyS] in Hd1.
        rewrite Hne' in Hd1. intros Heq. apply (Hd1 eq_refl). auto.
      - destruct (uu_email updateData) as [n|]; cbn [orElse] in *;
          [|exact Hn2].
        assert (Hne' : n <> "") by congruence.
        apply String.eqb_neq in Hne'. cbn [truthyS] in Hd2.
        rewrite Hne' in Hd2. intros Heq. apply (Hd2 eq_refl). auto.
      - destruct (uu_nic updateData) as [n|]; cbn [orElse] in *;
          [|exact Hn3].
        assert (Hne' : n <> "") by congruence.
        apply String.eqb_neq in Hne'. cbn [truthyS] in Hd3.
        rewrite Hne' in Hd3. intros Heq. apply (Hd3 eq_refl). auto. }
    intros a b Ha Hb Hne. cbn [Users set_Users] in Ha, Hb. fold f in Ha, Hb.
    apply In_updateRow_user in Ha as [a0 [Ha0 ->]].
    apply In_updateRow_user in Hb as [b0 [Hb0 ->]].
    destruct (User.user_id a0 =? userId) eqn:Ea;
      destruct (User.user_id b0 =? userId) eqn:Eb.
    + exfalso. apply Hne. apply Z.eqb_eq in Ea, Eb.
      rewrite (Hsame a0 Ha0 Ea), (Hsame b0 Hb0 Eb). reflexivity.
    + apply Z.eqb_eq in Ea. apply Z.eqb_neq in Eb.
      rewrite (Hsame a0 Ha0 Ea). apply Hother; assumption.
    + apply Z.eqb_neq in Ea. apply Z.eqb_eq in Eb.
      rewrite (Hsame b0 Hb0 Eb).
      destruct (Hother a0 Ha0 Ea) as (H1 & H2 & H3).
      repeat split; intros Heq; [apply H1 | apply H2 | apply H3];
        symmetry; exact Heq.
    + apply Hu; assumption.
  - destruct (deleteUser _ _ _ w) as [o w'] eqn:E. cbn [snd].
    apply deleteUser_system in E as [[_ ->]|(user & _ & _ & _ & ->)];
      [exact Hu|].
    apply user_identities_unique_same; [|exact Hu]. intros r. cbn. auto.
  - destruct (resetUserPassword _ _ _ _ _ w) as [o w'] eqn:E. cbn [snd].
    apply resetUserPassword_system in E
      as [[_ ->]|(user & _ & _ & _ & ->)]; [exact Hu|].
    apply user_identities_unique_same; [|exact Hu]. intros r.
    unfold updateUserRow.
    destruct (beforeUpdate_fields salt r (withPassword newPassword r))
      as (-> & -> & -> & -> & _). cbn. auto.
Qed.

(** X12: the user service keeps user names, e-mail addresses and NICs
    unique by its own checks: over any sequence of its calls, by any
    callers, with update bodies whose user name, e-mail address and NIC are
    not empty when present, no two accounts ever share one of the three. *)
Theorem user_identities_stay_unique :
  forall (calls : list (Caller * UserAction)) w,
    Forall user_call_well_formed calls ->
    user_keys_ok w ->
    user_identities_unique w ->
    forall n, user_identities_unique (runUsers (firstn n calls) w).
Proof.
  intros calls w Hwf Hk Hu n. apply (Forall_firstn n) in Hwf.
  revert w Hk Hu.
  induction (firstn n calls) as [|c l IH]; intros w Hk Hu; [exact Hu|].
  inversion Hwf as [|? ? Hc Hl]; subst.
  unfold runUsers. cbn [fold_left]. apply IH; [exact Hl | |].
  - apply runUser_user_keys_ok; exact Hk.
  - apply runUser_user_identities_unique; assumption.
Qed.

(** The Super Admin. *)
Definition theRoot : Caller := mkCaller "Super Admin" None.

Definition identityCalls : list (Caller * UserAction) :=
  [(theRoot, CreateUser clerkData 31);
   (theRoot, UpdateUser 5 (mkUserUpdate None (Some "guard@prisons.lk") None
                                        None None None None) 32);
   (theWarden, UpdateUser 3 (mkUserUpdate (Some "700000005V") None None
                                          None None None None) 33);
   (theRoot, UpdateUser 5 (mkUserUpdate None None (Some "registrar")
                                        None None None None) 34);
   (theRoot, CreateUser clerkData 35)].

Lemma identityCalls_well_formed : Forall user_call_well_formed identityCalls.
Proof. repeat constructor; cbn; discriminate. Qed.

Lemma office_user_keys_ok : user_keys_ok office.
Proof.
  split.
  - cbn. repeat constructor; cbn; intuition lia.
  - cbn. repeat constructor; cbn; lia.
Qed.

Lemma office_user_identities_unique : user_identities_unique office.
Proof.
  intros a b Ha Hb Hne. cbn in Ha, Hb.
  repeat (destruct Ha as [<-|Ha]; [|]); try contradiction;
    repeat (destruct Hb as [<-|Hb]; [|]); try contradiction;
    try (exfalso; apply Hne; reflexivity);
    cbn; repeat split; discriminate.
Qed.

Lemma user_identities_stay_unique_witness :
  user_identities_unique (runUsers (firstn 5 identityCalls) office).
Proof.
  exact (@user_identities_stay_unique identityCalls office
           identityCalls_well_formed office_user_keys_ok
           office_user_identities_unique 5).
Defined.

(** The e-mail address of the guard and the NIC of the clerk are refused;
    the clerk is renamed, and the second clerk is refused for the e-mail
    address. *)
Example identityCalls_steps :
  fst (updateUser 5 (mkUserUpdate None (Some "guard@prisons.lk") None
                                  None None None None)
                  "Super Admin" None 32
                  (runUsers (firstn 1 identityCalls) office))
  = Throw (JsError "Email already exists") /\
  fst (updateUser 3 (mkUserUpdate (Some "700000005V") None None
                                  None None None None)
                  "Prison Admin" (Some 1) 33
                  (runUsers (firstn 2 identityCalls) office))
  = Throw (JsError "NIC already exists") /\
  fst (createUser clerkData "Super Admin" None 35
                  (runUsers (firstn 4 identityCalls) office))
  = Throw (JsError "Email already exists") /\
  map User.username (Users (runUsers identityCalls office))
  = ["root"; "warden"; "officer"; "guard"; "registrar"].
Proof.
  split; [vm_compute; reflexivity|].
  split; [vm_compute; reflexivity|].
  split; vm_compute; reflexivity.
Qed.

(* ================================================================== *)
(** ** Logging in *)
(* ================================================================== *)

Lemma login_run username password w :
  login username password w
  = (match findOne (loginWhere username) (Users w) with
     | None => Throw (JsError "Invalid credentials")
     | Some user =>
         if negb (User.is_active user)
         then Throw (JsError "Account is deactivated")
         else if negb (bcrypt_compare password (User.password_hash user))
         then Throw (JsError "Invalid credentials")
         else match roleOf w user with
              | Some _ => Ok (User.user_id user)
              | None => Throw TypeError
              end
     end, w).
Proof.
  unfold login. rewrite found_then.
  destruct (findOne (loginWhere username) (Users w)) as [user|];
    [|reflexivity].
  unfold pbind, pthrowIf.
  destruct (negb (User.is_active user)); [reflexivity|]. unfold pret at 1.
  destruct (negb (bcrypt_compare password (User.password_hash user)));
    [reflexivity|]. unfold pret at 1.
  rewrite user_role_name_run. destruct (roleOf w user); reflexivity.
Qed.

(** What a successful login tells of the account. *)
Lemma login_Ok username password w id w' :
  login username password w = (Ok id, w') ->
  exists user,
    findOne (loginWhere username) (Users w) = Some user /\
    User.user_id user = id /\
    User.is_active user = true /\
    bcrypt_compare password (User.password_hash user) = true /\
    isSome (roleOf w user) = true.
Proof.
  rewrite login_run.
  destruct (findOne (loginWhere username) (Users w)) as [user|];
    [|discriminate].
  destruct (User.is_active user) eqn:Ha; cbn [negb]; [|discriminate].
  destruct (bcrypt_compare password (User.password_hash user)) eqn:Ec;
    cbn [negb]; [|discriminate].
  destruct (roleOf w user) eqn:Er; [|discriminate].
  intros H. exists user. rewrite Er. inversion H. repeat split; assumption.
Qed.

Lemma find_updateRow (where_ : User.row -> bool) id f (t : list User.row) :
  (forall r, where_ (f r) = where_ r) ->
  find where_ (updateRow User.user_id id f t)
  = option_map (fun r => if User.user_id r =? id then f r else r)
               (find where_ t).
Proof.
  intros Hf. unfold updateRow. induction t as [|x t IH]; [reflexivity|].
  cbn [map find].
  assert (Hx : where_ (if User.user_id x =? id then f x else x) = where_ x)
    by (destruct (User.user_id x =? id); auto).
  rewrite Hx. destruct (where_ x); [reflexivity | exact IH].
Qed.

(** A term is never its own digest. *)
Lemma Secret_eqb_digest x : forall salt, Secret_eqb x (Bcrypt salt x) = false.
Proof.
  induction x as [t|s x IH]; intros salt; [reflexivity|].
  cbn [Secret_eqb]. rewrite IH. apply andb_false_r.
Qed.

Lemma Secret_eqb_neq a b : a <> b -> Secret_eqb a b = false.
Proof.
  intros H. destruct (Secret_eqb a b) eqn:E; [|reflexivity].
  apply Secret_eqb_eq in E. contradiction.
Qed.

(** A candidate matches a digest exactly when bcrypt reads the same key of
    the candidate as of the value the digest was made of. *)
Lemma bcrypt_compare_hash candidate salt value :
  bcrypt_compare candidate (bcrypt_hash salt value)
  = Secret_eqb (bcrypt_key candidate) (bcrypt_key value).
Proof. reflexivity. Qed.

Lemma bcrypt_key_hash salt value :
  bcrypt_key (bcrypt_hash salt value) = bcrypt_hash salt value.
Proof. reflexivity. Qed.

(** No value matches the digest of its own digest. *)
Lemma bcrypt_compare_double_hash value hashSalt hookSalt :
  bcrypt_compare value (bcrypt_hash hookSalt (bcrypt_hash hashSalt value))
  = false.
Proof.
  rewrite bcrypt_compare_hash, bcrypt_key_hash. unfold bcrypt_hash.
  apply Secret_eqb_digest.
Qed.

(** The account a login finds, after an update of that account that leaves
    the user name and the e-mail address. *)
Lemma login_after_update username w user f candidate :
  user_keys_ok w ->
  findOne (loginWhere username) (Users w) = Some user ->
  (forall r, User.username (f r) = User.username r
             /\ User.email (f r) = User.email r) ->
  User.role_id (f user) = User.role_id user ->
  isSome (roleOf w user) = true ->
  let w' := set_Users (updateRow User.user_id (User.user_id user) f) w in
  login username candidate w'
  = (if negb (User.is_active (f user))
     then Throw (JsError "Account is deactivated")
     else if negb (bcrypt_compare candidate (User.password_hash (f user)))
     then Throw (JsError "Invalid credentials")
     else Ok (User.user_id (f user)), w').
Proof.
  intros Hk Hfind Hf Hrole Hsome w'. rewrite login_run. subst w'.
  cbn [Users set_Users]. unfold findOne in *.
  rewrite find_updateRow.
  2:{ intros r. unfold loginWhere. destruct (Hf r) as [-> ->]. reflexivity. }
  rewrite Hfind. cbn [option_map]. rewrite Z.eqb_refl.
  unfold roleOf in *. cbn [Roles set_Users]. rewrite Hrole.
  destruct (findByPk Role.role_id (Roles w) (User.role_id user));
    [reflexivity | discriminate].
Qed.

Lemma login_finds_by_id username w user :
  user_keys_ok w ->
  findOne (loginWhere username) (Users w) = Some user ->
  findUser w (User.user_id user) = Some user.
Proof.
  intros [Hnd _] Hfind. unfold findOne in Hfind.
  apply find_some in Hfind as [Hin _].
  apply findByPk_In_NoDup; assumption.
Qed.


(** X14: [changePassword] hashes the new password and the model hook hashes
    it again: after a successful change (the first digest not being what was
    stored already) what is stored is the digest of the digest of the new
    password, login with the new password is refused with 'Invalid
    credentials', and login with the first digest as the password
    succeeds. *)
Theorem changed_password_does_not_log_in :
  forall w username old id currentPassword newPassword hashSalt hookSalt w',
    user_keys_ok w ->
    login username old w = (Ok id, w) ->
    changePassword id currentPassword newPassword hashSalt hookSalt w
    = (Ok tt, w') ->
    (forall user, findUser w id = Some user ->
                  User.password_hash user <> bcrypt_hash hashSalt newPassword) ->
    option_map User.password_hash (findUser w' id)
    = Some (bcrypt_hash hookSalt (bcrypt_hash hashSalt newPassword)) /\
    login username newPassword w'
    = (Throw (JsError "Invalid credentials"), w') /\
    login username (bcrypt_hash hashSalt newPassword) w' = (Ok id, w').
Proof.
  intros w username old id currentPassword newPassword hashSalt hookSalt w'
         Hk Hlogin Hchange Hfresh.
  apply login_Ok in Hlogin as (user & Hfind & Hid & Hact & _ & Hsome).
  pose proof (login_finds_by_id _ Hk Hfind) as Hby. rewrite Hid in Hby.
  apply changePassword_system in Hchange
    as [[[e He] _]|(user' & Hu' & _ & _ & ->)]; [discriminate|].
  specialize (Hfresh user Hby).
  set (digest := bcrypt_hash hashSalt newPassword) in *.
  set (f := updateUserRow hookSalt (withPassword digest)).
  assert (Hf : f user = withPassword (bcrypt_hash hookSalt digest) user).
  { unfold f, updateUserRow, beforeUpdate. cbn [withPassword User.password_hash].
    rewrite (@Secret_eqb_neq digest (User.password_hash user));
      [reflexivity | congruence]. }
  assert (Hlog : forall candidate,
    login username candidate
          (set_Users (updateRow User.user_id id f) w)
    = (if negb (bcrypt_compare candidate (bcrypt_hash hookSalt digest))
       then Throw (JsError "Invalid credentials")
       else Ok id,
       set_Users (updateRow User.user_id id f) w)).
  { intros candidate. rewrite <- Hid.
    rewrite login_after_update; auto.
    - rewrite Hf. cbn [withPassword User.is_active User.password_hash
                       User.user_id].
      rewrite Hact. reflexivity.
    - intros r. unfold f, updateUserRow.
      destruct (beforeUpdate_fields hookSalt r (withPassword digest r))
        as (_ & _ & -> & -> & _). cbn. auto.
    - rewrite Hf. reflexivity. }
  split; [|split].
  - unfold findUser. cbn [Users set_Users].
    rewrite findByPk_updateRow_same.
    + unfold findUser in Hby. rewrite Hby. cbn [option_map]. rewrite Hf.
      reflexivity.
    + intros r. unfold f, updateUserRow.
      destruct (beforeUpdate_fields hookSalt r (withPassword digest r))
        as (-> & _). reflexivity.
  - rewrite Hlog. unfold digest. rewrite bcrypt_compare_double_hash.
    reflexivity.
  - rewrite Hlog, bcrypt_compare_hash, Secret_eqb_refl. reflexivity.
Qed.

(** X15: after [deleteUser] has succeeded on an account that could log in,
    no password logs in: every login is refused with 'Account is
    deactivated'. *)
Theorem deleted_user_cannot_log_in :
  forall w username old id role prison w',
    user_keys_ok w ->
    login username old w = (Ok id, w) ->
    deleteUser id role prison w = (Ok tt, w') ->
    forall candidate,
      login username candidate w'
      = (Throw (JsError "Account is deactivated"), w').
Proof.
  intros w username old id role prison w' Hk Hlogin Hdel candidate.
  apply login_Ok in Hlogin as (user & Hfind & Hid & Hact & _ & Hsome).
  apply deleteUser_system in Hdel
    as [[[e He] _]|(user' & Hu' & _ & _ & ->)]; [discriminate|].
  rewrite <- Hid. rewrite login_after_update; auto.
Qed.

Lemma getUserById_run userId w :
  getUserById userId w
  = (match findUser w userId with
     | None => Throw (JsError "User not found")
     | Some user =>
         match roleOf w user with
         | Some _ => Ok user
         | None => Throw TypeError
         end
     end, w).
Proof.
  unfold getUserById. rewrite found_then. fold (findUser w userId).
  destruct (findUser w userId) as [user|]; [|reflexivity].
  unfold pbind. rewrite user_role_name_run.
  destruct (roleOf w user); reflexivity.
Qed.

Lemma find_app_last (A : Type) (p : A -> bool) (l : list A) (x : A) :
  (forall e, In e l -> p e = false) -> p x = true ->
  find p (l ++ [x]) = Some x.
Proof.
  intros Hl Hx. induction l as [|a l IH]; cbn [app find].
  - rewrite Hx. reflexivity.
  - rewrite (Hl a (or_introl eq_refl)). apply IH.
    intros e He. apply Hl. right. exact He.
Qed.

(** X16: an account that [createUser] has created active, with a password
    that is not empty, logs in with that password, under its user name and
    under its e-mail address, when no earlier account answers to that
    name. *)
Theorem created_user_logs_in :
  forall w userData role prison salt user w' name,
    user_keys_ok w ->
    createUser userData role prison salt w = (Ok user, w') ->
    truthySecret (ud_password userData) = true ->
    ud_is_active userData <> Some false ->
    name = ud_username userData \/ name = ud_email userData ->
    (forall e, In e (Users w) -> loginWhere name e = false) ->
    login name (ud_password userData) w' = (Ok (User.user_id user), w').
Proof.
  intros w userData role prison salt user w' name
         Hk Hcreate Hpw Hact Hname Hnone.
  apply createUser_system in Hcreate
    as [[[e He] _]|(_ & _ & -> & Ho)]; [discriminate|].
  set (new := beforeCreate salt (newUser userData (next_user_id w))) in *.
  assert (Hnew : new = withPassword (bcrypt_hash salt (ud_password userData))
                         (newUser userData (next_user_id w))).
  { unfold new, beforeCreate. cbn [newUser User.password_hash].
    rewrite Hpw. reflexivity. }
  assert (Hby : findUser (set_next_user_id (next_user_id w + 1)
                            (set_Users (insertRow new) w))
                         (next_user_id w) = Some new).
  { unfold findUser. cbn [Users set_Users set_next_user_id].
    rewrite findByPk_insertRow.
    destruct (findByPk User.user_id (Users w) (next_user_id w)) as [x|] eqn:Ex.
    - exfalso. apply findByPk_Some in Ex as [Hid Hin].
      destruct Hk as [_ Hlt]. rewrite Forall_forall in Hlt.
      specialize (Hlt x Hin). lia.
    - rewrite Hnew. cbn [withPassword newUser User.user_id].
      rewrite Z.eqb_refl. reflexivity. }
  rewrite getUserById_run, Hby in Ho. cbn [fst] in Ho.
  destruct (roleOf _ new) as [r|] eqn:Er in Ho; [|discriminate].
  inversion Ho; subst user.
  assert (Hfind : findOne (loginWhere name)
                    (Users (set_next_user_id (next_user_id w + 1)
                              (set_Users (insertRow new) w))) = Some new).
  { cbn [Users set_Users set_next_user_id]. unfold findOne, insertRow.
    apply find_app_last; [exact Hnone|].
    rewrite Hnew. unfold loginWhere.
    cbn [withPassword newUser User.username User.email].
    destruct Hname as [-> | ->]; rewrite String.eqb_refl;
      [reflexivity | apply orb_true_r]. }
  rewrite login_run, Hfind, Er. rewrite Hnew.
  cbn [withPassword newUser User.is_active User.password_hash
       User.user_id].
  rewrite bcrypt_compare_hash, Secret_eqb_refl.
  destruct (ud_is_active userData) as [[|]|]; cbn [orElse negb];
    [reflexivity | congruence | reflexivity].
Qed.

(** The officer of prison 1, after the Prison Admin has reset the password,
    after a change of password by the officer, and after the account has
    been deleted. *)
Definition officeAfterReset : System :=
  snd (resetUserPassword 3 (Plain "fresh-secret") "Prison Admin" (Some 1) 41
                         office).
Definition officeAfterChange : System :=
  snd (changePassword 3 (Plain "officer-secret") (Plain "fresh-secret") 42 43
                      office).
Definition officeAfterDelete : System :=
  snd (deleteUser 3 "Prison Admin" (Some 1) office).
Definition officeAfterCreate : System :=
  snd (createUser clerkData "Prison Admin" (Some 1) 44 office).


Lemma changed_password_does_not_log_in_witness :
  option_map User.password_hash (findUser officeAfterChange 3)
  = Some (bcrypt_hash 43 (bcrypt_hash 42 (Plain "fresh-secret"))) /\
  login "officer" (Plain "fresh-secret") officeAfterChange
  = (Throw (JsError "Invalid credentials"), officeAfterChange) /\
  login "officer" (bcrypt_hash 42 (Plain "fresh-secret")) officeAfterChange
  = (Ok 3, officeAfterChange).
Proof.
  apply (@changed_password_does_not_log_in office "officer"
           (Plain "officer-secret") 3 (Plain "officer-secret")
           (Plain "fresh-secret") 42 43 officeAfterChange
           office_user_keys_ok);
    [reflexivity | reflexivity | intros user H; inversion H; discriminate].
Defined.

Lemma deleted_user_cannot_log_in_witness :
  login "officer" (Plain "officer-secret") officeAfterDelete
  = (Throw (JsError "Account is deactivated"), officeAfterDelete).
Proof.
  apply (@deleted_user_cannot_log_in office "officer" (Plain "officer-secret")
           3 "Prison Admin" (Some 1) officeAfterDelete office_user_keys_ok);
    reflexivity.
Defined.

Lemma created_user_logs_in_witness :
  login "clerk@prisons.lk" (Plain "clerk-secret") officeAfterCreate
  = (Ok 5, officeAfterCreate).
Proof.
  apply (@created_user_logs_in office clerkData "Prison Admin" (Some 1) 44
           (User.mk 5 "700000005V" "clerk@prisons.lk" "clerk"
                    (bcrypt_hash 44 (Plain "clerk-secret")) 3 (Some 1) true)
           officeAfterCreate "clerk@prisons.lk" office_user_keys_ok);
    [reflexivity | reflexivity | discriminate | right; reflexivity |].
  intros e He. cbn in He.
  repeat (destruct He as [<-|He]; [reflexivity|]). contradiction.
Defined.

(** The same officer, each way: what is stored after a reset is one digest,
    after a change of password a digest of a digest, and neither the old
    nor the new password logs in after the change. *)
Example stored_passwords :
  option_map User.password_hash (findUser officeAfterReset 3)
  = Some (bcrypt_hash 41 (Plain "fresh-secret")) /\
  option_map User.password_hash (findUser officeAfterChange 3)
  = Some (bcrypt_hash 43 (bcrypt_hash 42 (Plain "fresh-secret"))) /\
  login "officer" (Plain "officer-secret") officeAfterChange
  = (Throw (JsError "Invalid credentials"), officeAfterChange) /\
  login "officer" (Plain "fresh-secret") officeAfterChange
  = (Throw (JsError "Invalid credentials"), officeAfterChange).
Proof.
  split; [vm_compute; reflexivity|].
  split; [vm_compute; reflexivity|].
  split; vm_compute; reflexivity.
Qed.

(** bcrypt reads 72 bytes: of two passwords of 80 characters that differ in
    the last one only, the one logs in where the other has been set. *)
Definition seventyNine : string :=
  "0123456789012345678901234567890123456789012345678901234567890123456789012345678".

Example long_passwords_share_a_key :
  Plain (seventyNine ++ "a") <> Plain (seventyNine ++ "b") /\
  bcrypt_key (Plain (seventyNine ++ "a")) = bcrypt_key (Plain (seventyNine ++ "b")) /\
  login "officer" (Plain (seventyNine ++ "b"))
        (snd (resetUserPassword 3 (Plain (seventyNine ++ "a")) "Prison Admin"
                                (Some 1) 45 office))
  = (Ok 3,
     snd (resetUserPassword 3 (Plain (seventyNine ++ "a")) "Prison Admin"
                            (Some 1) 45 office)).
Proof.
  split; [intros H; inversion H|].
  split; vm_compute; reflexivity.
Qed.

(* ================================================================== *)
(** ** services/behaviourService.js: the behaviour score *)
(* ================================================================== *)

(** [date.getMonth()], from 0, and [date.setMonth(v)], both on the local
    calendar: the month may be any integer, the day of the month is kept and
    runs over into the next month when the month is too short. *)
Definition getMonth (zone : Z) (t : Z) : Z :=
  month (civil_from_days (localDay zone t)) - 1.

Definition setMonth (zone : Z) (t : Z) (v : Z) : Z :=
  let c := civil_from_days (localDay zone t) in
  (days_from_civil (mkDate (year c + v / 12) (v mod 12 + 1) 1) + (day c - 1))
  * msPerDay
  + localTime zone t mod msPerDay - zone * msPerMinute.

(** [scoreWeights[behaviour_type][severity_level]] *)
Definition scoreWeights (t : BehaviourType) (l : SeverityLevel) : Z :=
  match t, l with
  | Positive, Minor => 5
  | Positive, Moderate => 10
  | Positive, Severe => 15
  | Negative, Minor => -5
  | Negative, Moderate => -10
  | Negative, Severe => -20
  end.

Record Breakdown := mkBreakdown {
  minor : Z; moderate : Z; severe : Z; points : Z }.

(** [breakdown[category][severity]++; breakdown[category].points += points] *)
Definition countIn (b : Breakdown) (l : SeverityLevel) (pts : Z) : Breakdown :=
  match l with
  | Minor => mkBreakdown (minor b + 1) (moderate b) (severe b) (points b + pts)
  | Moderate =>
      mkBreakdown (minor b) (moderate b + 1) (severe b) (points b + pts)
  | Severe => mkBreakdown (minor b) (moderate b) (severe b + 1) (points b + pts)
  end.

(** The variables the loop over the records updates. *)
Record Tally := mkTally {
  totalScore : Z; positive : Breakdown; negative : Breakdown }.

(** One turn of the loop.  A record without severity level has no weight,
    and [record.severity_level.toLowerCase()] throws on it. *)
Definition tallyRecord (acc : Tally) (record : PrisonerBehaviourRecord.row)
  : option Tally :=
  match PrisonerBehaviourRecord.severity_level record with
  | None => None
  | Some l =>
      let pts := scoreWeights (PrisonerBehaviourRecord.behaviour_type record) l in
      Some (match PrisonerBehaviourRecord.behaviour_type record with
            | Positive =>
                mkTally (totalScore acc + pts) (countIn (positive acc) l pts)
                        (negative acc)
            | Negative =>
                mkTally (totalScore acc + pts) (positive acc)
                        (countIn (negative acc) l pts)
            end)
  end.

(** [behaviourRecords.forEach(...)] *)
Fixpoint forEachRecord (records : list PrisonerBehaviourRecord.row)
    (acc : Tally) : option Tally :=
  match records with
  | [] => Some acc
  | record :: rest =>
      match tallyRecord acc record with
      | Some acc' => forEachRecord rest acc'
      | None => None
      end
  end.

Inductive Rating := Excellent | Good | Fair | Poor.

Record BehaviourScore := mkBehaviourScore {
  bs_prisonerId : Z;
  bs_startDate : Z;
  bs_endDate : Z;
  bs_months : Z;
  bs_score : Z;
  bs_rating : Rating;
  bs_totalRecords : Z;
  bs_breakdown : Breakdown * Breakdown }.

(** [incident_date BETWEEN startDate AND endDate] on a DATEONLY column: both
    ends are formatted as dates of the local calendar. *)
Definition betweenDates (zone : Z) (startDate endDate : Z) (d : CivilDate)
  : bool :=
  (localDay zone startDate <=? days_from_civil d)
  && (days_from_civil d <=? localDay zone endDate).

Definition calculateBehaviourScore (prisonerId : Z) (userPrisonId : option Z)
    (userRole : UserRole) (months : Z) (now : Clock)
  : Service BehaviourScore :=
  found <- query (fun s => findByPk Prisoner.prisoner_id (Prisoners s) prisonerId) ;;
  prisoner <- orThrow found (JsError "Prisoner not found") ;;
  throwIf (negb (checkPrisonAccess userPrisonId (Prisoner.prison_id prisoner)
                                   userRole))
          (JsError "You do not have access to this prisoner") ;;;
  let endDate := millis now in
  let startDate :=
    setMonth (zone now) (millis now) (getMonth (zone now) (millis now) - months) in
  behaviourRecords <- query (fun s =>
    filter (fun r =>
              (PrisonerBehaviourRecord.prisoner_id r =? prisonerId)
              && betweenDates (zone now) startDate endDate
                              (PrisonerBehaviourRecord.incident_date r))
           (BehaviourRecords s)) ;;
  tally <- orThrow (forEachRecord behaviourRecords
                      (mkTally 100 (mkBreakdown 0 0 0 0) (mkBreakdown 0 0 0 0)))
                   TypeError ;;
  let totalScore := Z.max 0 (Z.min 150 (totalScore tally)) in
  let rating :=
    if 120 <=? totalScore then Excellent
    else if 100 <=? totalScore then Good
    else if 80 <=? totalScore then Fair
    else Poor in
  ret (mkBehaviourScore (Prisoner.prisoner_id prisoner) startDate endDate months
                        totalScore rating
                        (Z.of_nat (List.length behaviourRecords))
                        (positive tally, negative tally)).

(** The interpretation the result carries: 'excellent: 120-150 points',
    'good: 100-119 points', 'fair: 80-99 points', 'poor: 0-79 points'. *)
Definition interpretation (r : Rating) : Z * Z :=
  match r with
  | Excellent => (120, 150)
  | Good => (100, 119)
  | Fair => (80, 99)
  | Poor => (0, 79)
  end.

(** The records the score is computed from. *)
Definition scoredRecords (prisonerId months : Z) (now : Clock) (s : Store)
  : list PrisonerBehaviourRecord.row :=
  filter (fun r =>
            (PrisonerBehaviourRecord.prisoner_id r =? prisonerId)
            && betweenDates (zone now)
                 (setMonth (zone now) (millis now)
                           (getMonth (zone now) (millis now) - months))
                 (millis now) (PrisonerBehaviourRecord.incident_date r))
         (BehaviourRecords s).

Lemma calculateBehaviourScore_Ok prisonerId ups role months now s r s' :
  calculateBehaviourScore prisonerId ups role months now s = (Ok r, s') ->
  s' = s /\
  exists tally,
    forEachRecord (scoredRecords prisonerId months now s)
                  (mkTally 100 (mkBreakdown 0 0 0 0) (mkBreakdown 0 0 0 0))
    = Some tally /\
    bs_score r = Z.max 0 (Z.min 150 (totalScore tally)) /\
    bs_rating r = (if 120 <=? bs_score r then Excellent
                   else if 100 <=? bs_score r then Good
                   else if 80 <=? bs_score r then Fair
                   else Poor) /\
    bs_totalRecords r
    = Z.of_nat (List.length (scoredRecords prisonerId months now s)) /\
    bs_breakdown r = (positive tally, negative tally).
Proof.
  unfold calculateBehaviourScore, scoredRecords. unfold_service. intros H.
  destruct (findByPk Prisoner.prisoner_id (Prisoners s) prisonerId)
    as [p|]; cbv beta iota zeta in H; [|discriminate H].
  destruct (checkPrisonAccess ups (Prisoner.prison_id p) role);
    cbn [negb] in H; cbv beta iota zeta in H; [|discriminate H].
  destruct (forEachRecord _ _) as [tally|] eqn:Et in H;
    cbv beta iota zeta in H; [|discriminate H].
  inversion H; subst. split; [reflexivity|].
  exists tally. split; [exact Et|]. cbn. auto.
Qed.

(** The tally the loop keeps: the score is the base of 100 and the points
    of the two categories, and the points are those of the counts. *)
Definition tally_adds_up (t : Tally) : Prop :=
  totalScore t = 100 + points (positive t) + points (negative t) /\
  points (positive t)
  = 5 * minor (positive t) + 10 * moderate (positive t)
    + 15 * severe (positive t) /\
  points (negative t)
  = - (5 * minor (negative t) + 10 * moderate (negative t)
       + 20 * severe (negative t)).

Definition tally_count (t : Tally) : Z :=
  minor (positive t) + moderate (positive t) + severe (positive t)
  + minor (negative t) + moderate (negative t) + severe (negative t).

Lemma tallyRecord_adds_up acc record acc' :
  tallyRecord acc record = Some acc' ->
  tally_adds_up acc ->
  tally_adds_up acc' /\ tally_count acc' = tally_count acc + 1.
Proof.
  unfold tallyRecord, tally_adds_up, tally_count.
  destruct (PrisonerBehaviourRecord.severity_level record) as [l|];
    [|discriminate].
  intros H (H1 & H2 & H3). inversion H; subst acc'; clear H.
  destruct (PrisonerBehaviourRecord.behaviour_type record), l;
    cbn [scoreWeights countIn totalScore positive negative
         minor moderate severe points]; lia.
Qed.

Lemma forEachRecord_adds_up records : forall acc t,
  forEachRecord records acc = Some t ->
  tally_adds_up acc ->
  tally_adds_up t /\
  tally_count t = tally_count acc + Z.of_nat (List.length records).
Proof.
  induction records as [|record rest IH]; intros acc t; cbn [forEachRecord].
  - intros H Ha. inversion H; subst. cbn [List.length]. split; [exact Ha|lia].
  - destruct (tallyRecord acc record) as [acc'|] eqn:E; [|discriminate].
    intros H Ha. destruct (@tallyRecord_adds_up _ _ _ E Ha) as [Ha' Hc].
    destruct (IH _ _ H Ha') as [Ht Hn]. split; [exact Ht|].
    rewrite Hn, Hc. cbn [List.length]. lia.
Qed.

(** X17: the score [calculateBehaviourScore] returns lies within the points
    its own interpretation gives for the rating returned with it (Excellent
    120-150, Good 100-119, Fair 80-99, Poor 0-79), and the call leaves the
    database as it was. *)
Theorem behaviour_rating_matches_interpretation :
  forall prisonerId ups role months now s r s',
    calculateBehaviourScore prisonerId ups role months now s = (Ok r, s') ->
    fst (interpretation (bs_rating r)) <= bs_score r
    <= snd (interpretation (bs_rating r)) /\
    s' = s.
Proof.
  intros prisonerId ups role months now s r s' H.
  apply calculateBehaviourScore_Ok in H
    as (-> & tally & _ & Hscore & Hrating & _).
  split; [|reflexivity]. rewrite Hrating.
  destruct (120 <=? bs_score r) eqn:E1;
    [apply Z.leb_le in E1; cbn [interpretation fst snd]; lia|].
  destruct (100 <=? bs_score r) eqn:E2;
    [apply Z.leb_le in E2; apply Z.leb_gt in E1;
     cbn [interpretation fst snd]; lia|].
  destruct (80 <=? bs_score r) eqn:E3;
    apply Z.leb_gt in E1, E2; [apply Z.leb_le in E3 | apply Z.leb_gt in E3];
    cbn [interpretation fst snd]; lia.
Qed.

(** X18: the breakdown [calculateBehaviourScore] returns adds up: the score
    is 100 plus the points of the two categories, kept within 0 and 150; the
    points are 5, 10 and 15 for each positive record and -5, -10 and -20 for
    each negative one, by severity; and the six counts are the number of
    records. *)
Theorem behaviour_breakdown_adds_up :
  forall prisonerId ups role months now s r s',
    calculateBehaviourScore prisonerId ups role months now s = (Ok r, s') ->
    let p := fst (bs_breakdown r) in
    let n := snd (bs_breakdown r) in
    bs_score r = Z.max 0 (Z.min 150 (100 + points p + points n)) /\
    points p = 5 * minor p + 10 * moderate p + 15 * severe p /\
    points n = - (5 * minor n + 10 * moderate n + 20 * severe n) /\
    bs_totalRecords r
    = minor p + moderate p + severe p + minor n + moderate n + severe n.
Proof.
  intros prisonerId ups role months now s r s' H.
  apply calculateBehaviourScore_Ok in H
    as (-> & tally & Ht & Hscore & _ & Htotal & Hb).
  assert (H0 : tally_adds_up
                 (mkTally 100 (mkBreakdown 0 0 0 0) (mkBreakdown 0 0 0 0)))
    by (unfold tally_adds_up; cbn; lia).
  destruct (@forEachRecord_adds_up _ _ _ Ht H0) as [(H1 & H2 & H3) Hc].
  rewrite Hb. cbn [fst snd]. rewrite Hscore, Htotal, H1.
  unfold tally_count in Hc. cbn in Hc. repeat split; try assumption. lia.
Qed.

Lemma forEachRecord_null records : forall acc,
  (exists r, In r records /\ PrisonerBehaviourRecord.severity_level r = None) ->
  forEachRecord records acc = None.
Proof.
  induction records as [|record rest IH]; intros acc [r [Hin Hnull]];
    [destruct Hin|].
  cbn [forEachRecord]. unfold tallyRecord at 1.
  destruct Hin as [->|Hin].
  - rewrite Hnull. reflexivity.
  - destruct (PrisonerBehaviourRecord.severity_level record); [|reflexivity].
    apply IH. exists r. auto.
Qed.

(** X19: one record without severity level among the records of the period
    makes [calculateBehaviourScore] fail with a TypeError, for a prisoner the
    caller has access to. *)
Theorem behaviour_score_fails_without_severity :
  forall prisonerId ups role months now s p r,
    findPrisoner s prisonerId = Some p ->
    checkPrisonAccess ups (Prisoner.prison_id p) role = true ->
    In r (scoredRecords prisonerId months now s) ->
    PrisonerBehaviourRecord.severity_level r = None ->
    calculateBehaviourScore prisonerId ups role months now s
    = (Throw TypeError, s).
Proof.
  intros prisonerId ups role months now s p r Hp Hacc Hin Hnull.
  unfold calculateBehaviourScore. unfold_service.
  fold (scoredRecords prisonerId months now s).
  rewrite Hp. cbv beta iota zeta. rewrite Hacc. cbn [negb].
  cbv beta iota zeta.
  rewrite forEachRecord_null; [reflexivity|]. exists r. auto.
Qed.

(** The adjustment scenario on 2024-09-01: prisoner 1 has one positive and
    one negative minor record in the last six months. *)
Example calculateBehaviourScore_scenario :
  option_map (fun r => (bs_score r, bs_rating r, bs_totalRecords r,
                        toDateOnly 330 (bs_startDate r)))
             (match calculateBehaviourScore 1 (Some 1) PrisonAdmin 6 aClock
                      adjustmentStore with
              | (Ok r, _) => Some r
              | _ => None
              end)
  = Some (100, Good, 2, mkDate 2024 3 1).
Proof. vm_compute. reflexivity. Qed.

(** Prisoner 1 with a severe and a minor negative record, and a third
    record that has no severity level, from a year before. *)
Definition troubledStore : Store :=
  mkStore (Prisons adjustmentStore) (Prisoners adjustmentStore) [] [] []
    [PrisonerBehaviourRecord.mk 1 1 Negative (Some Severe) (mkDate 2024 8 1)
       0 NotApplicable None None 7;
     PrisonerBehaviourRecord.mk 2 1 Negative (Some Minor) (mkDate 2024 8 2)
       0 NotApplicable None None 7;
     PrisonerBehaviourRecord.mk 3 1 Positive None (mkDate 2023 8 2)
       0 NotApplicable None None 7]
    2 3 1 1 4.

Definition troubledScore : BehaviourScore :=
  mkBehaviourScore 1
    (setMonth 330 (millis aClock) (getMonth 330 (millis aClock) - 6))
    (millis aClock) 6 75 Poor 2
    (mkBreakdown 0 0 0 0, mkBreakdown 1 0 1 (-25)).

Lemma troubledStore_score :
  calculateBehaviourScore 1 (Some 1) PrisonAdmin 6 aClock troubledStore
  = (Ok troubledScore, troubledStore).
Proof. vm_compute. reflexivity. Qed.

Lemma behaviour_rating_matches_interpretation_witness :
  fst (interpretation Poor) <= 75 <= snd (interpretation Poor)
  /\ troubledStore = troubledStore.
Proof.
  exact (@behaviour_rating_matches_interpretation 1 (Some 1) PrisonAdmin 6
           aClock troubledStore troubledScore troubledStore
           troubledStore_score).
Defined.

Lemma behaviour_breakdown_adds_up_witness :
  75 = Z.max 0 (Z.min 150 (100 + 0 + -25)) /\
  0 = 5 * 0 + 10 * 0 + 15 * 0 /\
  -25 = - (5 * 1 + 10 * 0 + 20 * 1) /\
  2 = 0 + 0 + 0 + 1 + 0 + 1.
Proof.
  exact (@behaviour_breakdown_adds_up 1 (Some 1) PrisonAdmin 6 aClock
           troubledStore troubledScore troubledStore troubledStore_score).
Defined.

(** Over eighteen months the record without severity level is among the
    records of the period. *)
Lemma behaviour_score_fails_without_severity_witness :
  calculateBehaviourScore 1 (Some 1) PrisonAdmin 18 aClock troubledStore
  = (Throw TypeError, troubledStore).
Proof.
  apply (@behaviour_score_fails_without_severity 1 (Some 1) PrisonAdmin 18
           aClock troubledStore
           (Prisoner.mk 1 "901234567V" "CASE-1" (mkDate 2024 1 10)
                        (Some (mkDate 2025 6 1)) None Active 1)
           (PrisonerBehaviourRecord.mk 3 1 Positive None (mkDate 2023 8 2)
              0 NotApplicable None None 7));
    [reflexivity | reflexivity | | reflexivity].
  vm_compute. right. right. left. reflexivity.
Defined.

(* ================================================================== *)
(** ** services/prisonerService.js: family details and body marks *)
(* ================================================================== *)

Definition set_next_family_id (n : Z) (w : System) : System :=
  mkSystem (store w) (next_visitor_id w) (Roles w) (Users w) (next_user_id w)
           (FamilyDetails w) n (BodyMarks w) (next_mark_id w).

Definition set_next_mark_id (n : Z) (w : System) : System :=
  mkSystem (store w) (next_visitor_id w) (Roles w) (Users w) (next_user_id w)
           (FamilyDetails w) (next_family_id w) (BodyMarks w) n.

(** The lines every one of these services starts with. *)
Definition accessiblePrisoner (prisonerId : Z) (userPrisonId : option Z)
    (userRole : UserRole) : Process System Prisoner.row :=
  found <~ pquery (fun w =>
    findByPk Prisoner.prisoner_id (Prisoners (store w)) prisonerId) ;;
  prisoner <~ porThrow found (JsError "Prisoner not found") ;;
  pthrowIf (negb (checkPrisonAccess userPrisonId (Prisoner.prison_id prisoner)
                                    userRole))
           (JsError "You do not have access to this prisoner") ;;~
  pret prisoner.

Record FamilyData := mkFamilyData {
  fd_family_member_name : string;
  fd_relationship : string;
  fd_emergency_contact : option bool }.

Definition addFamilyDetails (prisonerId : Z) (familyData : FamilyData)
    (userPrisonId : option Z) (userRole : UserRole)
  : Process System PrisonerFamilyDetail.row :=
  accessiblePrisoner prisonerId userPrisonId userRole ;;~
  newId <~ pquery (@next_family_id) ;;
  let familyMember :=
    PrisonerFamilyDetail.mk newId prisonerId
      (fd_family_member_name familyData) (fd_relationship familyData)
      (orElse (fd_emergency_contact familyData) false) in
  pwrite (fun w =>
    set_next_family_id (newId + 1)
      (set_FamilyDetails (insertRow familyMember) w)) ;;~
  pret familyMember.

(** The request body of an update, handed to [familyMember.update] as it
    is. *)
Record FamilyUpdate := mkFamilyUpdate {
  fu_prisoner_id : option Z;
  fu_family_member_name : option string;
  fu_relationship : option string;
  fu_emergency_contact : option bool }.

Definition applyFamilyUpdate (u : FamilyUpdate)
    (r : PrisonerFamilyDetail.row) : PrisonerFamilyDetail.row :=
  PrisonerFamilyDetail.mk
    (PrisonerFamilyDetail.family_id r)
    (orElse (fu_prisoner_id u) (PrisonerFamilyDetail.prisoner_id r))
    (orElse (fu_family_member_name u)
            (PrisonerFamilyDetail.family_member_name r))
    (orElse (fu_relationship u) (PrisonerFamilyDetail.relationship r))
    (orElse (fu_emergency_contact u)
            (PrisonerFamilyDetail.emergency_contact r)).

(** [{ family_id: familyId, prisoner_id: prisonerId }] *)
Definition familyWhere (familyId prisonerId : Z)
    (r : PrisonerFamilyDetail.row) : bool :=
  (PrisonerFamilyDetail.family_id r =? familyId)
  && (PrisonerFamilyDetail.prisoner_id r =? prisonerId).

Definition updateFamilyDetails (prisonerId familyId : Z)
    (updateData : FamilyUpdate) (userPrisonId : option Z)
    (userRole : UserRole) : Process System PrisonerFamilyDetail.row :=
  accessiblePrisoner prisonerId userPrisonId userRole ;;~
  found <~ pquery (fun w =>
    findOne (familyWhere familyId prisonerId) (FamilyDetails w)) ;;
  familyMember <~ porThrow found (JsError "Family member not found") ;;
  pwrite (set_FamilyDetails
            (updateRow PrisonerFamilyDetail.family_id
                       (PrisonerFamilyDetail.family_id familyMember)
                       (applyFamilyUpdate updateData))) ;;~
  pret (applyFamilyUpdate updateData familyMember).

Definition deleteFamilyMember (prisonerId familyId : Z)
    (userPrisonId : option Z) (userRole : UserRole) : Process System unit :=
  accessiblePrisoner prisonerId userPrisonId userRole ;;~
  found <~ pquery (fun w =>
    findOne (familyWhere familyId prisonerId) (FamilyDetails w)) ;;
  familyMember <~ porThrow found (JsError "Family member not found") ;;
  pwrite (set_FamilyDetails
            (destroyRow PrisonerFamilyDetail.family_id
                        (PrisonerFamilyDetail.family_id familyMember))).

Record MarkData := mkMarkData {
  md_mark_description : string;
  md_mark_location : string }.

Definition addBodyMark (prisonerId : Z) (markData : MarkData)
    (userPrisonId : option Z) (userRole : UserRole)
  : Process System PrisonerBodyMark.row :=
  accessiblePrisoner prisonerId userPrisonId userRole ;;~
  newId <~ pquery (@next_mark_id) ;;
  let bodyMark :=
    PrisonerBodyMark.mk newId prisonerId (md_mark_description markData)
                        (md_mark_location markData) in
  pwrite (fun w =>
    set_next_mark_id (newId + 1) (set_BodyMarks (insertRow bodyMark) w)) ;;~
  pret bodyMark.

Record MarkUpdate := mkMarkUpdate {
  mu_prisoner_id : option Z;
  mu_mark_description : option string;
  mu_mark_location : option string }.

Definition applyMarkUpdate (u : MarkUpdate) (r : PrisonerBodyMark.row)
  : PrisonerBodyMark.row :=
  PrisonerBodyMark.mk
    (PrisonerBodyMark.mark_id r)
    (orElse (mu_prisoner_id u) (PrisonerBodyMark.prisoner_id r))
    (orElse (mu_mark_description u) (PrisonerBodyMark.mark_description r))
    (orElse (mu_mark_location u) (PrisonerBodyMark.mark_location r)).

(** [{ mark_id: markId, prisoner_id: prisonerId }] *)
Definition markWhere (markId prisonerId : Z) (r : PrisonerBodyMark.row)
  : bool :=
  (PrisonerBodyMark.mark_id r =? markId)
  && (PrisonerBodyMark.prisoner_id r =? prisonerId).

Definition updateBodyMark (prisonerId markId : Z) (updateData : MarkUpdate)
    (userPrisonId : option Z) (userRole : UserRole)
  : Process System PrisonerBodyMark.row :=
  accessiblePrisoner prisonerId userPrisonId userRole ;;~
  found <~ pquery (fun w =>
    findOne (markWhere markId prisonerId) (BodyMarks w)) ;;
  bodyMark <~ porThrow found (JsError "Body mark not found") ;;
  pwrite (set_BodyMarks
            (updateRow PrisonerBodyMark.mark_id
                       (PrisonerBodyMark.mark_id bodyMark)
                       (applyMarkUpdate updateData))) ;;~
  pret (applyMarkUpdate updateData bodyMark).

Definition deleteBodyMark (prisonerId markId : Z)
    (userPrisonId : option Z) (userRole : UserRole) : Process System unit :=
  accessiblePrisoner prisonerId userPrisonId userRole ;;~
  found <~ pquery (fun w =>
    findOne (markWhere markId prisonerId) (BodyMarks w)) ;;
  bodyMark <~ porThrow found (JsError "Body mark not found") ;;
  pwrite (set_BodyMarks
            (destroyRow PrisonerBodyMark.mark_id
                        (PrisonerBodyMark.mark_id bodyMark))).

(* ================================================================== *)
(** ** Family details and body marks: what the services leave *)
(* ================================================================== *)

(** The caller passes the access check of these services for a prisoner. *)
Definition reaches (ups : option Z) (role : UserRole) (w : System)
    (prisonerId : Z) : bool :=
  match findPrisoner (store w) prisonerId with
  | Some p => checkPrisonAccess ups (Prisoner.prison_id p) role
  | None => false
  end.

Lemma accessiblePrisoner_run prisonerId ups role w :
  accessiblePrisoner prisonerId ups role w
  = (match findPrisoner (store w) prisonerId with
     | None => Throw (JsError "Prisoner not found")
     | Some p =>
         if checkPrisonAccess ups (Prisoner.prison_id p) role then Ok p
         else Throw (JsError "You do not have access to this prisoner")
     end, w).
Proof.
  unfold accessiblePrisoner. rewrite found_then.
  destruct (findPrisoner (store w) prisonerId) as [p|]; [|reflexivity].
  unfold_process.
  destruct (checkPrisonAccess ups (Prisoner.prison_id p) role); reflexivity.
Qed.

(** A service that starts with the access check either throws there, or
    the caller reaches the prisoner and the rest runs. *)
Lemma after_access (A : Type) prisonerId ups role (k : Process System A) w :
  (accessiblePrisoner prisonerId ups role ;;~ k) w
  = if reaches ups role w prisonerId then k w
    else (Throw (match findPrisoner (store w) prisonerId with
                 | None => JsError "Prisoner not found"
                 | Some _ => JsError "You do not have access to this prisoner"
                 end), w).
Proof.
  unfold pbind at 1. rewrite accessiblePrisoner_run. unfold reaches.
  destruct (findPrisoner (store w) prisonerId) as [p|]; [|reflexivity].
  destruct (checkPrisonAccess ups (Prisoner.prison_id p) role); reflexivity.
Qed.

Definition findFamily (w : System) (id : Z) : option PrisonerFamilyDetail.row :=
  findByPk PrisonerFamilyDetail.family_id (FamilyDetails w) id.

Definition findMark (w : System) (id : Z) : option PrisonerBodyMark.row :=
  findByPk PrisonerBodyMark.mark_id (BodyMarks w) id.

Definition family_keys_ok (w : System) : Prop :=
  keys_ok PrisonerFamilyDetail.family_id (next_family_id w) (FamilyDetails w).

Definition mark_keys_ok (w : System) : Prop :=
  keys_ok PrisonerBodyMark.mark_id (next_mark_id w) (BodyMarks w).

Inductive RecordCommand :=
| AddFamilyDetails (prisonerId : Z) (familyData : FamilyData)
| UpdateFamilyDetails (prisonerId familyId : Z) (updateData : FamilyUpdate)
| DeleteFamilyMember (prisonerId familyId : Z)
| AddBodyMark (prisonerId : Z) (markData : MarkData)
| UpdateBodyMark (prisonerId markId : Z) (updateData : MarkUpdate)
| DeleteBodyMark (prisonerId markId : Z).

Definition runRecord (ups : option Z) (role : UserRole) (c : RecordCommand)
    (w : System) : System :=
  match c with
  | AddFamilyDetails prisonerId familyData =>
      snd (addFamilyDetails prisonerId familyData ups role w)
  | UpdateFamilyDetails prisonerId familyId updateData =>
      snd (updateFamilyDetails prisonerId familyId updateData ups role w)
  | DeleteFamilyMember prisonerId familyId =>
      snd (deleteFamilyMember prisonerId familyId ups role w)
  | AddBodyMark prisonerId markData =>
      snd (addBodyMark prisonerId markData ups role w)
  | UpdateBodyMark prisonerId markId updateData =>
      snd (updateBodyMark prisonerId markId updateData ups role w)
  | DeleteBodyMark prisonerId markId =>
      snd (deleteBodyMark prisonerId markId ups role w)
  end.

Definition runRecords (ups : option Z) (role : UserRole)
    (cmds : list RecordCommand) (w : System) : System :=
  fold_left (fun w c => runRecord ups role c w) cmds w.

(** What a call leaves: the database it found, or one of six changes, each
    for a prisoner the caller reaches. *)
Inductive RecordChange (ups : option Z) (role : UserRole) (w : System)
  : System -> Prop :=
| Unchanged : RecordChange ups role w w
| FamilyAdded prisonerId r :
    reaches ups role w prisonerId = true ->
    PrisonerFamilyDetail.family_id r = next_family_id w ->
    RecordChange ups role w
      (set_next_family_id (next_family_id w + 1)
         (set_FamilyDetails (insertRow r) w))
| FamilyUpdated prisonerId r f :
    reaches ups role w prisonerId = true ->
    In r (FamilyDetails w) ->
    PrisonerFamilyDetail.prisoner_id r = prisonerId ->
    (forall x, PrisonerFamilyDetail.family_id (f x)
               = PrisonerFamilyDetail.family_id x) ->
    RecordChange ups role w
      (set_FamilyDetails
         (updateRow PrisonerFamilyDetail.family_id
                    (PrisonerFamilyDetail.family_id r) f) w)
| FamilyDeleted prisonerId r :
    reaches ups role w prisonerId = true ->
    In r (FamilyDetails w) ->
    PrisonerFamilyDetail.prisoner_id r = prisonerId ->
    RecordChange ups role w
      (set_FamilyDetails
         (destroyRow PrisonerFamilyDetail.family_id
                     (PrisonerFamilyDetail.family_id r)) w)
| MarkAdded prisonerId r :
    reaches ups role w prisonerId = true ->
    PrisonerBodyMark.mark_id r = next_mark_id w ->
    RecordChange ups role w
      (set_next_mark_id (next_mark_id w + 1) (set_BodyMarks (insertRow r) w))
| MarkUpdated prisonerId r f :
    reaches ups role w prisonerId = true ->
    In r (BodyMarks w) ->
    PrisonerBodyMark.prisoner_id r = prisonerId ->
    (forall x, PrisonerBodyMark.mark_id (f x) = PrisonerBodyMark.mark_id x) ->
    RecordChange ups role w
      (set_BodyMarks
         (updateRow PrisonerBodyMark.mark_id (PrisonerBodyMark.mark_id r) f) w)
| MarkDeleted prisonerId r :
    reaches ups role w prisonerId = true ->
    In r (BodyMarks w) ->
    PrisonerBodyMark.prisoner_id r = prisonerId ->
    RecordChange ups role w
      (set_BodyMarks
         (destroyRow PrisonerBodyMark.mark_id (PrisonerBodyMark.mark_id r)) w).

Lemma runRecord_change ups role c w :
  RecordChange ups role w (runRecord ups role c w).
Proof.
  destruct c; cbn [runRecord].
  - unfold addFamilyDetails. rewrite after_access.
    destruct (reaches ups role w prisonerId) eqn:Hr; [|constructor].
    unfold_process. cbn [snd].
    apply FamilyAdded with (prisonerId := prisonerId); [exact Hr|reflexivity].
  - unfold updateFamilyDetails. rewrite after_access.
    destruct (reaches ups role w prisonerId) eqn:Hr; [|constructor].
    rewrite found_then.
    destruct (findOne (familyWhere familyId prisonerId) (FamilyDetails w))
      as [r|] eqn:Hf; [|constructor].
    unfold findOne in Hf. apply find_some in Hf as [Hin Hw].
    apply andb_true_iff in Hw as [_ Hp]. apply Z.eqb_eq in Hp.
    unfold_process. cbn [snd].
    apply FamilyUpdated with (prisonerId := prisonerId); auto.
  - unfold deleteFamilyMember. rewrite after_access.
    destruct (reaches ups role w prisonerId) eqn:Hr; [|constructor].
    rewrite found_then.
    destruct (findOne (familyWhere familyId prisonerId) (FamilyDetails w))
      as [r|] eqn:Hf; [|constructor].
    unfold findOne in Hf. apply find_some in Hf as [Hin Hw].
    apply andb_true_iff in Hw as [_ Hp]. apply Z.eqb_eq in Hp.
    unfold_process. cbn [snd].
    apply FamilyDeleted with (prisonerId := prisonerId); auto.
  - unfold addBodyMark. rewrite after_access.
    destruct (reaches ups role w prisonerId) eqn:Hr; [|constructor].
    unfold_process. cbn [snd].
    apply MarkAdded with (prisonerId := prisonerId); [exact Hr|reflexivity].
  - unfold updateBodyMark. rewrite after_access.
    destruct (reaches ups role w prisonerId) eqn:Hr; [|constructor].
    rewrite found_then.
    destruct (findOne (markWhere markId prisonerId) (BodyMarks w))
      as [r|] eqn:Hf; [|constructor].
    unfold findOne in Hf. apply find_some in Hf as [Hin Hw].
    apply andb_true_iff in Hw as [_ Hp]. apply Z.eqb_eq in Hp.
    unfold_process. cbn [snd].
    apply MarkUpdated with (prisonerId := prisonerId); auto.
  - unfold deleteBodyMark. rewrite after_access.
    destruct (reaches ups role w prisonerId) eqn:Hr; [|constructor].
    rewrite found_then.
    destruct (findOne (markWhere markId prisonerId) (BodyMarks w))
      as [r|] eqn:Hf; [|constructor].
    unfold findOne in Hf. apply find_some in Hf as [Hin Hw].
    apply andb_true_iff in Hw as [_ Hp]. apply Z.eqb_eq in Hp.
    unfold_process. cbn [snd].
    apply MarkDeleted with (prisonerId := prisonerId); auto.
Qed.

(** The three facts of a change the theorem below needs. *)
Lemma RecordChange_keeps ups role w w' :
  RecordChange ups role w w' ->
  family_keys_ok w -> mark_keys_ok w ->
  store w' = store w /\ family_keys_ok w' /\ mark_keys_ok w' /\
  (forall id r, findFamily w id = Some r ->
     reaches ups role w (PrisonerFamilyDetail.prisoner_id r) = false ->
     findFamily w' id = Some r) /\
  (forall id r, findMark w id = Some r ->
     reaches ups role w (PrisonerBodyMark.prisoner_id r) = false ->
     findMark w' id = Some r).
Proof.
  unfold family_keys_ok, mark_keys_ok, findFamily, findMark.
  intros Hc Hfk Hmk. destruct Hc as
    [ | prisonerId r Hr Hid | prisonerId r f Hr Hin Hp Hf
      | prisonerId r Hr Hin Hp | prisonerId r Hr Hid
      | prisonerId r f Hr Hin Hp Hf | prisonerId r Hr Hin Hp ];
    cbn [store FamilyDetails BodyMarks next_family_id next_mark_id
         set_FamilyDetails set_BodyMarks set_next_family_id set_next_mark_id].
  - auto.
  - refine (conj eq_refl (conj _ (conj _ (conj _ _)))); auto.
    + apply keys_ok_insertRow; assumption.
    + intros id x Hx _. rewrite findByPk_insertRow, Hx. reflexivity.
  - refine (conj eq_refl (conj _ (conj _ (conj _ _)))); auto.
    + apply keys_ok_updateRow; assumption.
    + intros id x Hx Hno.
      destruct (Z.eq_dec id (PrisonerFamilyDetail.family_id r)) as [->|Hne].
      * exfalso. destruct Hfk as [Hnd _].
        rewrite (findByPk_In_NoDup PrisonerFamilyDetail.family_id _ r Hnd Hin)
          in Hx.
        inversion Hx; subst x. rewrite Hp, Hr in Hno. discriminate.
      * rewrite findByPk_updateRow_other; assumption.
  - refine (conj eq_refl (conj _ (conj _ (conj _ _)))); auto.
    + apply keys_ok_destroyRow; assumption.
    + intros id x Hx Hno.
      destruct (Z.eq_dec id (PrisonerFamilyDetail.family_id r)) as [->|Hne].
      * exfalso. destruct Hfk as [Hnd _].
        rewrite (findByPk_In_NoDup PrisonerFamilyDetail.family_id _ r Hnd Hin)
          in Hx.
        inversion Hx; subst x. rewrite Hp, Hr in Hno. discriminate.
      * rewrite findByPk_destroyRow_other; assumption.
  - refine (conj eq_refl (conj _ (conj _ (conj _ _)))); auto.
    + apply keys_ok_insertRow; assumption.
    + intros id x Hx _. rewrite findByPk_insertRow, Hx. reflexivity.
  - refine (conj eq_refl (conj _ (conj _ (conj _ _)))); auto.
    + apply keys_ok_updateRow; assumption.
    + intros id x Hx Hno.
      destruct (Z.eq_dec id (PrisonerBodyMark.mark_id r)) as [->|Hne].
      * exfalso. destruct Hmk as [Hnd _].
        rewrite (findByPk_In_NoDup PrisonerBodyMark.mark_id _ r Hnd Hin) in Hx.
        inversion Hx; subst x. rewrite Hp, Hr in Hno. discriminate.
      * rewrite findByPk_updateRow_other; assumption.
  - refine (conj eq_refl (conj _ (conj _ (conj _ _)))); auto.
    + apply keys_ok_destroyRow; assumption.
    + intros id x Hx Hno.
      destruct (Z.eq_dec id (PrisonerBodyMark.mark_id r)) as [->|Hne].
      * exfalso. destruct Hmk as [Hnd _].
        rewrite (findByPk_In_NoDup PrisonerBodyMark.mark_id _ r Hnd Hin) in Hx.
        inversion Hx; subst x. rewrite Hp, Hr in Hno. discriminate.
      * rewrite findByPk_destroyRow_other; assumption.
Qed.

Lemma reaches_store ups role w w' prisonerId :
  store w' = store w ->
  reaches ups role w' prisonerId = reaches ups role w prisonerId.
Proof. intros H. unfold reaches. rewrite H. reflexivity. Qed.

(** X20: a family detail or body mark that, before a caller's calls to the
    services for family details and body marks, belongs to a prisoner the
    caller has no access to is still there after every one of the calls,
    with every field as it was.  (Records may join it: the services take
    [prisoner_id] from the body of an update as it stands, so a caller can
    hand a record of a prisoner of their own to any other prisoner; see
    [recordRun_steps].) *)
Theorem records_of_unreachable_prisoners_stay :
  forall (cmds : list RecordCommand) ups role w,
    family_keys_ok w -> mark_keys_ok w ->
    forall n,
      let w' := runRecords ups role (firstn n cmds) w in
      (forall id r, findFamily w id = Some r ->
         reaches ups role w (PrisonerFamilyDetail.prisoner_id r) = false ->
         findFamily w' id = Some r) /\
      (forall id r, findMark w id = Some r ->
         reaches ups role w (PrisonerBodyMark.prisoner_id r) = false ->
         findMark w' id = Some r).
Proof.
  intros cmds ups role w Hfk Hmk n. cbv zeta. revert w Hfk Hmk.
  induction (firstn n cmds) as [|c l IH]; intros w Hfk Hmk; [auto|].
  unfold runRecords. cbn [fold_left].
  fold (runRecords ups role l (runRecord ups role c w)).
  destruct (RecordChange_keeps (runRecord_change ups role c w) Hfk Hmk)
    as (Hs & Hfk' & Hmk' & Hf & Hm).
  destruct (IH _ Hfk' Hmk') as [IHf IHm].
  split; intros id r Hr Hno.
  - apply IHf; [apply Hf; assumption|].
    rewrite (@reaches_store ups role _ _ _ Hs). exact Hno.
  - apply IHm; [apply Hm; assumption|].
    rewrite (@reaches_store ups role _ _ _ Hs). exact Hno.
Qed.

Lemma destroyRow_insertRow (R : Type) (pk : R -> Z) next (r : R) (t : list R) :
  keys_ok pk next t -> pk r = next ->
  destroyRow pk (pk r) (insertRow r t) = t.
Proof.
  intros [_ Hlt] Hr. unfold destroyRow, insertRow.
  rewrite filter_app. cbn [filter]. rewrite Z.eqb_refl. cbn [negb].
  rewrite app_nil_r. rewrite Forall_forall in Hlt.
  induction t as [|x t IH]; [reflexivity|]. cbn [filter].
  assert (Hx : (pk x =? pk r) = false).
  { apply Z.eqb_neq. specialize (Hlt x (or_introl eq_refl)). lia. }
  rewrite Hx. cbn [negb]. f_equal. apply IH.
  intros y Hy. apply Hlt. right. exact Hy.
Qed.

Lemma find_insertRow_fresh (R : Type) (p : R -> bool) (r : R) (t : list R) :
  (forall x, In x t -> p x = false) -> p r = true ->
  find p (insertRow r t) = Some r.
Proof. intros Ht Hr. unfold insertRow. apply find_app_last; assumption. Qed.

Lemma addFamilyDetails_run prisonerId familyData ups role w :
  addFamilyDetails prisonerId familyData ups role w
  = if reaches ups role w prisonerId
    then
      let r := PrisonerFamilyDetail.mk (next_family_id w) prisonerId
                 (fd_family_member_name familyData)
                 (fd_relationship familyData)
                 (orElse (fd_emergency_contact familyData) false) in
      (Ok r, set_next_family_id (next_family_id w + 1)
               (set_FamilyDetails (insertRow r) w))
    else (Throw (match findPrisoner (store w) prisonerId with
                 | None => JsError "Prisoner not found"
                 | Some _ => JsError "You do not have access to this prisoner"
                 end), w).
Proof.
  unfold addFamilyDetails. rewrite after_access.
  destruct (reaches ups role w prisonerId); reflexivity.
Qed.

Lemma deleteFamilyMember_run prisonerId familyId ups role w :
  deleteFamilyMember prisonerId familyId ups role w
  = if reaches ups role w prisonerId
    then
      match findOne (familyWhere familyId prisonerId) (FamilyDetails w) with
      | Some m =>
          (Ok tt,
           set_FamilyDetails
             (destroyRow PrisonerFamilyDetail.family_id
                         (PrisonerFamilyDetail.family_id m)) w)
      | None => (Throw (JsError "Family member not found"), w)
      end
    else (Throw (match findPrisoner (store w) prisonerId with
                 | None => JsError "Prisoner not found"
                 | Some _ => JsError "You do not have access to this prisoner"
                 end), w).
Proof.
  unfold deleteFamilyMember. rewrite after_access.
  destruct (reaches ups role w prisonerId); [|reflexivity].
  rewrite found_then.
  destruct (findOne (familyWhere familyId prisonerId) (FamilyDetails w));
    reflexivity.
Qed.

(** X21: a family member [addFamilyDetails] has added can be deleted again
    by the same caller with the id returned, and the family details are then
    what they were before the two calls. *)
Theorem added_family_member_can_be_deleted :
  forall w prisonerId familyData ups role r w1,
    family_keys_ok w ->
    addFamilyDetails prisonerId familyData ups role w = (Ok r, w1) ->
    exists w2,
      deleteFamilyMember prisonerId (PrisonerFamilyDetail.family_id r)
                         ups role w1 = (Ok tt, w2) /\
      FamilyDetails w2 = FamilyDetails w /\
      BodyMarks w2 = BodyMarks w /\ store w2 = store w.
Proof.
  intros w prisonerId familyData ups role r w1 Hk Hadd.
  rewrite addFamilyDetails_run in Hadd.
  destruct (reaches ups role w prisonerId) eqn:Hr; [|discriminate Hadd].
  cbv zeta in Hadd. inversion Hadd; subst r w1. clear Hadd.
  set (r := PrisonerFamilyDetail.mk (next_family_id w) prisonerId
              (fd_family_member_name familyData)
              (fd_relationship familyData)
              (orElse (fd_emergency_contact familyData) false)).
  rewrite deleteFamilyMember_run.
  match goal with
  | |- context [reaches ups role ?x prisonerId] =>
      change (reaches ups role x prisonerId)
        with (reaches ups role w prisonerId)
  end.
  rewrite Hr.
  assert (Hfind : findOne (familyWhere (PrisonerFamilyDetail.family_id r)
                                       prisonerId)
                          (insertRow r (FamilyDetails w)) = Some r).
  { unfold findOne. apply find_insertRow_fresh.
    - intros x Hx. unfold familyWhere.
      destruct Hk as [_ Hlt]. rewrite Forall_forall in Hlt.
      specialize (Hlt x Hx).
      assert (Hne : (PrisonerFamilyDetail.family_id x
                     =? PrisonerFamilyDetail.family_id r) = false)
        by (apply Z.eqb_neq; cbn; lia).
      rewrite Hne. reflexivity.
    - unfold familyWhere. cbn. rewrite !Z.eqb_refl. reflexivity. }
  cbn [FamilyDetails set_FamilyDetails set_next_family_id].
  rewrite Hfind. eexists. split; [reflexivity|].
  cbn [FamilyDetails BodyMarks store set_FamilyDetails set_next_family_id].
  split; [|auto].
  apply destroyRow_insertRow with (next := next_family_id w);
    [exact Hk | reflexivity].
Qed.

(** Two prisons with one prisoner each; each prisoner has a family member
    on record, the prisoner of prison 2 a body mark. *)
Definition wards : Store :=
  mkStore
    [Prison.mk 1 "Welikada" 5 true; Prison.mk 2 "Bogambara" 5 true]
    [Prisoner.mk 1 "901234567V" "CASE-1" (mkDate 2024 1 10) None None Active 1;
     Prisoner.mk 2 "911234567V" "CASE-2" (mkDate 2023 3 5) None None Active 2]
    [] [] [] []
    3 3 1 1 1.

Definition sisterOfOne : PrisonerFamilyDetail.row :=
  PrisonerFamilyDetail.mk 1 1 "Kumari Perera" "Sister" true.
Definition motherOfTwo : PrisonerFamilyDetail.row :=
  PrisonerFamilyDetail.mk 2 2 "Soma Silva" "Mother" false.
Definition scarOfTwo : PrisonerBodyMark.row :=
  PrisonerBodyMark.mk 1 2 "Scar" "Left forearm".

Definition registry : System :=
  mkSystem wards 1 [] [] 1 [sisterOfOne; motherOfTwo] 3 [scarOfTwo] 2.

Lemma registry_family_keys_ok : family_keys_ok registry.
Proof.
  split.
  - cbn. repeat constructor; cbn; intuition lia.
  - cbn. repeat constructor; cbn; lia.
Qed.

Lemma registry_mark_keys_ok : mark_keys_ok registry.
Proof.
  split.
  - cbn. repeat constructor; cbn; intuition lia.
  - cbn. repeat constructor; cbn; lia.
Qed.

(** An officer of prison 1 at work on both prisoners. *)
Definition recordRun : list RecordCommand :=
  [UpdateFamilyDetails 2 2 (mkFamilyUpdate None (Some "X") None None);
   DeleteFamilyMember 1 2;
   DeleteBodyMark 2 1;
   UpdateBodyMark 1 1 (mkMarkUpdate None (Some "Tattoo") None);
   AddFamilyDetails 1 (mkFamilyData "Nimal Perera" "Brother" None);
   UpdateFamilyDetails 1 3 (mkFamilyUpdate (Some 2) None None None);
   DeleteFamilyMember 1 3].

Lemma records_of_unreachable_prisoners_stay_witness :
  (forall id r, findFamily registry id = Some r ->
     reaches (Some 1) Officer registry (PrisonerFamilyDetail.prisoner_id r)
     = false ->
     findFamily (runRecords (Some 1) Officer (firstn 7 recordRun) registry) id
     = Some r) /\
  (forall id r, findMark registry id = Some r ->
     reaches (Some 1) Officer registry (PrisonerBodyMark.prisoner_id r)
     = false ->
     findMark (runRecords (Some 1) Officer (firstn 7 recordRun) registry) id
     = Some r).
Proof.
  exact (@records_of_unreachable_prisoners_stay recordRun (Some 1) Officer
           registry registry_family_keys_ok registry_mark_keys_ok 7).
Defined.

(** The officer of prison 1 is refused on the records of prisoner 2; the
    family member added to prisoner 1 is then handed to prisoner 2 by an
    update of [prisoner_id], and is out of the officer's reach from there
    on. *)
Example recordRun_steps :
  fst (updateFamilyDetails 2 2 (mkFamilyUpdate None (Some "X") None None)
                           (Some 1) Officer registry)
  = Throw (JsError "You do not have access to this prisoner") /\
  fst (deleteFamilyMember 1 2 (Some 1) Officer registry)
  = Throw (JsError "Family member not found") /\
  FamilyDetails (runRecords (Some 1) Officer (firstn 6 recordRun) registry)
  = [sisterOfOne; motherOfTwo;
     PrisonerFamilyDetail.mk 3 2 "Nimal Perera" "Brother" false] /\
  fst (deleteFamilyMember 1 3 (Some 1) Officer
         (runRecords (Some 1) Officer (firstn 6 recordRun) registry))
  = Throw (JsError "Family member not found") /\
  BodyMarks (runRecords (Some 1) Officer recordRun registry) = [scarOfTwo].
Proof.
  split; [vm_compute; reflexivity|].
  split; [vm_compute; reflexivity|].
  split; [vm_compute; reflexivity|].
  split; vm_compute; reflexivity.
Qed.

Lemma added_family_member_can_be_deleted_witness :
  exists w2,
    deleteFamilyMember 1 3 (Some 1) Officer
      (snd (addFamilyDetails 1 (mkFamilyData "Nimal Perera" "Brother" None)
                             (Some 1) Officer registry))
    = (Ok tt, w2) /\
    FamilyDetails w2 = FamilyDetails registry /\
    BodyMarks w2 = BodyMarks registry /\ store w2 = store registry.
Proof.
  exact (@added_family_member_can_be_deleted registry 1
           (mkFamilyData "Nimal Perera" "Brother" None) (Some 1) Officer
           (PrisonerFamilyDetail.mk 3 1 "Nimal Perera" "Brother" false)
           (snd (addFamilyDetails 1 (mkFamilyData "Nimal Perera" "Brother" None)
                                  (Some 1) Officer registry))
           registry_family_keys_ok eq_refl).
Defined.

(* ================================================================== *)
(** ** services/prisonService.js: deletePrison *)
(* ================================================================== *)

(** [prison.update({ is_active: false })] *)
Definition closed (prison : Prison.row) : Prison.row :=
  Prison.mk (Prison.prison_id prison) (Prison.prison_name prison)
            (Prison.capacity prison) false.

(** A value in a [where] condition. *)
Inductive Value :=
| Number (n : Z)
| Text (text : string).

Definition Value_eqb (a b : Value) : bool :=
  match a, b with
  | Number n, Number m => n =? m
  | Text x, Text y => String.eqb x y
  | _, _ => false
  end.

(** models/Prisoner.js: the attributes of the model, which are the columns
    of the table [prisoners]; the last two are those [timestamps: true]
    adds. *)
Definition prisonerColumns : list string :=
  ["prisoner_id"; "full_name"; "nic"; "case_number"; "gender"; "birthday";
   "nationality"; "admission_date"; "expected_release_date";
   "actual_release_date"; "status"; "prison_id"; "cell_number";
   "social_status"; "createdAt"; "updatedAt"].

Definition hasColumn (column : string) : bool :=
  existsb (String.eqb column) prisonerColumns.

(** The ENUM of [status], as the text the column holds. *)
Definition statusText (status : PrisonerStatus) : string :=
  match status with
  | Active => "Active"
  | Released => "Released"
  | Transferred => "Transferred"
  | Deceased => "Deceased"
  end.

(** The value of a column in a row, for the columns that are numbers or
    text in the rows kept here. *)
Definition prisonerValue (column : string) (p : Prisoner.row) : option Value :=
  if String.eqb column "prisoner_id" then Some (Number (Prisoner.prisoner_id p))
  else if String.eqb column "nic" then Some (Text (Prisoner.nic p))
  else if String.eqb column "case_number" then Some (Text (Prisoner.case_number p))
  else if String.eqb column "status" then Some (Text (statusText (Prisoner.status p)))
  else if String.eqb column "prison_id" then Some (Number (Prisoner.prison_id p))
  else None.

(** [column = value] on a row. *)
Definition holds (p : Prisoner.row) (condition : string * Value) : bool :=
  match prisonerValue (fst condition) p with
  | Some value => Value_eqb value (snd condition)
  | None => false
  end.

(** [db.Prisoner.count({ where })].  A key of [where] goes into the
    statement as a column name as it stands, whether the model has an
    attribute of that name or not, and the database rejects a statement
    that names a column the table does not have; [unknownColumn] is the
    error it raises for the column. *)
Definition countPrisoners (unknownColumn : string -> Error)
    (where_ : list (string * Value)) : Process System Z :=
  match find (fun condition => negb (hasColumn (fst condition))) where_ with
  | Some condition => pthrow (unknownColumn (fst condition))
  | None =>
      pquery (fun w =>
        count (fun p => forallb (holds p) where_) (Prisoners (store w)))
  end.

Definition deletePrison (unknownColumn : string -> Error) (prisonId : Z)
    (userRole : UserRole) : Process System unit :=
  pthrowIf (negb (UserRole_eqb userRole SuperAdmin))
           (JsError "Only Super Admin can delete prisons") ;;~
  found <~ pquery (fun w => findByPk Prison.prison_id (Prisons (store w)) prisonId) ;;
  prison <~ porThrow found (JsError "Prison not found") ;;
  activePrisoners <~ countPrisoners unknownColumn
                       [("prison_id", Number prisonId);
                        ("prisoner_status", Text "Active")] ;;
  pthrowIf (0 <? activePrisoners)
           (JsError ("Cannot delete prison with " ++ decimal activePrisoners
                     ++ " active prisoners")) ;;~
  activeUsers <~ pquery (fun w =>
    count (fun u => samePrison (User.prison_id u) (Some prisonId)
                    && User.is_active u)
          (Users w)) ;;
  pthrowIf (0 <? activeUsers)
           (JsError ("Cannot delete prison with " ++ decimal activeUsers
                     ++ " active staff members")) ;;~
  pwrite (set_store
            (set_Prisons (updateRow Prison.prison_id (Prison.prison_id prison)
                                    closed))).

(** The condition of the count names a column the table does not have. *)
Lemma countPrisoners_prisoner_status unknownColumn prisonId w :
  countPrisoners unknownColumn
    [("prison_id", Number prisonId); ("prisoner_status", Text "Active")] w
  = (Throw (unknownColumn "prisoner_status"), w).
Proof. reflexivity. Qed.

(** With the column the model does have, the same count is the number of
    the active prisoners of the prison. *)
Lemma countPrisoners_status unknownColumn prisonId w :
  countPrisoners unknownColumn
    [("prison_id", Number prisonId); ("status", Text "Active")] w
  = (Ok (activeCount (store w) prisonId), w).
Proof.
  unfold countPrisoners. cbn [find fst].
  change (hasColumn "prison_id") with true.
  change (hasColumn "status") with true. cbn [negb].
  unfold pquery, activeCount, count. do 4 f_equal.
  apply filter_ext. intros p. cbn [forallb]. unfold holds. cbn [fst snd].
  change (prisonerValue "prison_id" p) with (Some (Number (Prisoner.prison_id p))).
  change (prisonerValue "status" p)
    with (Some (Text (statusText (Prisoner.status p)))).
  cbn [Value_eqb]. rewrite andb_true_r. f_equal.
  unfold Prisoner.isActive. destruct (Prisoner.status p); reflexivity.
Qed.

(** X22: [deletePrison] never deactivates a prison: whoever calls it, for
    whatever prison, it throws and leaves the database as it was.  A caller
    who is not Super Admin and an unknown prison are refused by the checks
    of the service; for a Super Admin and a prison that exists the count of
    the active prisoners names the column [prisoner_status], which is not
    among the columns of the table [prisoners], and the error of the
    database for that column is what the service throws. *)
Theorem deletePrison_never_succeeds :
  forall unknownColumn prisonId userRole w,
    deletePrison unknownColumn prisonId userRole w
    = (Throw (if negb (UserRole_eqb userRole SuperAdmin)
              then JsError "Only Super Admin can delete prisons"
              else match findByPk Prison.prison_id (Prisons (store w)) prisonId with
                   | None => JsError "Prison not found"
                   | Some _ => unknownColumn "prisoner_status"
                   end), w).
Proof.
  intros unknownColumn prisonId userRole w. unfold deletePrison.
  unfold pbind at 1 2 3. unfold pthrowIf at 1. unfold pquery, porThrow, pret, pthrow.
  destruct (negb (UserRole_eqb userRole SuperAdmin)); [reflexivity|].
  destruct (findByPk Prison.prison_id (Prisons (store w)) prisonId);
    [|reflexivity].
  unfold pbind at 1. rewrite countPrisoners_prisoner_status. reflexivity.
Qed.

(* ================================================================== *)
(** ** middleware/permissionMiddleware.js *)
(* ================================================================== *)

(** What a middleware does with a request: hand it on, or answer it. *)
Inductive Response :=
| Next
| Json (status : Z) (message : string).

(** [req.user], as far as this middleware reads it. *)
Record ReqUser := mkReqUser { permissions : option (list string) }.

(** [list.includes(permission)] *)
Definition includes (list : list string) (permission : string) : bool :=
  existsb (String.eqb permission) list.

(** [requiredPermissions] is taken as the array the middleware makes of it;
    a single permission is the array of that one. *)
Definition checkPermission (requiredPermissions : list string)
    (requireAll : bool) (user : option ReqUser) : Response :=
  match user with
  | None => Json 401 "Authentication required."
  | Some u =>
      match permissions u with
      | None | Some [] => Json 403 "Access denied. No permissions assigned."
      | Some userPermissions =>
          if requireAll
          then
            if forallb (includes userPermissions) requiredPermissions
            then Next
            else Json 403 "Access denied. You do not have the required permissions."
          else
            if existsb (includes userPermissions) requiredPermissions
            then Next
            else Json 403 "Access denied. You do not have the required permissions."
      end
  end.

Definition hasAnyPermission (permissions : list string) :=
  checkPermission permissions false.

Definition hasAllPermissions (permissions : list string) :=
  checkPermission permissions true.

Lemma includes_incl have have' p :
  incl have have' -> includes have p = true -> includes have' p = true.
Proof.
  unfold includes. intros Hincl H. apply existsb_exists in H as [x [Hin Hx]].
  apply existsb_exists. exists x. split; [apply Hincl; exact Hin | exact Hx].
Qed.

(** X23: a permission more never costs access: a user whom [checkPermission]
    lets through is let through with every list of permissions that
    includes the user's. *)
Theorem more_permissions_never_refuse :
  forall required requireAll have have',
    checkPermission required requireAll (Some (mkReqUser (Some have))) = Next ->
    incl have have' ->
    checkPermission required requireAll (Some (mkReqUser (Some have'))) = Next.
Proof.
  intros required requireAll have have' H Hincl.
  unfold checkPermission in *. cbn [permissions] in *.
  destruct have as [|h have]; [discriminate H|].
  destruct have' as [|h' have'];
    [exfalso; apply (Hincl h); left; reflexivity|].
  destruct requireAll.
  - destruct (forallb (includes (h :: have)) required) eqn:E;
      [|discriminate H].
    assert (E' : forallb (includes (h' :: have')) required = true).
    { rewrite forallb_forall in *. intros p Hp.
      apply (includes_incl _ Hincl). apply E. exact Hp. }
    rewrite E'. reflexivity.
  - destruct (existsb (includes (h :: have)) required) eqn:E;
      [|discriminate H].
    assert (E' : existsb (includes (h' :: have')) required = true).
    { apply existsb_exists in E as [p [Hp Hi]]. apply existsb_exists.
      exists p. split; [exact Hp | apply (includes_incl _ Hincl); exact Hi]. }
    rewrite E'. reflexivity.
Qed.

Lemma more_permissions_never_refuse_witness :
  checkPermission ["view_prisoners"; "manage_visits"] false
    (Some (mkReqUser (Some ["manage_users"; "manage_visits"; "view_reports"])))
  = Next.
Proof.
  apply (@more_permissions_never_refuse ["view_prisoners"; "manage_visits"]
           false ["manage_visits"]
           ["manage_users"; "manage_visits"; "view_reports"]);
    [reflexivity|].
  intros p [<-|[]]. right. left. reflexivity.
Defined.

(** X24: a route that requires no permission at all: [hasAnyPermission []]
    refuses everybody, [hasAllPermissions []] lets through exactly the users
    who have some permission; and for a list that is not empty, whoever
    passes [hasAllPermissions] passes [hasAnyPermission]. *)
Theorem requiring_no_permission :
  forall user,
    hasAnyPermission [] user <> Next /\
    (hasAllPermissions [] user = Next
     <-> exists p have, user = Some (mkReqUser (Some (p :: have)))) /\
    (forall p required,
       hasAllPermissions (p :: required) user = Next ->
       hasAnyPermission (p :: required) user = Next).
Proof.
  intros user. unfold hasAnyPermission, hasAllPermissions, checkPermission.
  destruct user as [[[[|h have]|]]|]; cbn [permissions].
  - split; [discriminate|]. split.
    + split; [discriminate|]. intros (p & l & H). discriminate H.
    + discriminate.
  - split; [cbn; discriminate|]. split.
    + split; [|reflexivity]. intros _. exists h, have. reflexivity.
    + intros p required. cbn [forallb existsb].
      destruct (includes (h :: have) p); cbn [andb orb]; [reflexivity|].
      discriminate.
  - split; [discriminate|]. split.
    + split; [discriminate|]. intros (p & l & H). discriminate H.
    + discriminate.
  - split; [discriminate|]. split.
    + split; [discriminate|]. intros (p & l & H). discriminate H.
    + discriminate.
Qed.
